(** * qinter: the explanation engine

    A shallow embedding of the four modules under [qinter/explanations]
    (context analyzer, pattern matcher, template renderer, engine facade)
    and of the dataclasses of [qinter/packages/loader.py] they consume,
    of the exception hook of [qinter/core] and of the parsing and the
    checking of a pack in [qinter/packages], followed by the properties the
    specification states about them and by further properties of the code.

    Conventions of the embedding.
    - A Python [str] is a [string], one [ascii] per character (code points
      below 256); comparisons are by code point, as in Python.
    - A Python [float] is a binary64 [float] of the kernel; [int] is [Z].
    - A [dict] with string keys is a [gmap string _].
    - A call that can raise returns a [result]; exceptions are named by
      their Python class.
    - What CPython's own libraries compute ([re] on patterns that come from
      packs, [difflib], [float] parsing and printing) is taken from a
      [PyRuntime]; the regular expressions written in the source itself are
      transcribed into [regex] values and run by the matcher below. *)

From Stdlib Require Import ZArith Ascii String List Lia.
From Stdlib Require Import Floats.PrimFloat Floats.FloatOps Floats.SpecFloat.
From stdpp Require Import gmap strings list sorting.

Local Open Scope Z_scope.

(* ===================================================================== *)
(** * Python values, exceptions and the error monad                      *)
(* ===================================================================== *)

Module Py.

(** The values a FactSet holds. *)
Inductive value :=
| VNone
| VBool (b : bool)
| VInt (z : Z)
| VFloat (f : float)
| VStr (s : string)
| VList (l : list string).

(** Exception classes that occur in the modelled code. *)
Inductive exn :=
| KeyError
| TypeError
| ValueError
| OverflowError
| AttributeError
| UnboundLocalError
| OSError
| OtherError (name : string).

Inductive result (A : Type) :=
| Ok (a : A)
| Raise (e : exn).
Arguments Ok {A} a.
Arguments Raise {A} e.

Definition bind {A B} (r : result A) (k : A -> result B) : result B :=
  match r with
  | Ok a => k a
  | Raise e => Raise e
  end.

(** [try: r except Exception: handler] *)
Definition try_except {A} (r : result A) (handler : exn -> result A) : result A :=
  match r with
  | Ok a => Ok a
  | Raise e => handler e
  end.

(** Python truthiness ([bool(v)], [if v], [not v]). *)
Definition truthy (v : value) : bool :=
  match v with
  | VNone => false
  | VBool b => b
  | VInt z => negb (z =? 0)
  | VFloat f => negb (PrimFloat.eqb f 0)
  | VStr s => negb (String.eqb s "")
  | VList l => match l with [] => false | _ => true end
  end.

(* --------------------------------------------------------------------- *)
(** ** Strings *)

(** [c.isspace()] for code points below 256. *)
Definition isspace (c : ascii) : bool :=
  let n := N_of_ascii c in
  (((9 <=? n) && (n <=? 13)) || ((28 <=? n) && (n <=? 32))
   || (n =? 133) || (n =? 160))%N.

Fixpoint lstrip (s : string) : string :=
  match s with
  | String c s' => if isspace c then lstrip s' else s
  | EmptyString => EmptyString
  end.

Definition rstrip (s : string) : string := String.rev (lstrip (String.rev s)).

(** [s.strip()] *)
Definition strip (s : string) : string := lstrip (rstrip s).

(** The rest of [s] after the prefix [p], when [s.startswith(p)]. *)
Fixpoint strip_prefix (p s : string) : option string :=
  match p, s with
  | EmptyString, _ => Some s
  | String a p', String b s' => if Ascii.eqb a b then strip_prefix p' s' else None
  | String _ _, EmptyString => None
  end.

Definition startswith (s p : string) : bool :=
  match strip_prefix p s with Some _ => true | None => false end.

Definition endswith (s p : string) : bool :=
  startswith (String.rev s) (String.rev p).

(** [s.split(sep, 1)] when [sep in s]: the text before the first occurrence
    of [sep] and the text after it. *)
Fixpoint split_once (sep s : string) : option (string * string) :=
  match strip_prefix sep s with
  | Some rest => Some (EmptyString, rest)
  | None =>
      match s with
      | EmptyString => None
      | String c s' =>
          match split_once sep s' with
          | Some (a, b) => Some (String c a, b)
          | None => None
          end
      end
  end.

(** [sub in s] *)
Definition contains (sub s : string) : bool :=
  match split_once sub s with Some _ => true | None => false end.

(** [c.lower()] for code points below 256: A-Z and the Latin-1 capitals. *)
Definition lower_char (c : ascii) : ascii :=
  let n := N_of_ascii c in
  if (((65 <=? n) && (n <=? 90))
      || ((192 <=? n) && (n <=? 222) && negb (n =? 215)))%N
  then ascii_of_N (n + 32) else c.

Fixpoint lower (s : string) : string :=
  match s with
  | EmptyString => EmptyString
  | String c s' => String (lower_char c) (lower s')
  end.

(** Decimal digits of a non-negative number, most significant first. *)
Definition digit_char (d : Z) : ascii := ascii_of_N (Z.to_N (48 + d)).

Fixpoint digits_fuel (fuel : nat) (n : Z) (acc : string) : string :=
  match fuel with
  | O => acc
  | S fuel' =>
      let acc' := String (digit_char (n mod 10)) acc in
      if n <? 10 then acc' else digits_fuel fuel' (n / 10) acc'
  end.

(** The decimal text of an [int]. A number below [2^k] has at most [k]
    digits. *)
Definition str_of_int (n : Z) : string :=
  let a := Z.abs n in
  let ds := digits_fuel (S (Z.to_nat (Z.log2_up (a + 1)))) a EmptyString in
  if n <? 0 then String "-" ds else ds.

(** [sys.get_int_max_str_digits()], as the interpreter starts with it. *)
Definition int_max_str_digits : nat := 4300.

(** [str(n)] for an [int]: ValueError when the number has more decimal
    digits than the limit; the sign does not count. *)
Definition str_int (n : Z) : result string :=
  if Nat.ltb int_max_str_digits (String.length (str_of_int (Z.abs n)))
  then Raise ValueError
  else Ok (str_of_int n).

Definition is_digit (c : ascii) : bool :=
  let n := N_of_ascii c in ((48 <=? n) && (n <=? 57))%N.

Definition digit_value (c : ascii) : Z := Z.of_N (N_of_ascii c) - 48.

(** [int(s)] in base 10 (None is ValueError): surrounding whitespace
    stripped, an optional sign, then digits, where single underscores may
    separate digits; a text with more digits than the limit is refused,
    leading zeros counted. *)
Fixpoint int_digits (s : string) (acc : Z) (prev_digit : bool) : option Z :=
  match s with
  | EmptyString => if prev_digit then Some acc else None
  | String c s' =>
      if is_digit c then int_digits s' (10 * acc + digit_value c) true
      else if Ascii.eqb c "_" && prev_digit then
        match s' with
        | String d _ => if is_digit d then int_digits s' acc false else None
        | EmptyString => None
        end
      else None
  end.

Fixpoint count_digits (s : string) : nat :=
  match s with
  | EmptyString => O
  | String c s' => if is_digit c then S (count_digits s') else count_digits s'
  end.

Definition int_of_str (s : string) : option Z :=
  if Nat.ltb int_max_str_digits (count_digits s) then None
  else
    match strip s with
    | String "-" s' => option_map Z.opp (int_digits s' 0 false)
    | String "+" s' => int_digits s' 0 false
    | s' => int_digits s' 0 false
    end.

(** [repr(s)] of a [str]: single quotes unless the text has a single quote
    and no double quote; the quote in use, the backslash and the
    non-printable characters are escaped. *)
Definition hex_digit (d : N) : ascii :=
  if (d <? 10)%N then ascii_of_N (48 + d) else ascii_of_N (87 + d).

Definition isprintable (c : ascii) : bool :=
  let n := N_of_ascii c in
  (((32 <=? n) && (n <=? 126)) || ((161 <=? n) && negb (n =? 173)))%N.

Definition repr_char (quote c : ascii) : string :=
  if Ascii.eqb c quote || Ascii.eqb c "\" then String "\" (String c EmptyString)
  else if Ascii.eqb c "009" then "\t"
  else if Ascii.eqb c "010" then "\n"
  else if Ascii.eqb c "013" then "\r"
  else if isprintable c then String c EmptyString
  else
    let n := N_of_ascii c in
    String "\" (String "x" (String (hex_digit (n / 16)) (String (hex_digit (n mod 16)) EmptyString))).

Fixpoint repr_body (quote : ascii) (s : string) : string :=
  match s with
  | EmptyString => EmptyString
  | String c s' => repr_char quote c +:+ repr_body quote s'
  end.

Definition dquote : ascii := "034".
Definition squote : ascii := "039".

Fixpoint has_char (c : ascii) (s : string) : bool :=
  match s with
  | EmptyString => false
  | String d s' => Ascii.eqb c d || has_char c s'
  end.

Definition repr_str (s : string) : string :=
  let q := if has_char squote s && negb (has_char dquote s) then dquote else squote in
  String q (repr_body q s +:+ String q EmptyString).

(** [repr] of a list of strings: [['a', 'b']]. *)
Definition repr_list (l : list string) : string :=
  "[" +:+ String.concat ", " (map repr_str l) +:+ "]".

(* --------------------------------------------------------------------- *)
(** ** Numbers *)

(** [float(n)] for an [int]: the nearest binary64 (ties to even); None is
    OverflowError. *)
Definition float_of_int (z : Z) : option float :=
  match binary_normalize 53 1024 z 0 false with
  | S754_infinity _ => None
  | sf => Some (SF2Prim sf)
  end.

(** [n >= f] for an [int] and a [float]: Python compares the exact values. *)
Definition int_ge_float (n : Z) (f : float) : bool :=
  match Prim2SF f with
  | S754_nan => false
  | S754_infinity negative => negative
  | S754_zero _ => 0 <=? n
  | S754_finite negative m e =>
      let sm := if negative then Z.neg m else Z.pos m in
      if 0 <=? e then sm * 2 ^ e <=? n else sm <=? n * 2 ^ (- e)
  end.

(* --------------------------------------------------------------------- *)
(** ** Regular expressions written in the source

    The patterns of the source use literals, one-character classes under
    [+], [*] and [*?], and capture groups that do not nest. [regex]
    transcribes them atom by atom; [match_here] is the backtracking
    matcher of [re]: a greedy repetition tries the longest run first, a
    lazy one the shortest. *)

Inductive atom :=
| Lit (s : string)                                     (* literal text *)
| One (p : ascii -> bool)                              (* one character of a class *)
| Rep (p : ascii -> bool) (lo : nat) (greedy : bool)   (* lo or more of a class *)
| Open                                                 (* ( *)
| Close.                                               (* ) *)

Definition regex := list atom.

Record re_match := {
  m_groups : list string;   (* group(1), group(2), ... *)
  m_text : string;          (* group(0) *)
  m_rest : string           (* the subject after the match *)
}.

Definition snoc_char (s : string) (c : ascii) : string := s +:+ String c EmptyString.

(** A repetition of the class [p], at least [lo] times, followed by the
    rest of the pattern [continue]; [n] characters are taken so far. *)
Fixpoint repeat_class (p : ascii -> bool) (lo : nat) (greedy : bool)
    (continue : string -> string -> option re_match)
    (s : string) (consumed : string) (n : nat) {struct s} : option re_match :=
  let stop (_ : unit) := if Nat.leb lo n then continue consumed s else None in
  let more (_ : unit) :=
    match s with
    | String c s' =>
        if p c then repeat_class p lo greedy continue s' (snoc_char consumed c) (S n)
        else None
    | EmptyString => None
    end in
  if greedy
  then match more tt with Some r => Some r | None => stop tt end
  else match stop tt with Some r => Some r | None => more tt end.

(** The pattern [re] matched at the start of [s]; [consumed] is the text
    matched so far, [opens] the offsets in it of the groups still open. *)
Fixpoint match_here (re : regex) (consumed : string) (opens : list nat)
    (groups : list string) (s : string) {struct re} : option re_match :=
  match re with
  | [] => Some {| m_groups := groups; m_text := consumed; m_rest := s |}
  | Lit l :: re' =>
      match strip_prefix l s with
      | Some s' => match_here re' (consumed +:+ l) opens groups s'
      | None => None
      end
  | One p :: re' =>
      match s with
      | String c s' =>
          if p c then match_here re' (snoc_char consumed c) opens groups s' else None
      | EmptyString => None
      end
  | Open :: re' => match_here re' consumed (String.length consumed :: opens) groups s
  | Close :: re' =>
      match opens with
      | o :: opens' =>
          let g := String.substring o (String.length consumed - o) consumed in
          match_here re' consumed opens' (groups ++ [g]) s
      | [] => None
      end
  | Rep p lo greedy :: re' =>
      repeat_class p lo greedy
        (fun consumed s => match_here re' consumed opens groups s) s consumed O
  end.

Definition match_at (re : regex) (s : string) : option re_match :=
  match_here re EmptyString [] [] s.

(** [re.search(re, s)]: the leftmost position where the pattern matches. *)
Fixpoint search (re : regex) (s : string) : option re_match :=
  match match_at re s with
  | Some m => Some m
  | None =>
      match s with
      | EmptyString => None
      | String _ s' => search re s'
      end
  end.

(** [re.sub(re, repl, s)] with a function [repl] of the match's groups, for
    patterns that match no empty text: matches are found left to right and
    do not overlap; [skip] counts the characters of the last match that are
    still to be passed over. *)
Fixpoint sub_from (re : regex) (repl : list string -> result string)
    (skip : nat) (s : string) : result string :=
  match skip, s with
  | S k, String _ s' => sub_from re repl k s'
  | S _, EmptyString => Ok EmptyString
  | O, EmptyString => Ok EmptyString
  | O, String c s' =>
      match match_at re s with
      | Some m =>
          bind (repl (m_groups m)) (fun r =>
          bind (sub_from re repl (Nat.pred (String.length (m_text m))) s') (fun t =>
          Ok (r +:+ t)))
      | None => bind (sub_from re repl O s') (fun t => Ok (String c t))
      end
  end.

Definition sub (re : regex) (repl : list string -> result string) (s : string)
  : result string := sub_from re repl O s.

Definition any_char (_ : ascii) : bool := true.
Definition not_char (x : ascii) (c : ascii) : bool := negb (Ascii.eqb c x).
Definition not_newline : ascii -> bool := not_char "010".

(* --------------------------------------------------------------------- *)
(** ** [list.sort(key=..., reverse=...)]

    Python's sort is stable, also under [reverse=True]: elements with equal
    keys keep their order. The stable arrangement of a list is unique, so
    an insertion sort that never moves an element past an equal one
    computes what Python computes. *)

(** [x] may stay in front of [y]. *)
Definition in_order (reverse : bool) (kx ky : Z) : bool :=
  if reverse then ky <=? kx else kx <=? ky.

Fixpoint sort_insert {A} (key : A -> Z) (reverse : bool) (x : A) (l : list A) : list A :=
  match l with
  | [] => [x]
  | y :: l' =>
      if in_order reverse (key x) (key y) then x :: y :: l'
      else y :: sort_insert key reverse x l'
  end.

Definition sort_by {A} (key : A -> Z) (reverse : bool) (l : list A) : list A :=
  foldr (sort_insert key reverse) [] l.

End Py.

Export Py.

Notation "'do' x <- c 'in' k" := (bind c (fun x => k))
  (at level 10, x name, c at level 100, k at level 200,
   format "'[v' 'do'  x  <-  c  'in' '/' k ']'").

(** [d[k]]: KeyError when the key is absent. *)
Definition getitem (d : gmap string value) (k : string) : result value :=
  match d !! k with
  | Some v => Ok v
  | None => Raise KeyError
  end.

(** [d.get(k, default)] *)
Definition dict_get (d : gmap string value) (k : string) (default : value) : value :=
  match d !! k with
  | Some v => v
  | None => default
  end.

(** [x in l] for a list of strings. *)
Definition in_list (x : string) (l : list string) : bool :=
  existsb (String.eqb x) l.

(* ===================================================================== *)
(** * What the Python runtime provides                                   *)
(* ===================================================================== *)

(** The outcome of [re.search(pattern, message, re.IGNORECASE)] on a
    pattern that comes from a pack: [re.error] when the pattern does not
    compile; another exception, as the OverflowError of a repetition count
    of [2**32] or the RecursionError of groups nested too deep; otherwise
    whether a match object was returned. *)
Inductive re_outcome :=
| ReError
| ReRaises (e : exn)
| ReNoMatch
| ReMatch.

Class PyRuntime := {
  (** [re.search(pattern, string, re.IGNORECASE)] *)
  re_search_ignorecase : string -> string -> re_outcome;
  (** [float(s)] for a [str]; None is ValueError *)
  py_float_of_str : string -> option float;
  (** [str(x)] for a [float] *)
  py_repr_float : float -> string;
  (** [format(x, spec)] for a [float]; None is ValueError *)
  py_format_float : float -> string -> option string;
  (** [difflib.get_close_matches(word, possibilities, n, cutoff)] *)
  get_close_matches : string -> list string -> nat -> float -> list string;
  (** [difflib.SequenceMatcher(None, a, b).ratio()] *)
  sequence_ratio : string -> string -> float
}.

(* ===================================================================== *)
(** * qinter/packages/loader.py: the dataclasses                         *)
(* ===================================================================== *)

Record PackMetadata := {
  meta_name : string;
  meta_version : string;
  meta_description : string;
  meta_author : string;
  meta_license : string;
  meta_qinter_version : string;
  meta_targets : list string;
  meta_tags : option (list string);
  meta_dependencies : option (list string);
  meta_homepage : option string;
  meta_repository : option string
}.

Record ContextCondition := {
  cc_type : string;
  cc_threshold : option float;
  cc_min_matches : option Z;
  cc_modules : option (list string);
  cc_functions : option (list string);
  cc_extensions : option (list string);
  cc_inside_function : option bool;
  cc_variable : option string;
  cc_expected_type : option string;
  cc_script : option string
}.

Record ExplanationConditions := {
  exception_type : string;
  message_patterns : list string;
  context_conditions : option (list ContextCondition)
}.

Record ExplanationSuggestion := {
  sugg_template : string;
  sugg_priority : Z;
  sugg_condition : string
}.

Record ExplanationExample := {
  ex_id : string;
  ex_description : string;
  ex_code : string;
  ex_condition : string
}.

Record ExplanationContent := {
  title : string;
  description : string;
  suggestions : list ExplanationSuggestion;
  examples : list ExplanationExample
}.

Record Explanation := {
  exp_id : string;
  exp_priority : Z;
  conditions : ExplanationConditions;
  explanation : ExplanationContent
}.

Record ExplanationPack := {
  metadata : PackMetadata;
  explanations : list Explanation;
  file_path : option string
}.

(* ===================================================================== *)
(** * What the interceptor hands to the engine                           *)
(* ===================================================================== *)

(** An exception object, as far as the engine looks at it:
    [type(e).__name__], [str(e)] and the two [isinstance] tests. *)
Record PyException := {
  exc_type_name : string;
  exc_str : string;
  exc_is_TypeError : bool;
  exc_is_ValueError : bool
}.

(** One entry of [context['traceback_info']]; only [function_name] is read. *)
Record FrameInfo := {
  frame_function_name : option string
}.

(** [context['file_context']]: empty when there is no traceback. *)
Record FileContext := {
  fc_filename : option string;
  fc_error_line : option Z
}.

(** The context dictionary of [ExceptionInterceptor._capture_context]. *)
Record Context := {
  traceback_info : list FrameInfo;
  file_context : FileContext;
  local_variables : gmap string value
}.

(* ===================================================================== *)
(** * qinter/explanations/context_analyzer.py                            *)
(* ===================================================================== *)

Module ContextAnalyzer.

(** [self.common_modules] *)
Definition common_modules : list string :=
  ["requests"; "pandas"; "numpy"; "matplotlib"; "json"; "os"; "sys";
   "datetime"; "math"; "random"; "time"; "urllib"; "sqlite3"; "csv";
   "pickle"; "itertools"; "collections"; "functools"; "operator"].

(** [self.builtin_typos] *)
Definition builtin_typos : gmap string string :=
  list_to_map
    [("lenght", "len"); ("lentgh", "len"); ("legth", "len");
     ("pirnt", "print"); ("prnit", "print"); ("prin", "print");
     ("strig", "str"); ("strign", "str");
     ("itn", "int"); ("itne", "int");
     ("flaot", "float"); ("flot", "float");
     ("lsit", "list"); ("listst", "list");
     ("dcit", "dict"); ("dictionairy", "dict")].

(** The patterns of the module, in the order they appear in it. *)

(** "name '([^']+)' is not defined" *)
Definition re_name_not_defined : regex :=
  [Lit "name '"; Open; Rep (not_char squote) 1 true; Close; Lit "' is not defined"].

(** "'([^']+)' object is not callable" *)
Definition re_not_callable : regex :=
  [Lit "'"; Open; Rep (not_char squote) 1 true; Close; Lit "' object is not callable"].

(** "'([^']+)' object" *)
Definition re_object : regex :=
  [Lit "'"; Open; Rep (not_char squote) 1 true; Close; Lit "' object"].

(** "unsupported operand type\(s\) for (.+):" *)
Definition re_operation : regex :=
  [Lit "unsupported operand type(s) for "; Open; Rep not_newline 1 true; Close; Lit ":"].

(** "invalid literal for int\(\) with base \d+: '(G)'", with "[^']*" for G *)
Definition re_invalid_literal : regex :=
  [Lit "invalid literal for int() with base "; Rep is_digit 1 true; Lit ": '";
   Open; Rep (not_char squote) 0 true; Close; Lit "'"].

(** "unsupported operand type\(s\) for (.+): '([^']+)' and '([^']+)'" *)
Definition re_operand_types : regex :=
  [Lit "unsupported operand type(s) for "; Open; Rep not_newline 1 true; Close;
   Lit ": '"; Open; Rep (not_char squote) 1 true; Close;
   Lit "' and '"; Open; Rep (not_char squote) 1 true; Close; Lit "'"].

(** "not enough values to unpack \(expected (\d+), got (\d+)\)" *)
Definition re_not_enough : regex :=
  [Lit "not enough values to unpack (expected "; Open; Rep is_digit 1 true; Close;
   Lit ", got "; Open; Rep is_digit 1 true; Close; Lit ")"].

(** "too many values to unpack \(expected (\d+)\)" *)
Definition re_too_many : regex :=
  [Lit "too many values to unpack (expected "; Open; Rep is_digit 1 true; Close; Lit ")"].

(** [match.group(i)], [i >= 1], of a match of one of the patterns above. *)
Definition group (m : re_match) (i : nat) : string :=
  nth (Nat.pred i) (m_groups m) EmptyString.

(** [int(g)] for a group matched by [\d+]: the group holds decimal digits
    only, so the conversion fails on a run longer than the limit and on
    nothing else. *)
Definition int_of_digit_run (g : string) : result Z :=
  match int_of_str g with
  | Some z => Ok z
  | None => Raise ValueError
  end.

Definition _extract_variable_name (exception : PyException) : string :=
  let message := exc_str exception in
  match search re_name_not_defined message with
  | Some m => group m 1
  | None =>
      match search re_not_callable message with
      | Some m => "variable_of_type_" +:+ group m 1
      | None => "unknown"
      end
  end.

Definition _extract_object_type (exception : PyException) : string :=
  match search re_object (exc_str exception) with
  | Some m => group m 1
  | None => "unknown"
  end.

Definition _extract_operation (exception : PyException) : string :=
  match search re_operation (exc_str exception) with
  | Some m => strip (group m 1)
  | None => "operation"
  end.

Definition _extract_bad_value (exception : PyException) : string :=
  match search re_invalid_literal (exc_str exception) with
  | Some m => group m 1
  | None => "value"
  end.

(** The test of the list comprehension of [_get_available_variables]; the
    keys of a frame's locals are strings, so [isinstance(name, str)]
    holds. *)
Definition is_available_name (name : string) : bool :=
  negb (startswith name "_") && Nat.ltb 1 (String.length name).

(** [sorted] on strings: the order is total, so the sorted list is the same
    whatever the order of [local_vars.keys()]. *)
Definition _get_available_variables (context : Context) : list string :=
  let local_vars := local_variables context in
  let available := filter (fun name => is_available_name name = true)
                          (elements (dom local_vars)) in
  merge_sort String.le available.

Definition _get_imported_modules (context : Context) : list string := [].

Section analyses.
Context `{PyRuntime}.

(** The cutoff [0.4] of [get_close_matches], as the nearest binary64. *)
Definition cutoff : float := 0x1.999999999999ap-2%float.

Definition _analyze_variable_similarity (analysis : gmap string value)
  : result (gmap string value) :=
  do variable_name <- getitem analysis "variable_name" in
  do available_variables <- getitem analysis "available_variables" in
  if negb (truthy variable_name) || negb (truthy available_variables)
  then Ok analysis
  else
    match variable_name, available_variables with
    | VStr word, VList possibilities =>
        let similar := get_close_matches word possibilities 5 cutoff in
        let analysis := <["similar_variables" := VList similar]> analysis in
        match similar with
        | closest :: _ =>
            let analysis := <["closest_variable" := VStr closest]> analysis in
            let analysis := <["similar_variables_exist" := VBool true]> analysis in
            let similarity := sequence_ratio word closest in
            Ok (<["similarity_score" := VFloat similarity]> analysis)
        | [] => Ok analysis
        end
    | _, _ => Raise TypeError
    end.

Definition _analyze_import_patterns (analysis : gmap string value)
  : result (gmap string value) :=
  do variable_name <- getitem analysis "variable_name" in
  match variable_name with
  | VStr name =>
      if in_list (lower name) common_modules
      then Ok (<["looks_like_import" := VBool true]> analysis)
      else Ok analysis
  | _ => Raise AttributeError
  end.

Definition _analyze_builtin_typos (analysis : gmap string value)
  : result (gmap string value) :=
  do variable_name <- getitem analysis "variable_name" in
  match variable_name with
  | VStr name =>
      match builtin_typos !! lower name with
      | Some correct =>
          let analysis := <["builtin_typo_detected" := VBool true]> analysis in
          Ok (<["correct_builtin" := VStr correct]> analysis)
      | None => Ok analysis
      end
  | _ => Raise AttributeError
  end.

Definition _analyze_type_errors (analysis : gmap string value)
    (exception : PyException) : result (gmap string value) :=
  if negb (exc_is_TypeError exception) then Ok analysis
  else
    match search re_operand_types (exc_str exception) with
    | Some m =>
        let analysis := <["operation" := VStr (strip (group m 1))]> analysis in
        let analysis := <["type1" := VStr (group m 2)]> analysis in
        Ok (<["type2" := VStr (group m 3)]> analysis)
    | None => Ok analysis
    end.

Definition _analyze_value_errors (analysis : gmap string value)
    (exception : PyException) : result (gmap string value) :=
  if negb (exc_is_ValueError exception) then Ok analysis
  else
    let message := exc_str exception in
    do analysis <-
      match search re_not_enough message with
      | Some m =>
          do expected <- int_of_digit_run (group m 1) in
          let analysis := <["expected" := VInt expected]> analysis in
          do actual <- int_of_digit_run (group m 2) in
          Ok (<["actual" := VInt actual]> analysis)
      | None => Ok analysis
      end in
    match search re_too_many message with
    | Some m =>
        do expected <- int_of_digit_run (group m 1) in
        Ok (<["expected" := VInt expected]> analysis)
    | None => Ok analysis
    end.

(** The dictionary literal of [analyze], before the analyses run. *)
Definition initial_analysis (exception : PyException) (context : Context)
  : gmap string value :=
  let traceback_info := traceback_info context in
  let function_name :=
    match last traceback_info with
    | Some frame => default "module" (frame_function_name frame)
    | None => "module"
    end in
  list_to_map
    [("variable_name", VStr (_extract_variable_name exception));
     ("exception_type", VStr (exc_type_name exception));
     ("exception_message", VStr (exc_str exception));
     ("filename", VStr (default "interactive" (fc_filename (file_context context))));
     ("line_number", VInt (default 0 (fc_error_line (file_context context))));
     ("function_name", VStr function_name);
     ("available_variables", VList (_get_available_variables context));
     ("imported_modules", VList (_get_imported_modules context));
     ("similar_variables", VList []);
     ("closest_variable", VNone);
     ("similarity_score", VFloat 0%float);
     ("looks_like_import", VBool false);
     ("builtin_typo_detected", VBool false);
     ("correct_builtin", VNone);
     ("similar_variables_exist", VBool false);
     ("object_type", VStr (_extract_object_type exception));
     ("operation", VStr (_extract_operation exception));
     ("type1", VNone);
     ("type2", VNone);
     ("expected", VNone);
     ("actual", VNone);
     ("bad_value", VStr (_extract_bad_value exception))].

Definition analyze (exception : PyException) (context : Context)
  : result (gmap string value) :=
  let analysis := initial_analysis exception context in
  do analysis <- _analyze_variable_similarity analysis in
  do analysis <- _analyze_import_patterns analysis in
  do analysis <- _analyze_builtin_typos analysis in
  do analysis <- _analyze_type_errors analysis exception in
  _analyze_value_errors analysis exception.

End analyses.

(** [score >= threshold]: Python compares the exact values of an [int] and
    a [float]; other operand types raise TypeError. *)
Definition ge_float (score : value) (threshold : float) : result bool :=
  match score with
  | VFloat s => Ok (PrimFloat.leb threshold s)
  | VInt n => Ok (int_ge_float n threshold)
  | VBool b => Ok (int_ge_float (if b then 1 else 0) threshold)
  | _ => Raise TypeError
  end.

(** [len(v)] *)
Definition len (v : value) : result Z :=
  match v with
  | VStr s => Ok (Z.of_nat (String.length s))
  | VList l => Ok (Z.of_nat (length l))
  | _ => Raise TypeError
  end.

(** [x or default] for an optional float: None and zero are falsy. *)
Definition float_or (x : option float) (default : float) : float :=
  match x with
  | Some f => if truthy (VFloat f) then f else default
  | None => default
  end.

(** [x or default] for an optional int. *)
Definition int_or (x : option Z) (default : Z) : Z :=
  match x with
  | Some n => if truthy (VInt n) then n else default
  | None => default
  end.

(** [not l] is false exactly for a list that is given and non-empty. *)
Definition given (l : option (list string)) : option (list string) :=
  match l with
  | Some (x :: l') => Some (x :: l')
  | _ => None
  end.

(** The default threshold [0.6], as the nearest binary64. *)
Definition default_threshold : float := 0x1.3333333333333p-1%float.

(** [check_condition]; the result is the truth value of what the method
    returns, which is all its caller looks at. *)
Definition check_condition (condition : ContextCondition)
    (analysis : gmap string value) : result bool :=
  if String.eqb (cc_type condition) "variable_similarity" then
    let threshold := float_or (cc_threshold condition) default_threshold in
    let min_matches := int_or (cc_min_matches condition) 1 in
    do score <- getitem analysis "similarity_score" in
    do above <- ge_float score threshold in
    if above then
      do similar <- getitem analysis "similar_variables" in
      do n <- len similar in
      Ok (min_matches <=? n)
    else Ok false
  else if String.eqb (cc_type condition) "import_pattern" then
    match given (cc_modules condition) with
    | None => do looks <- getitem analysis "looks_like_import" in Ok (truthy looks)
    | Some modules =>
        do looks <- getitem analysis "looks_like_import" in
        if truthy looks then
          do name <- getitem analysis "variable_name" in
          match name with
          | VStr name => Ok (in_list name modules)
          | _ => Ok false
          end
        else Ok false
    end
  else if String.eqb (cc_type condition) "builtin_typo" then
    match given (cc_functions condition) with
    | None => do typo <- getitem analysis "builtin_typo_detected" in Ok (truthy typo)
    | Some functions =>
        do typo <- getitem analysis "builtin_typo_detected" in
        if truthy typo then
          do correct <- getitem analysis "correct_builtin" in
          match correct with
          | VStr correct => Ok (in_list correct functions)
          | _ => Ok false
          end
        else Ok false
    end
  else if String.eqb (cc_type condition) "file_extension" then
    do filename <- getitem analysis "filename" in
    match given (cc_extensions condition) with
    | Some extensions =>
        match filename with
        | VStr filename => Ok (existsb (endswith filename) extensions)
        | _ => Raise AttributeError
        end
    | None => Ok true
    end
  else if String.eqb (cc_type condition) "function_context" then
    do function_name <- getitem analysis "function_name" in
    let inside_function :=
      match function_name with
      | VStr "module" => false
      | _ => true
      end in
    match cc_inside_function condition with
    | Some expected => Ok (Bool.eqb inside_function expected)
    | None => Ok false
    end
  else Ok true.

End ContextAnalyzer.

(* ===================================================================== *)
(** * qinter/explanations/pattern_matcher.py                             *)
(* ===================================================================== *)

Module PatternMatcher.

Section matcher.
Context `{PyRuntime}.

(** [load_explanations]: the new value of [self.loaded_explanations]. *)
Definition load_explanations (packs : list ExplanationPack)
  : list (Explanation * ExplanationPack) :=
  let loaded_explanations :=
    flat_map (fun pack => map (fun explanation => (explanation, pack)) (explanations pack))
             packs in
  sort_by (fun x => exp_priority (fst x)) true loaded_explanations.

(** The [try] around [re.search] has [except re.error] only: another
    exception of [re.search] leaves the method. *)
Fixpoint _matches_message_patterns (patterns : list string) (message : string)
  : result bool :=
  match patterns with
  | [] => Ok false
  | pattern :: patterns' =>
      match re_search_ignorecase pattern message with
      | ReMatch => Ok true
      | ReNoMatch => _matches_message_patterns patterns' message
      | ReError => _matches_message_patterns patterns' message
      | ReRaises e => Raise e
      end
  end.

Fixpoint _matches_context_conditions (conditions : list ContextCondition)
    (analysis : gmap string value) : result bool :=
  match conditions with
  | [] => Ok true
  | condition :: conditions' =>
      do met <- ContextAnalyzer.check_condition condition analysis in
      if met then _matches_context_conditions conditions' analysis else Ok false
  end.

Definition _matches_explanation (explanation : Explanation)
    (type_name message : string) (analysis : gmap string value) : result bool :=
  let conditions := conditions explanation in
  if negb (String.eqb (exception_type conditions) type_name) then Ok false
  else
    do matched <- _matches_message_patterns (message_patterns conditions) message in
    if negb matched then Ok false
    else
      match context_conditions conditions with
      | Some (c :: cs) => _matches_context_conditions (c :: cs) analysis
      | _ => Ok true
      end.

(** The loop of [find_best_explanation]. *)
Fixpoint first_matching (loaded : list (Explanation * ExplanationPack))
    (type_name message : string) (analysis : gmap string value)
  : result (option (Explanation * ExplanationPack * gmap string value)) :=
  match loaded with
  | [] => Ok None
  | (explanation, pack) :: loaded' =>
      do matched <- _matches_explanation explanation type_name message analysis in
      if matched then Ok (Some (explanation, pack, analysis))
      else first_matching loaded' type_name message analysis
  end.

(** The loop of [find_all_matching_explanations]. *)
Fixpoint all_matching (loaded : list (Explanation * ExplanationPack))
    (type_name message : string) (analysis : gmap string value)
  : result (list (Explanation * ExplanationPack * gmap string value)) :=
  match loaded with
  | [] => Ok []
  | (explanation, pack) :: loaded' =>
      do matched <- _matches_explanation explanation type_name message analysis in
      do matches <- all_matching loaded' type_name message analysis in
      Ok (if matched then (explanation, pack, analysis) :: matches else matches)
  end.

Definition find_best_explanation (loaded_explanations : list (Explanation * ExplanationPack))
    (exception : PyException) (context : Context)
  : result (option (Explanation * ExplanationPack * gmap string value)) :=
  let type_name := exc_type_name exception in
  let message := exc_str exception in
  do analysis <- ContextAnalyzer.analyze exception context in
  first_matching loaded_explanations type_name message analysis.

Definition find_all_matching_explanations
    (loaded_explanations : list (Explanation * ExplanationPack))
    (exception : PyException) (context : Context)
  : result (list (Explanation * ExplanationPack * gmap string value)) :=
  let type_name := exc_type_name exception in
  let message := exc_str exception in
  do analysis <- ContextAnalyzer.analyze exception context in
  all_matching loaded_explanations type_name message analysis.

Definition get_loaded_explanation_count
    (loaded_explanations : list (Explanation * ExplanationPack)) : nat :=
  length loaded_explanations.

(** [get_explanations_for_exception_type] *)
Fixpoint get_explanations_for_exception_type
    (loaded_explanations : list (Explanation * ExplanationPack)) (type_name : string)
  : list Explanation :=
  match loaded_explanations with
  | [] => []
  | (explanation, pack) :: loaded' =>
      if String.eqb (exception_type (conditions explanation)) type_name
      then explanation :: get_explanations_for_exception_type loaded' type_name
      else get_explanations_for_exception_type loaded' type_name
  end.

End matcher.
End PatternMatcher.

(* ===================================================================== *)
(** * qinter/explanations/template_renderer.py                           *)
(* ===================================================================== *)

Module TemplateRenderer.

(** "\{if\s+([^}]+)\}(.*?)\{endif\}", with re.DOTALL *)
Definition if_pattern : regex :=
  [Lit "{if"; Rep isspace 1 true; Open; Rep (not_char "}") 1 true; Close; Lit "}";
   Open; Rep any_char 0 false; Close; Lit "{endif}"].

(** "\{if\s+([^}]+)\}(.*?)\{else\}(.*?)\{endif\}", with re.DOTALL *)
Definition if_else_pattern : regex :=
  [Lit "{if"; Rep isspace 1 true; Open; Rep (not_char "}") 1 true; Close; Lit "}";
   Open; Rep any_char 0 false; Close; Lit "{else}";
   Open; Rep any_char 0 false; Close; Lit "{endif}"].

(** "\{([^}]+)\}" *)
Definition variable_pattern : regex :=
  [Lit "{"; Open; Rep (not_char "}") 1 true; Close; Lit "}"].

(** [except (ValueError, TypeError): handler] *)
Definition except_value_type {A} (r : result A) (handler : result A) : result A :=
  match r with
  | Raise ValueError => handler
  | Raise TypeError => handler
  | _ => r
  end.

(** The f-string "{unknown_variable_<var_name>}". *)
Definition unknown_variable (var_name : string) : string :=
  "{unknown_variable_" +:+ var_name +:+ "}".

Record RenderedExample := {
  rendered_description : string;
  rendered_code : string;
  rendered_id : string
}.

(** The dictionary [render_explanation] returns; [rendered_metadata] is the
    dictionary under its ['metadata'] key. *)
Record Rendered := {
  rendered_title : string;
  rendered_explanation : string;
  rendered_suggestions : list string;
  rendered_examples : list RenderedExample;
  rendered_metadata : gmap string value
}.

Section renderer.
Context `{PyRuntime}.

(** [float(v)] *)
Definition float_of_value (v : value) : result float :=
  match v with
  | VFloat f => Ok f
  | VInt n =>
      match float_of_int n with
      | Some f => Ok f
      | None => Raise OverflowError
      end
  | VBool b => Ok (if b then 1%float else 0%float)
  | VStr s =>
      match py_float_of_str s with
      | Some f => Ok f
      | None => Raise ValueError
      end
  | VNone => Raise TypeError
  | VList _ => Raise TypeError
  end.

(** [str(v)]: only an [int] beyond the digit limit makes it raise. *)
Definition str (v : value) : result string :=
  match v with
  | VNone => Ok "None"
  | VBool true => Ok "True"
  | VBool false => Ok "False"
  | VInt n => str_int n
  | VFloat f => Ok (py_repr_float f)
  | VStr s => Ok s
  | VList l => Ok (repr_list l)
  end.

(** [format(x, spec)] inside a [try] *)
Definition format_float (x : float) (spec : string) : result string :=
  match py_format_float x spec with
  | Some s => Ok s
  | None => Raise ValueError
  end.

Definition _evaluate_condition (condition : string) (analysis : gmap string value)
  : result bool :=
  let direct :=
    match analysis !! condition with
    | Some (VBool b) => Some b
    | Some (VList l) => Some (Nat.ltb 0 (length l))
    | Some (VStr s) => Some (Nat.ltb 0 (String.length s))
    | Some (VInt n) => Some (0 <? n)
    | Some (VFloat f) => Some (PrimFloat.ltb 0 f)
    | Some VNone => None
    | None => None
    end in
  match direct with
  | Some b => Ok b
  | None =>
      match split_once " > " condition with
      | Some (lhs, rhs) =>
          let left_val := dict_get analysis (strip lhs) (VInt 0) in
          except_value_type
            (do right_val <- float_of_value (VStr (strip rhs)) in
             do left_float <- float_of_value left_val in
             Ok (PrimFloat.ltb right_val left_float))
            (Ok false)
      | None => Ok false
      end
  end.

(** [replace_if_else] and [replace_if], on the groups of a match. *)
Definition replace_if_else (analysis : gmap string value) (groups : list string)
  : result string :=
  let condition := strip (nth 0 groups EmptyString) in
  let if_content := nth 1 groups EmptyString in
  let else_content := nth 2 groups EmptyString in
  do holds <- _evaluate_condition condition analysis in
  Ok (if holds then if_content else else_content).

Definition replace_if (analysis : gmap string value) (groups : list string)
  : result string :=
  let condition := strip (nth 0 groups EmptyString) in
  let content := nth 1 groups EmptyString in
  do holds <- _evaluate_condition condition analysis in
  Ok (if holds then content else EmptyString).

Definition _handle_conditional_blocks (template : string) (analysis : gmap string value)
  : result string :=
  do template <- sub if_else_pattern (replace_if_else analysis) template in
  sub if_pattern (replace_if analysis) template.

Definition replace_var (analysis : gmap string value) (groups : list string)
  : result string :=
  let var_name := nth 0 groups EmptyString in
  match split_once ":" var_name with
  | Some (var_name, format_spec) =>
      let value := dict_get analysis var_name (VStr (unknown_variable var_name)) in
      except_value_type
        (if String.eqb format_spec ".0%" then
           do x <- float_of_value value in
           format_float x ".0%"
         else if startswith format_spec "." && endswith format_spec "f" then
           let inner := String.substring 1 (String.length format_spec - 2) format_spec in
           do decimals <- match int_of_str inner with
                          | Some n => Ok n
                          | None => Raise ValueError
                          end in
           do x <- float_of_value value in
           do precision <- str_int decimals in
           format_float x ("." +:+ precision +:+ "f")
         else str value)
        (str value)
  | None =>
      let value := dict_get analysis var_name (VStr (unknown_variable var_name)) in
      str value
  end.

Definition _substitute_variables (template : string) (analysis : gmap string value)
  : result string :=
  sub variable_pattern (replace_var analysis) template.

Definition _render_template (template : string) (analysis : gmap string value)
  : result string :=
  if String.eqb template EmptyString then Ok EmptyString
  else
    do rendered <- _handle_conditional_blocks template analysis in
    do rendered <- _substitute_variables rendered analysis in
    Ok (strip rendered).

Definition _should_include_item (condition : string) (analysis : gmap string value)
  : result bool :=
  if String.eqb condition "always" then Ok true
  else _evaluate_condition condition analysis.

(** The first loop of [_render_suggestions]; what it builds is not used. *)
Fixpoint render_included (suggestions : list ExplanationSuggestion)
    (analysis : gmap string value) : result (list string) :=
  match suggestions with
  | [] => Ok []
  | suggestion :: suggestions' =>
      do included <- _should_include_item (sugg_condition suggestion) analysis in
      if included then
        do rendered_text <- _render_template (sugg_template suggestion) analysis in
        do rendered_suggestions <- render_included suggestions' analysis in
        Ok (if String.eqb rendered_text EmptyString then rendered_suggestions
            else rendered_text :: rendered_suggestions)
      else render_included suggestions' analysis
  end.

(** The list comprehension [suggestions_with_priority]. *)
Fixpoint with_priority (suggestions : list ExplanationSuggestion)
    (analysis : gmap string value)
  : result (list (ExplanationSuggestion * string)) :=
  match suggestions with
  | [] => Ok []
  | sugg :: suggestions' =>
      do included <- _should_include_item (sugg_condition sugg) analysis in
      if included then
        do text <- _render_template (sugg_template sugg) analysis in
        do rest <- with_priority suggestions' analysis in
        Ok ((sugg, text) :: rest)
      else with_priority suggestions' analysis
  end.

Definition nonempty_text (x : ExplanationSuggestion * string) : bool :=
  negb (String.eqb (snd x) EmptyString).

Definition _render_suggestions (suggestions : list ExplanationSuggestion)
    (analysis : gmap string value) : result (list string) :=
  do rendered_suggestions <- render_included suggestions analysis in
  do suggestions_with_priority <- with_priority suggestions analysis in
  let suggestions_with_priority :=
    sort_by (fun x => sugg_priority (fst x)) false suggestions_with_priority in
  Ok (map snd (List.filter nonempty_text suggestions_with_priority)).

Fixpoint _render_examples (examples : list ExplanationExample)
    (analysis : gmap string value) : result (list RenderedExample) :=
  match examples with
  | [] => Ok []
  | example :: examples' =>
      do included <- _should_include_item (ex_condition example) analysis in
      if included then
        do rendered_description <- _render_template (ex_description example) analysis in
        do rendered_code <- _render_template (ex_code example) analysis in
        do rendered_examples <- _render_examples examples' analysis in
        Ok (if negb (String.eqb rendered_description EmptyString)
               && negb (String.eqb rendered_code EmptyString)
            then {| rendered_description := rendered_description;
                    rendered_code := rendered_code;
                    rendered_id := ex_id example |} :: rendered_examples
            else rendered_examples)
      else _render_examples examples' analysis
  end.

Definition render_explanation (entry : Explanation) (analysis : gmap string value)
  : result Rendered :=
  let content := explanation entry in
  do title <- _render_template (title content) analysis in
  do text <- _render_template (description content) analysis in
  do suggestions <- _render_suggestions (suggestions content) analysis in
  do examples <- _render_examples (examples content) analysis in
  Ok {| rendered_title := title;
        rendered_explanation := text;
        rendered_suggestions := suggestions;
        rendered_examples := examples;
        rendered_metadata :=
          <["priority" := VInt (exp_priority entry)]>
            (<["explanation_id" := VStr (exp_id entry)]> ∅) |}.

End renderer.
End TemplateRenderer.

(* ===================================================================== *)
(** * qinter/explanations/engine.py                                      *)
(* ===================================================================== *)

Module Engine.

(** What the calls of [initialize] into the loader and the package manager
    come to: each either returns or raises. *)
Record Collaborators := {
  (** [self.loader.load_core_packs()] *)
  load_core_packs : result (list ExplanationPack);
  (** [get_package_manager()._get_packages_directory()], which creates the
      directory, followed by [packages_dir.exists()] *)
  packages_dir_exists : result bool;
  (** [self.loader.load_packs_from_directory(packages_dir)] *)
  load_packs_from_directory : result (list ExplanationPack)
}.

(** The engine's own flag and the list its matcher holds. *)
Record EngineState := {
  _initialized : bool;
  loaded_explanations : list (Explanation * ExplanationPack)
}.

Definition new_engine : EngineState :=
  {| _initialized := false; loaded_explanations := [] |}.

Section engine.
Context `{PyRuntime}.

(** [initialize]; the messages it prints are left out. When the packages
    directory does not exist, [all_packs] is read before it is assigned. *)
Definition initialize (env : Collaborators) (self : EngineState) : result EngineState :=
  if _initialized self then Ok self
  else
    do core_packs <- load_core_packs env in
    match core_packs with
    | [] => Ok self
    | _ :: _ =>
        do dir_exists <- packages_dir_exists env in
        if (dir_exists : bool) then
          do user_packs <- load_packs_from_directory env in
          let all_packs := core_packs ++ user_packs in
          match all_packs with
          | [] => Ok self
          | _ :: _ =>
              Ok {| _initialized := true;
                    loaded_explanations := PatternMatcher.load_explanations all_packs |}
          end
        else Raise UnboundLocalError
    end.

(** The body of the [try] statement of [explain]. *)
Definition explain_body (self : EngineState) (exception : PyException) (context : Context)
  : result (option TemplateRenderer.Rendered) :=
  do match_result <-
    PatternMatcher.find_best_explanation (loaded_explanations self) exception context in
  match match_result with
  | None => Ok None
  | Some (entry, pack, analysis) =>
      do rendered <- TemplateRenderer.render_explanation entry analysis in
      let meta := TemplateRenderer.rendered_metadata rendered in
      let meta := <["pack_name" := VStr (meta_name (metadata pack))]> meta in
      let meta := <["pack_version" := VStr (meta_version (metadata pack))]> meta in
      let meta := <["pack_author" := VStr (meta_author (metadata pack))]> meta in
      Ok (Some {| TemplateRenderer.rendered_title := TemplateRenderer.rendered_title rendered;
                  TemplateRenderer.rendered_explanation :=
                    TemplateRenderer.rendered_explanation rendered;
                  TemplateRenderer.rendered_suggestions :=
                    TemplateRenderer.rendered_suggestions rendered;
                  TemplateRenderer.rendered_examples :=
                    TemplateRenderer.rendered_examples rendered;
                  TemplateRenderer.rendered_metadata := meta |})
  end.

(** [explain]: the engine after the call, and what the call returns. *)
Definition explain (env : Collaborators) (self : EngineState)
    (exception : PyException) (context : Context)
  : result (EngineState * option TemplateRenderer.Rendered) :=
  do self <- (if _initialized self then Ok self else initialize env self) in
  do answer <- try_except (explain_body self exception context) (fun _ => Ok None) in
  Ok (self, answer).

(** [reload_packs]: the engine after the call, and whether the call
    returned. The rules are cleared before [initialize] runs, and stay
    cleared when it raises; the loader's own table of packs, cleared too,
    is behind [env]. *)
Definition reload_packs (env : Collaborators) (self : EngineState)
  : EngineState * result unit :=
  let self := {| _initialized := false; loaded_explanations := [] |} in
  match initialize env self with
  | Ok self' => (self', Ok tt)
  | Raise e => (self, Raise e)
  end.

End engine.
End Engine.

(* ===================================================================== *)
(** * qinter/core/interceptor.py                                         *)
(* ===================================================================== *)

Module Interceptor.

(** What stands in [sys.excepthook]: a hook that is not the interceptor's
    (the interpreter's own, or another program's), or the interceptor's
    [_custom_excepthook]. *)
Inductive hook :=
| Foreign (name : string)
| Custom.

(** An explanation handler: called with the exception and the context
    dictionary, it returns None or an explanation, or raises. *)
Definition handler : Type :=
  PyException -> Context -> result (option TemplateRenderer.Rendered).

Record ExceptionInterceptor := {
  _original_excepthook : option hook;
  _is_active : bool;
  _explanation_handler : option handler
}.

(** [ExceptionInterceptor.__init__] *)
Definition new_interceptor : ExceptionInterceptor :=
  {| _original_excepthook := None; _is_active := false; _explanation_handler := None |}.

(** The interpreter's [sys.excepthook] and the module's interceptor. *)
Record Hooks := {
  sys_excepthook : hook;
  interceptor : ExceptionInterceptor
}.

Definition activate (w : Hooks) (explanation_handler : option handler) : Hooks :=
  let self := interceptor w in
  if _is_active self then w
  else
    {| sys_excepthook := Custom;
       interceptor :=
         {| _original_excepthook := Some (sys_excepthook w);
            _is_active := true;
            _explanation_handler := explanation_handler |} |}.

Definition deactivate (w : Hooks) : Hooks :=
  let self := interceptor w in
  if negb (_is_active self) then w
  else
    {| sys_excepthook :=
         match _original_excepthook self with
         | Some original => original
         | None => sys_excepthook w
         end;
       interceptor :=
         {| _original_excepthook := _original_excepthook self;
            _is_active := false;
            _explanation_handler := None |} |}.

Definition is_active (w : Hooks) : bool := _is_active (interceptor w).

(** One entry of [traceback.extract_tb]: a [FrameSummary]. *)
Record FrameSummary := {
  fs_filename : string;
  fs_lineno : Z;
  fs_name : string;
  fs_line : option string
}.

(** A traceback object and the ones behind it ([tb_next]), outermost
    frame first; with each, [dict(tb_frame.f_locals)], which may raise.
    The empty list stands for None. *)
Record TracebackEntry := {
  tb_summary : FrameSummary;
  tb_f_locals : result (gmap string value)
}.

Definition Traceback : Type := list TracebackEntry.

(** One dictionary of [context["traceback_info"]]. *)
Record TracebackInfo := {
  ti_filename : string;
  ti_line_number : Z;
  ti_function_name : string;
  ti_code_line : option string
}.

(** One dictionary of [file_context["lines"]]. *)
Record LineInfo := {
  number : Z;
  content : string;
  is_error_line : bool
}.

(** The dictionary of [_get_file_context]; that of [_capture_context]
    without a traceback is empty. *)
Record FileContextInfo := {
  fci_filename : string;
  fci_error_line : Z;
  fci_lines : list LineInfo
}.

(** The dictionary of [_capture_context], without [exception_args], a
    copy of the exception's [args] that nothing in the package reads. *)
Record Captured := {
  captured_exception_type : string;
  captured_exception_message : string;
  captured_traceback_info : list TracebackInfo;
  captured_local_variables : gmap string value;
  captured_file_context : option FileContextInfo
}.

(** What reading a file gives: its lines, or one of the errors that
    [_get_file_context] catches (IOError, OSError, UnicodeDecodeError). *)
Definition Files : Type := string -> option (list string).

Definition _get_file_context (files : Files) (filename : string) (line_number : Z)
  : FileContextInfo :=
  match files filename with
  | Some lines =>
      let start := Z.max 0 (line_number - 4) in
      let stop := Z.min (Z.of_nat (length lines)) (line_number + 3) in
      {| fci_filename := filename;
         fci_error_line := line_number;
         fci_lines :=
           map (fun i => {| number := i + 1;
                            content := rstrip (default EmptyString (lines !! Z.to_nat i));
                            is_error_line := (i + 1 =? line_number) |})
               (seqZ start (stop - start)) |}
  | None =>
      {| fci_filename := filename; fci_error_line := line_number; fci_lines := [] |}
  end.

(** [_capture_context]; the hook is called with the exception and its
    class, so [exc_type.__name__] is the name of the exception's class. *)
Definition _capture_context (files : Files) (exc_value : PyException)
    (exc_traceback : Traceback) : Captured :=
  let tb_list := map tb_summary exc_traceback in
  {| captured_exception_type := exc_type_name exc_value;
     captured_exception_message := exc_str exc_value;
     captured_traceback_info :=
       map (fun frame => {| ti_filename := fs_filename frame;
                            ti_line_number := fs_lineno frame;
                            ti_function_name := fs_name frame;
                            ti_code_line := fs_line frame |}) tb_list;
     captured_local_variables :=
       match exc_traceback with
       | first :: _ =>
           match tb_f_locals first with
           | Ok f_locals => f_locals
           | Raise _ => ∅
           end
       | [] => ∅
       end;
     captured_file_context :=
       match last tb_list with
       | Some last_frame =>
           Some (_get_file_context files (fs_filename last_frame) (fs_lineno last_frame))
       | None => None
       end |}.

(** The context dictionary as the engine reads it. *)
Definition context_of (captured : Captured) : Context :=
  {| traceback_info :=
       map (fun info => {| frame_function_name := Some (ti_function_name info) |})
           (captured_traceback_info captured);
     file_context :=
       match captured_file_context captured with
       | Some fc => {| fc_filename := Some (fci_filename fc);
                       fc_error_line := Some (fci_error_line fc) |}
       | None => {| fc_filename := None; fc_error_line := None |}
       end;
     local_variables := captured_local_variables captured |}.

(** What the hook ends with: the explanation on display, or the original
    hook called with the exception, or nothing at all. *)
Inductive outcome :=
| Displayed (explanation : TemplateRenderer.Rendered) (context : Captured)
| Original (original : hook)
| Nothing.

Definition _custom_excepthook (self : ExceptionInterceptor) (files : Files)
    (exc_value : PyException) (exc_traceback : Traceback) : outcome :=
  let context := _capture_context files exc_value exc_traceback in
  let explanation :=
    match _explanation_handler self with
    | Some explanation_handler =>
        match explanation_handler exc_value (context_of context) with
        | Ok explanation => explanation
        | Raise _ => None
        end
    | None => None
    end in
  match explanation with
  | Some explanation => Displayed explanation context
  | None =>
      match _original_excepthook self with
      | Some original => Original original
      | None => Nothing
      end
  end.

End Interceptor.

(* ===================================================================== *)
(** * qinter/core/activator.py: the handler of the hook                  *)
(* ===================================================================== *)

(** [isinstance(e, ImportError)]: the class and its one subclass. *)
Definition is_import_error (e : exn) : bool :=
  match e with
  | OtherError name => String.eqb name "ImportError" || String.eqb name "ModuleNotFoundError"
  | _ => false
  end.

(** [lazy_explain_error] of qinter/core/activator.py: the handler that
    [activate] installs. The engine it calls is the module's global one;
    [explain_error] hands over to its [explain]. An ImportError, of the
    import or of the call, makes it return None. *)
Definition lazy_explain_error `{PyRuntime} (env : Engine.Collaborators)
    (engine : Engine.EngineState) : Interceptor.handler :=
  fun exception context =>
    match Engine.explain env engine exception context with
    | Ok (_, answer) => Ok answer
    | Raise e => if is_import_error e then Ok None else Raise e
    end.

(* ===================================================================== *)
(** * qinter/packages/loader.py: parsing a pack

    The loader builds its dataclasses from what [yaml.safe_load] returns
    and checks no type: a field holds whatever the YAML holds. The
    records of this module are the dataclasses as the loader fills them;
    those at the head of the file are the same dataclasses with fields of
    the annotated types, as the explanation engine takes them. *)
(* ===================================================================== *)

Module Loader.

(** A key of a YAML mapping: a scalar. *)
Inductive scalar :=
| KNone
| KBool (b : bool)
| KInt (z : Z)
| KFloat (f : float)
| KStr (s : string).

(** What [yaml.safe_load] returns for plain YAML: null, booleans,
    numbers, strings, sequences, and mappings with their items in the order
    of the document, each key once. Tagged values (timestamps, binary,
    sets) are not modelled. *)
#[warnings="-register-all"]
Inductive yaml :=
| YScalar (k : scalar)
| YList (items : list yaml)
| YDict (items : list (scalar * yaml)).

Definition YStr (s : string) : yaml := YScalar (KStr s).
Definition YNone : yaml := YScalar KNone.

(** What the parsing code raises: the ValueError it constructs, with its
    message, and the exceptions of the interpreter. *)
Inductive raised :=
| ValueError_ (message : string)
| KeyError_ (key : string)
| TypeError_
| AttributeError_.

Inductive attempt (A : Type) :=
| Done (a : A)
| Failed (r : raised).
Arguments Done {A} a.
Arguments Failed {A} r.

Definition then_ {A B} (c : attempt A) (k : A -> attempt B) : attempt B :=
  match c with
  | Done a => k a
  | Failed r => Failed r
  end.

Notation "'try' x <- c 'in' k" := (then_ c (fun x => k))
  (at level 10, x name, c at level 100, k at level 200,
   format "'[v' 'try'  x  <-  c  'in' '/' k ']'").

(** The value under a string key of a mapping's items. *)
Fixpoint find (key : string) (items : list (scalar * yaml)) : option yaml :=
  match items with
  | [] => None
  | (KStr s, v) :: items' => if String.eqb s key then Some v else find key items'
  | _ :: items' => find key items'
  end.

Definition is_str (key : string) (v : yaml) : bool :=
  match v with
  | YScalar (KStr s) => String.eqb s key
  | _ => false
  end.

(** [key in v], for a string [key]: a key of a mapping, an element of a
    sequence, a part of a string; TypeError for anything else. *)
Definition py_in (key : string) (v : yaml) : attempt bool :=
  match v with
  | YDict items => Done (match find key items with Some _ => true | None => false end)
  | YList items => Done (existsb (is_str key) items)
  | YScalar (KStr s) => Done (contains key s)
  | YScalar _ => Failed TypeError_
  end.

(** [v.get(key, default)]: AttributeError unless [v] is a mapping. *)
Definition py_get (v : yaml) (key : string) (default : yaml) : attempt yaml :=
  match v with
  | YDict items => Done (match find key items with Some x => x | None => default end)
  | _ => Failed AttributeError_
  end.

(** [v[key]], for a string [key]: KeyError for a mapping without the
    key, TypeError for anything that is no mapping. *)
Definition py_getitem (v : yaml) (key : string) : attempt yaml :=
  match v with
  | YDict items =>
      match find key items with
      | Some x => Done x
      | None => Failed (KeyError_ key)
      end
  | _ => Failed TypeError_
  end.

Fixpoint characters (s : string) : list yaml :=
  match s with
  | EmptyString => []
  | String c s' => YStr (String c EmptyString) :: characters s'
  end.

(** [for x in v]: the elements of a sequence, the keys of a mapping, the
    characters of a string; TypeError for anything else. *)
Definition py_iter (v : yaml) : attempt (list yaml) :=
  match v with
  | YList items => Done items
  | YDict items => Done (map (fun item => YScalar (fst item)) items)
  | YScalar (KStr s) => Done (characters s)
  | YScalar _ => Failed TypeError_
  end.

Record PackMetadata := {
  name : yaml;
  version : yaml;
  description : yaml;
  author : yaml;
  license : yaml;
  qinter_version : yaml;
  targets : yaml;
  tags : yaml;
  dependencies : yaml;
  homepage : yaml;
  repository : yaml
}.

Record ContextCondition := {
  type : yaml;
  threshold : yaml;
  min_matches : yaml;
  modules : yaml;
  functions : yaml;
  extensions : yaml;
  inside_function : yaml;
  variable : yaml;
  expected_type : yaml;
  script : yaml
}.

Record ExplanationConditions := {
  exception_type : yaml;
  message_patterns : yaml;
  context_conditions : list ContextCondition
}.

Record ExplanationSuggestion := {
  template : yaml;
  suggestion_priority : yaml;
  suggestion_condition : yaml
}.

Record ExplanationExample := {
  example_id : yaml;
  example_description : yaml;
  code : yaml;
  example_condition : yaml
}.

Record ExplanationContent := {
  title : yaml;
  content_description : yaml;
  suggestions : list ExplanationSuggestion;
  examples : list ExplanationExample
}.

Record Explanation := {
  id : yaml;
  priority : yaml;
  conditions : ExplanationConditions;
  explanation : ExplanationContent
}.

Record ExplanationPack := {
  metadata : PackMetadata;
  explanations : list Explanation
}.

(** An entry of [self._validation_errors]: the f-string of the source and
    what it is filled with. *)
Inductive validation_error :=
| ErrorParsingExplanation (index : nat) (e : raised)
| NoValidExplanations (file_path : string)
| ValidationError (file_path : string) (e : raised).

(** The loop over the required fields. *)
Fixpoint require (fields : list string) (d : yaml) (missing : string -> raised)
  : attempt unit :=
  match fields with
  | [] => Done tt
  | field :: fields' =>
      try present <- py_in field d in
      if (present : bool) then require fields' d missing else Failed (missing field)
  end.

Definition metadata_fields : list string :=
  ["name"; "version"; "description"; "author"; "license"; "qinter_version"; "targets"].

Definition _parse_metadata (metadata_dict : yaml) : attempt PackMetadata :=
  try _ <- require metadata_fields metadata_dict
             (fun field => ValueError_ ("Missing required metadata field: " +:+ field)) in
  try name <- py_getitem metadata_dict "name" in
  try version <- py_getitem metadata_dict "version" in
  try description <- py_getitem metadata_dict "description" in
  try author <- py_getitem metadata_dict "author" in
  try license <- py_getitem metadata_dict "license" in
  try qinter_version <- py_getitem metadata_dict "qinter_version" in
  try targets <- py_getitem metadata_dict "targets" in
  try tags <- py_get metadata_dict "tags" (YList []) in
  try dependencies <- py_get metadata_dict "dependencies" (YList []) in
  try homepage <- py_get metadata_dict "homepage" YNone in
  try repository <- py_get metadata_dict "repository" YNone in
  Done {| name := name; version := version; description := description;
          author := author; license := license; qinter_version := qinter_version;
          targets := targets; tags := tags; dependencies := dependencies;
          homepage := homepage; repository := repository |}.

Definition parse_context_condition (cc_dict : yaml) : attempt ContextCondition :=
  try type <- py_getitem cc_dict "type" in
  try threshold <- py_get cc_dict "threshold" YNone in
  try min_matches <- py_get cc_dict "min_matches" YNone in
  try modules <- py_get cc_dict "modules" YNone in
  try functions <- py_get cc_dict "functions" YNone in
  try extensions <- py_get cc_dict "extensions" YNone in
  try inside_function <- py_get cc_dict "inside_function" YNone in
  try variable <- py_get cc_dict "variable" YNone in
  try expected_type <- py_get cc_dict "expected_type" YNone in
  try script <- py_get cc_dict "script" YNone in
  Done {| type := type; threshold := threshold; min_matches := min_matches;
          modules := modules; functions := functions; extensions := extensions;
          inside_function := inside_function; variable := variable;
          expected_type := expected_type; script := script |}.

(** A loop that builds one object for each element and appends it. *)
Fixpoint each {A} (parse : yaml -> attempt A) (items : list yaml) : attempt (list A) :=
  match items with
  | [] => Done []
  | item :: items' =>
      try x <- parse item in
      try rest <- each parse items' in
      Done (x :: rest)
  end.

Definition _parse_conditions (conditions_dict : yaml) : attempt ExplanationConditions :=
  try given <- py_in "context_conditions" conditions_dict in
  try context_conditions <-
    (if (given : bool) then
       try listed <- py_getitem conditions_dict "context_conditions" in
       try items <- py_iter listed in
       each parse_context_condition items
     else Done []) in
  try exception_type <- py_getitem conditions_dict "exception_type" in
  try message_patterns <- py_getitem conditions_dict "message_patterns" in
  Done {| exception_type := exception_type; message_patterns := message_patterns;
          context_conditions := context_conditions |}.

Definition parse_suggestion (sugg_dict : yaml) : attempt ExplanationSuggestion :=
  try template <- py_getitem sugg_dict "template" in
  try priority <- py_getitem sugg_dict "priority" in
  try condition <- py_get sugg_dict "condition" (YStr "always") in
  Done {| template := template; suggestion_priority := priority;
          suggestion_condition := condition |}.

Definition parse_example (ex_dict : yaml) : attempt ExplanationExample :=
  try id <- py_getitem ex_dict "id" in
  try description <- py_getitem ex_dict "description" in
  try code <- py_getitem ex_dict "code" in
  try condition <- py_get ex_dict "condition" (YStr "always") in
  Done {| example_id := id; example_description := description; code := code;
          example_condition := condition |}.

Definition _parse_explanation_content (content_dict : yaml) : attempt ExplanationContent :=
  try listed <- py_get content_dict "suggestions" (YList []) in
  try items <- py_iter listed in
  try suggestions <- each parse_suggestion items in
  try listed <- py_get content_dict "examples" (YList []) in
  try items <- py_iter listed in
  try examples <- each parse_example items in
  try title <- py_getitem content_dict "title" in
  try description <- py_getitem content_dict "description" in
  Done {| title := title; content_description := description;
          suggestions := suggestions; examples := examples |}.

Definition explanation_fields : list string := ["id"; "priority"; "conditions"; "explanation"].

(** The body of the [try] statement of [_parse_explanation]. *)
Definition parse_explanation_body (exp_dict : yaml) (index : nat) : attempt Explanation :=
  try _ <- require explanation_fields exp_dict
             (fun field => ValueError_ ("Missing required explanation field: " +:+ field
                                         +:+ " (explanation "
                                         +:+ str_of_int (Z.of_nat index) +:+ ")")) in
  try conditions_dict <- py_getitem exp_dict "conditions" in
  try conditions <- _parse_conditions conditions_dict in
  try content_dict <- py_getitem exp_dict "explanation" in
  try explanation_content <- _parse_explanation_content content_dict in
  try id <- py_getitem exp_dict "id" in
  try priority <- py_getitem exp_dict "priority" in
  Done {| id := id; priority := priority; conditions := conditions;
          explanation := explanation_content |}.

(** [_parse_explanation]: what it returns, and what it appends to the
    validation errors. *)
Definition _parse_explanation (exp_dict : yaml) (index : nat)
  : option Explanation * list validation_error :=
  match parse_explanation_body exp_dict index with
  | Done explanation => (Some explanation, [])
  | Failed e => (None, [ErrorParsingExplanation index e])
  end.

(** The loop of [_parse_and_validate] over [enumerate(explanations_list)]. *)
Fixpoint parse_each (items : list yaml) (index : nat)
  : list Explanation * list validation_error :=
  match items with
  | [] => ([], [])
  | exp_dict :: items' =>
      let '(explanation, errors) := _parse_explanation exp_dict index in
      let '(explanations, errors') := parse_each items' (S index) in
      (match explanation with
       | Some explanation => explanation :: explanations
       | None => explanations
       end, errors ++ errors')
  end.

(** [_parse_and_validate]: what it returns, and what it appends to the
    validation errors. Once the loop over the explanations has begun
    nothing raises any more. *)
Definition _parse_and_validate (raw_data : yaml) (file_path : string)
  : option ExplanationPack * list validation_error :=
  match (try metadata_dict <- py_get raw_data "metadata" (YDict []) in
         try metadata <- _parse_metadata metadata_dict in
         try explanations_list <- py_get raw_data "explanations" (YList []) in
         try items <- py_iter explanations_list in
         Done (metadata, items)) with
  | Failed e => (None, [ValidationError file_path e])
  | Done (metadata, items) =>
      let '(explanations, errors) := parse_each items 0 in
      match explanations with
      | [] => (None, errors ++ [NoValidExplanations file_path])
      | _ :: _ => (Some {| metadata := metadata; explanations := explanations |}, errors)
      end
  end.

End Loader.

(* ===================================================================== *)
(** * qinter/packages/manager.py: the check of a pack's data             *)
(* ===================================================================== *)

Module Manager.
Import Loader.

(** What [_validate_pack_data] raises: its own PackageError, by the part
    of the pack it misses and with the pack's name for the message, or an
    exception of the interpreter. *)
Inductive invalid :=
| MissingMetadataSection (pack_name : string)
| MissingRequiredField (pack_name field : string)
| MissingExplanationsSection (pack_name : string)
| ExplanationsNotAList (pack_name : string)
| NoExplanation (pack_name : string)
| Interpreter (e : raised).

Definition required_fields : list string :=
  ["name"; "version"; "description"; "author"; "targets"].

(** The loop over the required fields. *)
Fixpoint require_fields (fields : list string) (metadata : yaml) (pack_name : string)
  : invalid + unit :=
  match fields with
  | [] => inr tt
  | field :: fields' =>
      match py_in field metadata with
      | Done true => require_fields fields' metadata pack_name
      | Done false => inl (MissingRequiredField pack_name field)
      | Failed e => inl (Interpreter e)
      end
  end.

(** [_validate_pack_data]: [inr tt] when it returns. *)
Definition _validate_pack_data (pack_data : yaml) (pack_name : string) : invalid + unit :=
  match py_in "metadata" pack_data with
  | Failed e => inl (Interpreter e)
  | Done false => inl (MissingMetadataSection pack_name)
  | Done true =>
      match py_getitem pack_data "metadata" with
      | Failed e => inl (Interpreter e)
      | Done metadata =>
          match require_fields required_fields metadata pack_name with
          | inl e => inl e
          | inr _ =>
              match py_in "explanations" pack_data with
              | Failed e => inl (Interpreter e)
              | Done false => inl (MissingExplanationsSection pack_name)
              | Done true =>
                  match py_getitem pack_data "explanations" with
                  | Failed e => inl (Interpreter e)
                  | Done (YList []) => inl (NoExplanation pack_name)
                  | Done (YList (_ :: _)) => inr tt
                  | Done _ => inl (ExplanationsNotAList pack_name)
                  end
              end
          end
      end
  end.

End Manager.

(* ===================================================================== *)
(** * A reference runtime

    Executable definitions of the [PyRuntime] operations, used to evaluate
    the model on concrete inputs. The properties below hold for every
    runtime; this one follows CPython on the inputs described at each
    definition. *)
(* ===================================================================== *)

Module Reference.

(* --------------------------------------------------------------------- *)
(** ** [float(s)] *)

(** The binary64 nearest to [p / q] (ties to even), for positive [p], [q]. *)
Definition round_ratio (negative : bool) (p q : positive) : spec_float :=
  SFdiv 53 1024 (S754_finite negative p 0) (S754_finite false q 0).

(** The binary64 nearest to [m * 10^e]. *)
Definition round_decimal (negative : bool) (m : Z) (e : Z) : spec_float :=
  match m with
  | Z.pos p =>
      if 0 <=? e
      then round_ratio negative (p * Z.to_pos (10 ^ e)) 1
      else round_ratio negative p (Z.to_pos (10 ^ (- e)))
  | _ => S754_zero negative
  end.

(** A run of digits in which single underscores may separate digits: the
    digits read, and the rest of the text. *)
Fixpoint scan_digits (s : string) (prev_digit : bool) : string * string :=
  match s with
  | String c s' =>
      if is_digit c then
        let '(ds, rest) := scan_digits s' true in (String c ds, rest)
      else if Ascii.eqb c "_" && prev_digit then
        match s' with
        | String d _ => if is_digit d then scan_digits s' false else (EmptyString, s)
        | EmptyString => (EmptyString, s)
        end
      else (EmptyString, s)
  | EmptyString => (EmptyString, s)
  end.

Fixpoint digits_value (s : string) (acc : Z) : Z :=
  match s with
  | String c s' => digits_value s' (10 * acc + digit_value c)
  | EmptyString => acc
  end.

(** The exponent part: empty, or [e], an optional sign and digits. *)
Definition scan_exponent (s : string) : option Z :=
  match s with
  | EmptyString => Some 0
  | String c s' =>
      if Ascii.eqb (lower_char c) "e" then
        let '(negative, s'') :=
          match s' with
          | String "-" t => (true, t)
          | String "+" t => (false, t)
          | _ => (false, s')
          end in
        match scan_digits s'' false with
        | (String d ds, EmptyString) =>
            let n := digits_value (String d ds) 0 in
            Some (if negative then - n else n)
        | _ => None
        end
      else None
  end.

Definition parse_unsigned (negative : bool) (s : string) : option spec_float :=
  let l := lower s in
  if String.eqb l "inf" || String.eqb l "infinity" then Some (S754_infinity negative)
  else if String.eqb l "nan" then Some S754_nan
  else
    let '(int_part, rest) := scan_digits s false in
    let '(frac_part, rest) :=
      match rest with
      | String "." rest' => scan_digits rest' false
      | _ => (EmptyString, rest)
      end in
    if String.eqb (int_part +:+ frac_part) EmptyString then None
    else
      match scan_exponent rest with
      | Some e =>
          let m := digits_value (int_part +:+ frac_part) 0 in
          Some (round_decimal negative m (e - Z.of_nat (String.length frac_part)))
      | None => None
      end.

(** [float(s)]: decimal and exponent notation, [inf], [infinity], [nan]. *)
Definition float_of_str (s : string) : option float :=
  option_map SF2Prim
    match strip s with
    | String "-" s' => parse_unsigned true s'
    | String "+" s' => parse_unsigned false s'
    | s' => parse_unsigned false s'
    end.

(* --------------------------------------------------------------------- *)
(** ** [format(x, spec)] and [str(x)] for a float *)

(** The value [m * 2^e] as a fraction. *)
Definition fraction (m : positive) (e : Z) : Z * Z :=
  if 0 <=? e then (Z.pos m * 2 ^ e, 1) else (Z.pos m, 2 ^ (- e)).

(** [num / den * 10^k] as a fraction. *)
Definition scale10 (x : Z * Z) (k : Z) : Z * Z :=
  let '(num, den) := x in
  if 0 <=? k then (num * 10 ^ k, den) else (num, den * 10 ^ (- k)).

(** The integer nearest to a fraction, ties to even. *)
Definition round_half_even (x : Z * Z) : Z :=
  let '(num, den) := x in
  let q := num / den in
  let r := num mod den in
  match 2 * r ?= den with
  | Lt => q
  | Gt => q + 1
  | Eq => if Z.even q then q else q + 1
  end.

Fixpoint zeros (n : nat) : string :=
  match n with
  | O => EmptyString
  | S n' => String "0" (zeros n')
  end.

(** The digits of [r] with a point before the last [n] of them. *)
Definition place_point (r : Z) (n : nat) : string :=
  let ds := str_of_int r in
  let ds := zeros (S n - String.length ds) +:+ ds in
  let k := (String.length ds - n)%nat in
  if Nat.eqb n 0 then ds
  else String.substring 0 k ds +:+ "." +:+ String.substring k n ds.

(** [format(x, '.<n>f')] *)
Definition format_fixed (x : float) (n : nat) : string :=
  match Prim2SF x with
  | S754_nan => "nan"
  | S754_infinity negative => if negative then "-inf" else "inf"
  | S754_zero negative => (if negative then "-" else "") +:+ place_point 0 n
  | S754_finite negative m e =>
      let r := round_half_even (scale10 (fraction m e) (Z.of_nat n)) in
      (if negative then "-" else "") +:+ place_point r n
  end.

Fixpoint all_digits (s : string) : bool :=
  match s with
  | EmptyString => true
  | String c s' => is_digit c && all_digits s'
  end.

(** [format(x, spec)] for the specs the renderer builds: a point, a
    precision and [f] or [%]. A precision that is missing or signed is a
    ValueError, as is one that does not fit a C int. *)
Definition format_float (x : float) (spec : string) : option string :=
  match spec with
  | String "." rest =>
      let n := (String.length rest - 1)%nat in
      let precision := String.substring 0 n rest in
      let kind := String.substring n 1 rest in
      if String.eqb precision EmptyString || negb (all_digits precision) then None
      else
        let p := digits_value precision 0 in
        if 2147483647 <? p then None
        else if String.eqb kind "f" then Some (format_fixed x (Z.to_nat p))
        else if String.eqb kind "%"
        then Some (format_fixed (x * 100)%float (Z.to_nat p) +:+ "%")
        else None
  | _ => None
  end.

(** The largest [k] with [10^k <= num / den], for a positive fraction:
    the binary logarithm places it within one of the estimate. *)
Definition decimal_exponent (x : Z * Z) : Z :=
  let '(num, den) := x in
  let est := (Z.log2 num - Z.log2 den) * 30103 / 100000 in
  let fits k := let '(n, d) := scale10 x (- k) in d <=? n in
  if fits (est + 1) then est + 1
  else if fits est then est
  else if fits (est - 1) then est - 1
  else est - 2.

(** The shortest decimal [digits * 10^k] with at most [n] digits that
    [float] reads back as [x], for positive finite [x]: of the two
    [n]-digit decimals around [x], the nearer one that reads back. *)
Definition shortest_with (x : float) (frac : Z * Z) (e10 : Z) (n : Z) : option (Z * Z) :=
  let k := e10 - (n - 1) in
  let '(num, den) := scale10 frac (- k) in
  let lo := num / den in
  let r := num mod den in
  let reads_back c := PrimFloat.eqb (SF2Prim (round_decimal false c k)) x in
  let lo_ok := reads_back lo in
  let hi_ok := negb (r =? 0) && reads_back (lo + 1) in
  let prefer_lo :=
    match 2 * r ?= den with
    | Lt => true
    | Gt => false
    | Eq => Z.even lo
    end in
  if lo_ok && (prefer_lo || negb hi_ok) then Some (lo, k)
  else if hi_ok then Some (lo + 1, k)
  else None.

Fixpoint shortest_from (fuel : nat) (x : float) (frac : Z * Z) (e10 : Z) (n : Z)
  : Z * Z :=
  match fuel with
  | O => (round_half_even (scale10 frac (- (e10 - 16))), e10 - 16)
  | S fuel' =>
      match shortest_with x frac e10 n with
      | Some r => r
      | None => shortest_from fuel' x frac e10 (n + 1)
      end
  end.

Fixpoint drop_trailing_zeros (fuel : nat) (d k : Z) : Z * Z :=
  match fuel with
  | O => (d, k)
  | S fuel' => if (d mod 10 =? 0) && negb (d =? 0)
               then drop_trailing_zeros fuel' (d / 10) (k + 1) else (d, k)
  end.

(** [repr] of the digits [d] times [10^k]: positional notation when the
    decimal point falls within -4 .. 16 digits, else exponent notation. *)
Definition layout (d k : Z) : string :=
  let ds := str_of_int d in
  let nd := Z.of_nat (String.length ds) in
  let decpt := nd + k in
  if (decpt <=? -4) || (16 <? decpt) then
    let e := decpt - 1 in
    let mantissa :=
      match ds with
      | String c EmptyString => String c EmptyString
      | String c rest => String c ("." +:+ rest)
      | EmptyString => EmptyString
      end in
    let es := str_of_int (Z.abs e) in
    let es := if Z.abs e <? 10 then String "0" es else es in
    mantissa +:+ "e" +:+ (if e <? 0 then "-" else "+") +:+ es
  else if decpt <=? 0 then "0." +:+ zeros (Z.to_nat (- decpt)) +:+ ds
  else if nd <=? decpt then ds +:+ zeros (Z.to_nat (decpt - nd)) +:+ ".0"
  else String.substring 0 (Z.to_nat decpt) ds +:+ "."
       +:+ String.substring (Z.to_nat decpt) (Z.to_nat (nd - decpt)) ds.

(** [str(x)] and [repr(x)] *)
Definition repr_float (x : float) : string :=
  match Prim2SF x with
  | S754_nan => "nan"
  | S754_infinity negative => if negative then "-inf" else "inf"
  | S754_zero negative => if negative then "-0.0" else "0.0"
  | S754_finite negative m e =>
      let frac := fraction m e in
      let '(d, k) := shortest_from 17 (abs x) frac (decimal_exponent frac) 1 in
      let '(d, k) := drop_trailing_zeros 400 d k in
      (if negative then "-" else "") +:+ layout d k
  end.

(* --------------------------------------------------------------------- *)
(** ** [difflib], for sequences shorter than 200 characters (longer ones
    bring in the automatic junk heuristic) *)

Fixpoint common_prefix (x y : list ascii) : nat :=
  match x, y with
  | a :: x', b :: y' => if Ascii.eqb a b then S (common_prefix x' y') else O
  | _, _ => O
  end.

(** The longest block that starts [x] and starts at position [>= j] of
    the second sequence, the earliest among the longest. *)
Fixpoint best_in_b (x b : list ascii) (j : nat) (best : nat * nat) : nat * nat :=
  match b with
  | [] => best
  | _ :: b' =>
      let k := common_prefix x b in
      best_in_b x b' (S j) (if Nat.ltb (fst best) k then (k, j) else best)
  end.

(** [find_longest_match]: [(i, j, k)] with [a[i:i+k] == b[j:j+k]], [k]
    largest, then [i] smallest, then [j] smallest. *)
Fixpoint longest_from (a b : list ascii) (i : nat) (best : nat * nat * nat)
  : nat * nat * nat :=
  match a with
  | [] => best
  | _ :: a' =>
      let '(k, j) := best_in_b a b O (O, O) in
      longest_from a' b (S i) (if Nat.ltb (snd best) k then (i, j, k) else best)
  end.

(** The total size of [get_matching_blocks]. *)
Fixpoint matching (fuel : nat) (a b : list ascii) : nat :=
  match fuel with
  | O => O
  | S fuel' =>
      let '(i, j, k) := longest_from a b O (O, O, O) in
      if Nat.eqb k O then O
      else (k + matching fuel' (take i a) (take j b)
              + matching fuel' (drop (i + k) a) (drop (j + k) b))%nat
  end.

Definition float_of_nat (n : nat) : float := SF2Prim (binary_normalize 53 1024 (Z.of_nat n) 0 false).

(** [SequenceMatcher(None, a, b).ratio()] *)
Definition ratio (a b : string) : float :=
  let la := list_ascii_of_string a in
  let lb := list_ascii_of_string b in
  let total := (length la + length lb)%nat in
  if Nat.eqb total O then 1%float
  else (float_of_nat (2 * matching (S (length la)) la lb) / float_of_nat total)%float.

(** [(s1, x1) > (s2, x2)] on tuples of a score and a string. *)
Definition scored_gt (p q : float * string) : bool :=
  PrimFloat.ltb (fst q) (fst p)
  || (PrimFloat.eqb (fst p) (fst q) && String.ltb (snd q) (snd p)).

Fixpoint insert_scored (p : float * string) (l : list (float * string)) :=
  match l with
  | [] => [p]
  | q :: l' => if scored_gt q p then q :: insert_scored p l' else p :: q :: l'
  end.

(** [get_close_matches(word, possibilities, n, cutoff)] *)
Definition close_matches (word : string) (possibilities : list string)
    (n : nat) (cutoff : float) : list string :=
  let scored := map (fun x => (ratio x word, x)) possibilities in
  let kept := List.filter (fun p => PrimFloat.leb cutoff (fst p)) scored in
  map snd (take n (foldr insert_scored [] kept)).

(* --------------------------------------------------------------------- *)
(** ** [re.search] with [re.IGNORECASE], for a fragment of the syntax

    The parser follows [re._parser]: alternation, capturing and
    non-capturing groups, the repetitions [* + ?] and [{m,n}] with their
    lazy forms, character sets with ranges and classes, the escapes for
    classes, positions, control characters, hexadecimal and octal codes,
    and the anchors. What a pattern matches is decided for subjects of code
    points below 256. Backreferences, look-around, named and conditional
    groups, inline flags, possessive repetition and the escapes [\u], [\U]
    and [\N] are outside the fragment, as are groups nested deeper than
    [max_depth]: for such a pattern the engine answers [not_read], an
    exception of its own that Python does not raise, and nothing below is
    stated at such a pattern. *)

Definition upper_char (c : ascii) : ascii :=
  let n := N_of_ascii c in
  if (((97 <=? n) && (n <=? 122))
      || ((224 <=? n) && (n <=? 254) && negb (n =? 247)))%N
  then ascii_of_N (n - 32) else c.

(** A class read without regard to case. *)
Definition fold_case (p : ascii -> bool) (c : ascii) : bool :=
  p c || p (lower_char c) || p (upper_char c).

(** [\w] for code points below 256: what [str.isalnum] accepts, and the
    underscore. *)
Definition is_word (c : ascii) : bool :=
  let n := N_of_ascii c in
  (((48 <=? n) && (n <=? 57)) || ((65 <=? n) && (n <=? 90)) || (n =? 95)
   || ((97 <=? n) && (n <=? 122)) || (n =? 170) || ((178 <=? n) && (n <=? 179))
   || (n =? 181) || ((185 <=? n) && (n <=? 186)) || ((188 <=? n) && (n <=? 190))
   || ((192 <=? n) && (n <=? 214)) || ((216 <=? n) && (n <=? 246))
   || (248 <=? n))%N.

(** The tokenizer of [re]: a character, or a backslash with the character
    behind it; a backslash that ends the pattern is an error that is raised
    when the token before it is taken. *)
Inductive token :=
| TChar (c : ascii)
| TEsc (c : ascii)
| TDangling.

Fixpoint tokenize (s : string) : list token :=
  match s with
  | EmptyString => []
  | String "\" EmptyString => [TDangling]
  | String "\" (String c rest) => TEsc c :: tokenize rest
  | String c rest => TChar c :: tokenize rest
  end.

Inductive anchor := AtStart | AtEndLine | AtEndString | AtBoundary | AtNotBoundary.

(** A pattern as far as it decides whether there is a match: groups
    capture nothing that is read again, and a lazy repetition matches
    where a greedy one does. *)
Inductive rx :=
| Eps
| Chr (p : ascii -> bool)
| At (a : anchor)
| Cat (a b : rx)
| Alt (a b : rx)
| Grp (a : rx)
| Rpt (a : rx) (lo : N) (hi : option N).

Inductive parsed (A : Type) :=
| Parsed (a : A)
| BadPattern                (* re.error *)
| Raises (e : exn)          (* an exception that is not re.error *)
| Unread.                   (* syntax that this engine does not read *)
Arguments Parsed {A} a.
Arguments BadPattern {A}.
Arguments Raises {A} e.
Arguments Unread {A}.

Definition and_then {A B} (c : parsed A) (k : A -> parsed B) : parsed B :=
  match c with
  | Parsed a => k a
  | BadPattern => BadPattern
  | Raises e => Raises e
  | Unread => Unread
  end.

Local Notation "'read' x <- c 'in' k" := (and_then c (fun x => k))
  (at level 10, x name, c at level 100, k at level 200).

Local Notation "'read' x 'with' r <- c 'in' k" :=
  (and_then c (fun found => let '(x, r) := found in k))
  (at level 10, x name, r name, c at level 100, k at level 200).

Definition stuck (ts : list token) : bool :=
  match ts with
  | TDangling :: _ => true
  | _ => false
  end.

(** [source.get()] where a token is there. *)
Definition taken {A} (rest : list token) (a : A) : parsed (A * list token) :=
  if stuck rest then BadPattern else Parsed (a, rest).

(** [source.match(c)] *)
Definition sourcematch (c : ascii) (ts : list token) : parsed (bool * list token) :=
  match ts with
  | TChar d :: rest => if Ascii.eqb c d then taken rest true else Parsed (false, ts)
  | _ => Parsed (false, ts)
  end.

(** [source.getwhile(n, charset)] *)
Fixpoint getwhile (n : nat) (charset : ascii -> bool) (ts : list token)
  : parsed (string * list token) :=
  match n with
  | O => Parsed (EmptyString, ts)
  | S n' =>
      match ts with
      | TChar c :: rest =>
          if charset c then
            read skipped with rest <- taken rest tt in
            read s with rest <- getwhile n' charset rest in
            Parsed (String c s, rest)
          else Parsed (EmptyString, ts)
      | _ => Parsed (EmptyString, ts)
      end
  end.

Definition is_oct (c : ascii) : bool :=
  let n := N_of_ascii c in ((48 <=? n) && (n <=? 55))%N.

Definition is_hex (c : ascii) : bool :=
  let n := N_of_ascii c in
  (((48 <=? n) && (n <=? 57)) || ((65 <=? n) && (n <=? 70)) || ((97 <=? n) && (n <=? 102)))%N.

Definition is_ascii_letter (c : ascii) : bool :=
  let n := N_of_ascii c in (((65 <=? n) && (n <=? 90)) || ((97 <=? n) && (n <=? 122)))%N.

Definition hex_value (c : ascii) : N :=
  let n := N_of_ascii c in
  if (n <=? 57)%N then n - 48 else if (n <=? 70)%N then n - 55 else n - 87.

Fixpoint number (base : N) (s : string) (acc : N) : N :=
  match s with
  | EmptyString => acc
  | String c s' => number base s' (base * acc + hex_value c)
  end.

(** One member of a set, or one item outside: a character or a class. *)
Inductive code :=
| CLit (c : ascii)
| CCat (p : ascii -> bool).

Definition category (c : ascii) : option (ascii -> bool) :=
  if Ascii.eqb c "d" then Some is_digit
  else if Ascii.eqb c "D" then Some (fun x => negb (is_digit x))
  else if Ascii.eqb c "s" then Some isspace
  else if Ascii.eqb c "S" then Some (fun x => negb (isspace x))
  else if Ascii.eqb c "w" then Some is_word
  else if Ascii.eqb c "W" then Some (fun x => negb (is_word x))
  else None.

(** The table [ESCAPES], without [\b]. *)
Definition control (c : ascii) : option ascii :=
  if Ascii.eqb c "a" then Some "007"%char
  else if Ascii.eqb c "f" then Some "012"%char
  else if Ascii.eqb c "n" then Some "010"%char
  else if Ascii.eqb c "r" then Some "013"%char
  else if Ascii.eqb c "t" then Some "009"%char
  else if Ascii.eqb c "v" then Some "011"%char
  else if Ascii.eqb c "\" then Some "\"%char
  else None.

Definition hex_escape (rest : list token) : parsed (ascii * list token) :=
  read digits with rest <- getwhile 2 is_hex rest in
  if Nat.eqb (String.length digits) 2
  then Parsed (ascii_of_N (number 16 digits 0), rest)
  else BadPattern.

(** [_class_escape] *)
Definition class_escape (c : ascii) (rest : list token) : parsed (code * list token) :=
  if Ascii.eqb c "b" then Parsed (CLit "008", rest)
  else
    match control c, category c with
    | Some l, _ => Parsed (CLit l, rest)
    | None, Some p => Parsed (CCat p, rest)
    | None, None =>
        if Ascii.eqb c "x" then
          read l with rest <- hex_escape rest in Parsed (CLit l, rest)
        else if Ascii.eqb c "u" || Ascii.eqb c "U" || Ascii.eqb c "N" then Unread
        else if is_oct c then
          read digits with rest <- getwhile 2 is_oct rest in
          let n := number 8 (String c digits) 0 in
          if (255 <? n)%N then BadPattern else Parsed (CLit (ascii_of_N n), rest)
        else if is_digit c || is_ascii_letter c then BadPattern
        else Parsed (CLit c, rest)
    end.

(** [_escape], as far as it gives a character, a class or a position. *)
Definition escape (c : ascii) (rest : list token) : parsed (rx * list token) :=
  let literal (l : ascii) := Chr (fold_case (Ascii.eqb l)) in
  if Ascii.eqb c "A" then Parsed (At AtStart, rest)
  else if Ascii.eqb c "Z" then Parsed (At AtEndString, rest)
  else if Ascii.eqb c "b" then Parsed (At AtBoundary, rest)
  else if Ascii.eqb c "B" then Parsed (At AtNotBoundary, rest)
  else
    match category c, control c with
    | Some p, _ => Parsed (Chr p, rest)
    | None, Some l => Parsed (literal l, rest)
    | None, None =>
        if Ascii.eqb c "x" then
          read l with rest <- hex_escape rest in Parsed (literal l, rest)
        else if Ascii.eqb c "u" || Ascii.eqb c "U" || Ascii.eqb c "N" then Unread
        else if Ascii.eqb c "0" then
          read digits with rest <- getwhile 2 is_oct rest in
          Parsed (literal (ascii_of_N (number 8 digits 0)), rest)
        else if is_digit c then Unread
        else if is_ascii_letter c then BadPattern
        else Parsed (literal c, rest)
    end.

Definition in_range (lo hi c : ascii) : bool :=
  ((N_of_ascii lo <=? N_of_ascii c) && (N_of_ascii c <=? N_of_ascii hi))%N.

Definition member (x : code) : ascii -> bool :=
  match x with
  | CLit l => Ascii.eqb l
  | CCat p => p
  end.

Definition either (p q : ascii -> bool) (c : ascii) : bool := p c || q c.

(** Whether the next token is the character [c]. *)
Definition next_is (c : ascii) (ts : list token) : bool :=
  match ts with
  | TChar d :: _ => Ascii.eqb c d
  | _ => false
  end.

Definition class_code (t : token) (rest : list token) : parsed (code * list token) :=
  match t with
  | TEsc c => class_escape c rest
  | TChar c => Parsed (CLit c, rest)
  | TDangling => BadPattern
  end.

(** The members of a set behind its opening bracket and caret; [set] is
    None as long as the set is empty. *)
Fixpoint parse_set (fuel : nat) (set : option (ascii -> bool)) (ts : list token)
  : parsed ((ascii -> bool) * list token) :=
  match fuel with
  | O => Unread
  | S fuel' =>
      let add (p : ascii -> bool) :=
        match set with
        | Some q => either q p
        | None => p
        end in
      match ts with
      | [] => BadPattern
      | this :: rest =>
          read skipped with rest <- taken rest tt in
          match set with
          | Some p => if next_is "]" ts then Parsed (p, rest) else
              parse_member fuel' add this ts rest
          | None => parse_member fuel' add this ts rest
          end
      end
  end
with parse_member (fuel : nat) (add : (ascii -> bool) -> ascii -> bool)
    (this : token) (ts rest : list token) {struct fuel}
  : parsed ((ascii -> bool) * list token) :=
  match fuel with
  | O => Unread
  | S fuel' =>
      read code1 with rest <- class_code this rest in
      read dash with rest <- sourcematch "-" rest in
      if (dash : bool) then
        match rest with
        | [] => BadPattern
        | that :: rest' =>
            read skipped with rest' <- taken rest' tt in
            if next_is "]" rest then
              Parsed (add (either (member code1) (Ascii.eqb "-")), rest')
            else
              read code2 with rest' <- class_code that rest' in
              match code1, code2 with
              | CLit lo, CLit hi =>
                  if (N_of_ascii hi <? N_of_ascii lo)%N then BadPattern
                  else parse_set fuel' (Some (add (in_range lo hi))) rest'
              | _, _ => BadPattern
              end
        end
      else parse_set fuel' (Some (add (member code1))) rest
  end.

Definition MAXREPEAT : Z := 4294967295.

(** [int(lo)] on a run of digits, and the check against [MAXREPEAT]. *)
Definition repeat_count (digits : string) : parsed N :=
  match int_of_str digits with
  | None => Raises ValueError
  | Some n => if n <? MAXREPEAT then Parsed (Z.to_N n) else Raises OverflowError
  end.

Fixpoint digit_run (fuel : nat) (ts : list token) : parsed (string * list token) :=
  match fuel with
  | O => Unread
  | S fuel' =>
      match ts with
      | TChar c :: rest =>
          if is_digit c then
            read skipped with rest <- taken rest tt in
            read s with rest <- digit_run fuel' rest in
            Parsed (String c s, rest)
          else Parsed (EmptyString, ts)
      | _ => Parsed (EmptyString, ts)
      end
  end.

(** What stands behind an opening brace: the bounds of a repetition, or
    nothing, and then the brace is a literal character. *)
Definition braces (ts : list token)
  : parsed (option (N * option N) * list token) :=
  if next_is "}" ts then Parsed (None, ts)
  else
      let fuel := S (length ts) in
      read lo with rest <- digit_run fuel ts in
      read comma with rest <- sourcematch "," rest in
      read hi with rest <-
        (if (comma : bool) then digit_run fuel rest else Parsed (lo, rest)) in
      read closed with rest <- sourcematch "}" rest in
      if (closed : bool) then
        read least <- (if String.eqb lo EmptyString then Parsed 0%N else repeat_count lo) in
        if String.eqb hi EmptyString then Parsed (Some (least, None), rest)
        else
          read most <- repeat_count hi in
          if (most <? least)%N then BadPattern
          else Parsed (Some (least, Some most), rest)
      else Parsed (None, ts).

(** The last item becomes a repetition. *)
Definition repeat_last (acc : list rx) (lo : N) (hi : option N) (rest : list token)
  : parsed (list rx * list token) :=
  match acc with
  | [] => BadPattern
  | At _ :: _ => BadPattern
  | Rpt _ _ _ :: _ => BadPattern
  | item :: acc' =>
      read lazy with rest <- sourcematch "?" rest in
      if (lazy : bool) then Parsed (Rpt item lo hi :: acc', rest)
      else
        read possessive with rest <- sourcematch "+" rest in
        if (possessive : bool) then Unread
        else Parsed (Rpt item lo hi :: acc', rest)
  end.

Definition sequence (acc : list rx) : rx :=
  fold_left (fun r item => Cat item r) acc Eps.

(** Groups nested deeper than this are not read. *)
Definition max_depth : nat := 16.

(** [_parse] and [_parse_sub]: [acc] holds the items read so far, the last
    one first. *)
Fixpoint parse_items (fuel : nat) (depth : nat) (acc : list rx) (ts : list token)
  : parsed (rx * list token) :=
  match fuel with
  | O => Unread
  | S fuel' =>
      let item (r : rx) (rest : list token) := parse_items fuel' depth (r :: acc) rest in
      let literal (c : ascii) := Chr (fold_case (Ascii.eqb c)) in
      let repeated (lo : N) (hi : option N) (rest : list token) :=
        read acc' with rest <- repeat_last acc lo hi rest in
        parse_items fuel' depth acc' rest in
      match ts with
      | [] => Parsed (sequence acc, ts)
      | this :: rest =>
          if next_is "|" ts || next_is ")" ts then Parsed (sequence acc, ts)
          else
            read skipped with rest <- taken rest tt in
            match this with
            | TDangling => BadPattern
            | TEsc c => read r with rest <- escape c rest in item r rest
            | TChar c =>
                if Ascii.eqb c "[" then
                  read negate with rest <- sourcematch "^" rest in
                  read p with rest <- parse_set (2 * length rest + 2) None rest in
                  item (Chr (if (negate : bool) then (fun c => negb (fold_case p c))
                             else fold_case p)) rest
                else if Ascii.eqb c "?" then repeated 0%N (Some 1%N) rest
                else if Ascii.eqb c "*" then repeated 0%N None rest
                else if Ascii.eqb c "+" then repeated 1%N None rest
                else if Ascii.eqb c "{" then
                  read bounds with rest <- braces rest in
                  match bounds with
                  | None => item (literal "{"%char) rest
                  | Some (lo, hi) => repeated lo hi rest
                  end
                else if Ascii.eqb c "." then item (Chr not_newline) rest
                else if Ascii.eqb c "^" then item (At AtStart) rest
                else if Ascii.eqb c "$" then item (At AtEndLine) rest
                else if Ascii.eqb c "(" then
                  read extension with rest <- sourcematch "?" rest in
                  read rest <-
                    (if (extension : bool) then
                       match rest with
                       | [] => BadPattern
                       | _ :: rest' =>
                           if next_is ":" rest
                           then read skipped with rest <- taken rest' tt in Parsed rest
                           else Unread
                       end
                     else Parsed rest) in
                  if Nat.leb max_depth depth then Unread
                  else
                    read r with rest <- parse_branches fuel' (S depth) rest in
                    read closed with rest <- sourcematch ")" rest in
                    if (closed : bool) then item (Grp r) rest else BadPattern
                else item (literal c) rest
            end
      end
  end
with parse_branches (fuel : nat) (depth : nat) (ts : list token)
  : parsed (rx * list token) :=
  match fuel with
  | O => Unread
  | S fuel' =>
      read first with rest <- parse_items fuel' depth [] ts in
      read more with rest <- sourcematch "|" rest in
      if (more : bool) then
        read others with rest <- parse_branches fuel' depth rest in
        Parsed (Alt first others, rest)
      else Parsed (first, rest)
  end.

(** [parse] *)
Definition parse (pattern : string) : parsed rx :=
  let ts := tokenize pattern in
  if stuck ts then BadPattern
  else
    read r with rest <- parse_branches (2 * length ts + 4) O ts in
    match rest with
    | [] => Parsed r
    | _ :: _ => BadPattern
    end.

Definition word_at (c : option ascii) : bool :=
  match c with
  | Some c => is_word c
  | None => false
  end.

Definition holds (a : anchor) (empty_subject : bool) (prev : option ascii) (s : string)
  : bool :=
  let next := match s with String c _ => Some c | EmptyString => None end in
  match a with
  | AtStart => match prev with None => true | Some _ => false end
  | AtEndLine => String.eqb s EmptyString || String.eqb s (String "010" EmptyString)
  | AtEndString => String.eqb s EmptyString
  | AtBoundary => negb empty_subject && xorb (word_at prev) (word_at next)
  | AtNotBoundary => negb empty_subject && negb (xorb (word_at prev) (word_at next))
  end.

(** Whether [r] matches at the start of [s], behind the character [prev],
    with [continue] for what follows. *)
Fixpoint run (r : rx) (empty_subject : bool) (prev : option ascii) (s : string)
    (continue : option ascii -> string -> bool) {struct r} : bool :=
  match r with
  | Eps => continue prev s
  | Chr p =>
      match s with
      | String c s' => p c && continue (Some c) s'
      | EmptyString => false
      end
  | At a => holds a empty_subject prev s && continue prev s
  | Cat a b =>
      run a empty_subject prev s (fun prev' s' => run b empty_subject prev' s' continue)
  | Alt a b =>
      run a empty_subject prev s continue || run b empty_subject prev s continue
  | Grp a => run a empty_subject prev s continue
  | Rpt a lo hi =>
      (fix loop (fuel : nat) (lo : N) (hi : option N) (prev : option ascii) (s : string)
         {struct fuel} : bool :=
         ((lo =? 0)%N && continue prev s)
         || match fuel with
            | O => false
            | S fuel' =>
                match hi with
                | Some 0%N => false
                | _ =>
                    run a empty_subject prev s
                      (fun prev' s' =>
                         if Nat.ltb (String.length s') (String.length s)
                         then loop fuel' (N.pred lo) (option_map N.pred hi) prev' s'
                         else if (lo =? 0)%N then false
                              else loop fuel' 0%N hi prev' s')
                end
            end) (S (S (String.length s))) lo hi prev s
  end.

Fixpoint search_from (r : rx) (empty_subject : bool) (prev : option ascii) (s : string)
  : bool :=
  run r empty_subject prev s (fun _ _ => true)
  || match s with
     | String c s' => search_from r empty_subject (Some c) s'
     | EmptyString => false
     end.

Definition not_read : exn := OtherError "pattern outside the fragment".

Definition search_ignorecase (pattern message : string) : re_outcome :=
  match parse pattern with
  | BadPattern => ReError
  | Raises e => ReRaises e
  | Unread => ReRaises not_read
  | Parsed r =>
      if search_from r (String.eqb message EmptyString) None message then ReMatch
      else ReNoMatch
  end.

Definition runtime : PyRuntime := {|
  re_search_ignorecase := search_ignorecase;
  py_float_of_str := float_of_str;
  py_repr_float := repr_float;
  py_format_float := format_float;
  get_close_matches := close_matches;
  sequence_ratio := ratio
|}.

End Reference.

(* ===================================================================== *)
(** * Sample inputs                                                      *)
(* ===================================================================== *)

Module Sample.

Definition condition_of_type (type : string) : ContextCondition :=
  {| cc_type := type; cc_threshold := None; cc_min_matches := None;
     cc_modules := None; cc_functions := None; cc_extensions := None;
     cc_inside_function := None; cc_variable := None;
     cc_expected_type := None; cc_script := None |}.

(** [- type: variable_similarity] with [threshold: 0.0] *)
Definition zero_threshold : ContextCondition :=
  {| cc_type := "variable_similarity"; cc_threshold := Some 0%float;
     cc_min_matches := Some 1;
     cc_modules := None; cc_functions := None; cc_extensions := None;
     cc_inside_function := None; cc_variable := None;
     cc_expected_type := None; cc_script := None |}.

(** [- type: variable_similarity] with [min_matches: 0] and a negative
    threshold *)
Definition zero_min_matches : ContextCondition :=
  {| cc_type := "variable_similarity"; cc_threshold := Some (-1)%float;
     cc_min_matches := Some 0;
     cc_modules := None; cc_functions := None; cc_extensions := None;
     cc_inside_function := None; cc_variable := None;
     cc_expected_type := None; cc_script := None |}.

(** A FactSet with one similar variable at score 0.5. *)
Definition half_similar : gmap string value :=
  <["similarity_score" := VFloat 0.5%float]>
    (<["similar_variables" := VList ["lst2"]]> ∅).

(** A FactSet with no similar variable. *)
Definition nothing_similar : gmap string value :=
  <["similarity_score" := VFloat 0%float]>
    (<["similar_variables" := VList []]> ∅).

Definition suggest (template : string) (priority : Z) (condition : string)
  : ExplanationSuggestion :=
  {| sugg_template := template; sugg_priority := priority; sugg_condition := condition |}.

Definition typo_rule : Explanation :=
  {| exp_id := "name_error_typo";
     exp_priority := 10;
     conditions :=
       {| exception_type := "NameError";
          message_patterns := ["name '.*' is not defined"];
          context_conditions := Some [condition_of_type "variable_similarity"] |};
     explanation :=
       {| title := "Undefined name '{variable_name}'";
          description := "  '{variable_name}' is not defined in {function_name}. ";
          suggestions :=
            [suggest "Define '{variable_name}' before using it" 3 "always";
             suggest "{if similar_variables_exist}Did you mean '{closest_variable}'?{endif}"
                     1 "always";
             suggest "Import the module first" 2 "looks_like_import"];
          examples := [] |} |}.

Definition generic_rule : Explanation :=
  {| exp_id := "name_error_generic";
     exp_priority := 5;
     conditions :=
       {| exception_type := "NameError";
          message_patterns := ["(unclosed"; "NOT defined"];
          context_conditions := None |};
     explanation :=
       {| title := "Undefined name";
          description := "The name {variable_name} does not exist";
          suggestions := [suggest "Check the spelling" 1 "always"];
          examples := [] |} |}.

Definition type_rule : Explanation :=
  {| exp_id := "type_error_operand";
     exp_priority := 10;
     conditions :=
       {| exception_type := "TypeError";
          message_patterns := ["unsupported operand"];
          context_conditions := None |};
     explanation :=
       {| title := "Cannot apply {operation} to {type1} and {type2}";
          description := "The operands have types that do not go together";
          suggestions := [];
          examples := [] |} |}.

(** A rule whose first pattern asks for [2**32] repetitions, which
    [re.search] answers with OverflowError; its second pattern occurs in
    the message of a NameError. *)
Definition overflow_rule : Explanation :=
  {| exp_id := "name_error_repeated";
     exp_priority := 10;
     conditions :=
       {| exception_type := "NameError";
          message_patterns := ["a{4294967296}"; "not defined"];
          context_conditions := None |};
     explanation :=
       {| title := "Undefined name";
          description := "The name {variable_name} does not exist";
          suggestions := [];
          examples := [] |} |}.

Definition core_pack : ExplanationPack :=
  {| metadata :=
       {| meta_name := "core-python"; meta_version := "1.0.0";
          meta_description := "Core explanations"; meta_author := "qinter";
          meta_license := "MIT"; meta_qinter_version := ">=0.1.0";
          meta_targets := ["NameError"; "TypeError"];
          meta_tags := Some []; meta_dependencies := Some [];
          meta_homepage := None; meta_repository := None |};
     explanations := [generic_rule; type_rule; typo_rule];
     file_path := Some "core.yaml" |}.

Definition overflow_pack : ExplanationPack :=
  {| metadata := metadata core_pack;
     explanations := [overflow_rule];
     file_path := Some "repeated.yaml" |}.

(** [NameError("name 'lst' is not defined")] *)
Definition name_error : PyException :=
  {| exc_type_name := "NameError"; exc_str := "name 'lst' is not defined";
     exc_is_TypeError := false; exc_is_ValueError := false |}.

Definition context : Context :=
  {| traceback_info := [{| frame_function_name := Some "<module>" |}];
     file_context := {| fc_filename := Some "script.py"; fc_error_line := Some 3 |};
     local_variables :=
       list_to_map [("lst2", VList []); ("other", VInt 1); ("list_of_items", VList []);
                    ("_private", VNone); ("x", VInt 0); ("__name__", VStr "__main__")] |}.

(** [ValueError("too many values to unpack (expected 11...1)")], the count
    written with 4301 digits. *)
Definition long_count_error : PyException :=
  {| exc_type_name := "ValueError";
     exc_str := "too many values to unpack (expected "
                +:+ string_of_list_ascii (repeat "1"%char 4301) +:+ ")";
     exc_is_TypeError := false; exc_is_ValueError := true |}.

(** The FactSet of [name_error] in [context], under the reference runtime. *)
Definition facts : gmap string value :=
  match @ContextAnalyzer.analyze Reference.runtime name_error context with
  | Ok facts => facts
  | Raise _ => ∅
  end.

(** The loader finds the core pack; the packages directory cannot be
    created (the home directory is read-only). *)
Definition unwritable_home : Engine.Collaborators :=
  {| Engine.load_core_packs := Ok [core_pack];
     Engine.packages_dir_exists := Raise OSError;
     Engine.load_packs_from_directory := Ok [] |}.

(** The packages directory is gone by the time [exists()] looks. *)
Definition missing_directory : Engine.Collaborators :=
  {| Engine.load_core_packs := Ok [core_pack];
     Engine.packages_dir_exists := Ok false;
     Engine.load_packs_from_directory := Ok [] |}.

Definition healthy : Engine.Collaborators :=
  {| Engine.load_core_packs := Ok [core_pack];
     Engine.packages_dir_exists := Ok true;
     Engine.load_packs_from_directory := Ok [] |}.

(** [NameError("name 'ab' is not defined")] where [abcdef] is in scope:
    the two names share 2 of their 8 characters, a ratio of 0.5. *)
Definition near_miss_error : PyException :=
  {| exc_type_name := "NameError"; exc_str := "name 'ab' is not defined";
     exc_is_TypeError := false; exc_is_ValueError := false |}.

Definition near_miss_context : Context :=
  {| traceback_info := [];
     file_context := {| fc_filename := None; fc_error_line := None |};
     local_variables := list_to_map [("abcdef", VInt 1)] |}.

Definition near_miss_facts : gmap string value :=
  match @ContextAnalyzer.analyze Reference.runtime near_miss_error near_miss_context with
  | Ok facts => facts
  | Raise _ => ∅
  end.

(** What a search returned, without the FactSet: the rule's id and the
    pack's name. *)
Definition found_rule
    (r : result (option (Explanation * ExplanationPack * gmap string value)))
  : option (string * string) :=
  match r with
  | Ok (Some (entry, pack, _)) => Some (exp_id entry, meta_name (metadata pack))
  | _ => None
  end.

(** A FactSet for a misspelt builtin with nothing similar in scope. *)
Definition no_similar : gmap string value :=
  <["variable_name" := VStr "pirnt"]>
    (<["similar_variables_exist" := VBool false]>
       (<["looks_like_import" := VBool false]> ∅)).

(** A FactSet with a similar variable. *)
Definition one_similar : gmap string value :=
  <["variable_name" := VStr "lst"]>
    (<["closest_variable" := VStr "lst2"]>
       (<["similar_variables_exist" := VBool true]>
          (<["similarity_score" := VFloat 0x1.b6db6db6db6dbp-1%float]>
             (<["looks_like_import" := VBool false]>
                (<["line_number" := VInt 3]>
                   (<["bad_value" := VStr "12abc"]> ∅)))))).

(** [NameError("name 'pirnt' is not defined")] *)
Definition typo_error : PyException :=
  {| exc_type_name := "NameError"; exc_str := "name 'pirnt' is not defined";
     exc_is_TypeError := false; exc_is_ValueError := false |}.

Definition typo_facts : gmap string value :=
  match @ContextAnalyzer.analyze Reference.runtime typo_error context with
  | Ok facts => facts
  | Raise _ => ∅
  end.

(** An engine that is initialized and has no rule. *)
Definition empty_engine : Engine.EngineState :=
  {| Engine._initialized := true; Engine.loaded_explanations := [] |}.

(** What [explain] returned: the title and the suggestions. *)
Definition explained
    (r : result (Engine.EngineState * option TemplateRenderer.Rendered))
  : option (string * list string) :=
  match r with
  | Ok (_, Some rendered) =>
      Some (TemplateRenderer.rendered_title rendered,
            TemplateRenderer.rendered_suggestions rendered)
  | _ => None
  end.

(** [ValueError("not enough values to unpack (expected 3, got 2)")] *)
Definition unpack_error : PyException :=
  {| exc_type_name := "ValueError";
     exc_str := "not enough values to unpack (expected 3, got 2)";
     exc_is_TypeError := false; exc_is_ValueError := true |}.

(** [TypeError("unsupported operand type(s) for +: 'int' and 'str'")] *)
Definition operand_error : PyException :=
  {| exc_type_name := "TypeError";
     exc_str := "unsupported operand type(s) for +: 'int' and 'str'";
     exc_is_TypeError := true; exc_is_ValueError := false |}.

(** [TypeError("'int' object is not callable")] *)
Definition callable_error : PyException :=
  {| exc_type_name := "TypeError"; exc_str := "'int' object is not callable";
     exc_is_TypeError := true; exc_is_ValueError := false |}.

(** Three examples: one that is shown, one whose condition does not hold,
    one whose code renders to nothing. *)
Definition some_examples : list ExplanationExample :=
  [{| ex_id := "fix_typo"; ex_description := "Use the name that exists";
      ex_code := "print({closest_variable})"; ex_condition := "similar_variables_exist" |};
   {| ex_id := "import_it"; ex_description := "Import the module";
      ex_code := "import {variable_name}"; ex_condition := "looks_like_import" |};
   {| ex_id := "empty"; ex_description := "Nothing to show";
      ex_code := "{if looks_like_import}import os{endif}"; ex_condition := "always" |}].

(** The loader finds no core pack. *)
Definition no_core_pack : Engine.Collaborators :=
  {| Engine.load_core_packs := Ok [];
     Engine.packages_dir_exists := Ok true;
     Engine.load_packs_from_directory := Ok [Sample.core_pack] |}.

(** An active interceptor whose engine is initialized and has no rule. *)
Definition watching : Interceptor.ExceptionInterceptor :=
  {| Interceptor._original_excepthook := Some (Interceptor.Foreign "sys.__excepthook__");
     Interceptor._is_active := true;
     Interceptor._explanation_handler :=
       Some (@lazy_explain_error Reference.runtime Sample.healthy Sample.empty_engine) |}.

(** No file can be read. *)
Definition no_files : Interceptor.Files := fun _ => None.

(** An explanation with one suggestion that gives no condition. *)
Definition raw_explanation : Loader.yaml :=
  Loader.YDict
    [(Loader.KStr "id", Loader.YStr "name_error_typo");
     (Loader.KStr "priority", Loader.YScalar (Loader.KInt 10));
     (Loader.KStr "conditions",
      Loader.YDict
        [(Loader.KStr "exception_type", Loader.YStr "NameError");
         (Loader.KStr "message_patterns",
          Loader.YList [Loader.YStr "name '.*' is not defined"])]);
     (Loader.KStr "explanation",
      Loader.YDict
        [(Loader.KStr "title", Loader.YStr "Undefined name '{variable_name}'");
         (Loader.KStr "description", Loader.YStr "'{variable_name}' is not defined");
         (Loader.KStr "suggestions",
          Loader.YList
            [Loader.YDict
               [(Loader.KStr "template", Loader.YStr "Check the spelling");
                (Loader.KStr "priority", Loader.YScalar (Loader.KInt 1))]])])].

(** A pack of two explanations, the second without its [priority]. *)
Definition raw_pack : Loader.yaml :=
  Loader.YDict
    [(Loader.KStr "metadata",
      Loader.YDict
        [(Loader.KStr "name", Loader.YStr "core-python");
         (Loader.KStr "version", Loader.YStr "1.0.0");
         (Loader.KStr "description", Loader.YStr "Core explanations");
         (Loader.KStr "author", Loader.YStr "qinter");
         (Loader.KStr "license", Loader.YStr "MIT");
         (Loader.KStr "qinter_version", Loader.YStr ">=0.1.0");
         (Loader.KStr "targets", Loader.YList [Loader.YStr "NameError"])]);
     (Loader.KStr "explanations",
      Loader.YList
        [Loader.YDict
           [(Loader.KStr "id", Loader.YStr "name_error_generic");
            (Loader.KStr "priority", Loader.YScalar (Loader.KInt 5));
            (Loader.KStr "conditions",
             Loader.YDict
               [(Loader.KStr "exception_type", Loader.YStr "NameError");
                (Loader.KStr "message_patterns",
                 Loader.YList [Loader.YStr "name '.*' is not defined"])]);
            (Loader.KStr "explanation",
             Loader.YDict
               [(Loader.KStr "title", Loader.YStr "Undefined name");
                (Loader.KStr "description", Loader.YStr "The name does not exist")])];
         Loader.YDict
           [(Loader.KStr "id", Loader.YStr "without_priority");
            (Loader.KStr "conditions", Loader.YDict []);
            (Loader.KStr "explanation", Loader.YDict [])]])].

End Sample.

(* ===================================================================== *)
(** * The vocabulary of the properties                                   *)
(* ===================================================================== *)

(** [x] and [y] are in the order the sort by [key] asks for. *)
Definition ordered {A : Type} (key : A -> Z) (reverse : bool) (x y : A) : Prop :=
  in_order reverse (key x) (key y) = true.

(** Every character of [s] is in the class [p]. *)
Fixpoint every (p : ascii -> bool) (s : string) : bool :=
  match s with
  | EmptyString => true
  | String c s' => p c && every p s'
  end.

(** [m'] differs from [m] at most at [keys]. *)
Definition same_except (keys : list string) (m m' : gmap string value) : Prop :=
  forall k, k ∉ keys -> m' !! k = m !! k.

(** Decides [k ∉ keys] and [k ∈ keys] for literal keys. *)
Ltac solve_keys := apply (bool_decide_unpack _); vm_compute; exact I.

(** The similarity fields agree with one another. *)
Definition similarity_consistent (facts : gmap string value) : Prop :=
  exists (similar : list string) (score : float),
    facts !! "similar_variables" = Some (VList similar)
    /\ facts !! "similarity_score" = Some (VFloat score)
    /\ facts !! "similar_variables_exist"
       = Some (VBool (match similar with [] => false | _ :: _ => true end))
    /\ facts !! "closest_variable"
       = Some (match similar with [] => VNone | closest :: _ => VStr closest end)
    /\ (similar = [] -> score = 0%float).

Definition similarity_keys : list string :=
  ["similar_variables"; "closest_variable"; "similar_variables_exist"; "similarity_score"].

(** The similarity fields as the dictionary literal of [analyze] sets them. *)
Definition similarity_unset (facts : gmap string value) : Prop :=
  facts !! "similar_variables" = Some (VList [])
  /\ facts !! "similarity_score" = Some (VFloat 0%float)
  /\ facts !! "similar_variables_exist" = Some (VBool false)
  /\ facts !! "closest_variable" = Some VNone.

(** What [check_condition] reads is there, with the type it expects. *)
Definition typed_facts (facts : gmap string value) : Prop :=
  (exists s, facts !! "variable_name" = Some (VStr s))
  /\ (exists b, facts !! "looks_like_import" = Some (VBool b))
  /\ (exists b, facts !! "builtin_typo_detected" = Some (VBool b))
  /\ (exists v, facts !! "correct_builtin" = Some v)
  /\ (exists s, facts !! "filename" = Some (VStr s))
  /\ (exists s, facts !! "function_name" = Some (VStr s))
  /\ similarity_consistent facts.

(** The keys the analyses may assign. *)
Definition assigned_keys : list string :=
  similarity_keys ++ ["looks_like_import"] ++ ["builtin_typo_detected"; "correct_builtin"]
  ++ ["operation"; "type1"; "type2"] ++ ["expected"; "actual"].

(** The name of a token: the text before its first colon. *)
Definition token_name (token : string) : string :=
  match split_once ":" token with
  | Some (name, _) => name
  | None => token
  end.

(** A condition that is not the name of a fact with a value. *)
Definition no_such_fact (analysis : gmap string value) (condition : string) : Prop :=
  analysis !! condition = None \/ analysis !! condition = Some VNone.

(** The names of the facts: the keys of the dictionary literal of [analyze]. *)
Definition fact_names : list string :=
  ["variable_name"; "exception_type"; "exception_message"; "filename"; "line_number";
   "function_name"; "available_variables"; "imported_modules"; "similar_variables";
   "closest_variable"; "similarity_score"; "looks_like_import"; "builtin_typo_detected";
   "correct_builtin"; "similar_variables_exist"; "object_type"; "operation"; "type1";
   "type2"; "expected"; "actual"; "bad_value"].

(** The keys of a dictionary are exactly [names]. *)
Definition has_keys (names : list string) (m : gmap string value) : Prop :=
  forall name, is_Some (m !! name) <-> name ∈ names.

(** The function name the analyzer reads off the traceback. *)
Definition innermost_function (context : Context) : string :=
  match last (traceback_info context) with
  | Some frame => default "module" (frame_function_name frame)
  | None => "module"
  end.

(** The types of context condition that [check_condition] knows. *)
Definition known_condition_types : list string :=
  ["variable_similarity"; "import_pattern"; "builtin_typo"; "file_extension";
   "function_context"].

(** Evaluates the comparisons of literal strings in the goal. *)
Ltac eval_eqb :=
  repeat match goal with
         | |- context [String.eqb ?a ?b] =>
             let v := eval vm_compute in (String.eqb a b) in
             change (String.eqb a b) with v
         end; cbv iota.

Ltac split_char s :=
  destruct s as [|[b0 b1 b2 b3 b4 b5 b6 b7] s]; [reflexivity|];
  destruct b0; try reflexivity; destruct b1; try reflexivity;
  destruct b2; try reflexivity; destruct b3; try reflexivity;
  destruct b4; try reflexivity; destruct b5; try reflexivity;
  destruct b6; try reflexivity; destruct b7; try reflexivity.

(** [s] neither starts nor ends with white space. *)
Definition trimmed (s : string) : Prop :=
  (forall c rest, s = String c rest -> isspace c = false)
  /\ (forall front c, s = front +:+ String c EmptyString -> isspace c = false).

(** How often the character [c] stands in [s]. *)
Fixpoint count_char (c : ascii) (s : string) : nat :=
  match s with
  | EmptyString => O
  | String d s' => ((if Ascii.eqb d c then 1 else 0) + count_char c s')%nat
  end.

(** The opening of a block: "{if", white space, and a condition that
    begins with no white space and holds no closing brace, then "}". *)
Definition block_opening (spaces condition : string) : Prop :=
  spaces <> EmptyString
  /\ every isspace spaces = true
  /\ (exists c rest, condition = String c rest /\ isspace c = false)
  /\ every (not_char "}") condition = true.

(** A format the renderer acts on: ".0%", or a text from "." to "f". *)
Definition numeric_format (format_spec : string) : bool :=
  String.eqb format_spec ".0%" || (startswith format_spec "." && endswith format_spec "f").

(** The value a token stands for: the fact, or the placeholder text. *)
Definition token_value (analysis : gmap string value) (name : string) : value :=
  dict_get analysis name (VStr (TemplateRenderer.unknown_variable name)).

(** A call of the module's [activate] or [deactivate]. *)
Inductive hook_call :=
| Activate (explanation_handler : option Interceptor.handler)
| Deactivate.

Definition run_call (w : Interceptor.Hooks) (call : hook_call) : Interceptor.Hooks :=
  match call with
  | Activate explanation_handler => Interceptor.activate w explanation_handler
  | Deactivate => Interceptor.deactivate w
  end.

(** The hooks as the module finds them when it is imported. *)
Definition hooks_at_import (original : string) : Interceptor.Hooks :=
  {| Interceptor.sys_excepthook := Interceptor.Foreign original;
     Interceptor.interceptor := Interceptor.new_interceptor |}.

(** The hooks are as the module's own calls leave them. *)
Definition hooks_in_order (original : string) (w : Interceptor.Hooks) : Prop :=
  Interceptor.sys_excepthook w
  = (if Interceptor.is_active w then Interceptor.Custom else Interceptor.Foreign original)
  /\ (Interceptor.is_active w = true ->
      Interceptor._original_excepthook (Interceptor.interceptor w)
      = Some (Interceptor.Foreign original))
  /\ (Interceptor.is_active w = false ->
      Interceptor._explanation_handler (Interceptor.interceptor w) = None).

(** A suggestion and an example as the loader takes them from a mapping. *)
Definition suggestion_of (item : Loader.yaml) (s : Loader.ExplanationSuggestion) : Prop :=
  exists fields,
    item = Loader.YDict fields
    /\ Loader.find "template" fields = Some (Loader.template s)
    /\ Loader.find "priority" fields = Some (Loader.suggestion_priority s)
    /\ Loader.suggestion_condition s
       = default (Loader.YStr "always") (Loader.find "condition" fields).

Definition example_of (item : Loader.yaml) (e : Loader.ExplanationExample) : Prop :=
  exists fields,
    item = Loader.YDict fields
    /\ Loader.find "id" fields = Some (Loader.example_id e)
    /\ Loader.find "description" fields = Some (Loader.example_description e)
    /\ Loader.find "code" fields = Some (Loader.code e)
    /\ Loader.example_condition e
       = default (Loader.YStr "always") (Loader.find "condition" fields).

Section vocabulary.
Context `{PyRuntime}.
Import ContextAnalyzer PatternMatcher TemplateRenderer.

(** The three stages of [_matches_explanation]. *)
Definition passes_stages (entry : Explanation) (exception : PyException)
    (facts : gmap string value) : Prop :=
  exception_type (conditions entry) = exc_type_name exception
  /\ (exists pattern, pattern ∈ message_patterns (conditions entry)
        /\ re_search_ignorecase pattern (exc_str exception) = ReMatch)
  /\ (forall c, c ∈ default [] (context_conditions (conditions entry)) ->
        check_condition c facts = Ok true).

(** [re.search] on the pattern returns, or raises [re.error]. *)
Definition searchable (pattern message : string) : bool :=
  match re_search_ignorecase pattern message with
  | ReRaises _ => false
  | _ => true
  end.

(** Every pattern of every rule of the list is searchable. *)
Definition all_searchable (loaded : list (Explanation * ExplanationPack))
    (message : string) : bool :=
  forallb (fun x => forallb (fun pattern => searchable pattern message)
                            (message_patterns (conditions x.1)))
          loaded.

(** Whether a suggestion's condition holds, and the text it renders to. *)
Definition included (analysis : gmap string value) (s : ExplanationSuggestion) : bool :=
  match _should_include_item (sugg_condition s) analysis with
  | Ok b => b
  | Raise _ => false
  end.

Definition text_of (analysis : gmap string value) (s : ExplanationSuggestion) : string :=
  match _render_template (sugg_template s) analysis with
  | Ok t => t
  | Raise _ => EmptyString
  end.

(** Nothing is raised while the suggestions are looked at. *)
Definition renders (analysis : gmap string value) (s : ExplanationSuggestion) : Prop :=
  (exists b, _should_include_item (sugg_condition s) analysis = Ok b)
  /\ (included analysis s = true ->
      exists t, _render_template (sugg_template s) analysis = Ok t).

(** Following the specification: the suggestions whose condition holds
    and whose text is not empty, by ascending priority. *)
Definition shown (analysis : gmap string value) (suggestions : list ExplanationSuggestion)
  : list ExplanationSuggestion :=
  sort_by sugg_priority false
    (filter (fun s => included analysis s = true /\ text_of analysis s <> EmptyString)
            suggestions).

(** Whether an example's condition holds, and what a template renders to. *)
Definition example_included (analysis : gmap string value) (e : ExplanationExample) : bool :=
  match _should_include_item (ex_condition e) analysis with
  | Ok b => b
  | Raise _ => false
  end.

Definition rendered_text (analysis : gmap string value) (template : string) : string :=
  match _render_template template analysis with
  | Ok t => t
  | Raise _ => EmptyString
  end.

(** Nothing is raised while an example is looked at. *)
Definition example_renders (analysis : gmap string value) (e : ExplanationExample) : Prop :=
  (exists b, _should_include_item (ex_condition e) analysis = Ok b)
  /\ (example_included analysis e = true ->
      (exists t, _render_template (ex_description e) analysis = Ok t)
      /\ (exists t, _render_template (ex_code e) analysis = Ok t)).

(** An example that is shown: its condition holds and neither of its two
    texts is empty. *)
Definition example_shown (analysis : gmap string value) (e : ExplanationExample) : Prop :=
  example_included analysis e = true
  /\ rendered_text analysis (ex_description e) <> EmptyString
  /\ rendered_text analysis (ex_code e) <> EmptyString.

Definition render_example (analysis : gmap string value) (e : ExplanationExample)
  : RenderedExample :=
  {| rendered_description := rendered_text analysis (ex_description e);
     rendered_code := rendered_text analysis (ex_code e);
     rendered_id := ex_id e |}.

#[global] Instance example_shown_dec analysis e : Decision (example_shown analysis e).
Proof. unfold example_shown. apply _. Defined.

(** The engine that a successful initialization leaves. *)
Definition initialized_with (packs : list ExplanationPack) : Engine.EngineState :=
  {| Engine._initialized := true;
     Engine.loaded_explanations := PatternMatcher.load_explanations packs |}.

End vocabulary.

(* ===================================================================== *)
(** * Properties                                                         *)
(* ===================================================================== *)

(** ** Strings and the matcher of regular expressions *)

Section string_facts.

Lemma append_cons (c : ascii) (s t : string) : String c s +:+ t = String c (s +:+ t).
Proof. reflexivity. Qed.

Lemma append_nil_l (s : string) : EmptyString +:+ s = s.
Proof. reflexivity. Qed.

Lemma append_nil_r (s : string) : s +:+ EmptyString = s.
Proof. induction s as [|c s IH]; [done|]. by rewrite append_cons, IH. Qed.

Lemma append_assoc (s t u : string) : (s +:+ t) +:+ u = s +:+ (t +:+ u).
Proof. induction s as [|c s IH]; [done|]. by rewrite !append_cons, IH. Qed.

Lemma length_append (s t : string) :
  String.length (s +:+ t) = (String.length s + String.length t)%nat.
Proof. induction s as [|c s IH]; [done|]. rewrite append_cons. cbn. by rewrite IH. Qed.

Lemma substring_all (s : string) : String.substring 0 (String.length s) s = s.
Proof. induction s as [|c s IH]; [done|]. cbn. by rewrite IH. Qed.

Lemma strip_prefix_append (p s : string) : strip_prefix p (p +:+ s) = Some s.
Proof.
  induction p as [|c p IH]; [by destruct s|].
  rewrite append_cons. cbn [strip_prefix]. by rewrite Ascii.eqb_refl.
Qed.

(** A greedy repetition takes a whole run of the class when the run ends
    where the class does and the rest of the pattern matches there. *)
Lemma repeat_class_takes_run (p : ascii -> bool) (lo : nat)
    (continue : string -> string -> option re_match)
    (run rest consumed : string) (n : nat) (r : re_match) :
  every p run = true ->
  match rest with String c _ => p c = false | EmptyString => True end ->
  (lo <= n + String.length run)%nat ->
  continue (consumed +:+ run) rest = Some r ->
  repeat_class p lo true continue (run +:+ rest) consumed n = Some r.
Proof.
  revert consumed n. induction run as [|c run IH]; intros consumed n Hrun Hrest Hlo Hk.
  - rewrite append_nil_l. rewrite append_nil_r in Hk. cbn in Hlo.
    destruct rest as [|c rest]; cbn [repeat_class].
    + apply Nat.leb_le in Hlo. rewrite Nat.add_0_r in Hlo. by rewrite Hlo.
    + rewrite Hrest. rewrite Nat.add_0_r in Hlo. apply Nat.leb_le in Hlo. by rewrite Hlo.
  - cbn [every] in Hrun. apply andb_true_iff in Hrun as [Hc Hrun].
    rewrite append_cons. cbn [repeat_class]. rewrite Hc.
    rewrite (IH (snoc_char consumed c) (S n)); [done|done|done| |].
    + cbn [String.length] in Hlo. lia.
    + unfold snoc_char. by rewrite append_assoc.
Qed.

(** Characters of a match that are still to be passed over. *)
Lemma sub_from_skip (re : regex) (repl : list string -> result string)
    (x rest : string) :
  sub_from re repl (String.length x) (x +:+ rest) = sub_from re repl O rest.
Proof.
  induction x as [|c x IH]; [done|].
  rewrite append_cons. cbn [String.length sub_from]. exact IH.
Qed.

End string_facts.

(** ** What the reference [float] does not read *)

Section reference_facts.

Lemma rev_app_append (s t : string) :
  String.rev_app s t = String.rev_app s EmptyString +:+ t.
Proof.
  revert t. induction s as [|c s IH]; intros t; [done|].
  cbn [String.rev_app]. rewrite (IH (String c t)), (IH (String c EmptyString)).
  by rewrite append_assoc.
Qed.

Lemma rev_cons (c : ascii) (s : string) :
  String.rev (String c s) = String.rev s +:+ String c EmptyString.
Proof. unfold String.rev. cbn [String.rev_app]. apply rev_app_append. Qed.

Lemma rev_snoc (c : ascii) (s : string) :
  String.rev (s +:+ String c EmptyString) = String c (String.rev s).
Proof.
  induction s as [|d s IH]; [done|].
  rewrite append_cons, !rev_cons, IH. by rewrite append_cons.
Qed.

Lemma lstrip_keeps_last (c : ascii) (s : string) :
  isspace c = false ->
  exists t, lstrip (s +:+ String c EmptyString) = t +:+ String c EmptyString.
Proof.
  intros Hc. induction s as [|d s IH].
  - exists EmptyString. rewrite !append_nil_l. cbn [lstrip]. by rewrite Hc.
  - rewrite append_cons. cbn [lstrip]. destruct (isspace d); [exact IH|].
    exists (String d s). by rewrite append_cons.
Qed.

(** [strip] leaves a first character that is not white space in place. *)
Lemma strip_keeps_first (c : ascii) (s : string) :
  isspace c = false -> exists t, strip (String c s) = String c t.
Proof.
  intros Hc. unfold strip, rstrip. rewrite rev_cons.
  destruct (lstrip_keeps_last c (String.rev s) Hc) as [t ->].
  rewrite rev_snoc. cbn [lstrip]. rewrite Hc. by eexists.
Qed.

(** The reference [float] reads no text that starts with a brace, so it
    reads no placeholder. *)
Lemma float_rejects_brace (s : string) : Reference.float_of_str (String "{" s) = None.
Proof.
  unfold Reference.float_of_str.
  destruct (strip_keeps_first "{" s eq_refl) as [t ->].
  vm_compute. reflexivity.
Qed.

Lemma float_rejects_placeholder (name : string) :
  @py_float_of_str Reference.runtime (TemplateRenderer.unknown_variable name) = None.
Proof. apply float_rejects_brace. Qed.

End reference_facts.

(** ** The stable sort *)

Section sort_by_facts.
Context {A : Type} (key : A -> Z) (reverse : bool).

Lemma in_order_total (a b : Z) :
  in_order reverse a b = false -> in_order reverse b a = true.
Proof. unfold in_order. destruct reverse; lia. Qed.

Lemma in_order_trans (a b c : Z) :
  in_order reverse a b = true -> in_order reverse b c = true -> in_order reverse a c = true.
Proof. unfold in_order. destruct reverse; lia. Qed.

Lemma in_order_refl (a : Z) : in_order reverse a a = true.
Proof. unfold in_order. destruct reverse; lia. Qed.

Lemma sort_insert_perm (x : A) (l : list A) : sort_insert key reverse x l ≡ₚ x :: l.
Proof.
  induction l as [|y l IH]; simpl; [done|].
  destruct (in_order reverse (key x) (key y)); [done|].
  rewrite IH. apply Permutation_swap.
Qed.

Lemma sort_by_perm (l : list A) : sort_by key reverse l ≡ₚ l.
Proof.
  induction l as [|x l IH]; simpl; [done|].
  unfold sort_by in *. simpl. rewrite sort_insert_perm. by rewrite IH.
Qed.

Lemma sort_insert_sorted (x : A) (l : list A) :
  StronglySorted (ordered key reverse) l -> StronglySorted (ordered key reverse) (sort_insert key reverse x l).
Proof.
  induction l as [|y l IH]; intros Hl; simpl.
  - repeat constructor.
  - destruct (in_order reverse (key x) (key y)) eqn:Hxy.
    + constructor; [done|]. constructor; [done|].
      apply StronglySorted_inv in Hl as [_ Hy].
      eapply Forall_impl; [exact Hy|]. intros z Hz. unfold ordered in *.
      eapply in_order_trans; eauto.
    + apply StronglySorted_inv in Hl as [Hl Hy].
      constructor; [by apply IH|].
      rewrite sort_insert_perm. constructor; [|done].
      by apply in_order_total.
Qed.

Lemma sort_by_sorted (l : list A) : StronglySorted (ordered key reverse) (sort_by key reverse l).
Proof.
  induction l as [|x l IH]; [constructor|].
  unfold sort_by in *. simpl. by apply sort_insert_sorted.
Qed.

(** Elements with one key keep their order: the sort is stable. *)
Lemma sort_insert_stable (k : Z) (x : A) (l : list A) :
  filter (fun y => key y = k) (sort_insert key reverse x l)
  = filter (fun y => key y = k) (x :: l).
Proof.
  induction l as [|y l IH]; simpl; [done|].
  destruct (in_order reverse (key x) (key y)) eqn:Hxy; [done|].
  rewrite filter_cons, IH, !filter_cons.
  assert (key x <> key y) as Hne.
  { intros Heq. rewrite Heq, in_order_refl in Hxy. done. }
  repeat case_decide; congruence.
Qed.

Lemma sort_by_stable (k : Z) (l : list A) :
  filter (fun y => key y = k) (sort_by key reverse l) = filter (fun y => key y = k) l.
Proof.
  induction l as [|x l IH]; [done|].
  unfold sort_by in *. simpl. rewrite sort_insert_stable, !filter_cons, IH. done.
Qed.

(** The keys of the sorted list ascend, or descend under [reverse]. *)
Lemma sort_by_ordered (l : list A) :
  StronglySorted
    (fun x y => if reverse then key y <= key x else key x <= key y)
    (sort_by key reverse l).
Proof.
  pose proof (sort_by_sorted l) as Hs.
  induction Hs as [|x l' Hl IH Hx]; constructor; [done|].
  eapply Forall_impl; [exact Hx|].
  intros y. unfold ordered, in_order. destruct reverse; lia.
Qed.

Lemma filter_none (P : A -> Prop) `{forall x, Decision (P x)} (l : list A) :
  (forall x, x ∈ l -> ~ P x) -> filter P l = [].
Proof.
  induction l as [|x l IH]; intros Hl; [done|].
  rewrite filter_cons. destruct (decide (P x)) as [Hp|_].
  - destruct (Hl x); [by left|done].
  - apply IH. intros y Hy. apply Hl. by right.
Qed.

End sort_by_facts.

(** ** Sorting, filtering and mapping *)

Section sort_by_filter.
Context {A : Type} (key : A -> Z) (reverse : bool).
Context (P : A -> Prop) `{forall x, Decision (P x)}.

Lemma sort_insert_front (x : A) (l : list A) :
  Forall (ordered key reverse x) l -> sort_insert key reverse x l = x :: l.
Proof.
  destruct l as [|y l]; [done|]. intros [Hy _]%Forall_cons.
  cbn [sort_insert]. unfold ordered in Hy. by rewrite Hy.
Qed.

Lemma sort_insert_filter (x : A) (l : list A) :
  StronglySorted (ordered key reverse) l ->
  filter P (sort_insert key reverse x l)
  = if decide (P x) then sort_insert key reverse x (filter P l) else filter P l.
Proof.
  induction l as [|y l IH]; intros Hl.
  - cbn [sort_insert]. rewrite filter_cons. by destruct (decide (P x)).
  - apply StronglySorted_inv in Hl as [Hl Hy]. cbn [sort_insert].
    destruct (in_order reverse (key x) (key y)) eqn:Hxy.
    + rewrite (filter_cons _ x). destruct (decide (P x)) as [Hx|Hx]; [|done].
      rewrite sort_insert_front; [done|].
      apply Forall_forall. intros z [->|Hz]%list_elem_of_filter%proj2%elem_of_cons; [done|].
      rewrite Forall_forall in Hy. unfold ordered in *.
      eapply in_order_trans; [exact Hxy|by apply Hy].
    + rewrite !(filter_cons _ y), (IH Hl).
      destruct (decide (P x)) as [Hx|Hx], (decide (P y)) as [Hpy|Hpy]; try done.
      cbn [sort_insert]. by rewrite Hxy.
Qed.

(** Filtering a sorted list is sorting the filtered list. *)
Lemma sort_by_filter (l : list A) :
  filter P (sort_by key reverse l) = sort_by key reverse (filter P l).
Proof.
  induction l as [|x l IH]; [done|].
  unfold sort_by in *. cbn [foldr].
  rewrite sort_insert_filter by apply sort_by_sorted.
  rewrite filter_cons, IH. by destruct (decide (P x)).
Qed.

Lemma filter_bool (f : A -> bool) (l : list A) :
  List.filter f l = filter (fun x => f x = true) l.
Proof.
  induction l as [|x l IH]; [done|].
  cbn [List.filter]. rewrite filter_cons, IH.
  destruct (f x); by case_decide.
Qed.

End sort_by_filter.

Section sort_by_map.
Context {A B : Type} (key : B -> Z) (reverse : bool) (f : A -> B).

Lemma sort_insert_map (x : A) (l : list A) :
  sort_insert key reverse (f x) (map f l)
  = map f (sort_insert (fun a => key (f a)) reverse x l).
Proof.
  induction l as [|y l IH]; [done|]. cbn [map sort_insert].
  destruct (in_order reverse (key (f x)) (key (f y))); [done|].
  cbn [map]. by rewrite IH.
Qed.

Lemma sort_by_map (l : list A) :
  sort_by key reverse (map f l) = map f (sort_by (fun a => key (f a)) reverse l).
Proof.
  induction l as [|x l IH]; [done|].
  unfold sort_by in *. cbn [map foldr]. by rewrite IH, sort_insert_map.
Qed.

Lemma filter_map (P : B -> Prop) `{forall y, Decision (P y)} (l : list A) :
  filter P (map f l) = map f (filter (fun a => P (f a)) l).
Proof.
  induction l as [|x l IH]; [done|]. cbn [map].
  rewrite !filter_cons, IH. by destruct (decide (P (f x))).
Qed.

End sort_by_map.

(** ** Dictionaries *)

Lemma same_except_refl keys m : same_except keys m m.
Proof. by intros k _. Qed.

Lemma same_except_insert keys k v (m m' : gmap string value) :
  k ∈ keys -> same_except keys m m' -> same_except keys m (<[k := v]> m').
Proof.
  intros Hk Hm j Hj. rewrite lookup_insert_ne; [by apply Hm|].
  intros ->. done.
Qed.

Lemma same_except_trans keys1 keys2 (m1 m2 m3 : gmap string value) :
  same_except keys1 m1 m2 -> same_except keys2 m2 m3 ->
  same_except (keys1 ++ keys2) m1 m3.
Proof.
  intros H1 H2 k Hk. rewrite elem_of_app in Hk.
  rewrite H2, H1; [done| |]; intros ?; apply Hk; auto.
Qed.

Lemma same_except_lookup keys (m m' : gmap string value) k v :
  same_except keys m m' -> k ∉ keys -> m !! k = Some v -> m' !! k = Some v.
Proof. intros Hm Hk Hv. by rewrite Hm. Qed.

Lemma getitem_Some (m : gmap string value) k v : m !! k = Some v -> getitem m k = Ok v.
Proof. unfold getitem. by intros ->. Qed.

(** ** The context analyzer *)

Section analyzer_facts.
Context `{PyRuntime}.
Import ContextAnalyzer.

Lemma similarity_consistent_frame keys (m m' : gmap string value) :
  same_except keys m m' ->
  Forall (fun k => k ∉ keys) similarity_keys ->
  similarity_consistent m -> similarity_consistent m'.
Proof.
  intros Hm Hk (similar & score & H1 & H2 & H3 & H4 & H5).
  unfold similarity_keys in Hk.
  repeat (apply Forall_cons in Hk as [? Hk]).
  exists similar, score. rewrite !Hm by done. done.
Qed.

Lemma initial_analysis_lookups exception context :
  let m := initial_analysis exception context in
  m !! "variable_name" = Some (VStr (_extract_variable_name exception))
  /\ m !! "available_variables" = Some (VList (_get_available_variables context))
  /\ similarity_unset m
  /\ m !! "looks_like_import" = Some (VBool false)
  /\ m !! "builtin_typo_detected" = Some (VBool false)
  /\ m !! "correct_builtin" = Some VNone
  /\ (exists s, m !! "filename" = Some (VStr s))
  /\ (exists s, m !! "function_name" = Some (VStr s)).
Proof.
  unfold initial_analysis, similarity_unset.
  generalize (_extract_variable_name exception) (_get_available_variables context)
    (_extract_object_type exception) (_extract_operation exception)
    (_extract_bad_value exception).
  intros. cbn [list_to_map foldr uncurry fst snd].
  repeat split; try (eexists; by simplify_map_eq); by simplify_map_eq.
Qed.

Lemma similarity_spec (m : gmap string value) word available :
  m !! "variable_name" = Some (VStr word) ->
  m !! "available_variables" = Some (VList available) ->
  similarity_unset m ->
  exists m', _analyze_variable_similarity m = Ok m'
    /\ same_except similarity_keys m m' /\ similarity_consistent m'.
Proof.
  intros Hw Ha (H1 & H2 & H3 & H4). unfold _analyze_variable_similarity.
  rewrite (getitem_Some _ _ _ Hw), (getitem_Some _ _ _ Ha). cbn [bind].
  destruct (negb (truthy (VStr word)) || negb (truthy (VList available))).
  - exists m. split; [done|]. split; [apply same_except_refl|].
    exists [], 0%float. done.
  - destruct (get_close_matches word available 5 cutoff) as [|closest similar] eqn:Hs.
    + eexists. split; [done|]. split.
      * apply same_except_insert; [solve_keys|apply same_except_refl].
      * exists [], 0%float. by simplify_map_eq.
    + eexists. split; [done|]. split.
      * repeat (apply same_except_insert; [solve_keys|]). apply same_except_refl.
      * exists (closest :: similar), (sequence_ratio word closest).
        by simplify_map_eq.
Qed.

Lemma import_patterns_spec (m : gmap string value) word :
  m !! "variable_name" = Some (VStr word) ->
  exists m', _analyze_import_patterns m = Ok m'
    /\ same_except ["looks_like_import"] m m'
    /\ ((exists b, m !! "looks_like_import" = Some (VBool b)) ->
        exists b, m' !! "looks_like_import" = Some (VBool b)).
Proof.
  intros Hw. unfold _analyze_import_patterns.
  rewrite (getitem_Some _ _ _ Hw). cbn [bind].
  destruct (in_list (lower word) common_modules).
  - eexists. split; [done|]. split.
    + apply same_except_insert; [solve_keys|apply same_except_refl].
    + intros _. exists true. by simplify_map_eq.
  - exists m. split; [done|]. split; [apply same_except_refl|done].
Qed.

Lemma builtin_typos_spec (m : gmap string value) word :
  m !! "variable_name" = Some (VStr word) ->
  exists m', _analyze_builtin_typos m = Ok m'
    /\ same_except ["builtin_typo_detected"; "correct_builtin"] m m'
    /\ ((exists b, m !! "builtin_typo_detected" = Some (VBool b)) ->
        exists b, m' !! "builtin_typo_detected" = Some (VBool b))
    /\ ((exists v, m !! "correct_builtin" = Some v) ->
        exists v, m' !! "correct_builtin" = Some v).
Proof.
  intros Hw. unfold _analyze_builtin_typos.
  rewrite (getitem_Some _ _ _ Hw). cbn [bind].
  destruct (builtin_typos !! lower word) as [correct|].
  - eexists. split; [done|]. split.
    + repeat (apply same_except_insert; [solve_keys|]). apply same_except_refl.
    + split; intros _; eexists; by simplify_map_eq.
  - exists m. split; [done|]. split; [apply same_except_refl|done].
Qed.

Lemma type_errors_spec (m : gmap string value) exception :
  exists m', _analyze_type_errors m exception = Ok m'
    /\ same_except ["operation"; "type1"; "type2"] m m'.
Proof.
  unfold _analyze_type_errors.
  destruct (negb (exc_is_TypeError exception)).
  - exists m. split; [done|apply same_except_refl].
  - destruct (search re_operand_types (exc_str exception)).
    + eexists. split; [done|].
      repeat (apply same_except_insert; [solve_keys|]). apply same_except_refl.
    + exists m. split; [done|apply same_except_refl].
Qed.

Lemma int_of_digit_run_raises (g : string) (e : exn) :
  int_of_digit_run g = Raise e -> e = ValueError.
Proof. unfold int_of_digit_run. destruct (int_of_str g); congruence. Qed.

Lemma value_errors_spec (m m' : gmap string value) exception :
  _analyze_value_errors m exception = Ok m' ->
  same_except ["expected"; "actual"] m m'.
Proof.
  unfold _analyze_value_errors.
  destruct (negb (exc_is_ValueError exception)).
  { intros [= <-]. apply same_except_refl. }
  destruct (search re_not_enough (exc_str exception)) as [r|]; cbn [bind].
  - destruct (int_of_digit_run (group r 1)); cbn [bind]; [|done].
    destruct (int_of_digit_run (group r 2)); cbn [bind]; [|done].
    destruct (search re_too_many (exc_str exception)) as [r'|].
    + destruct (int_of_digit_run (group r' 1)); cbn [bind]; [|done].
      intros [= <-].
      repeat (apply same_except_insert; [solve_keys|]). apply same_except_refl.
    + intros [= <-].
      repeat (apply same_except_insert; [solve_keys|]). apply same_except_refl.
  - destruct (search re_too_many (exc_str exception)) as [r'|].
    + destruct (int_of_digit_run (group r' 1)); cbn [bind]; [|done].
      intros [= <-].
      repeat (apply same_except_insert; [solve_keys|]). apply same_except_refl.
    + intros [= <-]. apply same_except_refl.
Qed.

(** Only a ValueError has its message searched for counts. *)
Lemma value_errors_skipped (m : gmap string value) exception :
  exc_is_ValueError exception = false -> _analyze_value_errors m exception = Ok m.
Proof. unfold _analyze_value_errors. by intros ->. Qed.

(** What leaves [_analyze_value_errors] is the ValueError of [int]. *)
Lemma value_errors_raises (m : gmap string value) exception (e : exn) :
  _analyze_value_errors m exception = Raise e ->
  e = ValueError /\ exc_is_ValueError exception = true.
Proof.
  unfold _analyze_value_errors.
  destruct (exc_is_ValueError exception); cbn [negb]; [|done].
  intros He. split; [|done]. revert He.
  destruct (search re_not_enough (exc_str exception)) as [r|]; cbn [bind].
  - destruct (int_of_digit_run (group r 1)) eqn:E1; cbn [bind];
      [|intros [= <-]; by apply int_of_digit_run_raises in E1].
    destruct (int_of_digit_run (group r 2)) eqn:E2; cbn [bind];
      [|intros [= <-]; by apply int_of_digit_run_raises in E2].
    destruct (search re_too_many (exc_str exception)) as [r'|]; [|done].
    destruct (int_of_digit_run (group r' 1)) eqn:E3; cbn [bind]; [done|].
    intros [= <-]. by apply int_of_digit_run_raises in E3.
  - destruct (search re_too_many (exc_str exception)) as [r'|]; [|done].
    destruct (int_of_digit_run (group r' 1)) eqn:E3; cbn [bind]; [done|].
    intros [= <-]. by apply int_of_digit_run_raises in E3.
Qed.

(** The analyses before [_analyze_value_errors] return. *)
Lemma analyze_reaches_value_errors exception context :
  exists m, analyze exception context = _analyze_value_errors m exception.
Proof.
  destruct (initial_analysis_lookups exception context)
    as (Hname & Havail & Hunset & _).
  unfold analyze.
  destruct (similarity_spec _ _ _ Hname Havail Hunset) as (m1 & -> & E1 & _).
  cbn [bind].
  assert (m1 !! "variable_name" = Some (VStr (_extract_variable_name exception))) as N1.
  { eapply same_except_lookup; [exact E1|solve_keys|done]. }
  destruct (import_patterns_spec _ _ N1) as (m2 & -> & E2 & _). cbn [bind].
  assert (m2 !! "variable_name" = Some (VStr (_extract_variable_name exception))) as N2.
  { eapply same_except_lookup; [exact E2|solve_keys|done]. }
  destruct (builtin_typos_spec _ _ N2) as (m3 & -> & _). cbn [bind].
  destruct (type_errors_spec m3 exception) as (m4 & -> & _). cbn [bind].
  by exists m4.
Qed.

(** [analyze] returns for an exception that is not a ValueError. *)
Lemma analyze_returns exception context :
  exc_is_ValueError exception = false ->
  exists facts, analyze exception context = Ok facts.
Proof.
  intros Hvalue. destruct (analyze_reaches_value_errors exception context) as [m ->].
  exists m. by apply value_errors_skipped.
Qed.

(** No exception but the ValueError of [int] on a count leaves [analyze]. *)
Lemma analyze_raises exception context (e : exn) :
  analyze exception context = Raise e ->
  e = ValueError /\ exc_is_ValueError exception = true.
Proof.
  destruct (analyze_reaches_value_errors exception context) as [m ->].
  apply value_errors_raises.
Qed.

(** What [analyze] returns has the fields [check_condition] reads, and
    differs from the dictionary literal only where an analysis assigns. *)
Lemma analyze_facts exception context facts :
  analyze exception context = Ok facts ->
  same_except assigned_keys (initial_analysis exception context) facts
  /\ typed_facts facts.
Proof.
  destruct (initial_analysis_lookups exception context)
    as (Hname & Havail & Hunset & Himport & Htypo & Hbuiltin & Hfile & Hfun).
  unfold analyze.
  destruct (similarity_spec _ _ _ Hname Havail Hunset) as (m1 & -> & E1 & S1).
  cbn [bind].
  assert (m1 !! "variable_name" = Some (VStr (_extract_variable_name exception))) as N1.
  { eapply same_except_lookup; [exact E1|solve_keys|done]. }
  destruct (import_patterns_spec _ _ N1) as (m2 & -> & E2 & I2). cbn [bind].
  assert (m2 !! "variable_name" = Some (VStr (_extract_variable_name exception))) as N2.
  { eapply same_except_lookup; [exact E2|solve_keys|done]. }
  destruct (builtin_typos_spec _ _ N2) as (m3 & -> & E3 & T3 & B3). cbn [bind].
  destruct (type_errors_spec m3 exception) as (m4 & -> & E4). cbn [bind].
  intros E5%value_errors_spec.
  pose proof (same_except_trans _ _ _ _ _ E1
               (same_except_trans _ _ _ _ _ E2
                 (same_except_trans _ _ _ _ _ E3
                   (same_except_trans _ _ _ _ _ E4 E5)))) as E.
  split; [exact E|].
  pose proof (same_except_trans _ _ _ _ _ E2
               (same_except_trans _ _ _ _ _ E3
                 (same_except_trans _ _ _ _ _ E4 E5))) as E25.
  pose proof (same_except_trans _ _ _ _ _ E3
               (same_except_trans _ _ _ _ _ E4 E5)) as E35.
  pose proof (same_except_trans _ _ _ _ _ E4 E5) as E45.
  unfold typed_facts. repeat split.
  - eexists. eapply same_except_lookup; [exact E|solve_keys|exact Hname].
  - destruct I2 as [b Hb].
    { exists false. eapply same_except_lookup; [exact E1|solve_keys|exact Himport]. }
    exists b. eapply same_except_lookup; [exact E35|solve_keys|exact Hb].
  - destruct T3 as [b Hb].
    { exists false. eapply same_except_lookup;
        [exact (same_except_trans _ _ _ _ _ E1 E2)|solve_keys|exact Htypo]. }
    exists b. eapply same_except_lookup; [exact E45|solve_keys|exact Hb].
  - destruct B3 as [v Hv].
    { exists VNone. eapply same_except_lookup;
        [exact (same_except_trans _ _ _ _ _ E1 E2)|solve_keys|exact Hbuiltin]. }
    exists v. eapply same_except_lookup; [exact E45|solve_keys|exact Hv].
  - destruct Hfile as [s Hs]. exists s.
    eapply same_except_lookup; [exact E|solve_keys|exact Hs].
  - destruct Hfun as [s Hs]. exists s.
    eapply same_except_lookup; [exact E|solve_keys|exact Hs].
  - eapply similarity_consistent_frame; [exact E25| |exact S1].
    unfold similarity_keys. repeat constructor; solve_keys.
Qed.

End analyzer_facts.

Section analyzer_properties.
Context `{PyRuntime}.
Import ContextAnalyzer.

Lemma startswith_underscore (name : string) :
  startswith name "_" = true <-> exists rest, name = String "_" rest.
Proof.
  unfold startswith. destruct name as [|c name]; cbn [strip_prefix].
  - split; [done|]. by intros [? ?].
  - destruct (Ascii.eqb_spec "_" c) as [<-|Hc].
    + split; [by eexists|done].
    + split; [done|]. intros [rest Hrest]. congruence.
Qed.

Lemma is_available_name_spec (name : string) :
  is_available_name name = true
  <-> (forall rest, name <> String "_" rest) /\ (2 <= String.length name)%nat.
Proof.
  unfold is_available_name.
  rewrite andb_true_iff, negb_true_iff, Nat.ltb_lt.
  split; intros [Hs Hl]; (split; [|lia]).
  - intros rest ->. by rewrite (proj2 (startswith_underscore _)) in Hs by eauto.
  - destruct (startswith name "_") eqn:E; [|done].
    apply startswith_underscore in E as [rest ->]. by destruct (Hs rest).
Qed.

Lemma available_variables_elem (context : Context) (name : string) :
  name ∈ _get_available_variables context
  <-> is_Some (local_variables context !! name)
      /\ (forall rest, name <> String "_" rest)
      /\ (2 <= String.length name)%nat.
Proof.
  unfold _get_available_variables.
  rewrite merge_sort_Permutation, list_elem_of_filter, elem_of_elements, elem_of_dom.
  rewrite is_available_name_spec. tauto.
Qed.

(** C9: in a FactSet that [analyze] returns, [available_variables] holds
    exactly the names of the local variables that do not start with an
    underscore and have two or more characters, each once, in ascending
    lexicographic order. *)
Theorem available_variables_sorted_filtered (exception : PyException) (context : Context)
    (facts : gmap string value) :
  analyze exception context = Ok facts ->
  exists names,
    facts !! "available_variables" = Some (VList names)
    /\ names = _get_available_variables context
    /\ (forall name, name ∈ names <->
          is_Some (local_variables context !! name)
          /\ (forall rest, name <> String "_" rest)
          /\ (2 <= String.length name)%nat)
    /\ NoDup names
    /\ Sorted String.le names.
Proof.
  intros [Hsame _]%analyze_facts.
  destruct (initial_analysis_lookups exception context) as (_ & Havail & _).
  exists (_get_available_variables context). split.
  { eapply same_except_lookup; [exact Hsame|solve_keys|exact Havail]. }
  split; [done|]. split; [apply available_variables_elem|]. split.
  - unfold _get_available_variables.
    rewrite merge_sort_Permutation. apply NoDup_filter, NoDup_elements.
  - apply Sorted_merge_sort. apply _.
Qed.

(** C10: in every FactSet that [analyze] produces,
    [similar_variables_exist] is true exactly when [similar_variables] is
    non-empty, [closest_variable] is the first element of
    [similar_variables] or None when there is none, and
    [similarity_score] is 0.0 when [similar_variables] is empty. *)
Theorem analyze_similarity_invariant (exception : PyException) (context : Context)
    (facts : gmap string value) :
  analyze exception context = Ok facts ->
  exists similar score exist closest,
    facts !! "similar_variables" = Some (VList similar)
    /\ facts !! "similarity_score" = Some (VFloat score)
    /\ facts !! "similar_variables_exist" = Some (VBool exist)
    /\ facts !! "closest_variable" = Some closest
    /\ (exist = true <-> similar <> [])
    /\ closest = match head similar with Some first => VStr first | None => VNone end
    /\ (similar = [] -> score = 0%float).
Proof.
  intros [_ Htyped]%analyze_facts.
  destruct Htyped as (_ & _ & _ & _ & _ & _ & (similar & score & H1 & H2 & H3 & H4 & H5)).
  exists similar, score,
    (match similar with [] => false | _ :: _ => true end),
    (match similar with [] => VNone | closest :: _ => VStr closest end).
  do 4 (split; [done|]). split; [|split; [|done]].
  - by destruct similar.
  - by destruct similar.
Qed.

End analyzer_properties.

Lemma available_variables_sorted_filtered_witness :
  exists facts names,
    @ContextAnalyzer.analyze Reference.runtime Sample.name_error Sample.context = Ok facts
    /\ facts !! "available_variables" = Some (VList names)
    /\ names = ["list_of_items"; "lst2"; "other"].
Proof.
  destruct (analyze_returns (H := Reference.runtime) Sample.name_error Sample.context
              eq_refl) as [facts Hfacts].
  destruct (available_variables_sorted_filtered (H := Reference.runtime) _ _ _ Hfacts)
    as (names & Hnames & -> & _).
  exists facts, (ContextAnalyzer._get_available_variables Sample.context).
  split; [exact Hfacts|]. split; [exact Hnames|]. vm_compute. reflexivity.
Defined.

Lemma analyze_similarity_invariant_witness :
  exists facts similar score,
    @ContextAnalyzer.analyze Reference.runtime Sample.name_error Sample.context = Ok facts
    /\ facts !! "similar_variables" = Some (VList similar)
    /\ facts !! "similarity_score" = Some (VFloat score)
    /\ (similar = [] -> score = 0%float).
Proof.
  destruct (analyze_returns (H := Reference.runtime) Sample.name_error Sample.context
              eq_refl) as [facts Hfacts].
  destruct (analyze_similarity_invariant (H := Reference.runtime) _ _ _ Hfacts)
    as (similar & score & exist & closest & Hsimilar & Hscore & _ & _ & _ & _ & Hzero).
  exists facts, similar, score.
  split; [exact Hfacts|]. split; [exact Hsimilar|]. split; [exact Hscore|exact Hzero].
Defined.

(** ** Context predicates *)

Section condition_facts.
Import ContextAnalyzer.

(** What [check_condition] computes for a [variable_similarity] predicate. *)
Lemma variable_similarity_condition (condition : ContextCondition)
    (facts : gmap string value) (score : float) (similar : list string) :
  cc_type condition = "variable_similarity" ->
  facts !! "similarity_score" = Some (VFloat score) ->
  facts !! "similar_variables" = Some (VList similar) ->
  check_condition condition facts
  = Ok (PrimFloat.leb (float_or (cc_threshold condition) default_threshold) score
        && (int_or (cc_min_matches condition) 1 <=? Z.of_nat (length similar))).
Proof.
  intros Hty Hscore Hsim. unfold check_condition. rewrite Hty. cbn [String.eqb Ascii.eqb].
  change (String.eqb "variable_similarity" "variable_similarity") with true. cbv iota.
  rewrite (getitem_Some _ _ _ Hscore). cbn [bind ge_float].
  destruct (PrimFloat.leb _ score); [|done].
  rewrite (getitem_Some _ _ _ Hsim). done.
Qed.

(** A threshold that is given and not zero is the one compared with; an
    absent one is 0.6. The same for [min_matches] and 1. *)
Lemma float_or_given (t default : float) :
  PrimFloat.eqb t 0 = false -> float_or (Some t) default = t.
Proof. unfold float_or, truthy. by intros ->. Qed.

Lemma float_or_absent (default : float) : float_or None default = default.
Proof. done. Qed.

Lemma int_or_given (m default : Z) : m <> 0 -> int_or (Some m) default = m.
Proof. unfold int_or, truthy. intros Hm. by destruct (Z.eqb_spec m 0). Qed.

Lemma int_or_absent (default : Z) : int_or None default = default.
Proof. done. Qed.

(** C4: the code departs from the specification. A stated threshold of
    0.0 is replaced by 0.6, and a stated [min_matches] of 0 by 1. With
    score 0.5 and one similar variable, [threshold: 0.0] and
    [min_matches: 1] are both met ([0.5 >= 0.0], [1 >= 1]) and the
    predicate is not satisfied; with score 0.0 and no similar variable,
    [threshold: -1.0] and [min_matches: 0] are both met and the predicate
    is not satisfied. The first FactSet is the one [analyze] produces for
    the undefined name [ab] next to a variable [abcdef]. *)
Theorem stated_zero_is_taken_as_unspecified :
  (Sample.near_miss_facts !! "similarity_score" = Some (VFloat 0.5%float)
   /\ Sample.near_miss_facts !! "similar_variables" = Some (VList ["abcdef"])
   /\ PrimFloat.leb 0 0.5 = true
   /\ (1 <=? Z.of_nat (length ["abcdef"])) = true
   /\ check_condition Sample.zero_threshold Sample.near_miss_facts = Ok false)
  /\ (PrimFloat.leb 0 0.5 = true
      /\ (1 <=? Z.of_nat (length ["lst2"])) = true
      /\ check_condition Sample.zero_threshold Sample.half_similar = Ok false)
  /\ (PrimFloat.leb (-1) 0 = true
      /\ (0 <=? Z.of_nat (length (@nil string))) = true
      /\ check_condition Sample.zero_min_matches Sample.nothing_similar = Ok false).
Proof. repeat split; vm_compute; reflexivity. Qed.

End condition_facts.

(** ** The pattern matcher *)

Section matcher_facts.
Context `{PyRuntime}.
Import ContextAnalyzer PatternMatcher.

Lemma check_condition_returns (condition : ContextCondition) (facts : gmap string value) :
  typed_facts facts -> exists met, check_condition condition facts = Ok met.
Proof.
  intros ([name Hname] & [imp Himp] & [typo Htypo] & [correct Hcorrect]
          & [file Hfile] & [fn Hfn] & (similar & score & Hsim & Hscore & _)).
  unfold check_condition.
  rewrite !(getitem_Some _ _ _ Hname), !(getitem_Some _ _ _ Himp),
    !(getitem_Some _ _ _ Htypo), !(getitem_Some _ _ _ Hcorrect),
    !(getitem_Some _ _ _ Hfile), !(getitem_Some _ _ _ Hfn),
    !(getitem_Some _ _ _ Hsim), !(getitem_Some _ _ _ Hscore).
  cbn [bind ge_float len].
  repeat match goal with
         | |- context [if ?b then _ else _] => destruct b
         | |- context [match given ?l with _ => _ end] => destruct (given l)
         | |- context [match cc_inside_function ?c with _ => _ end] =>
             destruct (cc_inside_function c)
         | |- context [match correct with _ => _ end] => destruct correct
         end; cbn [bind]; by eexists.
Qed.

Lemma matches_message_patterns_true (patterns : list string) (message : string) :
  _matches_message_patterns patterns message = Ok true ->
  exists pattern, pattern ∈ patterns /\ re_search_ignorecase pattern message = ReMatch.
Proof.
  induction patterns as [|p patterns IH]; cbn [_matches_message_patterns]; [done|].
  destruct (re_search_ignorecase p message) eqn:Hp.
  - intros (q & Hq & Hm)%IH. exists q. split; [by right|done].
  - done.
  - intros (q & Hq & Hm)%IH. exists q. split; [by right|done].
  - intros _. exists p. split; [by left|done].
Qed.

Lemma matches_message_patterns_false (patterns : list string) (message : string) :
  _matches_message_patterns patterns message = Ok false ->
  forall pattern, pattern ∈ patterns ->
    re_search_ignorecase pattern message = ReNoMatch
    \/ re_search_ignorecase pattern message = ReError.
Proof.
  induction patterns as [|p patterns IH]; cbn [_matches_message_patterns].
  { by intros _ ? ?%elem_of_nil. }
  destruct (re_search_ignorecase p message) eqn:Hp; [|done| |done].
  - intros Hrest q [->|Hq]%elem_of_cons; [by right|by apply IH].
  - intros Hrest q [->|Hq]%elem_of_cons; [by left|by apply IH].
Qed.

(** With searchable patterns the stage returns, and it holds exactly when
    some pattern matches. *)
Lemma matches_message_patterns_spec (patterns : list string) (message : string) :
  forallb (fun pattern => searchable pattern message) patterns = true ->
  exists matched, _matches_message_patterns patterns message = Ok matched
    /\ (matched = true
        <-> exists pattern, pattern ∈ patterns
              /\ re_search_ignorecase pattern message = ReMatch).
Proof.
  induction patterns as [|p patterns IH]; cbn [_matches_message_patterns forallb].
  - intros _. exists false. split; [done|]. split; [done|].
    intros (? & []%elem_of_nil & _).
  - intros [Hp Hrest]%andb_true_iff. unfold searchable in Hp.
    destruct (re_search_ignorecase p message) eqn:Hout; [|done| |].
    + destruct (IH Hrest) as (matched & -> & Hiff). exists matched. split; [done|].
      rewrite Hiff. split.
      * intros (q & Hq & Hm). exists q. split; [by right|done].
      * intros (q & [->|Hq]%elem_of_cons & Hm); [congruence|eauto].
    + destruct (IH Hrest) as (matched & -> & Hiff). exists matched. split; [done|].
      rewrite Hiff. split.
      * intros (q & Hq & Hm). exists q. split; [by right|done].
      * intros (q & [->|Hq]%elem_of_cons & Hm); [congruence|eauto].
    + exists true. split; [done|]. split; [|done]. intros _.
      exists p. split; [by left|done].
Qed.

Lemma matches_message_patterns_skip (before after : list string) (pattern message : string) :
  re_search_ignorecase pattern message = ReError ->
  _matches_message_patterns (before ++ pattern :: after) message
  = _matches_message_patterns (before ++ after) message.
Proof.
  intros Hp. induction before as [|q before IH]; cbn [app _matches_message_patterns].
  - by rewrite Hp.
  - by rewrite IH.
Qed.

(** An exception of [re.search] that is not [re.error] leaves the stage,
    unless a pattern before it matched. *)
Lemma matches_message_patterns_raises (before after : list string)
    (pattern message : string) (e : exn) :
  _matches_message_patterns before message = Ok false ->
  re_search_ignorecase pattern message = ReRaises e ->
  _matches_message_patterns (before ++ pattern :: after) message = Raise e.
Proof.
  intros Hbefore Hp. induction before as [|q before IH];
    cbn [app _matches_message_patterns] in *.
  - by rewrite Hp.
  - destruct (re_search_ignorecase q message); try done; by apply IH.
Qed.

Lemma matches_context_conditions_spec (conditions : list ContextCondition)
    (facts : gmap string value) :
  typed_facts facts ->
  exists met, _matches_context_conditions conditions facts = Ok met
    /\ (met = true <-> forall c, c ∈ conditions -> check_condition c facts = Ok true).
Proof.
  intros Hfacts. induction conditions as [|c conditions IH];
    cbn [_matches_context_conditions].
  - exists true. split; [done|]. split; [|done]. by intros _ ? ?%elem_of_nil.
  - destruct (check_condition_returns c facts Hfacts) as [met Hmet].
    rewrite Hmet. cbn [bind]. destruct met.
    + destruct IH as (met & -> & IH). exists met. split; [done|].
      rewrite IH. split.
      * intros Hall c' [->|Hc']%elem_of_cons; auto.
      * intros Hall c' Hc'. apply Hall. by right.
    + exists false. split; [done|]. split; [done|].
      intros Hall. specialize (Hall c (list_elem_of_here _ _)). congruence.
Qed.

Lemma matches_explanation_spec (entry : Explanation) (exception : PyException)
    (facts : gmap string value) :
  typed_facts facts ->
  forallb (fun pattern => searchable pattern (exc_str exception))
          (message_patterns (conditions entry)) = true ->
  exists matched,
    _matches_explanation entry (exc_type_name exception) (exc_str exception) facts
      = Ok matched
    /\ (matched = true <-> passes_stages entry exception facts).
Proof.
  intros Hfacts Hsearch. unfold _matches_explanation, passes_stages.
  destruct (String.eqb_spec (exception_type (conditions entry)) (exc_type_name exception))
    as [Hty|Hty]; cbn [negb].
  2:{ exists false. split; [done|]. split; [done|]. by intros [? _]. }
  destruct (matches_message_patterns_spec _ _ Hsearch) as (found & -> & Hfound).
  cbn [bind]. destruct found; cbn [negb].
  2:{ exists false. split; [done|]. split; [done|].
      intros (_ & Hp & _). apply Hfound in Hp. congruence. }
  pose proof (proj1 Hfound eq_refl) as Hmsg.
  destruct (context_conditions (conditions entry)) as [[|c cs]|]; cbn [default].
  - exists true. split; [done|]. split; [|done]. intros _.
    split; [done|]. split; [done|]. by intros ? ?%elem_of_nil.
  - destruct (matches_context_conditions_spec (c :: cs) facts Hfacts) as (met & -> & Hmet).
    exists met. split; [done|]. rewrite Hmet. tauto.
  - exists true. split; [done|]. split; [|done]. intros _.
    split; [done|]. split; [done|]. by intros ? ?%elem_of_nil.
Qed.

(** With a test that always returns, the two loops are a filter. *)
Lemma all_matching_filter (loaded : list (Explanation * ExplanationPack))
    (type_name message : string) (facts : gmap string value) (passes : Explanation -> bool) :
  (forall x, x ∈ loaded ->
     _matches_explanation x.1 type_name message facts = Ok (passes x.1)) ->
  all_matching loaded type_name message facts
  = Ok (map (fun x => (x.1, x.2, facts)) (filter (fun x => passes x.1 = true) loaded)).
Proof.
  induction loaded as [|[entry pack] loaded IH]; intros Hpasses;
    cbn [all_matching]; [done|].
  pose proof (Hpasses (entry, pack) (list_elem_of_here _ _)) as He. cbn [fst] in He.
  rewrite He.
  rewrite IH by (intros x Hx; apply Hpasses; by right).
  cbn [bind]. rewrite filter_cons. cbn [fst].
  destruct (passes entry); by case_decide.
Qed.

Lemma first_matching_head (loaded : list (Explanation * ExplanationPack))
    (type_name message : string) (facts : gmap string value) (passes : Explanation -> bool) :
  (forall x, x ∈ loaded ->
     _matches_explanation x.1 type_name message facts = Ok (passes x.1)) ->
  first_matching loaded type_name message facts
  = Ok (head (map (fun x => (x.1, x.2, facts)) (filter (fun x => passes x.1 = true) loaded))).
Proof.
  induction loaded as [|[entry pack] loaded IH]; intros Hpasses;
    cbn [first_matching]; [done|].
  pose proof (Hpasses (entry, pack) (list_elem_of_here _ _)) as He. cbn [fst] in He.
  rewrite He.
  cbn [bind fst]. rewrite filter_cons. cbn [fst].
  destruct (passes entry); case_decide; try done.
  apply IH. intros x Hx. apply Hpasses. by right.
Qed.

Lemma all_searchable_elem (loaded : list (Explanation * ExplanationPack))
    (message : string) (x : Explanation * ExplanationPack) :
  all_searchable loaded message = true -> x ∈ loaded ->
  forallb (fun pattern => searchable pattern message)
          (message_patterns (conditions x.1)) = true.
Proof.
  unfold all_searchable. rewrite forallb_forall. intros Hall Hx.
  apply Hall. by apply list_elem_of_In.
Qed.

Lemma first_matching_type (loaded : list (Explanation * ExplanationPack))
    (type_name message : string) (facts : gmap string value) entry pack facts' :
  first_matching loaded type_name message facts = Ok (Some (entry, pack, facts')) ->
  (entry, pack) ∈ loaded
  /\ exception_type (conditions entry) = type_name
  /\ _matches_explanation entry type_name message facts = Ok true.
Proof.
  induction loaded as [|[e p] loaded IH]; cbn [first_matching]; [done|].
  destruct (_matches_explanation e type_name message facts) as [[]|] eqn:He;
    cbn [bind]; [| |done].
  - intros [= -> -> <-]. split; [by left|]. split; [|done].
    unfold _matches_explanation in He.
    by destruct (String.eqb_spec (exception_type (conditions entry)) type_name).
  - intros (Hin & Hty & Hm)%IH. split; [by right|done].
Qed.

End matcher_facts.

Section matcher_properties.
Context `{PyRuntime}.
Import ContextAnalyzer PatternMatcher.

(** C3: after [load_explanations] the rule list is the rules of all packs,
    each tagged with its pack, in descending order of priority, rules of
    equal priority in their pack-then-in-pack order. Where [analyze]
    returns a FactSet and [re.search] raises nothing but [re.error] on the
    patterns of the loaded rules, [find_all] returns the rules of that list
    that pass the three stages, in that order, and [find_best] the first
    of them, so None and the empty list when no rule passes. *)
Theorem load_sorts_and_find_filters (packs : list ExplanationPack)
    (exception : PyException) (context : Context) :
  let tagged :=
    flat_map (fun pack => map (fun entry => (entry, pack)) (explanations pack)) packs in
  let loaded := load_explanations packs in
  loaded ≡ₚ tagged
  /\ StronglySorted (fun x y => exp_priority y.1 <= exp_priority x.1) loaded
  /\ (forall p, filter (fun x => exp_priority x.1 = p) loaded
               = filter (fun x => exp_priority x.1 = p) tagged)
  /\ forall facts : gmap string value,
       analyze exception context = Ok facts ->
       all_searchable loaded (exc_str exception) = true ->
       exists passes : Explanation -> bool,
         (forall x, x ∈ loaded ->
            passes x.1 = true <-> passes_stages x.1 exception facts)
         /\ find_all_matching_explanations loaded exception context
            = Ok (map (fun x => (x.1, x.2, facts))
                      (filter (fun x => passes x.1 = true) loaded))
         /\ find_best_explanation loaded exception context
            = Ok (head (map (fun x => (x.1, x.2, facts))
                            (filter (fun x => passes x.1 = true) loaded)))
         /\ ((forall x, x ∈ loaded -> passes x.1 = false) ->
             find_all_matching_explanations loaded exception context = Ok []
             /\ find_best_explanation loaded exception context = Ok None).
Proof.
  intros tagged loaded. split; [apply sort_by_perm|]. split.
  { exact (sort_by_ordered (fun x => exp_priority x.1) true _). }
  split; [intros p; apply (sort_by_stable (fun x => exp_priority x.1))|].
  intros facts Hfacts Hsearch.
  destruct (analyze_facts _ _ _ Hfacts) as [_ Htyped].
  set (passes := fun entry =>
         match _matches_explanation entry (exc_type_name exception)
                 (exc_str exception) facts with
         | Ok matched => matched
         | Raise _ => false
         end).
  assert (forall x, x ∈ loaded ->
             _matches_explanation x.1 (exc_type_name exception) (exc_str exception) facts
             = Ok (passes x.1)) as Hpasses.
  { intros x Hx. unfold passes.
    by destruct (matches_explanation_spec x.1 exception facts Htyped
                   (all_searchable_elem _ _ _ Hsearch Hx)) as (m & -> & _). }
  exists passes. split.
  { intros x Hx.
    destruct (matches_explanation_spec x.1 exception facts Htyped
                (all_searchable_elem _ _ _ Hsearch Hx)) as (m & Hm & Hiff).
    unfold passes. by rewrite Hm. }
  assert (find_all_matching_explanations loaded exception context
          = Ok (map (fun x => (x.1, x.2, facts)) (filter (fun x => passes x.1 = true) loaded)))
    as Hall.
  { unfold find_all_matching_explanations. rewrite Hfacts. cbn [bind].
    by apply all_matching_filter. }
  assert (find_best_explanation loaded exception context
          = Ok (head (map (fun x => (x.1, x.2, facts))
                          (filter (fun x => passes x.1 = true) loaded)))) as Hbest.
  { unfold find_best_explanation. rewrite Hfacts. cbn [bind].
    by apply first_matching_head. }
  split; [done|]. split; [done|].
  intros Hnone. rewrite Hall, Hbest.
  assert (filter (fun x => passes x.1 = true) loaded = []) as ->; [|done].
  apply filter_none. intros x Hx. rewrite (Hnone x Hx). done.
Qed.

(** C8: a rule that [find_best_explanation] returns is one of the loaded
    rules, and its [conditions.exception_type] is the very string that
    names the exception's type. *)
Theorem find_best_rule_has_the_type (loaded : list (Explanation * ExplanationPack))
    (exception : PyException) (context : Context)
    (entry : Explanation) (pack : ExplanationPack) (facts : gmap string value) :
  find_best_explanation loaded exception context = Ok (Some (entry, pack, facts)) ->
  exception_type (conditions entry) = exc_type_name exception
  /\ (entry, pack) ∈ loaded.
Proof.
  unfold find_best_explanation.
  destruct (analyze exception context) as [facts'|]; cbn [bind]; [|done].
  intros (Hin & Hty & _)%first_matching_type. done.
Qed.

End matcher_properties.

(** The rules of the sample pack are searched without an exception. *)
Lemma sample_rules_are_searchable :
  @all_searchable Reference.runtime
    (PatternMatcher.load_explanations [Sample.core_pack]) (exc_str Sample.name_error)
  = true.
Proof. vm_compute. reflexivity. Qed.

(** Under the reference runtime a pattern that does not compile, followed
    by one that occurs in the message in another case, satisfies the
    stage; followed by one that occurs nowhere, it does not. *)
Lemma sample_patterns_skip_the_uncompilable :
  @PatternMatcher._matches_message_patterns Reference.runtime
     ["(unclosed"; "NOT defined"] "name 'lst' is not defined" = Ok true
  /\ @PatternMatcher._matches_message_patterns Reference.runtime
       ["(unclosed"; "undefined"] "name 'lst' is not defined" = Ok false.
Proof. split; vm_compute; reflexivity. Qed.

(** C7: the code departs from the specification. [re.search] answers the
    pattern [a{4294967296}] with OverflowError, which is not [re.error]:
    the pattern does not compile and is not skipped. The pattern after
    it matches the message, yet the stage raises, and so do
    [find_best_explanation] and [find_all_matching_explanations] on a rule
    with these patterns. *)
Theorem overflowing_pattern_leaves_the_matcher :
  @re_search_ignorecase Reference.runtime "a{4294967296}" "name 'lst' is not defined"
  = ReRaises OverflowError
  /\ @re_search_ignorecase Reference.runtime "not defined" "name 'lst' is not defined"
     = ReMatch
  /\ @PatternMatcher._matches_message_patterns Reference.runtime
       ["a{4294967296}"; "not defined"] "name 'lst' is not defined"
     = Raise OverflowError
  /\ @PatternMatcher.find_best_explanation Reference.runtime
       (PatternMatcher.load_explanations [Sample.overflow_pack])
       Sample.name_error Sample.context
     = Raise OverflowError
  /\ @PatternMatcher.find_all_matching_explanations Reference.runtime
       (PatternMatcher.load_explanations [Sample.overflow_pack])
       Sample.name_error Sample.context
     = Raise OverflowError.
Proof. repeat split; vm_compute; reflexivity. Qed.

Lemma sample_search_finds_typo_rule :
  Sample.found_rule (@PatternMatcher.find_best_explanation Reference.runtime
                (PatternMatcher.load_explanations [Sample.core_pack])
                Sample.name_error Sample.context)
  = Some ("name_error_typo", "core-python").
Proof. vm_compute. reflexivity. Qed.

Lemma find_best_rule_has_the_type_witness :
  match @PatternMatcher.find_best_explanation Reference.runtime
          (PatternMatcher.load_explanations [Sample.core_pack])
          Sample.name_error Sample.context with
  | Ok (Some (entry, pack, _)) =>
      exp_id entry = "name_error_typo"
      /\ exception_type (conditions entry) = exc_type_name Sample.name_error
      /\ (entry, pack) ∈ PatternMatcher.load_explanations [Sample.core_pack]
  | _ => False
  end.
Proof.
  pose proof sample_search_finds_typo_rule as Hfound.
  destruct (@PatternMatcher.find_best_explanation Reference.runtime
              (PatternMatcher.load_explanations [Sample.core_pack])
              Sample.name_error Sample.context)
    as [[[[entry pack] facts]|]|e] eqn:Hfind; [|discriminate Hfound|discriminate Hfound].
  split; [by injection Hfound|].
  exact (find_best_rule_has_the_type _ _ _ _ _ _ Hfind).
Defined.

(** ** Condition expressions *)

Section condition_expression_facts.
Context `{PyRuntime}.
Import TemplateRenderer.

(** The text before the first " > " of "<fact> > <number>" is the fact,
    when the fact has no ">" in it. *)
Lemma split_once_comparison (fact number : string) :
  every (not_char ">") fact = true ->
  split_once " > " (fact +:+ " > " +:+ number) = Some (fact, number).
Proof.
  induction fact as [|c fact IH]; intros Hfact.
  - reflexivity.
  - cbn [every] in Hfact. apply andb_true_iff in Hfact as [Hc Hfact].
    rewrite append_cons. cbn [split_once]. rewrite (IH Hfact).
    assert (strip_prefix " > " (String c (fact +:+ " > " +:+ number)) = None) as ->; [|done].
    cbn [strip_prefix]. destruct (Ascii.eqb " " c); [|done].
    destruct fact as [|d fact]; [done|].
    rewrite append_cons. cbn [strip_prefix].
    cbn [every] in Hfact. apply andb_true_iff in Hfact as [Hd _].
    unfold not_char in Hd. rewrite Ascii.eqb_sym in Hd.
    by destruct (Ascii.eqb ">" d).
Qed.

Lemma evaluate_comparison (analysis : gmap string value) (fact number : string) :
  no_such_fact analysis (fact +:+ " > " +:+ number) ->
  every (not_char ">") fact = true ->
  _evaluate_condition (fact +:+ " > " +:+ number) analysis
  = except_value_type
      (do right_val <- float_of_value (VStr (strip number)) in
       do left_float <- float_of_value (dict_get analysis (strip fact) (VInt 0)) in
       Ok (PrimFloat.ltb right_val left_float))
      (Ok false).
Proof.
  intros Hno Hfact. unfold _evaluate_condition.
  rewrite (split_once_comparison _ _ Hfact). by destruct Hno as [-> | ->].
Qed.

Lemma evaluate_other (analysis : gmap string value) (condition : string) :
  no_such_fact analysis condition ->
  contains " > " condition = false ->
  _evaluate_condition condition analysis = Ok false.
Proof.
  intros Hno Hgt. unfold _evaluate_condition, contains in *.
  destruct (split_once " > " condition) as [[]|]; [done|].
  by destruct Hno as [-> | ->].
Qed.

(** C2: with the literal "always" true only where an item's inclusion
    is decided. As a suggestion's or example's condition "always" is true
    for every FactSet, and any other inclusion condition is evaluated as
    an expression; in an [{if ...}] block "always" is an expression like
    any other, false unless the FactSet has a fact of that name. A fact
    name evaluates by the type of the fact's value: a bool as it is, a
    string or a list by being non-empty, a number by being above zero.
    For "<fact> > <number>", where the whole text is no fact and the fact
    has no ">" in it: false when [float(number)] fails; otherwise, with
    the fact's value, or 0 for a missing fact, the comparison of the two
    floats when [float] of the value succeeds, and false when it fails
    with TypeError or ValueError. An expression that is no fact and has
    no " > " in it is false. *)
Theorem condition_expression_rules (analysis : gmap string value) :
  _should_include_item "always" analysis = Ok true
  /\ (forall condition, condition <> "always" ->
        _should_include_item condition analysis = _evaluate_condition condition analysis)
  /\ (analysis !! "always" = None ->
        _evaluate_condition "always" analysis = Ok false
        /\ (forall content, replace_if analysis ["always"; content] = Ok EmptyString)
        /\ (forall content alternative,
              replace_if_else analysis ["always"; content; alternative] = Ok alternative))
  /\ (forall name b, analysis !! name = Some (VBool b) ->
        _evaluate_condition name analysis = Ok b)
  /\ (forall name s, analysis !! name = Some (VStr s) ->
        _evaluate_condition name analysis = Ok (negb (String.eqb s EmptyString)))
  /\ (forall name l, analysis !! name = Some (VList l) ->
        _evaluate_condition name analysis
        = Ok (match l with [] => false | _ :: _ => true end))
  /\ (forall name n, analysis !! name = Some (VInt n) ->
        _evaluate_condition name analysis = Ok (0 <? n))
  /\ (forall name x, analysis !! name = Some (VFloat x) ->
        _evaluate_condition name analysis = Ok (PrimFloat.ltb 0 x))
  /\ (forall fact number,
        no_such_fact analysis (fact +:+ " > " +:+ number) ->
        every (not_char ">") fact = true ->
        let value := dict_get analysis (strip fact) (VInt 0) in
        (py_float_of_str (strip number) = None ->
           _evaluate_condition (fact +:+ " > " +:+ number) analysis = Ok false)
        /\ (forall bound x,
              py_float_of_str (strip number) = Some bound ->
              float_of_value value = Ok x ->
              _evaluate_condition (fact +:+ " > " +:+ number) analysis
              = Ok (PrimFloat.ltb bound x))
        /\ (forall bound,
              py_float_of_str (strip number) = Some bound ->
              float_of_value value = Raise TypeError
              \/ float_of_value value = Raise ValueError ->
              _evaluate_condition (fact +:+ " > " +:+ number) analysis = Ok false))
  /\ (forall condition,
        no_such_fact analysis condition ->
        contains " > " condition = false ->
        _evaluate_condition condition analysis = Ok false).
Proof.
  split; [done|]. split.
  { intros condition Hne. unfold _should_include_item.
    by destruct (String.eqb_spec condition "always"). }
  split.
  { intros Hmiss.
    assert (_evaluate_condition "always" analysis = Ok false) as Hfalse.
    { apply evaluate_other; [by left|done]. }
    split; [done|]. split.
    - intros content. unfold replace_if. cbn [nth].
      change (strip "always") with "always". by rewrite Hfalse.
    - intros content alternative. unfold replace_if_else. cbn [nth].
      change (strip "always") with "always". by rewrite Hfalse. }
  split; [intros name b Hv; unfold _evaluate_condition; by rewrite Hv|].
  split.
  { intros name s Hv. unfold _evaluate_condition. rewrite Hv. by destruct s. }
  split.
  { intros name l Hv. unfold _evaluate_condition. rewrite Hv. by destruct l. }
  split; [intros name n Hv; unfold _evaluate_condition; by rewrite Hv|].
  split; [intros name x Hv; unfold _evaluate_condition; by rewrite Hv|].
  split; [|intros; by apply evaluate_other].
  intros fact number Hno Hfact value.
  rewrite (evaluate_comparison _ _ _ Hno Hfact). fold value.
  cbn [float_of_value]. split; [by intros ->|]. split.
  - by intros bound x -> ->.
  - by intros bound -> [-> | ->].
Qed.

End condition_expression_facts.

Lemma condition_expression_rules_witness :
  @TemplateRenderer._should_include_item Reference.runtime "always" Sample.one_similar
  = Ok true
  /\ @TemplateRenderer._evaluate_condition Reference.runtime
       "similar_variables_exist" Sample.one_similar = Ok true
  /\ @TemplateRenderer._evaluate_condition Reference.runtime
       "closest_variable" Sample.one_similar = Ok true
  /\ @TemplateRenderer._evaluate_condition Reference.runtime
       "line_number" Sample.one_similar = Ok true
  /\ @TemplateRenderer._evaluate_condition Reference.runtime
       "similarity_score > 0.5" Sample.one_similar = Ok true
  /\ @TemplateRenderer._evaluate_condition Reference.runtime
       "similarity_score > much" Sample.one_similar = Ok false
  /\ @TemplateRenderer._evaluate_condition Reference.runtime
       "bad_value > 1" Sample.one_similar = Ok false
  /\ @TemplateRenderer._evaluate_condition Reference.runtime
       "missing_fact > -1" Sample.one_similar = Ok true
  /\ @TemplateRenderer._evaluate_condition Reference.runtime
       "not similar_variables_exist" Sample.one_similar = Ok false.
Proof.
  destruct (condition_expression_rules (H := Reference.runtime) Sample.one_similar)
    as (Halways & _ & _ & Hbool & Hstr & _ & Hint & _ & Hcompare & Hother).
  split; [exact Halways|].
  split; [exact (Hbool "similar_variables_exist" true eq_refl)|].
  split; [exact (Hstr "closest_variable" "lst2" eq_refl)|].
  split; [exact (Hint "line_number" 3 eq_refl)|].
  split.
  { destruct (Hcompare "similarity_score" "0.5" (or_introl eq_refl) eq_refl)
      as (_ & Hnumbers & _).
    exact (Hnumbers 0.5%float 0x1.b6db6db6db6dbp-1%float eq_refl eq_refl). }
  split.
  { destruct (Hcompare "similarity_score" "much" (or_introl eq_refl) eq_refl)
      as (Hbound & _ & _).
    exact (Hbound eq_refl). }
  split.
  { destruct (Hcompare "bad_value" "1" (or_introl eq_refl) eq_refl) as (_ & _ & Hfails).
    exact (Hfails 1%float eq_refl (or_intror eq_refl)). }
  split.
  { destruct (Hcompare "missing_fact" "-1" (or_introl eq_refl) eq_refl)
      as (_ & Hnumbers & _).
    exact (Hnumbers (-1)%float 0%float eq_refl eq_refl). }
  exact (Hother "not similar_variables_exist" (or_introl eq_refl) eq_refl).
Defined.

(** C2 as the specification states it fails: on the empty FactSet, and
    on the FactSet of the sample error, the condition "always" of an
    [{if ...}] block is false: the block renders to nothing, or to its
    [{else}] part. Only [_should_include_item] knows the literal. *)
Lemma always_is_false_in_an_if_block :
  @TemplateRenderer._evaluate_condition Reference.runtime "always" ∅ = Ok false
  /\ @TemplateRenderer._render_template Reference.runtime "{if always}shown{endif}" ∅
     = Ok ""
  /\ @TemplateRenderer._render_template Reference.runtime
       "{if always}shown{else}hidden{endif}" ∅ = Ok "hidden"
  /\ @TemplateRenderer._render_template Reference.runtime
       "{if always}shown{else}hidden{endif}" Sample.facts = Ok "hidden"
  /\ @TemplateRenderer._should_include_item Reference.runtime "always" ∅ = Ok true.
Proof. repeat split; vm_compute; reflexivity. Qed.

(** ** Variable substitution *)

Section renderer_facts.
Context `{PyRuntime}.
Import TemplateRenderer.

(** No match of the variable pattern starts at a character other than
    the opening brace. *)
Lemma variable_pattern_needs_brace (c : ascii) (s : string) :
  not_char "{" c = true -> match_at variable_pattern (String c s) = None.
Proof.
  unfold not_char, match_at, variable_pattern. cbn [match_here strip_prefix].
  rewrite Ascii.eqb_sym. by destruct (Ascii.eqb "{" c).
Qed.

Lemma sub_variables_text (repl : list string -> result string) (before rest : string) :
  every (not_char "{") before = true ->
  sub variable_pattern repl (before +:+ rest)
  = do t <- sub variable_pattern repl rest in Ok (before +:+ t).
Proof.
  unfold sub. induction before as [|c before IH]; intros Hb.
  - rewrite append_nil_l. by destruct (sub_from variable_pattern repl 0 rest).
  - cbn [every] in Hb. apply andb_true_iff in Hb as [Hc Hb].
    rewrite append_cons. cbn [sub_from].
    rewrite (variable_pattern_needs_brace _ _ Hc), (IH Hb).
    by destruct (sub_from variable_pattern repl 0 rest).
Qed.

(** A brace, a non-empty text without closing brace and a closing brace
    are one token, whose group is the text. *)
Lemma variable_pattern_token (token after : string) :
  token <> EmptyString ->
  every (not_char "}") token = true ->
  match_at variable_pattern ("{" +:+ token +:+ "}" +:+ after)
  = Some {| m_groups := [token]; m_text := "{" +:+ token +:+ "}"; m_rest := after |}.
Proof.
  intros Hne Htok. unfold match_at, variable_pattern.
  cbn [match_here]. rewrite strip_prefix_append. rewrite append_nil_l.
  apply repeat_class_takes_run; [done| | |].
  - rewrite append_cons. reflexivity.
  - destruct token; [done|]. cbn [String.length]. lia.
  - cbn [match_here]. rewrite strip_prefix_append.
    rewrite !append_cons, !append_nil_l. cbn [String.length].
    rewrite Nat.sub_succ, Nat.sub_0_r. cbn [String.substring].
    rewrite substring_all. reflexivity.
Qed.

Lemma sub_variables_token (repl : list string -> result string) (token after : string) :
  token <> EmptyString ->
  every (not_char "}") token = true ->
  sub variable_pattern repl ("{" +:+ token +:+ "}" +:+ after)
  = do r <- repl [token] in
    do t <- sub variable_pattern repl after in
    Ok (r +:+ t).
Proof.
  intros Hne Htok. unfold sub.
  pose proof (variable_pattern_token token after Hne Htok) as Hm.
  rewrite append_cons, append_nil_l in *. cbn [sub_from]. rewrite Hm.
  cbn [m_groups m_text]. destruct (repl [token]) as [r|e]; cbn [bind]; [|done].
  change ("{" +:+ token +:+ "}") with (String "{" (token +:+ "}")).
  cbn [String.length Nat.pred].
  rewrite <- (append_assoc token "}" after), sub_from_skip. done.
Qed.

(** For a name that is not a fact, [replace_var] returns the placeholder,
    whatever the format, as long as [float] does not read the placeholder
    as a number. *)
Lemma replace_var_missing (analysis : gmap string value) (token : string) :
  analysis !! token_name token = None ->
  py_float_of_str (unknown_variable (token_name token)) = None ->
  replace_var analysis [token] = Ok (unknown_variable (token_name token)).
Proof.
  unfold replace_var, token_name. cbn [nth].
  destruct (split_once ":" token) as [[name format_spec]|]; intros Hmiss Hfloat.
  - unfold dict_get. rewrite Hmiss. cbn [float_of_value str]. rewrite Hfloat.
    destruct (String.eqb format_spec ".0%"); [done|].
    destruct (startswith format_spec "." && endswith format_spec "f"); [|done].
    by destruct (int_of_str _).
  - unfold dict_get. by rewrite Hmiss.
Qed.

(** C6: a token [{name}] or [{name:format}] whose name is not in the
    FactSet is replaced by [{unknown_variable_<name>}], and nothing is
    raised for it: that is what the replacement function returns for the
    token wherever it stands, and for the first token of a template (the
    text before it has no opening brace) the substitution yields the text,
    the placeholder and the substitution of what follows. [float] is
    taken not to read the placeholder as a number. *)
Theorem missing_fact_renders_placeholder (analysis : gmap string value)
    (before token after : string) :
  analysis !! token_name token = None ->
  py_float_of_str (unknown_variable (token_name token)) = None ->
  token <> EmptyString ->
  every (not_char "}") token = true ->
  every (not_char "{") before = true ->
  replace_var analysis [token] = Ok (unknown_variable (token_name token))
  /\ _substitute_variables (before +:+ "{" +:+ token +:+ "}" +:+ after) analysis
     = do rest <- _substitute_variables after analysis in
       Ok (before +:+ unknown_variable (token_name token) +:+ rest).
Proof.
  intros Hmiss Hfloat Hne Htok Hbefore.
  split; [by apply replace_var_missing|]. unfold _substitute_variables.
  rewrite (sub_variables_text _ _ _ Hbefore), (sub_variables_token _ _ _ Hne Htok).
  rewrite (replace_var_missing _ _ Hmiss Hfloat). cbn [bind].
  by destruct (sub variable_pattern (replace_var analysis) after).
Qed.

End renderer_facts.

Lemma missing_fact_renders_placeholder_witness :
  @TemplateRenderer._substitute_variables Reference.runtime "{nonexistent}" ∅
  = Ok "{unknown_variable_nonexistent}"
  /\ @TemplateRenderer._render_template Reference.runtime "{nonexistent}" ∅
     = Ok "{unknown_variable_nonexistent}"
  /\ @TemplateRenderer._substitute_variables Reference.runtime
       "Score {score:.0%} of {closest}" ∅
     = Ok "Score {unknown_variable_score} of {unknown_variable_closest}".
Proof.
  split.
  { refine (proj2 (missing_fact_renders_placeholder (H := Reference.runtime)
                     ∅ "" "nonexistent" "" _ _ _ _ _));
      [reflexivity | apply float_rejects_placeholder | discriminate
       | reflexivity | reflexivity]. }
  split; vm_compute; reflexivity.
Defined.

(** ** Suggestions *)

Section suggestion_facts.
Context `{PyRuntime}.
Import TemplateRenderer.

Lemma with_priority_returns (analysis : gmap string value)
    (suggestions : list ExplanationSuggestion) :
  Forall (renders analysis) suggestions ->
  with_priority suggestions analysis
  = Ok (map (fun s => (s, text_of analysis s))
            (filter (fun s => included analysis s = true) suggestions)).
Proof.
  induction suggestions as [|s suggestions IH]; [done|].
  intros [[[b Hb] Ht] Hrest]%Forall_cons. cbn [with_priority].
  rewrite filter_cons, Hb. cbn [bind].
  assert (included analysis s = b) as Hinc by (unfold included; by rewrite Hb).
  rewrite Hinc in *. destruct b.
  - destruct (Ht eq_refl) as [t Hrender].
    assert (text_of analysis s = t) as Htext by (unfold text_of; by rewrite Hrender).
    rewrite Hrender, (IH Hrest). cbn [bind].
    rewrite decide_True by done. cbn [map]. by rewrite Htext.
  - rewrite (IH Hrest). by rewrite decide_False by done.
Qed.

Lemma render_included_returns (analysis : gmap string value)
    (suggestions : list ExplanationSuggestion) :
  Forall (renders analysis) suggestions ->
  exists l, render_included suggestions analysis = Ok l.
Proof.
  induction suggestions as [|s suggestions IH]; [by eexists|].
  intros [[[b Hb] Ht] Hrest]%Forall_cons. cbn [render_included].
  assert (included analysis s = b) as Hinc by (unfold included; by rewrite Hb).
  rewrite Hb, Hinc in *. cbn [bind].
  destruct (IH Hrest) as [l Hl]. rewrite Hl. destruct b; [|by eexists].
  destruct (Ht eq_refl) as [t ->]. cbn [bind]. by eexists.
Qed.

(** The code computes the list of the specification. *)
Lemma render_suggestions_shown (analysis : gmap string value)
    (suggestions : list ExplanationSuggestion) :
  Forall (renders analysis) suggestions ->
  _render_suggestions suggestions analysis
  = Ok (map (text_of analysis) (shown analysis suggestions)).
Proof.
  intros Hr. unfold _render_suggestions, shown.
  destruct (render_included_returns _ _ Hr) as [l ->].
  rewrite (with_priority_returns _ _ Hr). cbn [bind]. f_equal.
  rewrite filter_bool, sort_by_filter, filter_map, list_filter_filter.
  rewrite (sort_by_map (fun x => sugg_priority x.1) false
             (fun s => (s, text_of analysis s))).
  rewrite map_map. cbn [fst snd].
  f_equal. f_equal. apply list_filter_iff. intros s.
  unfold nonempty_text. cbn [snd].
  rewrite negb_true_iff, String.eqb_neq. tauto.
Qed.

(** The renderer puts the list of [_render_suggestions] in its result. *)
Lemma render_explanation_suggestions (entry : Explanation)
    (analysis : gmap string value) (rendered : Rendered) :
  render_explanation entry analysis = Ok rendered ->
  _render_suggestions (suggestions (explanation entry)) analysis
  = Ok (rendered_suggestions rendered).
Proof.
  unfold render_explanation.
  destruct (_render_template (title _) analysis); cbn [bind]; [|done].
  destruct (_render_template (description _) analysis); cbn [bind]; [|done].
  destruct (_render_suggestions _ analysis); cbn [bind]; [|done].
  destruct (_render_examples _ analysis); cbn [bind]; [|done].
  by intros [= <-].
Qed.

(** C5: with the suggestions of empty text left out. When nothing is
    raised, the rendered list holds the texts of exactly the suggestions
    whose condition is satisfied and whose text is not empty, in ascending
    order of the suggestion's priority, suggestions of equal priority in
    their order in the rule; a rule's list is that of its suggestions and
    the FactSet, whatever the rule's own priority. *)
Theorem suggestions_filtered_then_sorted (analysis : gmap string value)
    (items : list ExplanationSuggestion) :
  Forall (renders analysis) items ->
  let kept := filter (fun s => included analysis s = true
                               /\ text_of analysis s <> EmptyString) items in
  exists ordered : list ExplanationSuggestion,
    _render_suggestions items analysis = Ok (map (text_of analysis) ordered)
    /\ ordered ≡ₚ kept
    /\ StronglySorted (fun a b => sugg_priority a <= sugg_priority b) ordered
    /\ (forall p, filter (fun s => sugg_priority s = p) ordered
                 = filter (fun s => sugg_priority s = p) kept)
    /\ (forall entry rendered,
          suggestions (explanation entry) = items ->
          render_explanation entry analysis = Ok rendered ->
          rendered_suggestions rendered = map (text_of analysis) ordered).
Proof.
  intros Hr kept. exists (shown analysis items).
  pose proof (render_suggestions_shown _ _ Hr) as Hshown.
  split; [done|]. split; [apply sort_by_perm|].
  split; [exact (sort_by_ordered sugg_priority false _)|].
  split; [intros p; apply sort_by_stable|].
  intros entry rendered <- Hrendered.
  apply render_explanation_suggestions in Hrendered.
  rewrite Hshown in Hrendered. by injection Hrendered.
Qed.

End suggestion_facts.

Lemma suggestions_filtered_then_sorted_witness :
  Forall (@renders Reference.runtime Sample.one_similar)
         (suggestions (explanation Sample.typo_rule))
  /\ @TemplateRenderer._render_suggestions Reference.runtime
       (suggestions (explanation Sample.typo_rule)) Sample.one_similar
     = Ok ["Did you mean 'lst2'?"; "Define 'lst' before using it"]
  /\ exists ordered : list ExplanationSuggestion,
       @TemplateRenderer._render_suggestions Reference.runtime
         (suggestions (explanation Sample.typo_rule)) Sample.one_similar
       = Ok (map (@text_of Reference.runtime Sample.one_similar) ordered)
       /\ StronglySorted (fun a b => sugg_priority a <= sugg_priority b) ordered.
Proof.
  assert (Forall (@renders Reference.runtime Sample.one_similar)
                 (suggestions (explanation Sample.typo_rule))) as Hrenders.
  { repeat constructor; try (eexists; vm_compute; reflexivity);
      intros _; eexists; vm_compute; reflexivity. }
  split; [exact Hrenders|]. split; [vm_compute; reflexivity|].
  destruct (suggestions_filtered_then_sorted (H := Reference.runtime)
              Sample.one_similar _ Hrenders) as (ordered & Hlist & _ & Hsorted & _).
  exists ordered. split; [exact Hlist|exact Hsorted].
Defined.

(** C5 as the specification states it fails: of the three suggestions
    of the sample rule the first two have a satisfied condition, and the
    rendered list has one text; the second suggestion renders to the
    empty text and is dropped. *)
Lemma satisfied_suggestion_with_empty_text_is_dropped :
  map (@included Reference.runtime Sample.no_similar)
      (suggestions (explanation Sample.typo_rule)) = [true; true; false]
  /\ map (@text_of Reference.runtime Sample.no_similar)
         (suggestions (explanation Sample.typo_rule))
     = ["Define 'pirnt' before using it"; ""; "Import the module first"]
  /\ @TemplateRenderer._render_suggestions Reference.runtime
       (suggestions (explanation Sample.typo_rule)) Sample.no_similar
     = Ok ["Define 'pirnt' before using it"].
Proof. repeat split; vm_compute; reflexivity. Qed.

(** ** The engine facade *)

Section engine_facts.
Context `{PyRuntime}.
Import Engine.

(** Past initialization, [explain] returns whatever happens inside it. *)
Lemma explain_returns_once_initialized (env : Collaborators) (self : EngineState)
    (exception : PyException) (context : Context) :
  _initialized self = true ->
  exists answer, explain env self exception context = Ok (self, answer).
Proof.
  intros Hinit. unfold explain. rewrite Hinit. cbn [bind].
  destruct (explain_body self exception context); cbn [try_except bind]; by eexists.
Qed.

(** An exception of [initialize] is an exception of [explain]. *)
Lemma explain_raises_what_initialize_raises (env : Collaborators) (self : EngineState)
    (exception : PyException) (context : Context) (e : exn) :
  _initialized self = false ->
  initialize env self = Raise e ->
  explain env self exception context = Raise e.
Proof. intros Hinit Hraise. unfold explain. by rewrite Hinit, Hraise. Qed.

(** C1: the code departs from the specification. The first call of
    [explain] runs [initialize] outside the [try] statement: when the
    packages directory cannot be created, the OSError leaves [explain];
    when the directory does not exist, the UnboundLocalError of reading
    [all_packs] does. *)
Theorem explain_raises_when_initialization_fails
    (exception : PyException) (context : Context) :
  explain Sample.unwritable_home new_engine exception context = Raise OSError
  /\ explain Sample.missing_directory new_engine exception context
     = Raise UnboundLocalError.
Proof. split; reflexivity. Qed.

End engine_facts.

(** ** The keys of a FactSet *)

Section analyzer_keys.
Context `{PyRuntime}.
Import ContextAnalyzer.

Lemma has_keys_insert names k v (m : gmap string value) :
  k ∈ names -> has_keys names m -> has_keys names (<[k := v]> m).
Proof.
  intros Hk Hm name. rewrite lookup_insert_is_Some. split.
  - intros [<-|[_ Hn]]; [done|by apply Hm].
  - intros Hn. destruct (decide (k = name)); [by left|]. right. split; [done|by apply Hm].
Qed.

Lemma initial_analysis_keys exception context :
  has_keys fact_names (initial_analysis exception context).
Proof.
  intros name. unfold initial_analysis.
  rewrite <- elem_of_dom, dom_list_to_map_L, elem_of_list_to_set. reflexivity.
Qed.

Ltac keep_keys :=
  repeat (apply has_keys_insert; [solve_keys|]); try assumption.

Lemma similarity_keeps_keys (m m' : gmap string value) :
  has_keys fact_names m -> _analyze_variable_similarity m = Ok m' -> has_keys fact_names m'.
Proof.
  intros Hm. unfold _analyze_variable_similarity.
  destruct (getitem m "variable_name") as [name|]; cbn [bind]; [|done].
  destruct (getitem m "available_variables") as [available|]; cbn [bind]; [|done].
  destruct (_ || _); [by intros [= <-]|].
  destruct name; try done. destruct available; try done.
  destruct (get_close_matches _ _ _ _); intros [= <-]; keep_keys.
Qed.

Lemma import_patterns_keeps_keys (m m' : gmap string value) :
  has_keys fact_names m -> _analyze_import_patterns m = Ok m' -> has_keys fact_names m'.
Proof.
  intros Hm. unfold _analyze_import_patterns.
  destruct (getitem m "variable_name") as [[]|]; cbn [bind]; try done.
  destruct (in_list _ _); intros [= <-]; keep_keys.
Qed.

Lemma builtin_typos_keeps_keys (m m' : gmap string value) :
  has_keys fact_names m -> _analyze_builtin_typos m = Ok m' -> has_keys fact_names m'.
Proof.
  intros Hm. unfold _analyze_builtin_typos.
  destruct (getitem m "variable_name") as [[]|]; cbn [bind]; try done.
  destruct (builtin_typos !! _); intros [= <-]; keep_keys.
Qed.

Lemma type_errors_keeps_keys (m m' : gmap string value) exception :
  has_keys fact_names m -> _analyze_type_errors m exception = Ok m' -> has_keys fact_names m'.
Proof.
  intros Hm. unfold _analyze_type_errors.
  destruct (negb _); [by intros [= <-]|].
  destruct (search _ _); intros [= <-]; keep_keys.
Qed.

Lemma value_errors_keeps_keys (m m' : gmap string value) exception :
  has_keys fact_names m -> _analyze_value_errors m exception = Ok m' -> has_keys fact_names m'.
Proof.
  intros Hm. unfold _analyze_value_errors.
  destruct (negb _); [by intros [= <-]|].
  destruct (search re_not_enough _) as [r|]; cbn [bind].
  - destruct (int_of_digit_run (group r 1)); cbn [bind]; [|done].
    destruct (int_of_digit_run (group r 2)); cbn [bind]; [|done].
    destruct (search re_too_many _) as [r'|].
    + destruct (int_of_digit_run (group r' 1)); cbn [bind]; [|done].
      intros [= <-]; keep_keys.
    + intros [= <-]; keep_keys.
  - destruct (search re_too_many _) as [r'|].
    + destruct (int_of_digit_run (group r' 1)); cbn [bind]; [|done].
      intros [= <-]; keep_keys.
    + intros [= <-]; keep_keys.
Qed.

Lemma analyze_keeps_keys exception context facts :
  analyze exception context = Ok facts -> has_keys fact_names facts.
Proof.
  unfold analyze.
  pose proof (initial_analysis_keys exception context) as H0.
  destruct (_analyze_variable_similarity _) as [m1|] eqn:E1; cbn [bind]; [|done].
  apply similarity_keeps_keys in E1; [|done].
  destruct (_analyze_import_patterns _) as [m2|] eqn:E2; cbn [bind]; [|done].
  apply import_patterns_keeps_keys in E2; [|done].
  destruct (_analyze_builtin_typos _) as [m3|] eqn:E3; cbn [bind]; [|done].
  apply builtin_typos_keeps_keys in E3; [|done].
  destruct (_analyze_type_errors _ _) as [m4|] eqn:E4; cbn [bind]; [|done].
  apply type_errors_keeps_keys in E4; [|done].
  by apply value_errors_keeps_keys.
Qed.

End analyzer_keys.

Section analysis_stages.
Context `{PyRuntime}.
Import ContextAnalyzer.

(** The four analyses of [analyze] that always return, one after the
    other, and the call that is left. *)
Lemma analyze_before_value_errors exception context :
  exists m1 m2 m3 m4,
    _analyze_variable_similarity (initial_analysis exception context) = Ok m1
    /\ _analyze_import_patterns m1 = Ok m2
    /\ _analyze_builtin_typos m2 = Ok m3
    /\ _analyze_type_errors m3 exception = Ok m4
    /\ analyze exception context = _analyze_value_errors m4 exception
    /\ same_except similarity_keys (initial_analysis exception context) m1
    /\ same_except ["looks_like_import"] m1 m2
    /\ same_except ["builtin_typo_detected"; "correct_builtin"] m2 m3
    /\ same_except ["operation"; "type1"; "type2"] m3 m4.
Proof.
  destruct (initial_analysis_lookups exception context)
    as (Hname & Havail & Hunset & _).
  destruct (similarity_spec _ _ _ Hname Havail Hunset) as (m1 & E1 & S1 & _).
  assert (m1 !! "variable_name" = Some (VStr (_extract_variable_name exception))) as N1.
  { eapply same_except_lookup; [exact S1|solve_keys|done]. }
  destruct (import_patterns_spec _ _ N1) as (m2 & E2 & S2 & _).
  assert (m2 !! "variable_name" = Some (VStr (_extract_variable_name exception))) as N2.
  { eapply same_except_lookup; [exact S2|solve_keys|done]. }
  destruct (builtin_typos_spec _ _ N2) as (m3 & E3 & S3 & _).
  destruct (type_errors_spec m3 exception) as (m4 & E4 & S4).
  exists m1, m2, m3, m4. repeat (split; [done|]). split; [|done].
  unfold analyze. rewrite E1. cbn [bind]. rewrite E2. cbn [bind].
  rewrite E3. cbn [bind]. rewrite E4. reflexivity.
Qed.

(** The five analyses of a call of [analyze] that returns. *)
Lemma analyze_stages exception context m5 :
  analyze exception context = Ok m5 ->
  exists m1 m2 m3 m4,
    _analyze_variable_similarity (initial_analysis exception context) = Ok m1
    /\ _analyze_import_patterns m1 = Ok m2
    /\ _analyze_builtin_typos m2 = Ok m3
    /\ _analyze_type_errors m3 exception = Ok m4
    /\ _analyze_value_errors m4 exception = Ok m5
    /\ same_except similarity_keys (initial_analysis exception context) m1
    /\ same_except ["looks_like_import"] m1 m2
    /\ same_except ["builtin_typo_detected"; "correct_builtin"] m2 m3
    /\ same_except ["operation"; "type1"; "type2"] m3 m4
    /\ same_except ["expected"; "actual"] m4 m5.
Proof.
  intros Hfacts.
  destruct (analyze_before_value_errors exception context)
    as (m1 & m2 & m3 & m4 & E1 & E2 & E3 & E4 & E5 & S1 & S2 & S3 & S4).
  rewrite E5 in Hfacts.
  pose proof (value_errors_spec _ _ _ Hfacts) as S5.
  exists m1, m2, m3, m4. repeat (split; [done|]). done.
Qed.

(** No common module name is a key of the table of misspelt builtins. *)
Lemma common_module_is_no_typo (name : string) :
  in_list name common_modules = true -> builtin_typos !! name = None.
Proof.
  unfold in_list. rewrite existsb_exists. intros (y & Hy & Heq).
  apply String.eqb_eq in Heq. subst y. unfold common_modules in Hy.
  repeat (destruct Hy as [<-|Hy]; [vm_compute; reflexivity|]). destruct Hy.
Qed.

Lemma import_patterns_sets (m m' : gmap string value) (name : string) :
  m !! "variable_name" = Some (VStr name) ->
  m !! "looks_like_import" = Some (VBool false) ->
  _analyze_import_patterns m = Ok m' ->
  m' !! "looks_like_import" = Some (VBool (in_list (lower name) common_modules)).
Proof.
  intros Hname Hlooks. unfold _analyze_import_patterns.
  rewrite (getitem_Some _ _ _ Hname). cbn [bind].
  destruct (in_list _ _); intros [= <-]; [by simplify_map_eq|done].
Qed.

Lemma builtin_typos_sets (m m' : gmap string value) (name : string) :
  m !! "variable_name" = Some (VStr name) ->
  m !! "builtin_typo_detected" = Some (VBool false) ->
  m !! "correct_builtin" = Some VNone ->
  _analyze_builtin_typos m = Ok m' ->
  m' !! "builtin_typo_detected" = Some (VBool (bool_decide (is_Some (builtin_typos !! lower name))))
  /\ m' !! "correct_builtin"
     = Some (match builtin_typos !! lower name with
             | Some correct => VStr correct
             | None => VNone
             end).
Proof.
  intros Hname Hdet Hcor. unfold _analyze_builtin_typos.
  rewrite (getitem_Some _ _ _ Hname). cbn [bind].
  destruct (builtin_typos !! lower name) as [correct|]; intros [= <-].
  - split; by simplify_map_eq.
  - done.
Qed.

End analysis_stages.

Section fact_lookups.
Context `{PyRuntime}.
Import ContextAnalyzer.

Lemma initial_analysis_basic exception context :
  let m := initial_analysis exception context in
  m !! "exception_type" = Some (VStr (exc_type_name exception))
  /\ m !! "exception_message" = Some (VStr (exc_str exception))
  /\ m !! "filename"
     = Some (VStr (default "interactive" (fc_filename (file_context context))))
  /\ m !! "line_number" = Some (VInt (default 0 (fc_error_line (file_context context))))
  /\ m !! "function_name" = Some (VStr (innermost_function context))
  /\ m !! "imported_modules" = Some (VList [])
  /\ m !! "object_type" = Some (VStr (_extract_object_type exception))
  /\ m !! "bad_value" = Some (VStr (_extract_bad_value exception)).
Proof.
  unfold initial_analysis, innermost_function, _get_imported_modules.
  generalize (_extract_variable_name exception) (_get_available_variables context)
    (_extract_object_type exception) (_extract_operation exception)
    (_extract_bad_value exception) (exc_type_name exception) (exc_str exception)
    (default "interactive" (fc_filename (file_context context)))
    (default 0 (fc_error_line (file_context context)))
    (match last (traceback_info context) with
     | Some frame => default "module" (frame_function_name frame)
     | None => "module"
     end).
  intros. repeat split; vm_compute; reflexivity.
Qed.

(** The facts that the analyses leave as the dictionary literal has them,
    and the two detections. *)
Lemma analyze_lookups exception context facts :
  analyze exception context = Ok facts ->
  facts !! "variable_name" = Some (VStr (_extract_variable_name exception))
    /\ facts !! "exception_type" = Some (VStr (exc_type_name exception))
    /\ facts !! "exception_message" = Some (VStr (exc_str exception))
    /\ facts !! "filename"
       = Some (VStr (default "interactive" (fc_filename (file_context context))))
    /\ facts !! "line_number" = Some (VInt (default 0 (fc_error_line (file_context context))))
    /\ facts !! "function_name" = Some (VStr (innermost_function context))
    /\ facts !! "available_variables" = Some (VList (_get_available_variables context))
    /\ facts !! "imported_modules" = Some (VList [])
    /\ facts !! "object_type" = Some (VStr (_extract_object_type exception))
    /\ facts !! "bad_value" = Some (VStr (_extract_bad_value exception))
    /\ facts !! "looks_like_import"
       = Some (VBool (in_list (lower (_extract_variable_name exception)) common_modules))
    /\ facts !! "builtin_typo_detected"
       = Some (VBool (bool_decide
                        (is_Some (builtin_typos !! lower (_extract_variable_name exception)))))
    /\ facts !! "correct_builtin"
       = Some (match builtin_typos !! lower (_extract_variable_name exception) with
               | Some correct => VStr correct
               | None => VNone
               end).
Proof.
  intros Hfacts. rename facts into m5.
  destruct (analyze_stages exception context m5 Hfacts)
    as (m1 & m2 & m3 & m4 & E1 & E2 & E3 & E4 & E5 & S1 & S2 & S3 & S4 & S5).
  pose proof (same_except_trans _ _ _ _ _ S1
               (same_except_trans _ _ _ _ _ S2
                 (same_except_trans _ _ _ _ _ S3
                   (same_except_trans _ _ _ _ _ S4 S5)))) as S.
  pose proof (same_except_trans _ _ _ _ _ S3 (same_except_trans _ _ _ _ _ S4 S5)) as S35.
  pose proof (same_except_trans _ _ _ _ _ S4 S5) as S45.
  pose proof (same_except_trans _ _ _ _ _ S1 S2) as S12.
  assert (forall k v, k ∉ similarity_keys ++ ["looks_like_import"]
                        ++ ["builtin_typo_detected"; "correct_builtin"]
                        ++ ["operation"; "type1"; "type2"] ++ ["expected"; "actual"] ->
                      initial_analysis exception context !! k = Some v ->
                      m5 !! k = Some v) as Hkeep.
  { intros k v Hk Hv. exact (same_except_lookup _ _ _ _ _ S Hk Hv). }
  destruct (initial_analysis_basic exception context)
    as (I1 & I2 & I3 & I4 & I5 & I6 & I7 & I8).
  destruct (initial_analysis_lookups exception context)
    as (Hname & Havail & _ & Himport & Htypo & Hbuiltin & _).
  split; [apply Hkeep; [solve_keys|exact Hname]|].
  split; [apply Hkeep; [solve_keys|exact I1]|].
  split; [apply Hkeep; [solve_keys|exact I2]|].
  split; [apply Hkeep; [solve_keys|exact I3]|].
  split; [apply Hkeep; [solve_keys|exact I4]|].
  split; [apply Hkeep; [solve_keys|exact I5]|].
  split; [apply Hkeep; [solve_keys|exact Havail]|].
  split; [apply Hkeep; [solve_keys|exact I6]|].
  split; [apply Hkeep; [solve_keys|exact I7]|].
  split; [apply Hkeep; [solve_keys|exact I8]|].
  assert (m1 !! "variable_name" = Some (VStr (_extract_variable_name exception))) as N1.
  { eapply same_except_lookup; [exact S1|solve_keys|exact Hname]. }
  assert (m2 !! "variable_name" = Some (VStr (_extract_variable_name exception))) as N2.
  { eapply same_except_lookup; [exact S2|solve_keys|done]. }
  split.
  { eapply same_except_lookup; [exact S35|solve_keys|].
    eapply import_patterns_sets; [exact N1| |exact E2].
    eapply same_except_lookup; [exact S1|solve_keys|exact Himport]. }
  assert (m2 !! "builtin_typo_detected" = Some (VBool false)) as T2.
  { eapply same_except_lookup; [exact S12|solve_keys|exact Htypo]. }
  assert (m2 !! "correct_builtin" = Some VNone) as B2.
  { eapply same_except_lookup; [exact S12|solve_keys|exact Hbuiltin]. }
  destruct (builtin_typos_sets _ _ _ N2 T2 B2 E3) as [T3 B3].
  split; (eapply same_except_lookup; [exact S45|solve_keys|done]).
Qed.

End fact_lookups.

Section fact_properties.
Context `{PyRuntime}.
Import ContextAnalyzer.

(** Every FactSet that [analyze] returns has the same twenty-two facts:
    the analyses assign to keys of the dictionary literal only, so a
    template that names one of them never meets a missing fact, and every
    other name is missing. *)
Theorem analyze_has_the_fact_names (exception : PyException) (context : Context)
    (facts : gmap string value) :
  analyze exception context = Ok facts ->
  (forall name, is_Some (facts !! name) <-> name ∈ fact_names)
  /\ size facts = 22%nat.
Proof.
  intros Hfacts.
  pose proof (analyze_keeps_keys _ _ _ Hfacts) as Hkeys.
  split; [exact Hkeys|].
  rewrite <- size_dom.
  assert (dom facts = list_to_set (C := gset string) fact_names) as ->.
  { apply set_eq. intros name. rewrite elem_of_dom, elem_of_list_to_set. apply Hkeys. }
  vm_compute. reflexivity.
Qed.

(** In a FactSet that [analyze] returns, the facts about the exception and
    its location are those of the dictionary literal; no analysis changes
    them. The type and the message
    are the exception's; the file name, the line and the function come from
    the context, and are "interactive", 0 and "module" when the context
    has no file context and no traceback entry; the function is that of the
    last traceback entry, "module" when the entry gives none;
    [imported_modules] is always the empty list. *)
Theorem analyze_location_facts (exception : PyException) (context : Context)
    (facts : gmap string value) :
  analyze exception context = Ok facts ->
  facts !! "exception_type" = Some (VStr (exc_type_name exception))
    /\ facts !! "exception_message" = Some (VStr (exc_str exception))
    /\ facts !! "filename"
       = Some (VStr (match fc_filename (file_context context) with
                     | Some filename => filename
                     | None => "interactive"
                     end))
    /\ facts !! "line_number"
       = Some (VInt (match fc_error_line (file_context context) with
                     | Some line => line
                     | None => 0
                     end))
    /\ facts !! "function_name" = Some (VStr (innermost_function context))
    /\ (traceback_info context = [] -> innermost_function context = "module")
    /\ (forall frames name,
          traceback_info context = frames ++ [{| frame_function_name := Some name |}] ->
          innermost_function context = name)
    /\ facts !! "imported_modules" = Some (VList []).
Proof.
  intros Hfacts.
  destruct (analyze_lookups exception context facts Hfacts)
    as (_ & Hty & Hmsg & Hfile & Hline & Hfn & _ & Hmod & _).
  split; [done|]. split; [done|].
  split; [by destruct (fc_filename _)|]. split; [by destruct (fc_error_line _)|].
  split; [done|]. split; [|split; [|done]].
  - unfold innermost_function. by intros ->.
  - intros frames name Hframes. unfold innermost_function. by rewrite Hframes, last_snoc.
Qed.

(** In a FactSet that [analyze] returns, [looks_like_import] holds exactly
    for a variable name that is, in
    lower case, one of the nineteen common modules, and
    [builtin_typo_detected] exactly for one that is, in lower case, a key
    of the table of misspelt builtins, [correct_builtin] being then the
    table's entry and None otherwise; the two never hold together. *)
Theorem analyze_detects_imports_and_typos (exception : PyException) (context : Context)
    (facts : gmap string value) :
  let name := lower (_extract_variable_name exception) in
  analyze exception context = Ok facts ->
  exists looks typo : bool,
    facts !! "looks_like_import" = Some (VBool looks)
    /\ facts !! "builtin_typo_detected" = Some (VBool typo)
    /\ (looks = true <-> name ∈ common_modules)
    /\ (typo = true <-> exists correct, builtin_typos !! name = Some correct)
    /\ facts !! "correct_builtin"
       = Some (match builtin_typos !! name with
               | Some correct => VStr correct
               | None => VNone
               end)
    /\ (looks = true -> typo = false).
Proof.
  intros name Hfacts.
  destruct (analyze_lookups exception context facts Hfacts)
    as (_ & _ & _ & _ & _ & _ & _ & _ & _ & _ & Hlooks & Htypo & Hcor).
  exists (in_list name common_modules),
    (bool_decide (is_Some (builtin_typos !! name))).
  split; [done|]. split; [done|]. split.
  { unfold in_list. rewrite existsb_exists. split.
    - intros (y & Hy & ->%String.eqb_eq). by apply list_elem_of_In.
    - intros Hin. exists name. split; [by apply list_elem_of_In|apply String.eqb_refl]. }
  split; [by rewrite bool_decide_eq_true|]. split; [done|].
  intros Hin. rewrite (common_module_is_no_typo _ Hin).
  apply bool_decide_eq_false. by intros [? ?].
Qed.

End fact_properties.

Lemma analyze_has_the_fact_names_witness :
  exists facts,
    @ContextAnalyzer.analyze Reference.runtime Sample.name_error Sample.context = Ok facts
    /\ size facts = 22%nat
    /\ is_Some (facts !! "similarity_score")
    /\ facts !! "similarity" = None.
Proof.
  destruct (analyze_returns (H := Reference.runtime) Sample.name_error Sample.context
              eq_refl) as [facts Hfacts].
  destruct (analyze_has_the_fact_names (H := Reference.runtime) _ _ _ Hfacts)
    as [Hkeys Hsize].
  exists facts. split; [exact Hfacts|]. split; [exact Hsize|]. split.
  - apply Hkeys. solve_keys.
  - apply eq_None_not_Some. intros Hsome%Hkeys. revert Hsome. solve_keys.
Defined.

Lemma analyze_location_facts_witness :
  exists facts,
    @ContextAnalyzer.analyze Reference.runtime Sample.name_error Sample.context = Ok facts
    /\ facts !! "exception_type" = Some (VStr "NameError")
    /\ facts !! "filename" = Some (VStr "script.py")
    /\ facts !! "line_number" = Some (VInt 3)
    /\ facts !! "function_name" = Some (VStr "<module>").
Proof.
  destruct (analyze_returns (H := Reference.runtime) Sample.name_error Sample.context
              eq_refl) as [facts Hfacts].
  destruct (analyze_location_facts (H := Reference.runtime) _ _ _ Hfacts)
    as (Htype & _ & Hfile & Hline & Hfunction & _).
  exists facts. split; [exact Hfacts|]. split; [exact Htype|]. split; [exact Hfile|].
  split; [exact Hline|exact Hfunction].
Defined.

Lemma analyze_detects_imports_and_typos_witness :
  exists facts,
    @ContextAnalyzer.analyze Reference.runtime Sample.typo_error Sample.context = Ok facts
    /\ facts !! "builtin_typo_detected" = Some (VBool true)
    /\ facts !! "correct_builtin" = Some (VStr "print")
    /\ facts !! "looks_like_import" = Some (VBool false).
Proof.
  destruct (analyze_returns (H := Reference.runtime) Sample.typo_error Sample.context
              eq_refl) as [facts Hfacts].
  destruct (analyze_detects_imports_and_typos (H := Reference.runtime) _ _ _ Hfacts)
    as (looks & typo & Hlooks & Htypo & _ & Hdetected & Hcorrect & Hexclusive).
  assert (typo = true) as ->.
  { apply Hdetected. exists "print". vm_compute. reflexivity. }
  assert (looks = false) as ->.
  { destruct looks; [|reflexivity]. discriminate (Hexclusive eq_refl). }
  exists facts. split; [exact Hfacts|]. split; [exact Htypo|]. split; [|exact Hlooks].
  rewrite Hcorrect. vm_compute. reflexivity.
Defined.

(** ** The conditions of a rule *)

Lemma is_module_match (s : string) :
  match s with "module" => false | _ => true end = negb (String.eqb s "module").
Proof.
  do 6 (split_char s).
  destruct s; reflexivity.
Qed.

Section condition_theorems.
Context `{PyRuntime}.
Import ContextAnalyzer.

Lemma given_none (l : option (list string)) :
  given l = None <-> l = None \/ l = Some [].
Proof. destruct l as [[|x l]|]; cbn; intuition congruence. Qed.

Lemma in_list_elem (x : string) (l : list string) : in_list x l = true <-> x ∈ l.
Proof.
  unfold in_list. rewrite existsb_exists. split.
  - intros (y & Hy & ->%String.eqb_eq). by apply list_elem_of_In.
  - intros Hin. exists x. split; [by apply list_elem_of_In|apply String.eqb_refl].
Qed.

(** On a FactSet that [analyze] returns, an [import_pattern] condition is
    met exactly when the variable name
    is, in lower case, a common module and, where the condition lists
    modules, the name as it stands is one of them. A [builtin_typo]
    condition is met exactly when the name is, in lower case, a key of the
    table of misspelt builtins and, where the condition lists functions,
    the table's entry is one of them. An absent list and an empty one ask
    for nothing. *)
Theorem import_and_typo_conditions (exception : PyException) (context : Context)
    (condition : ContextCondition) (facts : gmap string value) :
  let word := _extract_variable_name exception in
  analyze exception context = Ok facts ->
  exists met,
    check_condition condition facts = Ok met
    /\ (cc_type condition = "import_pattern" ->
        (met = true <->
           lower word ∈ common_modules
           /\ forall modules, cc_modules condition = Some modules -> modules <> [] ->
                word ∈ modules))
    /\ (cc_type condition = "builtin_typo" ->
        (met = true <->
           exists correct, builtin_typos !! lower word = Some correct
           /\ forall functions, cc_functions condition = Some functions -> functions <> [] ->
                correct ∈ functions)).
Proof.
  intros word Hfacts.
  destruct (analyze_lookups exception context facts Hfacts)
    as (Hname & _ & _ & _ & _ & _ & _ & _ & _ & _ & Hlooks & Htypo & Hcor).
  fold word in Hname, Hlooks, Htypo, Hcor.
  destruct (analyze_facts exception context facts Hfacts) as [_ Htyped].
  destruct (check_condition_returns condition facts Htyped) as [met Hmet].
  exists met. split; [done|]. clear Hfacts Htyped. split.
  - intros Hty. revert Hmet. unfold check_condition. rewrite Hty. eval_eqb.
    rewrite (getitem_Some _ _ _ Hlooks), (getitem_Some _ _ _ Hname). cbn [bind truthy].
    pose proof (in_list_elem (lower word) common_modules) as Hiff.
    set (looks := in_list (lower word) common_modules) in *. clearbody looks.
    rewrite <- Hiff.
    destruct (cc_modules condition) as [[|m modules]|]; cbn [given].
    + intros [= <-]. split; [intros ->; split; [done|]; by intros ? [= <-]|by intros [-> _]].
    + destruct looks.
      * intros [= <-].
        change ((word =? m)%string || in_list word modules) with (in_list word (m :: modules)).
        rewrite in_list_elem. split.
        -- intros Hin. split; [done|]. by intros ? [= <-] _.
        -- intros [_ Hin]. by apply Hin.
      * intros [= <-]. split; [done|by intros [? _]].
    + intros [= <-]. split; [intros ->; split; [done|]; by intros ? [=]|by intros [-> _]].
  - intros Hty. revert Hmet. unfold check_condition. rewrite Hty. eval_eqb.
    rewrite (getitem_Some _ _ _ Htypo), (getitem_Some _ _ _ Hcor). cbn [bind truthy].
    destruct (builtin_typos !! lower word) as [correct|].
    + rewrite bool_decide_eq_true_2 by by eexists.
      destruct (cc_functions condition) as [[|f functions]|]; cbn [given].
      * intros [= <-]. split; [|done]. intros _. exists correct. split; [done|].
        by intros ? [= <-].
      * intros [= <-].
        change ((correct =? f)%string || in_list correct functions)
          with (in_list correct (f :: functions)).
        rewrite in_list_elem. split.
        -- intros Hin. exists correct. split; [done|]. by intros ? [= <-] _.
        -- intros (c & [= <-] & Hin). by apply Hin.
      * intros [= <-]. split; [|done]. intros _. exists correct. split; [done|].
        by intros ? [=].
    + rewrite bool_decide_eq_false_2 by by intros [? ?].
      destruct (given (cc_functions condition)); intros [= <-];
        (split; [done|by intros (? & ? & _)]).
Qed.

(** On a FactSet that [analyze] returns, a [file_extension] condition is
    met exactly when it lists no extension
    or the file name of the context ends with one of those listed, with
    "interactive" for the file name when the context has none. A
    [function_context] condition compares with its [inside_function]
    whether the function name differs from the text "module": left
    unspecified it is never met, and a frame of module-level code, which
    CPython names "<module>", counts as inside a function. A condition of
    any other type than the five known is met. *)
Theorem location_and_unknown_conditions (exception : PyException) (context : Context)
    (condition : ContextCondition) (facts : gmap string value) :
  let filename := default "interactive" (fc_filename (file_context context)) in
  analyze exception context = Ok facts ->
  exists met,
    check_condition condition facts = Ok met
    /\ (cc_type condition = "file_extension" ->
        (met = true <->
           forall extensions, cc_extensions condition = Some extensions -> extensions <> [] ->
             exists ext, ext ∈ extensions /\ endswith filename ext = true))
    /\ (cc_type condition = "function_context" ->
        (cc_inside_function condition = None -> met = false)
        /\ (forall expected, cc_inside_function condition = Some expected ->
              (met = true <->
                 (expected = true <-> innermost_function context <> "module")))
        /\ (innermost_function context = "<module>" ->
              met = true <-> cc_inside_function condition = Some true))
    /\ (cc_type condition ∉ known_condition_types -> met = true).
Proof.
  intros filename Hfacts.
  destruct (analyze_lookups exception context facts Hfacts)
    as (_ & _ & _ & Hfile & _ & Hfn & _).
  fold filename in Hfile.
  destruct (analyze_facts exception context facts Hfacts) as [_ Htyped].
  destruct (check_condition_returns condition facts Htyped) as [met Hmet].
  exists met. split; [done|]. clear Hfacts Htyped. split; [|split].
  - intros Hty. revert Hmet. unfold check_condition. rewrite Hty. eval_eqb.
    rewrite (getitem_Some _ _ _ Hfile). cbn [bind].
    destruct (cc_extensions condition) as [[|e extensions]|]; cbn [given].
    + intros [= <-]. split; [|done]. by intros _ ? [= <-].
    + intros [= <-].
      change (endswith filename e || existsb (endswith filename) extensions)
        with (existsb (endswith filename) (e :: extensions)).
      rewrite existsb_exists. split.
      * intros (ext & Hin%list_elem_of_In & Hends) ? [= <-] _. by exists ext.
      * intros Hall. destruct (Hall _ eq_refl) as (ext & Hin & Hends); [done|].
        exists ext. split; [by apply list_elem_of_In|done].
    + intros [= <-]. split; [|done]. by intros _ ? [=].
  - intros Hty. revert Hmet. unfold check_condition. rewrite Hty. eval_eqb.
    rewrite (getitem_Some _ _ _ Hfn). cbn [bind].
    rewrite is_module_match.
    set (inside := negb (innermost_function context =? "module")%string).
    assert (inside = true <-> innermost_function context <> "module") as Hinside.
    { unfold inside. by rewrite negb_true_iff, String.eqb_neq. }
    destruct (cc_inside_function condition) as [expected|].
    + intros [= <-]. split; [done|]. split.
      * intros ? [= <-]. rewrite <- Hinside.
        destruct inside, expected; cbn; split; try done; intros []; auto; try done.
      * intros Hmod. assert (inside = true) as ->.
        { apply Hinside. by rewrite Hmod. }
        destruct expected; cbn; split; done.
    + intros [= <-]. split; [done|]. split; [done|]. intros _. done.
  - intros Hty. revert Hmet. unfold check_condition, known_condition_types in *.
    rewrite !not_elem_of_cons in Hty. destruct Hty as (T1 & T2 & T3 & T4 & T5 & _).
    apply String.eqb_neq in T1, T2, T3, T4, T5. rewrite T1, T2, T3, T4, T5.
    by intros [= <-].
Qed.

End condition_theorems.

Lemma import_and_typo_conditions_witness :
  exists facts,
    @ContextAnalyzer.analyze Reference.runtime Sample.typo_error Sample.context = Ok facts
    /\ ContextAnalyzer.check_condition (Sample.condition_of_type "builtin_typo") facts
       = Ok true
    /\ ContextAnalyzer.check_condition (Sample.condition_of_type "import_pattern") facts
       = Ok false.
Proof.
  destruct (analyze_returns (H := Reference.runtime) Sample.typo_error Sample.context
              eq_refl) as [facts Hfacts].
  exists facts. split; [exact Hfacts|]. split.
  - destruct (import_and_typo_conditions (H := Reference.runtime) _ _
                (Sample.condition_of_type "builtin_typo") _ Hfacts)
      as (met & Hmet & _ & Htypo).
    rewrite Hmet. f_equal. apply (Htypo eq_refl). exists "print".
    split; [vm_compute; reflexivity|]. intros functions Hnone. discriminate Hnone.
  - destruct (import_and_typo_conditions (H := Reference.runtime) _ _
                (Sample.condition_of_type "import_pattern") _ Hfacts)
      as (met & Hmet & Himport & _).
    rewrite Hmet. f_equal. destruct met; [|reflexivity].
    destruct (proj1 (Himport eq_refl) eq_refl) as [Hmodule _].
    revert Hmodule. vm_compute ContextAnalyzer.common_modules.
    change (lower (ContextAnalyzer._extract_variable_name Sample.typo_error))
      with "pirnt". solve_keys.
Defined.

Lemma location_and_unknown_conditions_witness :
  exists facts,
    @ContextAnalyzer.analyze Reference.runtime Sample.name_error Sample.context = Ok facts
    /\ ContextAnalyzer.check_condition (Sample.condition_of_type "function_context") facts
       = Ok false
    /\ ContextAnalyzer.check_condition (Sample.condition_of_type "no_such_type") facts
       = Ok true.
Proof.
  destruct (analyze_returns (H := Reference.runtime) Sample.name_error Sample.context
              eq_refl) as [facts Hfacts].
  exists facts. split; [exact Hfacts|]. split.
  - destruct (location_and_unknown_conditions (H := Reference.runtime) _ _
                (Sample.condition_of_type "function_context") _ Hfacts)
      as (met & Hmet & _ & Hfunction & _).
    rewrite Hmet. f_equal. exact (proj1 (Hfunction eq_refl) eq_refl).
  - destruct (location_and_unknown_conditions (H := Reference.runtime) _ _
                (Sample.condition_of_type "no_such_type") _ Hfacts)
      as (met & Hmet & _ & _ & Hunknown).
    rewrite Hmet. f_equal. apply Hunknown. solve_keys.
Defined.

(** ** What the analyzer reads off a message *)

Section matcher_failure.

Lemma every_append (p : ascii -> bool) (s t : string) :
  every p (s +:+ t) = every p s && every p t.
Proof.
  induction s as [|c s IH]; [done|].
  rewrite append_cons. cbn [every]. by rewrite IH, andb_assoc.
Qed.

Lemma every_impl (p q : ascii -> bool) (s : string) :
  (forall c, p c = true -> q c = true) -> every p s = true -> every q s = true.
Proof.
  intros Hpq. induction s as [|c s IH]; [done|]. cbn [every].
  rewrite !andb_true_iff. intros [Hc Hs]. auto.
Qed.

Lemma strip_prefix_Some (l s t : string) : strip_prefix l s = Some t -> s = l +:+ t.
Proof.
  revert s. induction l as [|a l IH]; intros s; cbn [strip_prefix].
  - by intros [= ->].
  - destruct s as [|b s]; [done|].
    destruct (Ascii.eqb_spec a b) as [->|]; [|done].
    intros Hs%IH. by rewrite append_cons, Hs.
Qed.

(** The text after the first [length p] characters of [p +:+ s]. *)
Lemma substring_suffix (p s : string) :
  String.substring (String.length p) (String.length (p +:+ s) - String.length p) (p +:+ s) = s.
Proof.
  rewrite length_append, Nat.add_comm, Nat.add_sub.
  induction p as [|c p IH]; [apply substring_all|].
  rewrite append_cons. cbn [String.length String.substring]. exact IH.
Qed.

(** A match at the first position is what [search] finds. *)
Lemma search_here (re : regex) (s : string) (m : re_match) :
  match_at re s = Some m -> search re s = Some m.
Proof. intros Hm. destruct s; cbn [search]; by rewrite Hm. Qed.

(** A pattern that begins with a literal matches nowhere in a text that
    lacks one of the literal's characters. *)
Lemma search_lit_none (p : ascii -> bool) (l : string) (re : regex) (s : string) :
  every p l = false -> every p s = true -> search (Lit l :: re) s = None.
Proof.
  intros Hl. induction s as [|c s IH]; intros Hs.
  - cbn [search]. unfold match_at. cbn [match_here].
    destruct (strip_prefix l "") as [t|] eqn:Ht; [|done].
    apply strip_prefix_Some in Ht. destruct l; [done|done].
  - cbn [search]. unfold match_at. cbn [match_here].
    destruct (strip_prefix l (String c s)) as [t|] eqn:Ht.
    + apply strip_prefix_Some in Ht. rewrite Ht, every_append, Hl in Hs. done.
    + cbn [every] in Hs. apply andb_true_iff in Hs as [_ Hs]. exact (IH Hs).
Qed.

(** A repetition fails when what follows it fails wherever the repetition
    may stop. *)
Lemma repeat_class_none (q p : ascii -> bool) (lo : nat) (greedy : bool)
    (continue : string -> string -> option re_match) (s consumed : string) (n : nat) :
  (forall consumed' s', every q s' = true -> continue consumed' s' = None) ->
  every q s = true ->
  repeat_class p lo greedy continue s consumed n = None.
Proof.
  intros Hk. revert consumed n. induction s as [|c s IH]; intros consumed n Hs.
  - cbn [repeat_class]. rewrite (Hk consumed "" eq_refl).
    by destruct greedy, (Nat.leb lo n).
  - cbn [repeat_class]. rewrite (Hk consumed (String c s) Hs).
    cbn [every] in Hs. apply andb_true_iff in Hs as [_ Hs].
    rewrite (IH (snoc_char consumed c) (S n) Hs).
    by destruct greedy, (p c), (Nat.leb lo n).
Qed.

End matcher_failure.

Section extraction.
Import ContextAnalyzer.

Lemma name_not_defined_match (name rest : string) :
  name <> EmptyString ->
  every (not_char squote) name = true ->
  search re_name_not_defined ("name '" +:+ name +:+ "' is not defined" +:+ rest)
  = Some {| m_groups := [name];
            m_text := "name '" +:+ name +:+ "' is not defined";
            m_rest := rest |}.
Proof.
  intros Hne Hname. apply search_here. unfold match_at, re_name_not_defined.
  cbn [match_here]. rewrite strip_prefix_append, append_nil_l.
  apply repeat_class_takes_run; [done| | |].
  - rewrite append_cons. reflexivity.
  - destruct name; [done|]. cbn [String.length]. lia.
  - cbn [match_here]. rewrite strip_prefix_append.
    rewrite (substring_suffix "name '" name). cbn [app].
    by rewrite append_assoc.
Qed.

End extraction.

Section extraction_properties.
Context `{PyRuntime}.
Import ContextAnalyzer.

Lemma invalid_literal_needs_quote (message : string) :
  every (not_char squote) message = true -> search re_invalid_literal message = None.
Proof.
  induction message as [|c message IH]; intros Hm.
  - reflexivity.
  - cbn [search]. rewrite IH by (cbn [every] in Hm; by apply andb_true_iff in Hm as [_ ?]).
    assert (match_at re_invalid_literal (String c message) = None) as ->; [|done].
    unfold match_at, re_invalid_literal. cbn [match_here].
    destruct (strip_prefix _ (String c message)) as [t|] eqn:Ht; [|done].
    apply strip_prefix_Some in Ht. rewrite Ht, every_append in Hm.
    apply andb_true_iff in Hm as [_ Hm].
    apply (repeat_class_none (not_char squote)); [|done].
    intros consumed' s' Hs'. cbn [match_here].
    destruct (strip_prefix ": '" s') as [u|] eqn:Hu; [|done].
    apply strip_prefix_Some in Hu. by rewrite Hu in Hs'.
Qed.

(** In the FactSet that [analyze] returns, the undefined name is read off
    CPython's message "name '<name>' is not defined", whatever follows it
    (a "Did you mean" hint, say). From a message without a single quote
    nothing is read: the variable name and the object type are "unknown",
    the bad value is "value". *)
Theorem analyze_reads_the_undefined_name (exception : PyException) (context : Context)
    (facts : gmap string value) :
  analyze exception context = Ok facts ->
  (forall name rest,
          name <> EmptyString ->
          every (not_char squote) name = true ->
          exc_str exception = "name '" +:+ name +:+ "' is not defined" +:+ rest ->
          facts !! "variable_name" = Some (VStr name))
    /\ (every (not_char squote) (exc_str exception) = true ->
          facts !! "variable_name" = Some (VStr "unknown")
          /\ facts !! "object_type" = Some (VStr "unknown")
          /\ facts !! "bad_value" = Some (VStr "value")).
Proof.
  intros Hfacts.
  destruct (analyze_lookups exception context facts Hfacts)
    as (Hname & _ & _ & _ & _ & _ & _ & _ & Hobj & Hbad & _).
  clear Hfacts. split.
  - intros name rest Hne Hq Hmsg. rewrite Hname. do 2 f_equal.
    unfold _extract_variable_name. rewrite Hmsg.
    by rewrite (name_not_defined_match name rest Hne Hq).
  - intros Hq. rewrite Hname, Hobj, Hbad.
    unfold _extract_variable_name, _extract_object_type, _extract_bad_value.
    unfold re_name_not_defined, re_not_callable, re_object.
    rewrite (search_lit_none (not_char squote) "name '" _ _ eq_refl Hq).
    rewrite !(search_lit_none (not_char squote) "'" _ _ eq_refl Hq).
    by rewrite (invalid_literal_needs_quote _ Hq).
Qed.

End extraction_properties.

Lemma analyze_reads_the_undefined_name_witness :
  exists facts,
    @ContextAnalyzer.analyze Reference.runtime Sample.name_error Sample.context = Ok facts
    /\ facts !! "variable_name" = Some (VStr "lst").
Proof.
  destruct (analyze_returns (H := Reference.runtime) Sample.name_error Sample.context
              eq_refl) as [facts Hfacts].
  destruct (analyze_reads_the_undefined_name (H := Reference.runtime)
              Sample.name_error Sample.context facts Hfacts) as [Hname _].
  exists facts. split; [exact Hfacts|].
  apply (Hname "lst" ""); [discriminate|reflexivity|reflexivity].
Defined.

Section int_text.

Lemma digit_char_digit (d : Z) :
  0 <= d < 10 -> is_digit (digit_char d) = true /\ digit_value (digit_char d) = d.
Proof.
  intros Hd.
  assert (d = 0 \/ d = 1 \/ d = 2 \/ d = 3 \/ d = 4 \/ d = 5 \/ d = 6 \/ d = 7 \/ d = 8 \/ d = 9)
    as Hcases by lia.
  repeat (destruct Hcases as [->|Hcases]; [by vm_compute|]). subst d. by vm_compute.
Qed.

Lemma digits_fuel_S (f : nat) (n : Z) (acc : string) :
  digits_fuel (S f) n acc
  = if n <? 10 then String (digit_char (n mod 10)) acc
    else digits_fuel f (n / 10) (String (digit_char (n mod 10)) acc).
Proof. reflexivity. Qed.

(** Reading the digits that [digits_fuel] writes for [n] gives [n]. *)
Lemma int_digits_digits_fuel (f : nat) (n : Z) (acc : string) (prev : bool) :
  0 <= n < 2 ^ Z.of_nat f ->
  int_digits (digits_fuel (S f) n acc) 0 prev = int_digits acc n true.
Proof.
  revert n acc prev. induction f as [|f IH]; intros n acc prev Hn.
  - assert (n = 0) as ->.
    { change (Z.of_nat 0) with 0 in Hn. rewrite Z.pow_0_r in Hn. lia. }
    reflexivity.
  - rewrite digits_fuel_S.
    pose proof (Z.mod_pos_bound n 10 ltac:(lia)) as Hmod.
    pose proof (Z.div_mod n 10 ltac:(lia)) as Hdiv.
    destruct (digit_char_digit (n mod 10) Hmod) as [Hd Hv].
    destruct (Z.ltb_spec n 10) as [Hlt|Hge].
    + cbn [int_digits]. rewrite Hd, Hv. f_equal. rewrite Z.mod_small by lia. lia.
    + rewrite IH.
      * cbn [int_digits]. rewrite Hd, Hv. f_equal. lia.
      * rewrite Nat2Z.inj_succ, Z.pow_succ_r in Hn by lia. split; [lia|].
        apply Z.div_lt_upper_bound; lia.
Qed.

Lemma digits_fuel_digits (f : nat) (n : Z) (acc : string) :
  0 <= n -> every is_digit acc = true -> every is_digit (digits_fuel f n acc) = true.
Proof.
  revert n acc. induction f as [|f IH]; intros n acc Hn Hacc; [done|].
  rewrite digits_fuel_S.
  assert (every is_digit (String (digit_char (n mod 10)) acc) = true) as Hacc'.
  { cbn [every].
    destruct (digit_char_digit (n mod 10) (Z.mod_pos_bound n 10 ltac:(lia))) as [-> _]. done. }
  destruct (n <? 10); [done|]. apply IH; [|done]. apply Z.div_pos; lia.
Qed.

Lemma digits_fuel_nonempty (f : nat) (n : Z) (acc : string) :
  digits_fuel (S f) n acc <> EmptyString.
Proof.
  revert n acc. induction f as [|f IH]; intros n acc.
  - cbn [digits_fuel]. by destruct (n <? 10).
  - rewrite digits_fuel_S. destruct (n <? 10); [done|]. apply IH.
Qed.

Lemma every_rev (p : ascii -> bool) (s : string) : every p (String.rev s) = every p s.
Proof.
  induction s as [|c s IH]; [done|].
  rewrite rev_cons, every_append, IH. cbn [every]. rewrite andb_true_r. apply andb_comm.
Qed.

Lemma string_rev_rev (s : string) : String.rev (String.rev s) = s.
Proof. induction s as [|c s IH]; [done|]. by rewrite rev_cons, rev_snoc, IH. Qed.

Lemma lstrip_no_space (s : string) :
  every (fun c => negb (isspace c)) s = true -> lstrip s = s.
Proof.
  destruct s as [|c s]; [done|]. cbn [every lstrip].
  intros [Hc _]%andb_true_iff. apply negb_true_iff in Hc. by rewrite Hc.
Qed.

Lemma strip_no_space (s : string) :
  every (fun c => negb (isspace c)) s = true -> strip s = s.
Proof.
  intros Hs. unfold strip, rstrip.
  rewrite (lstrip_no_space (String.rev s)) by by rewrite every_rev.
  rewrite string_rev_rev. by apply lstrip_no_space.
Qed.

Lemma digit_no_space (c : ascii) : is_digit c = true -> negb (isspace c) = true.
Proof. destruct c as [[] [] [] [] [] [] [] []]; by vm_compute. Qed.

(** Below the digit limit, [int] reads a run of digits as [int_digits]
    does. *)
Lemma int_of_str_digits (s : string) :
  every is_digit s = true ->
  int_of_str s
  = if Nat.ltb int_max_str_digits (count_digits s) then None else int_digits s 0 false.
Proof.
  intros Hs. unfold int_of_str. destruct (Nat.ltb _ _); [done|].
  rewrite strip_no_space by (eapply every_impl; [apply digit_no_space|done]).
  destruct s as [|c s]; [done|]. cbn [every] in Hs.
  apply andb_true_iff in Hs as [Hc _].
  destruct c as [[] [] [] [] [] [] [] []]; try discriminate Hc; reflexivity.
Qed.

Lemma count_digits_run (s : string) :
  every is_digit s = true -> count_digits s = String.length s.
Proof.
  induction s as [|c s IH]; [done|]. cbn [every count_digits String.length].
  intros [-> Hs]%andb_true_iff. by rewrite IH.
Qed.

(** The decimal text of a natural number is a run of digits; [int] reads
    it back when it has no more digits than the limit, and refuses it
    otherwise. *)
Lemma str_of_int_reads_back (n : Z) :
  0 <= n ->
  str_of_int n <> EmptyString
  /\ every is_digit (str_of_int n) = true
  /\ ((String.length (str_of_int n) <= int_max_str_digits)%nat ->
      ContextAnalyzer.int_of_digit_run (str_of_int n) = Ok n)
  /\ ((int_max_str_digits < String.length (str_of_int n))%nat ->
      ContextAnalyzer.int_of_digit_run (str_of_int n) = Raise ValueError).
Proof.
  intros Hn.
  assert (str_of_int n <> EmptyString /\ every is_digit (str_of_int n) = true
          /\ int_digits (str_of_int n) 0 false = Some n) as (Hne & Hdigits & Hread).
  { unfold str_of_int. rewrite Z.abs_eq by done.
    destruct (Z.ltb_spec n 0) as [?|_]; [lia|].
    set (f := Z.to_nat (Z.log2_up (n + 1))).
    split; [apply digits_fuel_nonempty|].
    split; [exact (digits_fuel_digits (S f) n EmptyString Hn eq_refl)|].
    rewrite int_digits_digits_fuel; [done|].
    split; [done|]. unfold f. rewrite Z2Nat.id by apply Z.log2_up_nonneg.
    pose proof (Z.log2_log2_up_spec (n + 1) ltac:(lia)). lia. }
  split; [done|]. split; [done|].
  unfold ContextAnalyzer.int_of_digit_run.
  pose proof (int_of_str_digits _ Hdigits) as Hint.
  unfold int_of_str in *. rewrite (count_digits_run _ Hdigits) in *.
  split; intros Hlen.
  - destruct (Nat.ltb_spec int_max_str_digits (String.length (str_of_int n))) as [?|_];
      [lia|].
    by rewrite Hint, Hread.
  - by destruct (Nat.ltb_spec int_max_str_digits (String.length (str_of_int n)))
      as [_|?]; [|lia].
Qed.

End int_text.

Section unpack_counts.
Context `{PyRuntime}.
Import ContextAnalyzer.

Lemma digit_is_not (x c : ascii) : is_digit x = false -> is_digit c = true -> not_char x c = true.
Proof.
  intros Hx Hc. unfold not_char. destruct (Ascii.eqb_spec c x) as [->|]; [congruence|done].
Qed.

Lemma not_enough_match (expected actual : string) :
  expected <> EmptyString -> every is_digit expected = true ->
  actual <> EmptyString -> every is_digit actual = true ->
  exists m,
    search re_not_enough
      ("not enough values to unpack (expected " +:+ expected +:+ ", got " +:+ actual
         +:+ ")") = Some m
    /\ m_groups m = [expected; actual].
Proof.
  intros He1 He2 Ha1 Ha2. eexists. split.
  - apply search_here. unfold match_at, re_not_enough.
    cbn [match_here]. rewrite strip_prefix_append, append_nil_l.
    apply repeat_class_takes_run; [done| | |].
    + rewrite append_cons. reflexivity.
    + destruct expected; [done|]. cbn [String.length]. lia.
    + cbn [match_here]. rewrite strip_prefix_append.
      rewrite (substring_suffix "not enough values to unpack (expected " expected).
      apply repeat_class_takes_run; [done| | |].
      * reflexivity.
      * destruct actual; [done|]. cbn [String.length]. lia.
      * cbn [match_here strip_prefix Ascii.eqb Bool.eqb].
        rewrite (substring_suffix _ actual). reflexivity.
  - reflexivity.
Qed.

Lemma too_many_match (expected : string) :
  expected <> EmptyString -> every is_digit expected = true ->
  exists m,
    search re_too_many ("too many values to unpack (expected " +:+ expected +:+ ")")
    = Some m
    /\ m_groups m = [expected].
Proof.
  intros He1 He2. eexists. split.
  - apply search_here. unfold match_at, re_too_many.
    cbn [match_here]. rewrite strip_prefix_append, append_nil_l.
    apply repeat_class_takes_run; [done| | |].
    + reflexivity.
    + destruct expected; [done|]. cbn [String.length]. lia.
    + cbn [match_here strip_prefix Ascii.eqb Bool.eqb].
      rewrite (substring_suffix "too many values to unpack (expected " expected).
      reflexivity.
  - reflexivity.
Qed.

(** A run of more than 4300 digits is refused by [int]. *)
Lemma long_digit_run_refused (digits : string) :
  every is_digit digits = true ->
  (int_max_str_digits < String.length digits)%nat ->
  int_of_digit_run digits = Raise ValueError.
Proof.
  intros Hdigits Hlen. unfold int_of_digit_run, int_of_str.
  rewrite (count_digits_run _ Hdigits).
  by destruct (Nat.ltb_spec int_max_str_digits (String.length digits)) as [_|?]; [|lia].
Qed.

(** The ValueError of [int] on a count of more than 4300 digits leaves
    [analyze]. *)
Lemma long_count_leaves_analyze (exception : PyException) (context : Context)
    (digits : string) :
  exc_is_ValueError exception = true ->
  every is_digit digits = true ->
  (int_max_str_digits < String.length digits)%nat ->
  exc_str exception = "too many values to unpack (expected " +:+ digits +:+ ")" ->
  analyze exception context = Raise ValueError.
Proof.
  intros Hvalue Hdigits Hlen Hmsg.
  assert (digits <> EmptyString) as Hne.
  { intros ->. apply Nat.nlt_0_r in Hlen. exact Hlen. }
  destruct (analyze_before_value_errors exception context)
    as (m1 & m2 & m3 & m4 & _ & _ & _ & _ & -> & _).
  unfold _analyze_value_errors. rewrite Hvalue, Hmsg. cbn [negb].
  assert (search re_not_enough
            ("too many values to unpack (expected " +:+ digits +:+ ")") = None) as ->.
  { unfold re_not_enough.
    apply (search_lit_none (not_char "h") "not enough values to unpack (expected " _ _
             eq_refl).
    rewrite !every_append.
    rewrite (every_impl _ _ _ (fun c => digit_is_not "h" c eq_refl) Hdigits). reflexivity. }
  cbn [bind]. destruct (too_many_match digits Hne Hdigits) as (r & -> & Hgroups).
  unfold group. rewrite Hgroups. cbn [Nat.pred nth].
  by rewrite (long_digit_run_refused _ Hdigits Hlen).
Qed.

(** The analyzer reads the two counts off CPython's message "not enough
    values to unpack (expected n, got m)" of a ValueError, and the one
    count off "too many values to unpack (expected n)", where the numbers
    are written with at most 4300 digits, the most that CPython's [int]
    reads; with a longer number the ValueError of [int] leaves [analyze].
    For an exception that is no ValueError both facts stay None, whatever
    its message. *)
Theorem analyze_reads_unpack_counts (exception : PyException) (context : Context)
    (n m : Z) :
  0 <= n -> 0 <= m ->
  (exc_is_ValueError exception = true ->
   exc_str exception
   = "not enough values to unpack (expected " +:+ str_of_int n +:+ ", got "
       +:+ str_of_int m +:+ ")" ->
   ((String.length (str_of_int n) <= int_max_str_digits)%nat ->
    (String.length (str_of_int m) <= int_max_str_digits)%nat ->
    exists facts,
      analyze exception context = Ok facts
      /\ facts !! "expected" = Some (VInt n) /\ facts !! "actual" = Some (VInt m))
   /\ ((int_max_str_digits < String.length (str_of_int n))%nat
       \/ (int_max_str_digits < String.length (str_of_int m))%nat ->
       analyze exception context = Raise ValueError))
  /\ (exc_is_ValueError exception = true ->
      exc_str exception = "too many values to unpack (expected " +:+ str_of_int n +:+ ")" ->
      ((String.length (str_of_int n) <= int_max_str_digits)%nat ->
       exists facts,
         analyze exception context = Ok facts
         /\ facts !! "expected" = Some (VInt n) /\ facts !! "actual" = Some VNone)
      /\ ((int_max_str_digits < String.length (str_of_int n))%nat ->
          analyze exception context = Raise ValueError))
  /\ (exc_is_ValueError exception = false ->
      exists facts,
        analyze exception context = Ok facts
        /\ facts !! "expected" = Some VNone /\ facts !! "actual" = Some VNone).
Proof.
  intros Hn Hm.
  destruct (str_of_int_reads_back n Hn) as (Hn1 & Hn2 & Hn3 & Hn4).
  destruct (str_of_int_reads_back m Hm) as (Hm1 & Hm2 & Hm3 & Hm4).
  destruct (analyze_before_value_errors exception context)
    as (m1 & m2 & m3 & m4 & _ & _ & _ & _ & -> & S1 & S2 & S3 & S4).
  pose proof (same_except_trans _ _ _ _ _ S1
               (same_except_trans _ _ _ _ _ S2
                 (same_except_trans _ _ _ _ _ S3 S4))) as S.
  assert (m4 !! "expected" = Some VNone) as Hexp.
  { eapply same_except_lookup; [exact S|solve_keys|].
    unfold initial_analysis. generalize (_extract_variable_name exception)
      (_get_available_variables context) (_extract_object_type exception)
      (_extract_operation exception) (_extract_bad_value exception). intros.
    vm_compute. reflexivity. }
  assert (m4 !! "actual" = Some VNone) as Hact.
  { eapply same_except_lookup; [exact S|solve_keys|].
    unfold initial_analysis. generalize (_extract_variable_name exception)
      (_get_available_variables context) (_extract_object_type exception)
      (_extract_operation exception) (_extract_bad_value exception). intros.
    vm_compute. reflexivity. }
  clear S S1 S2 S3 S4. unfold _analyze_value_errors.
  split; [|split].
  - intros Hval Hmsg. rewrite Hval, Hmsg. cbn [negb].
    destruct (not_enough_match (str_of_int n) (str_of_int m) Hn1 Hn2 Hm1 Hm2)
      as (r & Hr & Hgroups).
    rewrite Hr. unfold group. rewrite Hgroups. cbn [Nat.pred nth].
    assert (search re_too_many
              ("not enough values to unpack (expected " +:+ str_of_int n +:+ ", got "
                 +:+ str_of_int m +:+ ")") = None) as Hnone.
    { unfold re_too_many.
      apply (search_lit_none (not_char "m") "too many values to unpack (expected " _ _ eq_refl).
      rewrite !every_append.
      rewrite (every_impl _ _ _ (fun c => digit_is_not "m" c eq_refl) Hn2).
      rewrite (every_impl _ _ _ (fun c => digit_is_not "m" c eq_refl) Hm2). reflexivity. }
    split.
    + intros Hln Hlm. rewrite (Hn3 Hln), (Hm3 Hlm). cbn [bind]. rewrite Hnone.
      eexists. split; [reflexivity|]. split; by simplify_map_eq.
    + intros [Hln|Hlm].
      * by rewrite (Hn4 Hln).
      * destruct (ContextAnalyzer.int_of_digit_run (str_of_int n)) as [k|e] eqn:Hk;
          cbn [bind].
        -- by rewrite (Hm4 Hlm).
        -- by apply int_of_digit_run_raises in Hk as ->.
  - intros Hval Hmsg. rewrite Hval, Hmsg. cbn [negb].
    destruct (too_many_match (str_of_int n) Hn1 Hn2) as (r & Hr & Hgroups).
    assert (search re_not_enough
              ("too many values to unpack (expected " +:+ str_of_int n +:+ ")") = None)
      as ->.
    { unfold re_not_enough.
      apply (search_lit_none (not_char "h") "not enough values to unpack (expected " _ _
               eq_refl).
      rewrite !every_append.
      rewrite (every_impl _ _ _ (fun c => digit_is_not "h" c eq_refl) Hn2). reflexivity. }
    cbn [bind]. rewrite Hr. unfold group. rewrite Hgroups. cbn [Nat.pred nth].
    split.
    + intros Hln. rewrite (Hn3 Hln). cbn [bind].
      eexists. split; [reflexivity|]. split; by simplify_map_eq.
    + intros Hln. by rewrite (Hn4 Hln).
  - intros Hval. rewrite Hval. cbn [negb]. by exists m4.
Qed.

End unpack_counts.

(** A count of 4301 digits in the message of a ValueError. *)
Lemma analyze_refuses_a_long_count :
  @ContextAnalyzer.analyze Reference.runtime Sample.long_count_error Sample.context
  = Raise ValueError.
Proof.
  apply (long_count_leaves_analyze (H := Reference.runtime) _ _
           (string_of_list_ascii (repeat "1"%char 4301))).
  - reflexivity.
  - vm_compute. reflexivity.
  - apply Nat.ltb_lt. vm_compute. reflexivity.
  - reflexivity.
Qed.

Lemma analyze_reads_unpack_counts_witness :
  exists facts,
    @ContextAnalyzer.analyze Reference.runtime Sample.unpack_error Sample.context = Ok facts
    /\ facts !! "expected" = Some (VInt 3) /\ facts !! "actual" = Some (VInt 2).
Proof.
  destruct (analyze_reads_unpack_counts (H := Reference.runtime)
              Sample.unpack_error Sample.context 3 2) as (Hcounts & _).
  - lia.
  - lia.
  - destruct (Hcounts eq_refl eq_refl) as [Hread _].
    apply Hread; apply Nat.leb_le; vm_compute; reflexivity.
Defined.

Section strip_facts.

Lemma string_rev_append (s t : string) : String.rev (s +:+ t) = String.rev t +:+ String.rev s.
Proof.
  induction s as [|c s IH]; [by rewrite append_nil_l, append_nil_r|].
  by rewrite append_cons, !rev_cons, IH, append_assoc.
Qed.

Lemma lstrip_head (s : string) (c : ascii) (rest : string) :
  lstrip s = String c rest -> isspace c = false.
Proof.
  induction s as [|d s IH]; [done|]. cbn [lstrip].
  destruct (isspace d) eqn:Hd; [exact IH|]. by intros [= <- _].
Qed.

Lemma lstrip_suffix (s : string) : exists spaces, s = spaces +:+ lstrip s.
Proof.
  induction s as [|d s [spaces IH]]; [by exists EmptyString|]. cbn [lstrip].
  destruct (isspace d).
  - exists (String d spaces). by rewrite append_cons, <- IH.
  - by exists EmptyString.
Qed.

Lemma rstrip_last (s front : string) (c : ascii) :
  rstrip s = front +:+ String c EmptyString -> isspace c = false.
Proof.
  unfold rstrip. intros Hs.
  assert (lstrip (String.rev s) = String c (String.rev front)) as Hl.
  { by rewrite <- (string_rev_rev (lstrip (String.rev s))), Hs, rev_snoc. }
  by apply lstrip_head in Hl.
Qed.

(** What [strip] returns is trimmed. *)
Lemma strip_trimmed (s : string) : trimmed (strip s).
Proof.
  unfold strip. split.
  - intros c rest. apply lstrip_head.
  - intros front c Hs.
    destruct (lstrip_suffix (rstrip s)) as [spaces Hsp].
    rewrite Hs, <- append_assoc in Hsp. by apply rstrip_last in Hsp.
Qed.

Lemma lstrip_fixed (s : string) :
  (forall c rest, s = String c rest -> isspace c = false) -> lstrip s = s.
Proof. destruct s as [|c s]; [done|]. intros Hc. cbn [lstrip]. by rewrite (Hc c s). Qed.

Lemma trimmed_strip (s : string) : trimmed s -> strip s = s.
Proof.
  intros [Hfirst Hlast]. unfold strip, rstrip.
  rewrite (lstrip_fixed (String.rev s)).
  - rewrite string_rev_rev. by apply lstrip_fixed.
  - intros c rest Hrev. apply (Hlast (String.rev rest) c).
    by rewrite <- (string_rev_rev s), Hrev, rev_cons.
Qed.

End strip_facts.

Section matcher_inversion.

(** Where a repetition succeeds it has taken a run of its class, of the
    length asked for, and the rest of the pattern has matched behind it. *)
Lemma repeat_class_Some (p : ascii -> bool) (lo : nat) (greedy : bool)
    (continue : string -> string -> option re_match)
    (s consumed : string) (n : nat) (r : re_match) :
  repeat_class p lo greedy continue s consumed n = Some r ->
  exists run rest,
    s = run +:+ rest /\ every p run = true /\ (lo <= n + String.length run)%nat
    /\ continue (consumed +:+ run) rest = Some r.
Proof.
  revert consumed n. induction s as [|c s IH]; intros consumed n.
  - cbn [repeat_class].
    assert ((if Nat.leb lo n then continue consumed "" else None) = Some r ->
            exists run rest, "" = run +:+ rest /\ every p run = true
              /\ (lo <= n + String.length run)%nat
              /\ continue (consumed +:+ run) rest = Some r) as Hstop.
    { destruct (Nat.leb lo n) eqn:Hle; [|intros; discriminate].
      apply Nat.leb_le in Hle. intros Hk.
      exists EmptyString, EmptyString. rewrite !append_nil_r. cbn. split; [done|].
      split; [done|]. split; [lia|done]. }
    destruct greedy; [exact Hstop|].
    destruct (if Nat.leb lo n then continue consumed "" else None); [exact Hstop|done].
  - cbn [repeat_class].
    assert ((if Nat.leb lo n then continue consumed (String c s) else None) = Some r ->
            exists run rest, String c s = run +:+ rest /\ every p run = true
              /\ (lo <= n + String.length run)%nat
              /\ continue (consumed +:+ run) rest = Some r) as Hstop.
    { destruct (Nat.leb lo n) eqn:Hle; [|intros; discriminate].
      apply Nat.leb_le in Hle. intros Hk.
      exists EmptyString, (String c s). rewrite !append_nil_r. cbn. split; [done|].
      split; [done|]. split; [lia|done]. }
    assert ((if p c then repeat_class p lo greedy continue s (snoc_char consumed c) (S n)
             else None) = Some r ->
            exists run rest, String c s = run +:+ rest /\ every p run = true
              /\ (lo <= n + String.length run)%nat
              /\ continue (consumed +:+ run) rest = Some r) as Hmore.
    { destruct (p c) eqn:Hc; [|done].
      intros (run & rest & -> & Hrun & Hlo & Hk)%IH.
      exists (String c run), rest. rewrite append_cons. split; [done|].
      cbn [every String.length]. rewrite Hc, Hrun. split; [done|]. split; [lia|].
      unfold snoc_char in Hk. by rewrite append_assoc in Hk. }
    destruct greedy.
    + destruct (if p c then _ else None) as [r'|] eqn:Hm; [|exact Hstop].
      intros [= ->]. by apply Hmore.
    + destruct (if Nat.leb lo n then _ else None) as [r'|] eqn:Hs; [|exact Hmore].
      intros [= ->]. by apply Hstop.
Qed.

(** What [search] finds is a match at some place of the text. *)
Lemma search_Some (re : regex) (s : string) (m : re_match) :
  search re s = Some m -> exists before here, s = before +:+ here /\ match_at re here = Some m.
Proof.
  induction s as [|c s IH]; cbn [search].
  - destruct (match_at re "") eqn:Hm; [|done]. intros [= ->]. by exists EmptyString, EmptyString.
  - destruct (match_at re (String c s)) eqn:Hm.
    + intros [= ->]. by exists EmptyString, (String c s).
    + intros (before & here & -> & Hh)%IH. by exists (String c before), here.
Qed.

End matcher_inversion.

Section similarity_facts.
Context `{PyRuntime}.
Import ContextAnalyzer.

Lemma name_not_defined_group (message : string) (m : re_match) :
  search re_name_not_defined message = Some m -> group m 1 <> EmptyString.
Proof.
  intros (before & here & -> & Hm)%search_Some. revert Hm.
  unfold match_at, re_name_not_defined. cbn [match_here].
  destruct (strip_prefix "name '" here) as [s1|]; [|done]. rewrite append_nil_l.
  intros (run & rest & -> & Hrun & Hlo & Hk)%repeat_class_Some. revert Hk.
  cbn [match_here]. rewrite (substring_suffix "name '" run). cbn [app].
  destruct (strip_prefix "' is not defined" rest); [|done].
  intros [= <-]. unfold group. cbn. destruct run; [cbn in Hlo; lia|done].
Qed.

Lemma variable_name_not_empty (exception : PyException) :
  _extract_variable_name exception <> EmptyString.
Proof.
  unfold _extract_variable_name.
  destruct (search re_name_not_defined _) as [m|] eqn:Hm.
  - by apply name_not_defined_group in Hm.
  - by destruct (search re_not_callable _).
Qed.

Lemma similarity_sets (m m' : gmap string value) (word : string) (available : list string) :
  m !! "variable_name" = Some (VStr word) ->
  m !! "available_variables" = Some (VList available) ->
  similarity_unset m ->
  word <> EmptyString ->
  _analyze_variable_similarity m = Ok m' ->
  let similar :=
    match available with
    | [] => []
    | _ :: _ => get_close_matches word available 5 cutoff
    end in
  m' !! "similar_variables" = Some (VList similar)
  /\ (forall closest others, similar = closest :: others ->
        m' !! "closest_variable" = Some (VStr closest)
        /\ m' !! "similarity_score" = Some (VFloat (sequence_ratio word closest)))
  /\ (similar = [] ->
        m' !! "closest_variable" = Some VNone
        /\ m' !! "similarity_score" = Some (VFloat 0%float)).
Proof.
  intros Hw Ha (H1 & H2 & H3 & H4) Hne. unfold _analyze_variable_similarity.
  rewrite (getitem_Some _ _ _ Hw), (getitem_Some _ _ _ Ha). cbn [bind truthy].
  destruct (String.eqb_spec word EmptyString) as [?|_]; [done|]. cbn [negb orb].
  destruct available as [|a available']; cbn [negb].
  - intros [= <-]. cbn zeta. done.
  - cbn zeta. destruct (get_close_matches word (a :: available') 5 cutoff)
      as [|closest others]; intros [= <-].
    + rewrite lookup_insert_eq. split; [done|]. split; [done|]. intros _.
      rewrite !lookup_insert_ne by done. done.
    + split; [by simplify_map_eq|]. split; [|done].
      intros ? ? [= <- <-]. split; by simplify_map_eq.
Qed.

(** The variable name of a FactSet is never empty, so the similarity
    analysis runs whenever a variable is available: in a FactSet that
    [analyze] returns, [similar_variables] is what [difflib.get_close_matches] returns for the name among the
    available variables, with at most five results and the cutoff 0.4
    ([cutoff], the float nearest to it),
    and is empty when no variable is available; [closest_variable] is the
    first of them and [similarity_score] the [SequenceMatcher] ratio of
    the name and that first one. *)
Theorem similar_variables_come_from_difflib (exception : PyException) (context : Context)
    (facts : gmap string value) :
  let word := _extract_variable_name exception in
  let available := _get_available_variables context in
  let similar :=
    match available with
    | [] => []
    | _ :: _ => get_close_matches word available 5 cutoff
    end in
  analyze exception context = Ok facts ->
  word <> EmptyString
  /\ facts !! "variable_name" = Some (VStr word)
  /\ facts !! "similar_variables" = Some (VList similar)
  /\ (forall closest others, similar = closest :: others ->
        facts !! "closest_variable" = Some (VStr closest)
        /\ facts !! "similarity_score" = Some (VFloat (sequence_ratio word closest)))
  /\ (similar = [] ->
        facts !! "closest_variable" = Some VNone
        /\ facts !! "similarity_score" = Some (VFloat 0%float)).
Proof.
  intros word available similar Hfacts. rename facts into m5.
  pose proof (variable_name_not_empty exception) as Hne. fold word in Hne.
  split; [done|].
  destruct (analyze_stages exception context m5 Hfacts)
    as (m1 & m2 & m3 & m4 & E1 & _ & _ & _ & _ & S1 & S2 & S3 & S4 & S5).
  pose proof (same_except_trans _ _ _ _ _ S2
               (same_except_trans _ _ _ _ _ S3
                 (same_except_trans _ _ _ _ _ S4 S5))) as S25.
  destruct (initial_analysis_lookups exception context)
    as (Hname & Havail & Hunset & _).
  fold word in Hname. fold available in Havail.
  clear Hfacts S2 S3 S4 S5.
  assert (m1 !! "variable_name" = Some (VStr word)) as Hname1.
  { eapply same_except_lookup; [exact S1|solve_keys|exact Hname]. }
  destruct (similarity_sets _ _ _ _ Hname Havail Hunset Hne E1) as (F1 & F2 & F3).
  fold similar in F1, F2, F3. clear E1 S1 Hname Havail Hunset.
  assert (forall k v, k ∈ similarity_keys ++ ["variable_name"] ->
            m1 !! k = Some v -> m5 !! k = Some v) as Hkeep.
  { intros k v Hk Hv. eapply same_except_lookup; [exact S25| |exact Hv].
    unfold similarity_keys in Hk. cbn [app] in Hk.
    repeat (apply elem_of_cons in Hk as [Hk|Hk]; [subst k; solve_keys|]).
    by apply elem_of_nil in Hk. }
  split; [apply Hkeep; [solve_keys|exact Hname1]|].
  split; [apply Hkeep; [solve_keys|exact F1]|]. split.
  - intros closest others Hs. destruct (F2 _ _ Hs) as [G1 G2].
    split; (apply Hkeep; [solve_keys|assumption]).
  - intros Hs. destruct (F3 Hs) as [G1 G2].
    split; (apply Hkeep; [solve_keys|assumption]).
Qed.

End similarity_facts.

Lemma similar_variables_come_from_difflib_witness :
  exists facts,
    @ContextAnalyzer.analyze Reference.runtime Sample.name_error Sample.context = Ok facts
    /\ facts !! "similar_variables" = Some (VList ["lst2"])
    /\ facts !! "closest_variable" = Some (VStr "lst2").
Proof.
  destruct (analyze_returns (H := Reference.runtime) Sample.name_error Sample.context
              eq_refl) as [facts Hfacts].
  destruct (similar_variables_come_from_difflib (H := Reference.runtime) _ _ _ Hfacts)
    as (_ & _ & Hsimilar & Hclosest & _).
  exists facts. split; [exact Hfacts|]. split.
  - rewrite Hsimilar. vm_compute. reflexivity.
  - apply (Hclosest "lst2" []). vm_compute. reflexivity.
Defined.

Section counting.

Lemma count_char_append (c : ascii) (s t : string) :
  count_char c (s +:+ t) = (count_char c s + count_char c t)%nat.
Proof.
  induction s as [|d s IH]; [done|].
  rewrite append_cons. cbn [count_char]. rewrite IH. lia.
Qed.

Lemma count_char_none (c : ascii) (s : string) :
  every (not_char c) s = true <-> count_char c s = O.
Proof.
  induction s as [|d s IH]; [done|]. cbn [every count_char]. unfold not_char at 1.
  rewrite andb_true_iff, IH. destruct (Ascii.eqb d c); cbn; split; try done; lia.
Qed.

(** A text is cut at the first place a character stands in one way. *)
Lemma first_occurrence (c : ascii) (a a' b b' : string) :
  every (not_char c) a = true -> every (not_char c) a' = true ->
  a +:+ String c b = a' +:+ String c b' -> a = a' /\ b = b'.
Proof.
  revert a'. induction a as [|d a IH]; intros [|d' a'] Ha Ha'.
  - rewrite !append_nil_l. by intros [= ->].
  - rewrite append_nil_l, append_cons. intros [= <- _].
    cbn [every] in Ha'. unfold not_char at 1 in Ha'. by rewrite Ascii.eqb_refl in Ha'.
  - rewrite append_nil_l, append_cons. intros [= -> _].
    cbn [every] in Ha. unfold not_char at 1 in Ha. by rewrite Ascii.eqb_refl in Ha.
  - rewrite !append_cons. intros [= -> Heq].
    cbn [every] in Ha, Ha'. apply andb_true_iff in Ha as [_ Ha].
    apply andb_true_iff in Ha' as [_ Ha'].
    destruct (IH a' Ha Ha' Heq) as [-> ->]. done.
Qed.

Lemma append_cancel_l (p s t : string) : p +:+ s = p +:+ t -> s = t.
Proof.
  induction p as [|c p IH]; [done|]. rewrite !append_cons. intros [= Heq]. by apply IH.
Qed.

Lemma append_cancel_r (s s' t : string) : s +:+ t = s' +:+ t -> s = s'.
Proof.
  intros Heq. apply (f_equal String.rev) in Heq. rewrite !string_rev_append in Heq.
  apply append_cancel_l in Heq. apply (f_equal String.rev) in Heq.
  by rewrite !string_rev_rev in Heq.
Qed.

(** A greedy repetition succeeds wherever some run of the class leaves
    a text that the rest of the pattern matches. *)
Lemma repeat_class_finds (p : ascii -> bool) (lo : nat)
    (continue : string -> string -> option re_match)
    (run rest consumed : string) (n : nat) (r : re_match) :
  every p run = true ->
  (lo <= n + String.length run)%nat ->
  continue (consumed +:+ run) rest = Some r ->
  exists r', repeat_class p lo true continue (run +:+ rest) consumed n = Some r'.
Proof.
  revert consumed n. induction run as [|c run IH]; intros consumed n Hrun Hlo Hk.
  - rewrite append_nil_l. rewrite append_nil_r in Hk. cbn in Hlo.
    rewrite Nat.add_0_r in Hlo. apply Nat.leb_le in Hlo.
    destruct rest as [|c rest]; cbn [repeat_class]; rewrite Hlo, Hk.
    + by eexists.
    + destruct (if p c then _ else None); by eexists.
  - cbn [every] in Hrun. apply andb_true_iff in Hrun as [Hc Hrun].
    rewrite append_cons. cbn [repeat_class]. rewrite Hc.
    destruct (IH (snoc_char consumed c) (S n)) as [r' ->]; [done| | |by eexists].
    + cbn [String.length] in Hlo. lia.
    + unfold snoc_char. by rewrite append_assoc.
Qed.

End counting.

Section operand_types.
Context `{PyRuntime}.
Import ContextAnalyzer.

(** What a match of the pattern of the operand types has read. *)
Lemma operand_types_Some (s : string) (m : re_match) :
  match_at re_operand_types s = Some m ->
  exists run1 run2 run3 rest,
    s = "unsupported operand type(s) for " +:+ run1 +:+ ": '" +:+ run2 +:+ "' and '"
          +:+ run3 +:+ "'" +:+ rest
    /\ every (not_char squote) run2 = true
    /\ every (not_char squote) run3 = true
    /\ m_groups m = [run1; run2; run3].
Proof.
  unfold match_at, re_operand_types. cbn [match_here].
  destruct (strip_prefix _ s) as [s1|] eqn:Hs; [|done].
  apply strip_prefix_Some in Hs. subst s. rewrite append_nil_l.
  intros (run1 & rest1 & -> & _ & _ & Hk)%repeat_class_Some. revert Hk.
  cbn [match_here]. rewrite (substring_suffix "unsupported operand type(s) for " run1).
  destruct (strip_prefix ": '" rest1) as [s2|] eqn:Hs; [|done].
  apply strip_prefix_Some in Hs. subst rest1.
  intros (run2 & rest2 & -> & Hrun2 & _ & Hk)%repeat_class_Some. revert Hk.
  cbn [match_here]. rewrite (substring_suffix _ run2).
  destruct (strip_prefix "' and '" rest2) as [s3|] eqn:Hs; [|done].
  apply strip_prefix_Some in Hs. subst rest2.
  intros (run3 & rest3 & -> & Hrun3 & _ & Hk)%repeat_class_Some. revert Hk.
  cbn [match_here]. rewrite (substring_suffix _ run3).
  destruct (strip_prefix "'" rest3) as [s4|] eqn:Hs; [|done].
  apply strip_prefix_Some in Hs. subst rest3.
  intros [= <-]. exists run1, run2, run3, s4. done.
Qed.

Lemma operand_types_match (op t1 t2 : string) :
  op <> EmptyString -> every not_newline op = true -> every (not_char squote) op = true ->
  t1 <> EmptyString -> every (not_char squote) t1 = true ->
  t2 <> EmptyString -> every (not_char squote) t2 = true ->
  exists m,
    search re_operand_types
      ("unsupported operand type(s) for " +:+ op +:+ ": '" +:+ t1 +:+ "' and '" +:+ t2
         +:+ "'") = Some m
    /\ m_groups m = [op; t1; t2].
Proof.
  intros Hop1 Hop2 Hop3 Ht1 Ht1' Ht2 Ht2'.
  assert (exists m, match_at re_operand_types
            ("unsupported operand type(s) for " +:+ op +:+ ": '" +:+ t1 +:+ "' and '" +:+ t2
               +:+ "'") = Some m) as [m Hm].
  { unfold match_at, re_operand_types. cbn [match_here].
    rewrite strip_prefix_append, append_nil_l.
    eapply repeat_class_finds; [exact Hop2| |].
    - destruct op; [done|]. cbn [String.length]. lia.
    - cbn [match_here]. rewrite strip_prefix_append.
      apply repeat_class_takes_run; [exact Ht1'|reflexivity| |].
      + destruct t1; [done|]. cbn [String.length]. lia.
      + cbn [match_here]. rewrite strip_prefix_append.
        apply repeat_class_takes_run; [exact Ht2'|reflexivity| |].
        * destruct t2; [done|]. cbn [String.length]. lia.
        * cbn [match_here strip_prefix Ascii.eqb Bool.eqb]. reflexivity. }
  exists m. split; [by apply search_here|].
  destruct (operand_types_Some _ _ Hm) as (run1 & run2 & run3 & rest & Heq & H2 & H3 & ->).
  apply append_cancel_l in Heq.
  assert (every (not_char squote) run1 = true /\ every (not_char squote) rest = true)
    as [H1 H4].
  { apply (f_equal (count_char squote)) in Heq.
    rewrite !count_char_append in Heq.
    apply count_char_none in Hop3, Ht1', Ht2', H2, H3.
    rewrite Hop3, Ht1', Ht2', H2, H3 in Heq. cbn in Heq.
    rewrite !count_char_none. lia. }
  change (?a +:+ ": '" +:+ ?b) with (a +:+ ": " +:+ String squote b) in Heq.
  rewrite <- !(append_assoc _ ": ") in Heq.
  apply first_occurrence in Heq as [Hop Heq].
  - apply append_cancel_r in Hop. subst run1.
    change (?a +:+ "' and '" +:+ ?b) with (a +:+ String squote (" and '" +:+ b)) in Heq.
    apply first_occurrence in Heq as [-> Heq]; [|done|done].
    apply (append_cancel_l " and '") in Heq.
    change (?a +:+ "'" +:+ ?b) with (a +:+ String squote b) in Heq.
    change (t2 +:+ "'") with (t2 +:+ String squote "") in Heq.
    apply first_occurrence in Heq as [-> _]; done.
  - rewrite every_append, Hop3. reflexivity.
  - rewrite every_append, H1. reflexivity.
Qed.

(** For a TypeError with CPython's message "unsupported operand type(s)
    for OP: 'A' and 'B'" the FactSet that [analyze] returns records the
    operator, stripped, and the two type names, whatever characters other
    than the quote the names are written with. For an exception that is no
    TypeError the two types stay None, whatever its message. *)
Theorem analyze_reads_the_operand_types (exception : PyException) (context : Context)
    (op t1 t2 : string) (facts : gmap string value) :
  op <> EmptyString -> every not_newline op = true -> every (not_char squote) op = true ->
  t1 <> EmptyString -> every (not_char squote) t1 = true ->
  t2 <> EmptyString -> every (not_char squote) t2 = true ->
  analyze exception context = Ok facts ->
  (exc_is_TypeError exception = true ->
   exc_str exception
   = "unsupported operand type(s) for " +:+ op +:+ ": '" +:+ t1 +:+ "' and '" +:+ t2
       +:+ "'" ->
   facts !! "operation" = Some (VStr (strip op))
   /\ facts !! "type1" = Some (VStr t1)
   /\ facts !! "type2" = Some (VStr t2))
  /\ (exc_is_TypeError exception = false ->
      facts !! "type1" = Some VNone /\ facts !! "type2" = Some VNone).
Proof.
  intros Hop1 Hop2 Hop3 Ht1 Ht1' Ht2 Ht2' Hfacts. rename facts into m5.
  destruct (operand_types_match op t1 t2) as (m & Hm & Hgroups); try done.
  destruct (analyze_stages exception context m5 Hfacts)
    as (m1 & m2 & m3 & m4 & _ & _ & _ & E4 & _ & S1 & S2 & S3 & S4 & S5).
  pose proof (same_except_trans _ _ _ _ _ S1
               (same_except_trans _ _ _ _ _ S2 S3)) as S13.
  clear Hfacts S1 S2 S3.
  assert (m3 !! "type1" = Some VNone /\ m3 !! "type2" = Some VNone) as [I1 I2].
  { split; (eapply same_except_lookup; [exact S13|solve_keys|]);
      unfold initial_analysis; generalize (_extract_variable_name exception)
        (_get_available_variables context) (_extract_object_type exception)
        (_extract_operation exception) (_extract_bad_value exception); intros;
      vm_compute; reflexivity. }
  clear S13. unfold _analyze_type_errors in E4. split.
  - intros Htype Hmsg. rewrite Htype, Hmsg, Hm in E4. cbn [negb] in E4.
    injection E4 as E4.
    repeat split; (eapply same_except_lookup; [exact S5|solve_keys|]);
      rewrite <- E4; unfold group; rewrite Hgroups; cbn [nth Nat.pred]; by simplify_map_eq.
  - intros Htype. rewrite Htype in E4. cbn [negb] in E4. injection E4 as E4.
    split; (eapply same_except_lookup; [exact S5|solve_keys|]); by rewrite <- E4.
Qed.

End operand_types.

Lemma analyze_reads_the_operand_types_witness :
  exists facts,
    @ContextAnalyzer.analyze Reference.runtime Sample.operand_error Sample.context = Ok facts
    /\ facts !! "operation" = Some (VStr "+")
    /\ facts !! "type1" = Some (VStr "int")
    /\ facts !! "type2" = Some (VStr "str").
Proof.
  destruct (analyze_returns (H := Reference.runtime) Sample.operand_error Sample.context
              eq_refl) as [facts Hfacts].
  destruct (analyze_reads_the_operand_types (H := Reference.runtime)
              Sample.operand_error Sample.context "+" "int" "str" facts)
    as (Htypes & _).
  - discriminate.
  - reflexivity.
  - reflexivity.
  - discriminate.
  - reflexivity.
  - discriminate.
  - reflexivity.
  - exact Hfacts.
  - exists facts. split; [exact Hfacts|]. apply Htypes; reflexivity.
Defined.

Section object_type.
Context `{PyRuntime}.
Import ContextAnalyzer.

Lemma object_match (type rest : string) :
  type <> EmptyString ->
  every (not_char squote) type = true ->
  exists m, search re_object ("'" +:+ type +:+ "' object" +:+ rest) = Some m
            /\ m_groups m = [type].
Proof.
  intros Hne Htype. eexists. split.
  - apply search_here. unfold match_at, re_object.
    cbn [match_here]. rewrite strip_prefix_append, append_nil_l.
    apply repeat_class_takes_run; [done| | |].
    + rewrite append_cons. reflexivity.
    + destruct type; [done|]. cbn [String.length]. lia.
    + cbn [match_here]. rewrite strip_prefix_append.
      rewrite (substring_suffix "'" type). reflexivity.
  - reflexivity.
Qed.

Lemma not_callable_match (type rest : string) :
  type <> EmptyString ->
  every (not_char squote) type = true ->
  exists m, search re_not_callable ("'" +:+ type +:+ "' object is not callable" +:+ rest)
            = Some m
            /\ m_groups m = [type].
Proof.
  intros Hne Htype. eexists. split.
  - apply search_here. unfold match_at, re_not_callable.
    cbn [match_here]. rewrite strip_prefix_append, append_nil_l.
    apply repeat_class_takes_run; [done| | |].
    + rewrite append_cons. reflexivity.
    + destruct type; [done|]. cbn [String.length]. lia.
    + cbn [match_here]. rewrite strip_prefix_append.
      rewrite (substring_suffix "'" type). reflexivity.
  - reflexivity.
Qed.

(** What a match of the pattern of the undefined name has read. *)
Lemma name_not_defined_Some (s : string) (m : re_match) :
  match_at re_name_not_defined s = Some m ->
  exists run rest,
    s = "name '" +:+ run +:+ "' is not defined" +:+ rest
    /\ every (not_char squote) run = true.
Proof.
  unfold match_at, re_name_not_defined. cbn [match_here].
  destruct (strip_prefix "name '" s) as [s1|] eqn:Hs; [|done].
  apply strip_prefix_Some in Hs. subst s. rewrite append_nil_l.
  intros (run & rest & -> & Hrun & _ & Hk)%repeat_class_Some. revert Hk.
  cbn [match_here].
  destruct (strip_prefix "' is not defined" rest) as [s2|] eqn:Hs; [|done].
  apply strip_prefix_Some in Hs. subst rest. intros _. by exists run, s2.
Qed.

(** The pattern of the undefined name needs two quotes behind "name ". *)
Lemma name_not_defined_none (type tail : string) :
  every (not_char squote) type = true ->
  every (not_char squote) tail = true ->
  search re_name_not_defined ("'" +:+ type +:+ "'" +:+ tail) = None.
Proof.
  intros Htype Htail.
  destruct (search re_name_not_defined _) as [m|] eqn:Hm; [exfalso|done].
  apply search_Some in Hm as (before & here & Heq & Hm).
  apply name_not_defined_Some in Hm as (run & rest & -> & Hrun).
  assert (every (not_char squote) before = true) as Hbefore.
  { apply (f_equal (count_char squote)) in Heq.
    rewrite !count_char_append in Heq.
    apply count_char_none in Htype, Htail, Hrun. rewrite Htype, Htail, Hrun in Heq.
    cbn in Heq. rewrite count_char_none. lia. }
  change ("'" +:+ type +:+ "'" +:+ tail)
    with ("" +:+ String squote (type +:+ "'" +:+ tail)) in Heq.
  change (before +:+ "name '" +:+ ?x)
    with (before +:+ "name " +:+ String squote x) in Heq.
  rewrite <- (append_assoc before "name ") in Heq.
  apply first_occurrence in Heq as [Heq _]; [|done|].
  - destruct before; discriminate Heq.
  - by rewrite every_append, Hbefore.
Qed.

(** In the FactSet that [analyze] returns, the type is read off a message
    that begins "'<type>' object", whatever follows; for CPython's message
    "'<type>' object is not callable" the variable name is
    "variable_of_type_<type>", a name that no program holds and that the
    similarity analysis is then run on. *)
Theorem analyze_reads_the_object_type (exception : PyException) (context : Context)
    (type : string) (facts : gmap string value) :
  type <> EmptyString ->
  every (not_char squote) type = true ->
  analyze exception context = Ok facts ->
  (forall rest,
     exc_str exception = "'" +:+ type +:+ "' object" +:+ rest ->
     facts !! "object_type" = Some (VStr type))
  /\ (forall rest,
        every (not_char squote) rest = true ->
        exc_str exception = "'" +:+ type +:+ "' object is not callable" +:+ rest ->
        facts !! "variable_name" = Some (VStr ("variable_of_type_" +:+ type))).
Proof.
  intros Hne Htype Hfacts.
  destruct (analyze_lookups exception context facts Hfacts)
    as (Hname & _ & _ & _ & _ & _ & _ & _ & Hobj & _).
  clear Hfacts. split.
  - intros rest Hmsg. rewrite Hobj. do 2 f_equal.
    unfold _extract_object_type. rewrite Hmsg.
    destruct (object_match type rest Hne Htype) as (m & -> & Hm).
    unfold group. by rewrite Hm.
  - intros rest Hrest Hmsg. rewrite Hname. do 2 f_equal.
    unfold _extract_variable_name. rewrite Hmsg.
    change ("'" +:+ type +:+ "' object is not callable" +:+ rest)
      with ("'" +:+ type +:+ "'" +:+ (" object is not callable" +:+ rest)) at 1.
    rewrite name_not_defined_none; [|done|by rewrite every_append, Hrest].
    destruct (not_callable_match type rest Hne Htype) as (m & -> & Hm).
    unfold group. by rewrite Hm.
Qed.

End object_type.

Lemma analyze_reads_the_object_type_witness :
  exists facts,
    @ContextAnalyzer.analyze Reference.runtime Sample.callable_error Sample.context = Ok facts
    /\ facts !! "object_type" = Some (VStr "int")
    /\ facts !! "variable_name" = Some (VStr "variable_of_type_int").
Proof.
  destruct (analyze_returns (H := Reference.runtime) Sample.callable_error Sample.context
              eq_refl) as [facts Hfacts].
  destruct (analyze_reads_the_object_type (H := Reference.runtime)
              Sample.callable_error Sample.context "int" facts)
    as (Hobject & Hname).
  - discriminate.
  - reflexivity.
  - exact Hfacts.
  - exists facts. split; [exact Hfacts|]. split.
    + apply (Hobject " is not callable"). reflexivity.
    + apply (Hname ""); reflexivity.
Defined.

(** ** Rendered texts *)

Section plain_text.
Context `{PyRuntime}.
Import TemplateRenderer.

(** Where a pattern that begins with a literal brace finds no match. *)
Lemma sub_lit_text (l : string) (re : regex) (repl : list string -> result string)
    (before rest : string) :
  every (not_char "{") before = true ->
  sub (Lit (String "{" l) :: re) repl (before +:+ rest)
  = do t <- sub (Lit (String "{" l) :: re) repl rest in Ok (before +:+ t).
Proof.
  unfold sub. induction before as [|c before IH]; intros Hb.
  - rewrite append_nil_l. by destruct (sub_from _ repl 0 rest).
  - cbn [every] in Hb. apply andb_true_iff in Hb as [Hc Hb].
    rewrite append_cons. cbn [sub_from].
    assert (match_at (Lit (String "{" l) :: re) (String c (before +:+ rest)) = None) as ->.
    { unfold match_at. cbn [match_here strip_prefix].
      unfold not_char in Hc. rewrite Ascii.eqb_sym in Hc.
      by destruct (Ascii.eqb "{" c). }
    rewrite (IH Hb). by destruct (sub_from _ repl 0 rest).
Qed.

Lemma sub_lit_plain (l : string) (re : regex) (repl : list string -> result string)
    (text : string) :
  every (not_char "{") text = true ->
  sub (Lit (String "{" l) :: re) repl text = Ok text.
Proof.
  intros Ht. rewrite <- (append_nil_r text) at 1.
  rewrite (sub_lit_text l re repl text "" Ht). cbn. by rewrite append_nil_r.
Qed.

Lemma render_template_plain (text : string) (analysis : gmap string value) :
  every (not_char "{") text = true ->
  _render_template text analysis = Ok (strip text).
Proof.
  intros Ht. unfold _render_template.
  destruct (String.eqb_spec text EmptyString) as [->|_]; [done|].
  unfold _handle_conditional_blocks, _substitute_variables.
  unfold if_else_pattern, if_pattern, variable_pattern.
  change "{if" with (String "{" "if"). change "{" with (String "{" "").
  rewrite (sub_lit_plain "if" _ _ _ Ht). cbn [bind].
  rewrite (sub_lit_plain "if" _ _ _ Ht). cbn [bind].
  by rewrite (sub_lit_plain "" _ _ _ Ht).
Qed.

Lemma render_template_trimmed (template : string) (analysis : gmap string value)
    (rendered : string) :
  _render_template template analysis = Ok rendered -> trimmed rendered.
Proof.
  unfold _render_template. destruct (String.eqb template EmptyString).
  - intros [= <-]. split; [done|]. intros front c Hs. by destruct front.
  - destruct (_handle_conditional_blocks template analysis) as [r1|]; cbn [bind]; [|done].
    destruct (_substitute_variables r1 analysis) as [r2|]; cbn [bind]; [|done].
    intros [= <-]. apply strip_trimmed.
Qed.

(** What [_render_template] returns neither starts nor ends with white
    space, and stripping it again changes nothing; a template without an
    opening brace (no block, no token) renders to itself, stripped, for
    every FactSet, and the empty template to the empty text. *)
Theorem rendered_text_is_trimmed (template : string) (analysis : gmap string value) :
  (forall rendered,
     _render_template template analysis = Ok rendered ->
     trimmed rendered /\ strip rendered = rendered)
  /\ (every (not_char "{") template = true ->
      _render_template template analysis = Ok (strip template))
  /\ _render_template EmptyString analysis = Ok EmptyString.
Proof.
  split; [|split; [apply render_template_plain|done]].
  intros rendered Hr. apply render_template_trimmed in Hr.
  split; [done|by apply trimmed_strip].
Qed.

End plain_text.

(** ** Conditional blocks *)

Section lazy_facts.

Lemma split_once_Some (sep s a b : string) :
  split_once sep s = Some (a, b) -> s = a +:+ sep +:+ b.
Proof.
  revert a. induction s as [|c s IH]; intros a.
  - cbn [split_once]. destruct (strip_prefix sep "") as [rest|] eqn:Hp; [|done].
    intros [= <- <-]. by apply strip_prefix_Some in Hp.
  - cbn [split_once]. destruct (strip_prefix sep (String c s)) as [rest|] eqn:Hp.
    + intros [= <- <-]. by apply strip_prefix_Some in Hp.
    + destruct (split_once sep s) as [[a' b']|]; [|done].
      intros [= <- <-]. by rewrite (IH a' eq_refl).
Qed.

(** A lazy repetition of any character stops at the first place where
    the literal that follows it stands, when the rest of the pattern
    matches there. *)
Lemma lazy_until (sep : string) (continue : string -> string -> option re_match)
    (s a b consumed : string) (n : nat) (r : re_match) :
  split_once sep s = Some (a, b) ->
  (forall consumed' s', strip_prefix sep s' = None -> continue consumed' s' = None) ->
  continue (consumed +:+ a) (sep +:+ b) = Some r ->
  repeat_class any_char 0 false continue s consumed n = Some r.
Proof.
  intros Hs Hk. revert a consumed n Hs.
  induction s as [|c s IH]; intros a consumed n.
  - cbn [split_once]. destruct (strip_prefix sep "") as [rest|] eqn:Hp; [|done].
    intros [= <- <-]. rewrite append_nil_r. apply strip_prefix_Some in Hp.
    rewrite <- Hp. cbn [repeat_class Nat.leb]. by intros ->.
  - cbn [split_once]. destruct (strip_prefix sep (String c s)) as [rest|] eqn:Hp.
    + intros [= <- <-]. rewrite append_nil_r. apply strip_prefix_Some in Hp.
      rewrite <- Hp. cbn [repeat_class Nat.leb]. by intros ->.
    + destruct (split_once sep s) as [[a' b']|] eqn:Hs'; [|done].
      intros [= <- <-] Hr. cbn [repeat_class Nat.leb].
      rewrite (Hk consumed (String c s) Hp). cbn [any_char].
      apply (IH a'); [done|]. unfold snoc_char.
      by rewrite append_assoc.
Qed.

(** No match of a pattern that holds the literal [sep] in a text that
    does not. *)
Lemma contains_tail (sep : string) (c : ascii) (s : string) :
  contains sep (String c s) = false -> contains sep s = false.
Proof.
  unfold contains. cbn [split_once].
  destruct (strip_prefix sep (String c s)); [done|].
  by destruct (split_once sep s) as [[]|].
Qed.

Lemma contains_here (sep s : string) :
  contains sep s = false -> strip_prefix sep s = None.
Proof.
  unfold contains. destruct s as [|c s]; cbn [split_once];
    by destruct (strip_prefix sep _).
Qed.

Lemma contains_append (sep a s : string) :
  contains sep (a +:+ s) = false -> contains sep s = false.
Proof.
  induction a as [|c a IH]; [done|]. rewrite append_cons.
  intros Hc%contains_tail. by apply IH.
Qed.

Lemma match_here_needs (sep : string) (re : regex) (consumed : string)
    (opens : list nat) (groups : list string) (s : string) :
  Lit sep ∈ re -> contains sep s = false ->
  match_here re consumed opens groups s = None.
Proof.
  revert consumed opens groups s.
  induction re as [|a re IH]; intros consumed opens groups s Hin Hs.
  - by apply elem_of_nil in Hin.
  - apply elem_of_cons in Hin. destruct a as [l|p|p lo greedy| |]; cbn [match_here].
    + destruct (strip_prefix l s) as [s'|] eqn:Hl; [|done].
      destruct Hin as [[= <-]|Hin].
      * by rewrite (contains_here _ _ Hs) in Hl.
      * apply strip_prefix_Some in Hl. subst s.
        apply IH; [done|]. by apply contains_append in Hs.
    + destruct Hin as [[=]|Hin]. destruct s as [|c s]; [done|].
      destruct (p c); [|done]. apply IH; [done|]. by apply contains_tail in Hs.
    + destruct Hin as [[=]|Hin].
      assert (forall consumed' n,
                repeat_class p lo greedy
                  (fun consumed0 s0 => match_here re consumed0 opens groups s0)
                  s consumed' n = None) as Hrep; [|apply Hrep].
      induction s as [|c s IHs]; intros consumed' n.
      * cbn [repeat_class]. rewrite (IH _ _ _ _ Hin Hs).
        by destruct greedy, (Nat.leb lo n).
      * cbn [repeat_class]. rewrite (IH _ _ _ _ Hin Hs).
        rewrite (IHs (contains_tail _ _ _ Hs)).
        by destruct greedy, (p c), (Nat.leb lo n).
    + destruct Hin as [[=]|Hin]. by apply IH.
    + destruct Hin as [[=]|Hin]. destruct opens; [done|]. by apply IH.
Qed.

Lemma sub_needs (sep : string) (re : regex) (repl : list string -> result string)
    (s : string) :
  Lit sep ∈ re -> contains sep s = false -> sub re repl s = Ok s.
Proof.
  intros Hin. unfold sub. induction s as [|c s IH]; intros Hs; [done|].
  cbn [sub_from]. unfold match_at. rewrite (match_here_needs sep) by done.
  by rewrite (IH (contains_tail _ _ _ Hs)).
Qed.

End lazy_facts.

Section occurrence_facts.

(** A literal whose first character occurs nowhere else in it does not
    begin inside a text that lacks it and end in a following copy. *)
Lemma strip_prefix_rest (c0 : ascii) (sep a tail : string) :
  every (not_char c0) sep = true ->
  strip_prefix sep a = None ->
  strip_prefix sep (a +:+ String c0 tail) = None.
Proof.
  intros Hsep. revert a. induction sep as [|s1 sep IH]; intros a; [done|].
  cbn [every] in Hsep. apply andb_true_iff in Hsep as [Hs1 Hsep].
  destruct a as [|a1 a].
  - intros _. rewrite append_nil_l. cbn [strip_prefix].
    unfold not_char in Hs1. by destruct (Ascii.eqb s1 c0).
  - rewrite append_cons. cbn [strip_prefix].
    destruct (Ascii.eqb s1 a1); [by apply IH|done].
Qed.

Lemma strip_prefix_straddle (c0 : ascii) (sep a tail : string) :
  every (not_char c0) sep = true ->
  a <> EmptyString ->
  strip_prefix (String c0 sep) a = None ->
  strip_prefix (String c0 sep) (a +:+ String c0 tail) = None.
Proof.
  intros Hsep Ha. destruct a as [|a1 a]; [done|].
  rewrite append_cons. cbn [strip_prefix].
  destruct (Ascii.eqb c0 a1); [by apply strip_prefix_rest|done].
Qed.

Lemma split_once_first (c0 : ascii) (sep a rest : string) :
  every (not_char c0) sep = true ->
  contains (String c0 sep) a = false ->
  split_once (String c0 sep) (a +:+ String c0 sep +:+ rest) = Some (a, rest).
Proof.
  intros Hsep. induction a as [|x a IH]; intros Ha.
  - rewrite append_nil_l.
    change (String c0 sep +:+ rest) with (String c0 (sep +:+ rest)).
    destruct sep; cbn [split_once];
      change (String c0 (?s +:+ rest)) with (String c0 s +:+ rest);
      by rewrite strip_prefix_append.
  - pose proof (contains_here _ _ Ha) as Hhere.
    rewrite append_cons. cbn [split_once].
    change (String x (a +:+ String c0 sep +:+ rest))
      with (String x a +:+ String c0 (sep +:+ rest)).
    rewrite (strip_prefix_straddle c0 sep (String x a) _ Hsep); [|done|done].
    change (String x a +:+ String c0 (sep +:+ rest))
      with (String x (a +:+ String c0 sep +:+ rest)).
    by rewrite (IH (contains_tail _ _ _ Ha)).
Qed.

Lemma strip_prefix_more (sep a b rest : string) :
  strip_prefix sep a = Some rest -> strip_prefix sep (a +:+ b) = Some (rest +:+ b).
Proof.
  revert a. induction sep as [|s sep IH]; intros a; cbn [strip_prefix].
  - by intros [= ->].
  - destruct a as [|x a]; [done|]. rewrite append_cons. cbn [strip_prefix].
    destruct (Ascii.eqb s x); [apply IH|done].
Qed.

Lemma contains_prefix (sep a b : string) :
  contains sep (a +:+ b) = false -> contains sep a = false.
Proof.
  induction a as [|x a IH].
  - unfold contains. cbn [split_once]. rewrite append_nil_l.
    destruct (strip_prefix sep "") as [rest|] eqn:Hp; [|done].
    apply strip_prefix_Some in Hp. destruct sep; [|done].
    intros Hb. by destruct b.
  - intros Hab. pose proof (contains_here _ _ Hab) as Hhere.
    rewrite append_cons in Hab. apply contains_tail, IH in Hab.
    unfold contains in *. cbn [split_once].
    destruct (strip_prefix sep (String x a)) as [rest|] eqn:Hp.
    + by rewrite (strip_prefix_more _ _ b _ Hp) in Hhere.
    + by destruct (split_once sep a) as [[]|].
Qed.

End occurrence_facts.

Section sub_facts.

(** Where no match begins, [re.sub] copies the text. *)
Lemma sub_skip (re : regex) (repl : list string -> result string) (before rest : string) :
  (forall p x q, before = p +:+ String x q -> match_at re (String x q +:+ rest) = None) ->
  sub re repl (before +:+ rest) = do t <- sub re repl rest in Ok (before +:+ t).
Proof.
  unfold sub. induction before as [|c before IH]; intros Hno.
  - rewrite append_nil_l. by destruct (sub_from re repl 0 rest).
  - rewrite append_cons. cbn [sub_from].
    change (String c (before +:+ rest)) with (String c before +:+ rest).
    rewrite (Hno EmptyString c before eq_refl). rewrite IH.
    + by destruct (sub_from re repl 0 rest).
    + intros p x q ->. apply (Hno (String c p) x q). by rewrite append_cons.
Qed.

(** At a match the text of the match is replaced and the search goes on
    behind it. *)
Lemma sub_at_match (re : regex) (repl : list string -> result string)
    (text rest : string) (m : re_match) :
  text <> EmptyString ->
  match_at re (text +:+ rest) = Some m ->
  m_text m = text ->
  sub re repl (text +:+ rest)
  = do r <- repl (m_groups m) in do t <- sub re repl rest in Ok (r +:+ t).
Proof.
  intros Hne Hm Htext. unfold sub. destruct text as [|c text]; [done|].
  rewrite append_cons in *. cbn [sub_from]. rewrite Hm, Htext.
  destruct (repl (m_groups m)) as [r|e]; cbn [bind]; [|done].
  cbn [String.length Nat.pred]. by rewrite sub_from_skip.
Qed.

(** No block opens inside a text without "{if", nor across its end into
    a block that follows. *)
Lemma no_opening_before (re : regex) (before rest : string) :
  contains "{if" before = false ->
  forall p x q, before = p +:+ String x q ->
    match_at (Lit "{if" :: re) (String x q +:+ String "{" rest) = None.
Proof.
  intros Hb p x q ->. apply contains_append, contains_here in Hb.
  unfold match_at. cbn [match_here].
  by rewrite (strip_prefix_straddle "{" "if" (String x q) rest eq_refl).
Qed.

End sub_facts.

Section block_facts.
Context `{PyRuntime}.
Import TemplateRenderer.

Lemma if_else_match (spaces condition a b after : string) :
  block_opening spaces condition ->
  contains "{else}" a = false ->
  contains "{endif}" b = false ->
  exists m,
    match_at if_else_pattern
      (("{if" +:+ spaces +:+ condition +:+ "}" +:+ a +:+ "{else}" +:+ b +:+ "{endif}")
         +:+ after) = Some m
    /\ m_groups m = [condition; a; b]
    /\ m_text m = "{if" +:+ spaces +:+ condition +:+ "}" +:+ a +:+ "{else}" +:+ b +:+ "{endif}".
Proof.
  intros (Hsp & Hspaces & (c0 & crest & -> & Hc0) & Hcond) Ha Hb.
  eexists. split; [|split].
  - unfold match_at, if_else_pattern. cbn [match_here].
    rewrite !append_assoc. rewrite strip_prefix_append, append_nil_l.
    apply repeat_class_takes_run; [done| | |].
    { rewrite append_cons. exact Hc0. }
    { destruct spaces; [done|]. cbn [String.length]. lia. }
    cbn [match_here].
    apply repeat_class_takes_run; [done| | |].
    { reflexivity. }
    { cbn [String.length]. lia. }
    cbn [match_here]. rewrite strip_prefix_append.
    rewrite (substring_suffix ("{if" +:+ spaces) (String c0 crest)). cbn [app].
    eapply (lazy_until "{else}").
    { apply (split_once_first "{" "else}"); [reflexivity|exact Ha]. }
    { intros consumed' s' Hs'. cbn [match_here]. by rewrite Hs'. }
    cbn [match_here]. rewrite strip_prefix_append.
    rewrite (substring_suffix _ a). cbn [app].
    eapply (lazy_until "{endif}").
    { apply (split_once_first "{" "endif}"); [reflexivity|exact Hb]. }
    { intros consumed' s' Hs'. cbn [match_here]. by rewrite Hs'. }
    cbn [match_here]. rewrite strip_prefix_append.
    rewrite (substring_suffix _ b). reflexivity.
  - reflexivity.
  - cbn [m_text]. by rewrite !append_assoc.
Qed.

Lemma if_match (spaces condition a after : string) :
  block_opening spaces condition ->
  contains "{endif}" a = false ->
  exists m,
    match_at if_pattern
      (("{if" +:+ spaces +:+ condition +:+ "}" +:+ a +:+ "{endif}") +:+ after) = Some m
    /\ m_groups m = [condition; a]
    /\ m_text m = "{if" +:+ spaces +:+ condition +:+ "}" +:+ a +:+ "{endif}".
Proof.
  intros (Hsp & Hspaces & (c0 & crest & -> & Hc0) & Hcond) Ha.
  eexists. split; [|split].
  - unfold match_at, if_pattern. cbn [match_here].
    rewrite !append_assoc. rewrite strip_prefix_append, append_nil_l.
    apply repeat_class_takes_run; [done| | |].
    { rewrite append_cons. exact Hc0. }
    { destruct spaces; [done|]. cbn [String.length]. lia. }
    cbn [match_here].
    apply repeat_class_takes_run; [done| | |].
    { reflexivity. }
    { cbn [String.length]. lia. }
    cbn [match_here]. rewrite strip_prefix_append.
    rewrite (substring_suffix ("{if" +:+ spaces) (String c0 crest)). cbn [app].
    eapply (lazy_until "{endif}").
    { apply (split_once_first "{" "endif}"); [reflexivity|exact Ha]. }
    { intros consumed' s' Hs'. cbn [match_here]. by rewrite Hs'. }
    cbn [match_here]. rewrite strip_prefix_append.
    rewrite (substring_suffix _ a). reflexivity.
  - reflexivity.
  - cbn [m_text]. by rewrite !append_assoc.
Qed.

(** A text without "{if" passes the two block passes unchanged. *)
Lemma render_template_no_block (text : string) (analysis : gmap string value) :
  contains "{if" text = false ->
  _render_template text analysis
  = do rendered <- _substitute_variables text analysis in Ok (strip rendered).
Proof.
  intros Ht. unfold _render_template.
  destruct (String.eqb_spec text EmptyString) as [->|_]; [done|].
  unfold _handle_conditional_blocks.
  rewrite (sub_needs "{if" if_else_pattern) by (done || by left). cbn [bind].
  by rewrite (sub_needs "{if" if_pattern) by (done || by left).
Qed.

Lemma block_not_empty (before block after : string) :
  (before +:+ ("{if" +:+ block) +:+ after =? "")%string = false.
Proof. by destruct before. Qed.

(** A block [{if c}A{else}B{endif}] is replaced by [A] when the condition
    [c], stripped, evaluates to true and by [B] when it evaluates to
    false: the if/else pass takes the text up to the first "{else}" for
    the one and the text up to the first "{endif}" after it for the other,
    and goes on behind the block. Where the template then holds no further
    "{if", it renders as if the chosen text had been written in place of
    the block. *)
Theorem if_else_block_renders_one_branch (analysis : gmap string value)
    (before spaces condition a b after : string) (holds : bool) :
  block_opening spaces condition ->
  contains "{if" before = false ->
  contains "{else}" a = false ->
  contains "{endif}" b = false ->
  _evaluate_condition (strip condition) analysis = Ok holds ->
  let block :=
    "{if" +:+ spaces +:+ condition +:+ "}" +:+ a +:+ "{else}" +:+ b +:+ "{endif}" in
  let chosen := if holds then a else b in
  sub if_else_pattern (replace_if_else analysis) (before +:+ block +:+ after)
  = (do rest <- sub if_else_pattern (replace_if_else analysis) after in
     Ok (before +:+ chosen +:+ rest))
  /\ (contains "{if" (before +:+ chosen +:+ after) = false ->
      _render_template (before +:+ block +:+ after) analysis
      = _render_template (before +:+ chosen +:+ after) analysis).
Proof.
  intros Hopen Hbefore Ha Hb Hholds block chosen.
  assert (sub if_else_pattern (replace_if_else analysis) (before +:+ block +:+ after)
          = do rest <- sub if_else_pattern (replace_if_else analysis) after in
            Ok (before +:+ chosen +:+ rest)) as Hpass.
  { rewrite sub_skip by by apply no_opening_before.
    destruct (if_else_match spaces condition a b after Hopen Ha Hb) as (m & Hm & Hg & Ht).
    rewrite (sub_at_match _ _ block after m); [|done|done|done].
    rewrite Hg. unfold replace_if_else. cbn [nth]. rewrite Hholds. cbn [bind].
    fold chosen. by destruct (sub if_else_pattern _ after). }
  split; [exact Hpass|]. intros Hno.
  rewrite (render_template_no_block _ _ Hno).
  unfold _render_template. unfold block at 1. rewrite (block_not_empty before _ after).
  unfold _handle_conditional_blocks. fold block. rewrite Hpass.
  rewrite (sub_needs "{if" if_else_pattern _ after);
    [|by left|by apply contains_append, contains_append in Hno].
  cbn [bind]. by rewrite (sub_needs "{if" if_pattern) by (done || by left).
Qed.

(** A block [{if c}A{endif}] in a template without "{else}" is replaced
    by [A] when the condition [c], stripped, evaluates to true and by
    nothing when it evaluates to false; [A] is the text up to the first
    "{endif}". Where the template then holds no further "{if", it renders
    as if the block's outcome had been written in its place. *)
Theorem if_block_renders_content_or_nothing (analysis : gmap string value)
    (before spaces condition a after : string) (holds : bool) :
  block_opening spaces condition ->
  contains "{if" before = false ->
  contains "{endif}" a = false ->
  _evaluate_condition (strip condition) analysis = Ok holds ->
  let block := "{if" +:+ spaces +:+ condition +:+ "}" +:+ a +:+ "{endif}" in
  let chosen := if holds then a else EmptyString in
  contains "{else}" (before +:+ block +:+ after) = false ->
  _handle_conditional_blocks (before +:+ block +:+ after) analysis
  = (do rest <- sub if_pattern (replace_if analysis) after in
     Ok (before +:+ chosen +:+ rest))
  /\ (contains "{if" (before +:+ chosen +:+ after) = false ->
      _render_template (before +:+ block +:+ after) analysis
      = _render_template (before +:+ chosen +:+ after) analysis).
Proof.
  intros Hopen Hbefore Ha Hholds block chosen Helse.
  assert (_handle_conditional_blocks (before +:+ block +:+ after) analysis
          = do rest <- sub if_pattern (replace_if analysis) after in
            Ok (before +:+ chosen +:+ rest)) as Hpass.
  { unfold _handle_conditional_blocks.
    rewrite (sub_needs "{else}" if_else_pattern) by (done || (do 9 right; by left)).
    cbn [bind]. rewrite sub_skip by by apply no_opening_before.
    destruct (if_match spaces condition a after Hopen Ha) as (m & Hm & Hg & Ht).
    rewrite (sub_at_match _ _ block after m); [|done|done|done].
    rewrite Hg. unfold replace_if. cbn [nth]. rewrite Hholds. cbn [bind].
    fold chosen. by destruct (sub if_pattern _ after). }
  split; [exact Hpass|]. intros Hno.
  rewrite (render_template_no_block _ _ Hno).
  unfold _render_template. unfold block at 1. rewrite (block_not_empty before _ after).
  fold block. rewrite Hpass.
  by rewrite (sub_needs "{if" if_pattern _ after);
    [|by left|by apply contains_append, contains_append in Hno].
Qed.

End block_facts.

Lemma if_else_block_renders_one_branch_witness :
  @TemplateRenderer._render_template Reference.runtime
    "Hint: {if similar_variables_exist}use {closest_variable}{else}check the spelling{endif}."
    Sample.one_similar
  = @TemplateRenderer._render_template Reference.runtime
      "Hint: use {closest_variable}." Sample.one_similar.
Proof.
  refine (proj2 (if_else_block_renders_one_branch (H := Reference.runtime)
                   Sample.one_similar "Hint: " " " "similar_variables_exist"
                   "use {closest_variable}" "check the spelling" "." true
                   _ _ _ _ _) _).
  - split; [discriminate|]. split; [reflexivity|]. split; [|reflexivity].
    eexists _, _. split; reflexivity.
  - reflexivity.
  - reflexivity.
  - reflexivity.
  - vm_compute. reflexivity.
  - reflexivity.
Defined.

Lemma if_block_renders_content_or_nothing_witness :
  @TemplateRenderer._render_template Reference.runtime
    "Import it.{if looks_like_import} It is a module.{endif}" Sample.one_similar
  = @TemplateRenderer._render_template Reference.runtime "Import it." Sample.one_similar.
Proof.
  refine (proj2 (if_block_renders_content_or_nothing (H := Reference.runtime)
                   Sample.one_similar "Import it." " " "looks_like_import"
                   " It is a module." "" false
                   _ _ _ _ _) _).
  - split; [discriminate|]. split; [reflexivity|]. split; [|reflexivity].
    eexists _, _. split; reflexivity.
  - reflexivity.
  - reflexivity.
  - vm_compute. reflexivity.
  - reflexivity.
  - reflexivity.
Defined.

(** ** Examples *)

Section example_facts.
Context `{PyRuntime}.
Import TemplateRenderer.

Lemma render_examples_shown (analysis : gmap string value)
    (examples : list ExplanationExample) :
  Forall (example_renders analysis) examples ->
  _render_examples examples analysis
  = Ok (map (render_example analysis) (filter (example_shown analysis) examples)).
Proof.
  induction examples as [|e examples IH]; [done|].
  intros [[[b Hb] Ht] Hrest]%Forall_cons. cbn [_render_examples].
  rewrite filter_cons, Hb. cbn [bind]. rewrite (IH Hrest).
  assert (example_included analysis e = b) as Hinc by (unfold example_included; by rewrite Hb).
  destruct b.
  - destruct (Ht Hinc) as [[d Hd] [c Hc]]. rewrite Hd, Hc. cbn [bind].
    assert (rendered_text analysis (ex_description e) = d) as Hd'
      by (unfold rendered_text; by rewrite Hd).
    assert (rendered_text analysis (ex_code e) = c) as Hc'
      by (unfold rendered_text; by rewrite Hc).
    destruct (String.eqb_spec d EmptyString) as [Hde|Hde]; cbn [negb andb].
    + rewrite decide_False; [done|]. intros (_ & Hne & _). by rewrite Hd' in Hne.
    + destruct (String.eqb_spec c EmptyString) as [Hce|Hce]; cbn [negb].
      * rewrite decide_False; [done|]. intros (_ & _ & Hne). by rewrite Hc' in Hne.
      * assert (example_shown analysis e) as Hshown.
        { unfold example_shown. split; [done|]. split; congruence. }
        rewrite decide_True by done.
        rewrite map_cons. f_equal. f_equal. unfold render_example. by rewrite Hd', Hc'.
  - rewrite decide_False; [done|]. intros (Hi & _). congruence.
Qed.

Lemma render_explanation_examples (entry : Explanation)
    (analysis : gmap string value) (rendered : Rendered) :
  render_explanation entry analysis = Ok rendered ->
  _render_examples (examples (explanation entry)) analysis
  = Ok (rendered_examples rendered).
Proof.
  unfold render_explanation.
  destruct (_render_template (title _) analysis); cbn [bind]; [|done].
  destruct (_render_template (description _) analysis); cbn [bind]; [|done].
  destruct (_render_suggestions _ analysis); cbn [bind]; [|done].
  destruct (_render_examples _ analysis); cbn [bind]; [|done].
  by intros [= <-].
Qed.

(** When nothing is raised, the rendered examples are those of the rule
    whose condition holds and whose description and code both render to a
    text that is not empty, each with its own id, in the order of the
    rule: examples are not sorted, and an example with one empty text is
    left out whole. *)
Theorem examples_filtered_in_rule_order (analysis : gmap string value)
    (items : list ExplanationExample) :
  Forall (example_renders analysis) items ->
  let kept := filter (example_shown analysis) items in
  _render_examples items analysis = Ok (map (render_example analysis) kept)
  /\ kept `sublist_of` items
  /\ (forall e, e ∈ kept <-> e ∈ items /\ example_shown analysis e)
  /\ (forall entry rendered,
        examples (explanation entry) = items ->
        render_explanation entry analysis = Ok rendered ->
        rendered_examples rendered = map (render_example analysis) kept
        /\ map rendered_id (rendered_examples rendered) = map ex_id kept).
Proof.
  intros Hr kept. pose proof (render_examples_shown _ _ Hr) as Hshown.
  split; [done|]. split; [apply sublist_filter|]. split.
  { intros e. unfold kept. rewrite list_elem_of_filter. tauto. }
  intros entry rendered <- Hrendered.
  apply render_explanation_examples in Hrendered.
  rewrite Hshown in Hrendered. injection Hrendered as <-.
  split; [done|]. by rewrite map_map.
Qed.

End example_facts.

Lemma examples_filtered_in_rule_order_witness :
  exists kept,
    @TemplateRenderer._render_examples Reference.runtime Sample.some_examples
      Sample.one_similar
    = Ok (map (@render_example Reference.runtime Sample.one_similar) kept)
    /\ map ex_id kept = ["fix_typo"].
Proof.
  destruct (examples_filtered_in_rule_order (H := Reference.runtime)
              Sample.one_similar Sample.some_examples) as (Hshown & _).
  - repeat constructor; try (eexists; vm_compute; reflexivity);
      intros _; split; eexists; vm_compute; reflexivity.
  - eexists. split; [exact Hshown|]. vm_compute. reflexivity.
Defined.

(** ** Tokens and their formats *)

Section substitution_facts.
Context `{PyRuntime}.
Import TemplateRenderer.

Lemma split_once_none (sep s : string) :
  contains sep s = false -> split_once sep s = None.
Proof. unfold contains. by destruct (split_once sep s). Qed.

Lemma split_once_colon (name format_spec : string) :
  contains ":" name = false ->
  split_once ":" (name +:+ ":" +:+ format_spec) = Some (name, format_spec).
Proof. intros Hname. by apply (split_once_first ":" ""). Qed.

(** [str] raises on an integer with more than 4300 digits, with
    ValueError, and on nothing else. *)
Lemma str_raises (v : value) (e : exn) :
  str v = Raise e ->
  e = ValueError
  /\ exists n, v = VInt n /\ (int_max_str_digits < String.length (str_of_int (Z.abs n)))%nat.
Proof.
  destruct v as [|[]|n|x|s|l]; cbn [str]; try done.
  unfold str_int.
  destruct (Nat.ltb_spec int_max_str_digits (String.length (str_of_int (Z.abs n))))
    as [Hlen|_]; [|done].
  intros [= <-]. split; [done|]. by exists n.
Qed.

Lemma str_returns (v : value) :
  (forall n, v = VInt n -> (String.length (str_of_int (Z.abs n)) <= int_max_str_digits)%nat) ->
  exists text, str v = Ok text.
Proof.
  intros Hv. destruct (str v) as [text|e] eqn:Hstr; [by exists text|].
  destruct (str_raises _ _ Hstr) as (_ & n & -> & Hlen).
  specialize (Hv n eq_refl). lia.
Qed.

(** A token [{name}] without a format is replaced by [str] of the fact,
    wherever it stands behind a text without opening brace, and the
    substitution goes on behind the token: what was put in is not looked
    at again, so braces in a fact's value stay as they are. [str] returns
    for every fact but an integer of more than 4300 digits, on which its
    ValueError leaves the substitution. *)
Theorem fact_is_substituted_once (analysis : gmap string value)
    (before name after : string) (v : value) :
  every (not_char "{") before = true ->
  name <> EmptyString ->
  every (not_char "}") name = true ->
  contains ":" name = false ->
  analysis !! name = Some v ->
  replace_var analysis [name] = str v
  /\ _substitute_variables (before +:+ "{" +:+ name +:+ "}" +:+ after) analysis
     = (do text <- str v in
        do rest <- _substitute_variables after analysis in
        Ok (before +:+ text +:+ rest))
  /\ (contains "{if" (before +:+ "{" +:+ name +:+ "}" +:+ after) = false ->
      _render_template (before +:+ "{" +:+ name +:+ "}" +:+ after) analysis
      = (do text <- str v in
         do rest <- _substitute_variables after analysis in
         Ok (strip (before +:+ text +:+ rest))))
  /\ ((forall n, v = VInt n -> (String.length (str_of_int (Z.abs n)) <= int_max_str_digits)%nat) ->
      exists text, str v = Ok text)
  /\ (forall e, str v = Raise e ->
        e = ValueError
        /\ exists n, v = VInt n /\ (int_max_str_digits < String.length (str_of_int (Z.abs n)))%nat).
Proof.
  intros Hbefore Hne Hname Hcolon Hv.
  assert (replace_var analysis [name] = str v) as Hvar.
  { unfold replace_var. cbn [nth]. rewrite (split_once_none _ _ Hcolon).
    unfold dict_get. by rewrite Hv. }
  assert (forall after,
            _substitute_variables (before +:+ "{" +:+ name +:+ "}" +:+ after) analysis
            = do text <- str v in
              do rest <- _substitute_variables after analysis in
              Ok (before +:+ text +:+ rest)) as Hsub.
  { intros after'. unfold _substitute_variables.
    rewrite (sub_variables_text _ _ _ Hbefore), (sub_variables_token _ _ _ Hne Hname).
    rewrite Hvar. destruct (str v); cbn [bind]; [|done].
    by destruct (sub variable_pattern (replace_var analysis) after'). }
  split; [done|]. split; [apply Hsub|]. split.
  { intros Hno. rewrite (render_template_no_block _ _ Hno), Hsub.
    destruct (str v); cbn [bind]; [|done].
    by destruct (_substitute_variables after analysis). }
  split; [apply str_returns|apply str_raises].
Qed.

Lemma float_of_value_raises (v : value) (e : exn) :
  float_of_value v = Raise e ->
  (e = OverflowError /\ exists n, v = VInt n /\ float_of_int n = None)
  \/ e = ValueError \/ e = TypeError.
Proof.
  destruct v as [|b|n|x|s|l]; cbn [float_of_value]; try (intros [= <-]; auto); try done.
  - destruct (float_of_int n) eqn:Hn; [done|]. intros [= <-]. left. split; [done|]. by exists n.
  - destruct (py_float_of_str s); [done|]. intros [= <-]. auto.
Qed.

Lemma decimal_format_parts (inner : string) :
  let format_spec := "." +:+ inner +:+ "f" in
  startswith format_spec "." = true
  /\ endswith format_spec "f" = true
  /\ String.substring 1 (String.length format_spec - 2) format_spec = inner.
Proof.
  intros format_spec. unfold format_spec. split; [done|]. split.
  - unfold endswith. change ("." +:+ inner +:+ "f") with (String "." (inner +:+ "f")).
    rewrite rev_cons, string_rev_append. reflexivity.
  - change ("." +:+ inner +:+ "f") with (String "." (inner +:+ "f")).
    cbn [String.length String.substring]. rewrite length_append. cbn [String.length].
    replace (S (String.length inner + 1) - 2)%nat with (String.length inner) by lia.
    induction inner as [|c inner IH]; [done|]. rewrite append_cons.
    cbn [String.length String.substring]. by rewrite IH.
Qed.

(** A token [{name:format}] is replaced by the formatted number only
    where the format is ".0%" or runs from "." to "f" and [float] reads the
    value; any other format is ignored and [str] of the value is what the
    replacement comes to, and so it is where [float] fails with ValueError
    or TypeError (a text that is no number, None, a list). Two exceptions
    leave the replacement: the OverflowError of [float] on an integer fact
    too large for a float, under one of the two formats, and the
    ValueError of [str] on an integer fact of more than 4300 digits. *)
Theorem format_is_applied_to_numbers_only (analysis : gmap string value)
    (name format_spec : string) :
  contains ":" name = false ->
  let token := name +:+ ":" +:+ format_spec in
  let value := token_value analysis name in
  (numeric_format format_spec = false -> replace_var analysis [token] = str value)
  /\ (forall e, float_of_value value = Raise e -> e <> OverflowError ->
        replace_var analysis [token] = str value)
  /\ (forall x formatted,
        format_spec = ".0%" ->
        float_of_value value = Ok x ->
        py_format_float x ".0%" = Some formatted ->
        replace_var analysis [token] = Ok formatted)
  /\ (forall inner decimals precision x formatted,
        format_spec = "." +:+ inner +:+ "f" ->
        int_of_str inner = Some decimals ->
        str_int decimals = Ok precision ->
        float_of_value value = Ok x ->
        py_format_float x ("." +:+ precision +:+ "f") = Some formatted ->
        replace_var analysis [token] = Ok formatted)
  /\ (forall e, replace_var analysis [token] = Raise e ->
        (e = OverflowError
         /\ numeric_format format_spec = true
         /\ exists n, value = VInt n /\ float_of_int n = None)
        \/ (e = ValueError
            /\ exists n, value = VInt n
                 /\ (int_max_str_digits < String.length (str_of_int (Z.abs n)))%nat)).
Proof.
  intros Hname token value.
  assert (replace_var analysis [token]
          = except_value_type
              (if String.eqb format_spec ".0%" then
                 do x <- float_of_value value in format_float x ".0%"
               else if startswith format_spec "." && endswith format_spec "f" then
                 let inner :=
                   String.substring 1 (String.length format_spec - 2) format_spec in
                 do decimals <- match int_of_str inner with
                                | Some n => Ok n
                                | None => Raise ValueError
                                end in
                 do x <- float_of_value value in
                 do precision <- str_int decimals in
                 format_float x ("." +:+ precision +:+ "f")
               else str value)
              (str value)) as ->.
  { unfold replace_var, token. cbn [nth]. by rewrite (split_once_colon _ _ Hname). }
  unfold numeric_format. split; [|split; [|split; [|split]]].
  - intros Hnum. apply orb_false_iff in Hnum as [-> ->].
    destruct (str value) as [t|e] eqn:Hstr; [done|].
    by destruct (str_raises _ _ Hstr) as [-> _].
  - intros e He Hne.
    assert (e = ValueError \/ e = TypeError) as Hcases.
    { destruct (float_of_value_raises _ _ He) as [[-> _]|[->| ->]]; [done|by left|by right]. }
    destruct (String.eqb format_spec ".0%").
    { rewrite He. cbn [bind]. by destruct Hcases as [-> | ->]. }
    destruct (startswith format_spec "." && endswith format_spec "f").
    + cbv zeta. destruct (int_of_str _); cbn [bind]; [|done].
      rewrite He. cbn [bind]. by destruct Hcases as [-> | ->].
    + destruct (str value) as [t|e'] eqn:Hstr; [done|].
      by destruct (str_raises _ _ Hstr) as [-> _].
  - intros x formatted -> Hx Hf. rewrite Hx. cbn [String.eqb Ascii.eqb Bool.eqb bind].
    unfold format_float. by rewrite Hf.
  - intros inner decimals precision x formatted -> Hd Hp Hx Hf.
    destruct (decimal_format_parts inner) as (-> & -> & ->).
    destruct (String.eqb_spec ("." +:+ inner +:+ "f") ".0%") as [Heq|_].
    { destruct inner as [|? [|? [|? ?]]]; discriminate Heq. }
    cbn [andb]. cbv zeta. rewrite Hd, Hx. cbn [bind]. rewrite Hp. cbn [bind].
    unfold format_float. by rewrite Hf.
  - intros e.
    assert (str value = Raise e ->
            (e = OverflowError
             /\ (String.eqb format_spec ".0%"
                 || startswith format_spec "." && endswith format_spec "f") = true
             /\ exists n, value = VInt n /\ float_of_int n = None)
            \/ (e = ValueError
                /\ exists n, value = VInt n
                     /\ (int_max_str_digits < String.length (str_of_int (Z.abs n)))%nat)) as Hhandler.
    { intros Hstr. right. by apply str_raises. }
    unfold format_float.
    destruct (String.eqb format_spec ".0%") eqn:Hpct; cbn [orb].
    + destruct (float_of_value value) as [x|e'] eqn:Hx; cbn [bind].
      * destruct (py_format_float x ".0%"); [done|]. exact Hhandler.
      * destruct (float_of_value_raises _ _ Hx) as [[-> Hn]|[->| ->]];
          [|exact Hhandler|exact Hhandler].
        cbn [except_value_type]. intros [= <-]. by left.
    + destruct (startswith format_spec "." && endswith format_spec "f").
      * cbv zeta. destruct (int_of_str _) as [decimals|]; cbn [bind]; [|exact Hhandler].
        destruct (float_of_value value) as [x|e'] eqn:Hx; cbn [bind].
        -- unfold str_int. destruct (Nat.ltb _ _); cbn [bind]; [exact Hhandler|].
           destruct (py_format_float x _); [done|]. exact Hhandler.
        -- destruct (float_of_value_raises _ _ Hx) as [[-> Hn]|[->| ->]];
             [|exact Hhandler|exact Hhandler].
           cbn [except_value_type]. intros [= <-]. by left.
      * destruct (str value) as [t|e'] eqn:Hstr; [done|].
        destruct (str_raises _ _ Hstr) as [-> Hn]. cbn [except_value_type].
        intros [= <-]. by right.
Qed.

End substitution_facts.

Lemma fact_is_substituted_once_witness :
  @TemplateRenderer._render_template Reference.runtime
    "Did you mean '{closest_variable}'?" Sample.one_similar
  = Ok "Did you mean 'lst2'?".
Proof.
  destruct (fact_is_substituted_once (H := Reference.runtime) Sample.one_similar
              "Did you mean '" "closest_variable" "'?" (VStr "lst2"))
    as (_ & _ & Hrender & _).
  - reflexivity.
  - discriminate.
  - reflexivity.
  - reflexivity.
  - vm_compute. reflexivity.
  - exact (Hrender eq_refl).
Defined.

Lemma format_is_applied_to_numbers_only_witness :
  @TemplateRenderer.replace_var Reference.runtime Sample.one_similar ["similarity_score:.0%"]
  = Ok "86%"
  /\ @TemplateRenderer.replace_var Reference.runtime Sample.one_similar ["variable_name:.0%"]
     = Ok "lst".
Proof.
  split.
  - destruct (format_is_applied_to_numbers_only (H := Reference.runtime) Sample.one_similar
                "similarity_score" ".0%" eq_refl) as (_ & _ & Hpercent & _).
    eapply Hpercent; [reflexivity|vm_compute; reflexivity|vm_compute; reflexivity].
  - destruct (format_is_applied_to_numbers_only (H := Reference.runtime) Sample.one_similar
                "variable_name" ".0%" eq_refl) as (_ & Hraises & _).
    eapply (Hraises ValueError); [vm_compute; reflexivity|discriminate].
Defined.

(** ** The rules of the matcher and the engine *)

Section matcher_accessors.
Context `{PyRuntime}.
Import ContextAnalyzer PatternMatcher.

Lemma explanations_for_type_filter (loaded : list (Explanation * ExplanationPack))
    (type_name : string) :
  get_explanations_for_exception_type loaded type_name
  = map fst (filter (fun x => exception_type (conditions x.1) = type_name) loaded).
Proof.
  induction loaded as [|[entry pack] loaded IH]; [done|].
  cbn [get_explanations_for_exception_type]. rewrite filter_cons. cbn [fst].
  destruct (String.eqb_spec (exception_type (conditions entry)) type_name).
  - rewrite decide_True by done. cbn [map fst]. by rewrite IH.
  - by rewrite decide_False by done.
Qed.

Lemma all_matching_entries (loaded : list (Explanation * ExplanationPack))
    (type_name message : string) (facts : gmap string value) matches :
  all_matching loaded type_name message facts = Ok matches ->
  map (fun x => x.1.1) matches `sublist_of` get_explanations_for_exception_type loaded type_name.
Proof.
  revert matches. induction loaded as [|[entry pack] loaded IH]; intros matches.
  - by intros [= <-].
  - cbn [all_matching get_explanations_for_exception_type].
    destruct (_matches_explanation entry type_name message facts) as [matched|] eqn:Hm;
      cbn [bind]; [|done].
    destruct (all_matching loaded type_name message facts) as [rest|]; cbn [bind]; [|done].
    intros [= <-]. specialize (IH rest eq_refl).
    unfold _matches_explanation in Hm.
    destruct (String.eqb_spec (exception_type (conditions entry)) type_name) as [_|_];
      cbn [negb] in Hm.
    + destruct matched; [by apply sublist_skip|by apply sublist_cons].
    + injection Hm as <-. done.
Qed.

Lemma length_flat_map {A B} (f : A -> list B) (l : list A) :
  length (flat_map f l) = sum_list (map (fun x => length (f x)) l).
Proof. induction l as [|x l IH]; [done|]. cbn. by rewrite length_app, IH. Qed.

(** [get_explanations_for_exception_type] gives the loaded rules whose
    exception type is the given one, in the order of the list, which after
    [load_explanations] is by descending priority; every rule that
    [find_all_matching_explanations] or [find_best_explanation] returns
    for an exception is among those of the exception's type, in the same
    order. Where [analyze] returns a FactSet, the two searches return for
    a type without rules, with nothing found, and they return where
    [re.search] raises nothing but [re.error] on the patterns of the loaded
    rules, [find_best_explanation] with the first of what
    [find_all_matching_explanations] finds. The count of loaded rules is
    the sum over the packs. *)
Theorem rules_of_an_exception_type (packs : list ExplanationPack)
    (exception : PyException) (context : Context) :
  let loaded := load_explanations packs in
  let rules := get_explanations_for_exception_type loaded (exc_type_name exception) in
  (forall entry, entry ∈ rules <->
     exception_type (conditions entry) = exc_type_name exception
     /\ exists pack, pack ∈ packs /\ entry ∈ explanations pack)
  /\ StronglySorted (fun a b => exp_priority b <= exp_priority a) rules
  /\ (forall matches,
        find_all_matching_explanations loaded exception context = Ok matches ->
        map (fun x => x.1.1) matches `sublist_of` rules)
  /\ (forall entry pack facts,
        find_best_explanation loaded exception context = Ok (Some (entry, pack, facts)) ->
        entry ∈ rules)
  /\ (forall facts,
        analyze exception context = Ok facts ->
        all_searchable loaded (exc_str exception) = true ->
        exists matches,
          find_all_matching_explanations loaded exception context = Ok matches
          /\ find_best_explanation loaded exception context = Ok (head matches))
  /\ (forall facts,
        analyze exception context = Ok facts -> rules = [] ->
        find_all_matching_explanations loaded exception context = Ok []
        /\ find_best_explanation loaded exception context = Ok None)
  /\ get_loaded_explanation_count loaded
     = sum_list (map (fun pack => length (explanations pack)) packs).
Proof.
  intros loaded rules.
  assert (rules = map fst (filter (fun x => exception_type (conditions x.1)
                                            = exc_type_name exception) loaded)) as Hrules
    by apply explanations_for_type_filter.
  split; [|split; [|split; [|split; [|split; [|split]]]]].
  - intros entry. rewrite Hrules, list_elem_of_fmap. split.
    + intros ([e p] & -> & [Hty Hin]%list_elem_of_filter). cbn [fst] in *.
      split; [done|]. unfold loaded, load_explanations in Hin.
      rewrite sort_by_perm in Hin. apply list_elem_of_In, in_flat_map in Hin.
      destruct Hin as (pack & Hpack & Hin). apply in_map_iff in Hin.
      destruct Hin as (e' & [= <- <-] & He). exists pack.
      split; by apply list_elem_of_In.
    + intros (Hty & pack & Hpack & Hin). exists (entry, pack). split; [done|].
      apply list_elem_of_filter. split; [done|].
      unfold loaded, load_explanations. rewrite sort_by_perm.
      apply list_elem_of_In, in_flat_map. exists pack.
      split; [by apply list_elem_of_In|]. apply in_map_iff. exists entry.
      split; [done|by apply list_elem_of_In].
  - rewrite Hrules.
    assert (StronglySorted (fun x y : Explanation * ExplanationPack =>
                              exp_priority y.1 <= exp_priority x.1) loaded) as Hsorted.
    { exact (sort_by_ordered (fun x => exp_priority x.1) true _). }
    generalize Hsorted. generalize loaded. clear.
    induction 1 as [|x l Hl IH Hall]; [constructor|].
    rewrite filter_cons. case_decide; [|exact IH]. cbn [map]. constructor; [exact IH|].
    apply Forall_forall. intros y Hy. apply list_elem_of_fmap in Hy.
    destruct Hy as (z & -> & [_ Hz]%list_elem_of_filter).
    rewrite Forall_forall in Hall. by apply Hall.
  - intros matches. unfold find_all_matching_explanations.
    destruct (analyze exception context) as [facts|]; cbn [bind]; [|done].
    apply all_matching_entries.
  - intros entry pack facts. unfold find_best_explanation.
    destruct (analyze exception context) as [facts'|]; cbn [bind]; [|done].
    intros (Hin & Hty & _)%first_matching_type.
    rewrite Hrules. apply list_elem_of_fmap. exists (entry, pack). split; [done|].
    by apply list_elem_of_filter.
  - intros facts Hfacts Hsearch.
    destruct (analyze_facts _ _ _ Hfacts) as [_ Htyped].
    set (passes := fun entry =>
           match _matches_explanation entry (exc_type_name exception)
                   (exc_str exception) facts with
           | Ok matched => matched
           | Raise _ => false
           end).
    assert (forall x, x ∈ loaded ->
               _matches_explanation x.1 (exc_type_name exception) (exc_str exception) facts
               = Ok (passes x.1)) as Hpasses.
    { intros x Hx. unfold passes.
      by destruct (matches_explanation_spec x.1 exception facts Htyped
                     (all_searchable_elem _ _ _ Hsearch Hx)) as (m & -> & _). }
    eexists. unfold find_all_matching_explanations, find_best_explanation.
    rewrite Hfacts. cbn [bind].
    rewrite (all_matching_filter _ _ _ _ _ Hpasses), (first_matching_head _ _ _ _ _ Hpasses).
    done.
  - intros facts Hfacts Hnone.
    unfold find_all_matching_explanations, find_best_explanation.
    rewrite Hfacts. cbn [bind].
    fold rules in Hrules. rewrite Hnone in Hrules. clear Hfacts. revert Hrules.
    generalize loaded. clear. intros loaded.
    induction loaded as [|[entry pack] loaded IH]; [done|].
    rewrite filter_cons. cbn [first_matching all_matching fst]. case_decide as Hty; [done|].
    intros Hl. unfold _matches_explanation.
    apply String.eqb_neq in Hty. rewrite Hty. cbn [negb bind].
    destruct (IH Hl) as [-> ->]. done.
  - unfold get_loaded_explanation_count, loaded, load_explanations.
    rewrite sort_by_perm, length_flat_map. f_equal. apply map_ext. intros pack.
    apply length_map.
Qed.

End matcher_accessors.

Section engine_lifecycle.
Context `{PyRuntime}.
Import ContextAnalyzer PatternMatcher TemplateRenderer Engine.

(** Without a rule nothing is explained, also where [analyze] raises. *)
Lemma explain_body_no_rule (self : EngineState) (exception : PyException)
    (context : Context) :
  loaded_explanations self = [] ->
  try_except (explain_body self exception context) (fun _ => Ok None) = Ok None.
Proof.
  intros Hnone. unfold explain_body, find_best_explanation. rewrite Hnone.
  by destruct (analyze exception context).
Qed.

(** When the loader finds no core pack, the engine does not initialize:
    the packages directory is not looked at, a fresh engine explains
    nothing and stays as it was, so that every later call tries again. An
    engine that is not initialized but holds rules keeps them, and
    [explain] returns on it. *)
Theorem no_core_pack_no_initialization (env : Collaborators) (self : EngineState)
    (exception : PyException) (context : Context) :
  load_core_packs env = Ok [] ->
  _initialized self = false ->
  initialize env self = Ok self
  /\ (exists answer, explain env self exception context = Ok (self, answer))
  /\ explain env new_engine exception context = Ok (new_engine, None).
Proof.
  intros Hcore Hinit.
  assert (forall s, _initialized s = false -> initialize env s = Ok s) as Hsame.
  { intros s Hs. unfold initialize. by rewrite Hs, Hcore. }
  split; [by apply Hsame|]. split.
  - unfold explain. rewrite Hinit, (Hsame self Hinit). cbn [bind].
    destruct (explain_body self exception context); cbn [try_except bind]; by eexists.
  - unfold explain. cbn [new_engine _initialized]. rewrite (Hsame new_engine eq_refl).
    cbn [bind]. by rewrite explain_body_no_rule.
Qed.

(** The first call of [explain] on an engine that is not initialized,
    with a core pack found and the packages directory in place, leaves the
    engine initialized with the rules of the core packs followed by those
    of the user's packs, sorted, in place of whatever rules it held. From
    then on [explain] does not go back to the loader: the same exception
    gets the same answer whatever the loader would find. *)
Theorem first_explain_loads_the_packs (env : Collaborators) (self : EngineState)
    (exception : PyException) (context : Context)
    (core user : list ExplanationPack) :
  _initialized self = false ->
  load_core_packs env = Ok core ->
  core <> [] ->
  packages_dir_exists env = Ok true ->
  load_packs_from_directory env = Ok user ->
  exists answer,
    explain env self exception context = Ok (initialized_with (core ++ user), answer)
    /\ forall env',
         explain env' (initialized_with (core ++ user)) exception context
         = Ok (initialized_with (core ++ user), answer).
Proof.
  intros Hinit Hcore Hne Hdir Huser.
  assert (initialize env self = Ok (initialized_with (core ++ user))) as Hini.
  { unfold initialize. rewrite Hinit, Hcore. cbn [bind].
    destruct core as [|pack core]; [done|]. rewrite Hdir. cbn [bind]. by rewrite Huser. }
  unfold explain. rewrite Hinit, Hini. cbn [bind initialized_with _initialized].
  fold (initialized_with (core ++ user)).
  destruct (explain_body (initialized_with (core ++ user)) exception context) as [answer|e];
    cbn [try_except bind]; eexists; (split; [reflexivity|]); intros env'; reflexivity.
Qed.

(** An explanation that [explain] returns is the rendering of a loaded
    rule whose exception type is that of the exception, and its metadata
    name the rule and the pack it came from: the rule's id and priority,
    the pack's name, version and author, and nothing else. *)
Theorem explanation_names_its_rule_and_pack (env : Collaborators) (self self' : EngineState)
    (exception : PyException) (context : Context) (rendered : Rendered) :
  explain env self exception context = Ok (self', Some rendered) ->
  exists entry pack facts shown,
    (entry, pack) ∈ loaded_explanations self'
    /\ exception_type (conditions entry) = exc_type_name exception
    /\ analyze exception context = Ok facts
    /\ render_explanation entry facts = Ok shown
    /\ rendered_title rendered = rendered_title shown
    /\ rendered_explanation rendered = rendered_explanation shown
    /\ rendered_suggestions rendered = rendered_suggestions shown
    /\ rendered_examples rendered = rendered_examples shown
    /\ rendered_metadata rendered
       = list_to_map [("pack_author", VStr (meta_author (metadata pack)));
                      ("pack_version", VStr (meta_version (metadata pack)));
                      ("pack_name", VStr (meta_name (metadata pack)));
                      ("priority", VInt (exp_priority entry));
                      ("explanation_id", VStr (exp_id entry))].
Proof.
  unfold explain.
  destruct (if _initialized self then Ok self else initialize env self) as [s|]; cbn [bind];
    [|done].
  destruct (explain_body s exception context) as [answer|] eqn:Hbody; cbn [try_except bind];
    [|done].
  intros [= <- ->]. unfold explain_body in Hbody.
  destruct (find_best_explanation _ exception context) as [[[[entry pack] facts]|]|] eqn:Hfind;
    cbn [bind] in Hbody; [|done|done].
  destruct (render_explanation entry facts) as [shown|] eqn:Hshown; cbn [bind] in Hbody;
    [|done].
  injection Hbody as <-. exists entry, pack, facts, shown.
  unfold find_best_explanation in Hfind.
  destruct (analyze exception context) as [facts'|] eqn:Hfacts; cbn [bind] in Hfind; [|done].
  pose proof Hfind as Hfind'. apply first_matching_type in Hfind as (Hin & Hty & _).
  assert (facts = facts') as ->.
  { clear -Hfind'. revert Hfind'. generalize (loaded_explanations s).
    induction l as [|[e p] l IH]; cbn [first_matching]; [done|].
    destruct (_matches_explanation _ _ _ _) as [[]|]; cbn [bind]; [|done|done].
    by intros [= _ _ ->]. }
  do 4 (split; [done|]). cbn. do 4 (split; [done|]).
  unfold render_explanation in Hshown.
  destruct (_render_template (title _) facts'); cbn [bind] in Hshown; [|done].
  destruct (_render_template (description _) facts'); cbn [bind] in Hshown; [|done].
  destruct (_render_suggestions _ facts'); cbn [bind] in Hshown; [|done].
  destruct (_render_examples _ facts'); cbn [bind] in Hshown; [|done].
  injection Hshown as <-. reflexivity.
Qed.

(** [reload_packs] forgets the rules the engine held before it
    initializes again: whether the initialization returns or raises, the
    engine is afterwards either initialized with the packs just loaded, or
    not initialized and without any rule, and in the latter state
    explains nothing as long as no core pack is found. *)
Theorem reload_forgets_the_rules (env : Collaborators) (self : EngineState) :
  let after := (reload_packs env self).1 in
  (_initialized after = true ->
     exists core user,
       load_core_packs env = Ok core /\ load_packs_from_directory env = Ok user
       /\ after = initialized_with (core ++ user)
       /\ (reload_packs env self).2 = Ok tt)
  /\ (_initialized after = false ->
      after = new_engine
      /\ forall env' exception context,
           load_core_packs env' = Ok [] ->
           explain env' after exception context = Ok (after, None))
  /\ (forall e, initialize env new_engine = Raise e ->
        reload_packs env self = (new_engine, Raise e)).
Proof.
  intros after. unfold after, reload_packs. fold new_engine.
  split; [|split].
  - unfold initialize. cbn [new_engine _initialized].
    destruct (load_core_packs env) as [[|pack core]|]; cbn [bind fst snd]; try done.
    destruct (packages_dir_exists env) as [[]|]; cbn [bind fst snd]; try done.
    destruct (load_packs_from_directory env) as [user|]; cbn [bind fst snd]; try done.
    intros _. by exists (pack :: core), user.
  - assert (forall env' exception context,
              load_core_packs env' = Ok [] ->
              explain env' new_engine exception context = Ok (new_engine, None)) as Hnone.
    { intros env' exception context Hcore. unfold explain. cbn [new_engine _initialized].
      assert (initialize env' new_engine = Ok new_engine) as ->.
      { unfold initialize. cbn [new_engine _initialized]. by rewrite Hcore. }
      cbn [bind]. by rewrite explain_body_no_rule. }
    unfold initialize. cbn [new_engine _initialized]. fold new_engine.
    destruct (load_core_packs env) as [[|pack core]|]; cbn [bind fst snd]; try done.
    destruct (packages_dir_exists env) as [[]|]; cbn [bind fst snd]; try done.
    destruct (load_packs_from_directory env) as [user|]; cbn [bind fst snd]; done.
  - by intros e ->.
Qed.

End engine_lifecycle.

Lemma no_core_pack_no_initialization_witness :
  @Engine.explain Reference.runtime Sample.no_core_pack Engine.new_engine
    Sample.name_error Sample.context
  = Ok (Engine.new_engine, None).
Proof.
  exact (proj2 (proj2 (no_core_pack_no_initialization (H := Reference.runtime)
                         Sample.no_core_pack Engine.new_engine
                         Sample.name_error Sample.context eq_refl eq_refl))).
Defined.

Lemma first_explain_loads_the_packs_witness :
  exists answer,
    @Engine.explain Reference.runtime Sample.healthy Engine.new_engine
      Sample.name_error Sample.context
    = Ok (initialized_with [Sample.core_pack], answer)
    /\ @Engine.explain Reference.runtime Sample.no_core_pack
         (initialized_with [Sample.core_pack]) Sample.name_error Sample.context
       = Ok (initialized_with [Sample.core_pack], answer).
Proof.
  destruct (first_explain_loads_the_packs (H := Reference.runtime) Sample.healthy
              Engine.new_engine Sample.name_error Sample.context [Sample.core_pack] [])
    as (answer & Hfirst & Hlater).
  - reflexivity.
  - reflexivity.
  - discriminate.
  - reflexivity.
  - reflexivity.
  - exists answer. split; [exact Hfirst|]. exact (Hlater Sample.no_core_pack).
Defined.

Lemma explanation_names_its_rule_and_pack_witness :
  exists self' rendered,
    @Engine.explain Reference.runtime Sample.healthy Engine.new_engine
      Sample.name_error Sample.context
    = Ok (self', Some rendered)
    /\ exists entry pack,
         (entry, pack) ∈ Engine.loaded_explanations self'
         /\ TemplateRenderer.rendered_metadata rendered !! "explanation_id"
            = Some (VStr (exp_id entry))
         /\ TemplateRenderer.rendered_metadata rendered !! "pack_name"
            = Some (VStr (meta_name (metadata pack))).
Proof.
  destruct (@Engine.explain Reference.runtime Sample.healthy Engine.new_engine
              Sample.name_error Sample.context) as [[self' [rendered|]]|e] eqn:He.
  - exists self', rendered. split; [reflexivity|].
    destruct (explanation_names_its_rule_and_pack (H := Reference.runtime) _ _ _ _ _ _ He)
      as (entry & pack & facts & shown & Hin & _ & _ & _ & _ & _ & _ & _ & Hmeta).
    exists entry, pack. split; [exact Hin|]. rewrite Hmeta. split; reflexivity.
  - apply (f_equal Sample.explained) in He. vm_compute in He. discriminate He.
  - apply (f_equal Sample.explained) in He. vm_compute in He. discriminate He.
Defined.

(** ** The exception hook *)

Section interceptor_facts.
Import Interceptor.

Lemma hooks_in_order_call (original : string) (w : Hooks) (call : hook_call) :
  hooks_in_order original w -> hooks_in_order original (run_call w call).
Proof.
  destruct w as [h [o a x]]. unfold hooks_in_order, is_active. cbn.
  intros (Hh & Ho & Hx). destruct call as [explanation_handler|]; cbn.
  - unfold activate. cbn. destruct a; cbn; [done|]. by rewrite Hh.
  - unfold deactivate. cbn. destruct a; cbn; [|done]. by rewrite (Ho eq_refl).
Qed.

Lemma hooks_in_order_calls (original : string) (calls : list hook_call) :
  hooks_in_order original (foldl run_call (hooks_at_import original) calls).
Proof.
  induction calls as [|call calls IH] using rev_ind; [done|].
  rewrite foldl_app. cbn [foldl]. by apply hooks_in_order_call.
Qed.

(** Through any sequence of calls of [activate] and [deactivate], with
    nothing else writing [sys.excepthook], the interceptor's hook is
    installed exactly while the interceptor is active and the hook found
    at import is back in place whenever it is not; while it is active the
    interceptor holds that hook as the original. From an inactive state
    [activate] installs the handler it is given and a second [activate]
    changes nothing, its handler is dropped; [deactivate] then restores
    the hook and forgets the handler, and [deactivate] on an inactive
    interceptor does nothing. *)
Theorem activation_keeps_the_original_hook (original : string) (calls : list hook_call) :
  let w := foldl run_call (hooks_at_import original) calls in
  sys_excepthook w = (if is_active w then Custom else Foreign original)
  /\ (is_active w = true -> _original_excepthook (interceptor w) = Some (Foreign original))
  /\ (is_active w = false ->
      _explanation_handler (interceptor w) = None
      /\ deactivate w = w
      /\ forall first second,
           activate (activate w first) second = activate w first
           /\ _explanation_handler (interceptor (activate w first)) = first
           /\ sys_excepthook (activate w first) = Custom
           /\ sys_excepthook (deactivate (activate w first)) = Foreign original
           /\ is_active (deactivate (activate w first)) = false).
Proof.
  intros w. destruct (hooks_in_order_calls original calls) as (Hh & Ho & Hx).
  fold w in Hh, Ho, Hx. split; [done|]. split; [done|].
  intros Hact. split; [by apply Hx|].
  destruct w as [h [o a x]]. unfold is_active in *. cbn in *. subst a.
  split; [done|]. intros first second. unfold activate, deactivate. cbn. by rewrite Hh.
Qed.

End interceptor_facts.

Section file_context_facts.
Import Interceptor.

Lemma file_context_entries (files : Files) (filename : string) (line_number : Z)
    (lines : list string) (entry : LineInfo) :
  files filename = Some lines ->
  entry ∈ fci_lines (_get_file_context files filename line_number) ->
  1 <= number entry <= Z.of_nat (length lines)
  /\ line_number - 3 <= number entry <= line_number + 3
  /\ (exists line, lines !! Z.to_nat (number entry - 1) = Some line
                   /\ content entry = rstrip line)
  /\ (is_error_line entry = true <-> number entry = line_number).
Proof.
  intros Hfile. unfold _get_file_context. rewrite Hfile. cbn [fci_lines].
  rewrite list_elem_of_fmap. intros (i & -> & Hi). apply elem_of_seqZ in Hi.
  cbn [number content is_error_line].
  split; [lia|]. split; [lia|]. split; [|apply Z.eqb_eq].
  replace (i + 1 - 1) with i by lia.
  destruct (lookup_lt_is_Some_2 lines (Z.to_nat i)) as [line Hline]; [lia|].
  exists line. by rewrite Hline.
Qed.

(** [_get_file_context] shows at most seven lines, the error line and up
    to three on either side: each entry is a line of the file with its
    number counted from one and its text stripped on the right, the
    numbers rise one by one, and exactly the entry whose number is the
    error line is marked. The error line itself is shown whenever the file
    has it; an error line past the end of the file shows the file's last
    lines, none of them marked, and a file that cannot be read shows no
    line while the name and the line number are kept. *)
Theorem file_context_is_a_window (files : Files) (filename : string) (line_number : Z) :
  let shown := _get_file_context files filename line_number in
  fci_filename shown = filename
  /\ fci_error_line shown = line_number
  /\ (files filename = None -> fci_lines shown = [])
  /\ forall lines,
       files filename = Some lines ->
       (length (fci_lines shown) <= 7)%nat
       /\ (forall entry, entry ∈ fci_lines shown ->
             1 <= number entry <= Z.of_nat (length lines)
             /\ line_number - 3 <= number entry <= line_number + 3
             /\ (exists line, lines !! Z.to_nat (number entry - 1) = Some line
                              /\ content entry = rstrip line)
             /\ (is_error_line entry = true <-> number entry = line_number))
       /\ map number (fci_lines shown)
          = seqZ (Z.max 1 (line_number - 3)) (Z.of_nat (length (fci_lines shown)))
       /\ (1 <= line_number <= Z.of_nat (length lines) ->
           exists line,
             lines !! Z.to_nat (line_number - 1) = Some line
             /\ {| number := line_number; content := rstrip line; is_error_line := true |}
                ∈ fci_lines shown)
       /\ (Z.of_nat (length lines) < line_number ->
           Forall (fun entry => is_error_line entry = false) (fci_lines shown)).
Proof.
  intros shown. split; [|split; [|split]].
  - unfold shown, _get_file_context. by destruct (files filename).
  - unfold shown, _get_file_context. by destruct (files filename).
  - intros Hnone. unfold shown, _get_file_context. by rewrite Hnone.
  - intros lines Hfile.
    pose proof (fun entry => file_context_entries files filename line_number lines entry Hfile)
      as Hentries. fold shown in Hentries.
    assert (fci_lines shown
            = map (fun i => {| number := i + 1;
                               content := rstrip (default EmptyString (lines !! Z.to_nat i));
                               is_error_line := (i + 1 =? line_number) |})
                  (seqZ (Z.max 0 (line_number - 4))
                        (Z.min (Z.of_nat (length lines)) (line_number + 3)
                         - Z.max 0 (line_number - 4)))) as Hshown.
    { unfold shown, _get_file_context. by rewrite Hfile. }
    split; [|split; [|split; [|split]]].
    + rewrite Hshown, length_map, length_seqZ. lia.
    + exact Hentries.
    + rewrite Hshown, map_map, length_map, length_seqZ. cbn [number].
      set (start := Z.max 0 (line_number - 4)).
      set (len := Z.min (Z.of_nat (length lines)) (line_number + 3) - start).
      replace (Z.max 1 (line_number - 3)) with (start + 1) by lia.
      destruct (Z.le_gt_cases len 0) as [Hle|Hgt].
      * rewrite (seqZ_nil start len) by lia.
        by rewrite (seqZ_nil (start + 1)) by lia.
      * rewrite Z2Nat.id by lia.
        replace (start + 1) with (1 + start) by lia.
        rewrite <- (fmap_add_seqZ 1 start).
        apply map_ext. intros i. lia.
    + intros Hline.
      destruct (lookup_lt_is_Some_2 lines (Z.to_nat (line_number - 1))) as [line Hl]; [lia|].
      exists line. split; [done|]. rewrite Hshown.
      apply list_elem_of_fmap. exists (line_number - 1). split.
      * replace (line_number - 1 + 1) with line_number by lia.
        rewrite Hl. cbn [default]. by rewrite Z.eqb_refl.
      * apply elem_of_seqZ. lia.
    + intros Hpast. apply Forall_forall. intros entry Hentry.
      destruct (Hentries entry Hentry) as (Hn & _ & _ & Hmark).
      destruct (is_error_line entry); [|done]. destruct Hmark as [Hmark _].
      specialize (Hmark eq_refl). lia.
Qed.

End file_context_facts.

Section capture_facts.
Context `{PyRuntime}.
Import Interceptor ContextAnalyzer.

Lemma last_map {A B} (f : A -> B) (l : list A) : last (map f l) = f <$> last l.
Proof.
  induction l as [|x [|y l] IH]; [done|done|].
  change (last (map f (x :: y :: l))) with (last (map f (y :: l))).
  by rewrite IH.
Qed.

(** The context of an exception without traceback is empty. With a
    traceback, the local variables are those of the outermost frame, the
    one the traceback object itself stands for, or none when they cannot
    be read, while the file name, the line and the function are those of
    the innermost frame, the last entry: for an error raised inside a
    function the names that [available_variables] lists are not the
    function's own. The location facts of a FactSet that [analyze]
    returns follow, and [analyze] returns for an exception that is no
    ValueError. *)
Theorem context_has_outermost_locals (files : Files) (exc_value : PyException)
    (exc_traceback : Traceback) :
  let captured := _capture_context files exc_value exc_traceback in
  let context := context_of captured in
  captured_exception_type captured = exc_type_name exc_value
  /\ captured_exception_message captured = exc_str exc_value
  /\ map ti_function_name (captured_traceback_info captured)
     = map (fun entry => fs_name (tb_summary entry)) exc_traceback
  /\ (exc_traceback = [] ->
      captured_file_context captured = None
      /\ local_variables context = ∅
      /\ forall facts,
           analyze exc_value context = Ok facts ->
           facts !! "filename" = Some (VStr "interactive")
           /\ facts !! "line_number" = Some (VInt 0)
           /\ facts !! "function_name" = Some (VStr "module")
           /\ facts !! "available_variables" = Some (VList []))
  /\ (forall outermost inner innermost,
        exc_traceback = outermost :: inner ->
        last exc_traceback = Some innermost ->
        local_variables context
        = match tb_f_locals outermost with
          | Ok f_locals => f_locals
          | Raise _ => ∅
          end
        /\ captured_file_context captured
           = Some (_get_file_context files (fs_filename (tb_summary innermost))
                     (fs_lineno (tb_summary innermost)))
        /\ forall facts,
             analyze exc_value context = Ok facts ->
             exists names,
             facts !! "filename" = Some (VStr (fs_filename (tb_summary innermost)))
             /\ facts !! "line_number" = Some (VInt (fs_lineno (tb_summary innermost)))
             /\ facts !! "function_name" = Some (VStr (fs_name (tb_summary innermost)))
             /\ facts !! "available_variables" = Some (VList names)
             /\ forall f_locals name,
                  tb_f_locals outermost = Ok f_locals ->
                  (name ∈ names <->
                     is_Some (f_locals !! name)
                     /\ (forall rest, name <> String "_" rest)
                     /\ (2 <= String.length name)%nat))
  /\ (exc_is_ValueError exc_value = false ->
      exists facts, analyze exc_value context = Ok facts).
Proof.
  intros captured context. split; [done|]. split; [done|]. split.
  { unfold captured, _capture_context. cbn [captured_traceback_info].
    by rewrite !map_map. }
  split; [|split; [|apply analyze_returns]].
  - intros ->. split; [done|]. split; [done|]. intros facts Hfacts.
    destruct (analyze_lookups exc_value context facts Hfacts)
      as (_ & _ & _ & Hfile & Hline & Hfn & Havail & _).
    do 3 (split; [done|]).
    by rewrite Havail.
  - intros outermost inner innermost -> Hlast.
    assert (captured_file_context captured
            = Some (_get_file_context files (fs_filename (tb_summary innermost))
                      (fs_lineno (tb_summary innermost)))) as Hfc.
    { unfold captured, _capture_context. cbn [captured_file_context].
      by rewrite last_map, Hlast. }
    split; [done|]. split; [done|]. intros facts Hfacts.
    destruct (analyze_lookups exc_value context facts Hfacts)
      as (_ & _ & _ & Hfile & Hline & Hfn & Havail & _).
    exists (_get_available_variables context).
    assert (file_context context
            = {| fc_filename := Some (fs_filename (tb_summary innermost));
                 fc_error_line := Some (fs_lineno (tb_summary innermost)) |}) as Hfile'.
    { unfold context, context_of. cbn [file_context]. rewrite Hfc.
      unfold _get_file_context. by destruct (files _). }
    rewrite Hfile' in Hfile, Hline. split; [done|]. split; [done|]. split.
    { rewrite Hfn. do 2 f_equal. unfold innermost_function, context, context_of.
      cbn [traceback_info]. rewrite last_map.
      unfold captured, _capture_context. cbn [captured_traceback_info].
      rewrite !last_map, Hlast. done. }
    split; [done|]. intros f_locals name Hlocals.
    rewrite available_variables_elem.
    unfold context, context_of, captured, _capture_context.
    cbn [local_variables captured_local_variables]. by rewrite Hlocals.
Qed.

End capture_facts.

Section hook_and_engine.
Context `{PyRuntime}.
Import Interceptor.

(** With the activator's handler on the engine, the hook displays what
    [explain] returns and calls the original hook when [explain] returns
    None or raises: so it does when no rule is loaded, and when the
    engine's initialization fails inside [explain]. *)
Theorem hook_shows_explanation_or_original (self : ExceptionInterceptor)
    (env : Engine.Collaborators) (engine : Engine.EngineState) (files : Files)
    (exc_value : PyException) (exc_traceback : Traceback) (original : hook) :
  _original_excepthook self = Some original ->
  _explanation_handler self = Some (lazy_explain_error env engine) ->
  let context := _capture_context files exc_value exc_traceback in
  let shown := _custom_excepthook self files exc_value exc_traceback in
  (forall engine' explanation,
     Engine.explain env engine exc_value (context_of context) = Ok (engine', Some explanation) ->
     shown = Displayed explanation context)
  /\ (forall engine',
        Engine.explain env engine exc_value (context_of context) = Ok (engine', None) ->
        shown = Original original)
  /\ (forall e, Engine.explain env engine exc_value (context_of context) = Raise e ->
        shown = Original original)
  /\ (Engine._initialized engine = true -> Engine.loaded_explanations engine = [] ->
      shown = Original original)
  /\ (forall e, Engine._initialized engine = false ->
        Engine.initialize env engine = Raise e ->
        shown = Original original).
Proof.
  intros Horig Hhandler context shown.
  assert (forall e, Engine.explain env engine exc_value (context_of context) = Raise e ->
                    shown = Original original) as Hraise.
  { intros e He. unfold shown, _custom_excepthook. fold context.
    rewrite Hhandler, Horig. unfold lazy_explain_error. rewrite He.
    by destruct (is_import_error e). }
  assert (forall engine',
            Engine.explain env engine exc_value (context_of context) = Ok (engine', None) ->
            shown = Original original) as Hnone.
  { intros engine' He. unfold shown, _custom_excepthook. fold context.
    rewrite Hhandler, Horig. unfold lazy_explain_error. by rewrite He. }
  split; [|split; [done|split; [done|split]]].
  - intros engine' explanation He. unfold shown, _custom_excepthook. fold context.
    rewrite Hhandler. unfold lazy_explain_error. by rewrite He.
  - intros Hinit Hrules. apply (Hnone engine). unfold Engine.explain.
    rewrite Hinit. cbn [bind]. by rewrite explain_body_no_rule.
  - intros e Hinit Hini. apply (Hraise e).
    by apply explain_raises_what_initialize_raises.
Qed.

End hook_and_engine.

Lemma hook_shows_explanation_or_original_witness :
  Interceptor._custom_excepthook Sample.watching Sample.no_files Sample.name_error []
  = Interceptor.Original (Interceptor.Foreign "sys.__excepthook__").
Proof.
  destruct (hook_shows_explanation_or_original (H := Reference.runtime) Sample.watching
              Sample.healthy Sample.empty_engine Sample.no_files Sample.name_error []
              (Interceptor.Foreign "sys.__excepthook__") eq_refl eq_refl)
    as (_ & _ & _ & Hempty & _).
  exact (Hempty eq_refl eq_refl).
Defined.

(** ** Parsing a pack *)

Section loader_facts.
Import Loader.

Lemma require_dict (fields : list string) (items : list (scalar * yaml))
    (missing : string -> raised) :
  (require fields (YDict items) missing = Done tt
   <-> forall field, field ∈ fields -> is_Some (find field items))
  /\ (forall r, require fields (YDict items) missing = Failed r ->
        exists before field after,
          fields = before ++ field :: after
          /\ (forall f, f ∈ before -> is_Some (find f items))
          /\ find field items = None
          /\ r = missing field).
Proof.
  induction fields as [|field fields [IH1 IH2]]; cbn [require].
  - split; [|done]. split; [|done]. by intros _ ? ?%elem_of_nil.
  - cbn [py_in then_]. destruct (find field items) as [v|] eqn:Hf.
    + split.
      * rewrite IH1. split.
        -- intros Hall f [->|Hin]%elem_of_cons; [by rewrite Hf|by apply Hall].
        -- intros Hall f Hin. apply Hall. by right.
      * intros r (before & f & after & -> & Hb & Hnone & ->)%IH2.
        exists (field :: before), f, after. split; [done|]. split; [|done].
        intros f' [->|Hin]%elem_of_cons; [by rewrite Hf|by apply Hb].
    + split.
      * split; [done|]. intros Hall.
        destruct (Hall field (list_elem_of_here _ _)) as [? ?]. congruence.
      * intros r [= <-]. exists [], field, fields.
        split; [done|]. split; [|done]. by intros ? ?%elem_of_nil.
Qed.

Lemma require_needs_container (fields : list string) (d : yaml) (missing : string -> raised) :
  fields <> [] ->
  require fields d missing = Done tt ->
  (exists items, d = YDict items) \/ (exists items, d = YList items)
  \/ (exists s, d = YStr s).
Proof.
  destruct fields as [|field fields]; [done|]. intros _. cbn [require].
  destruct d as [[| | | |s]|items|items]; cbn [py_in then_]; try done; eauto.
Qed.

Lemma getitem_needs_dict (d : yaml) (key : string) (v : yaml) :
  py_getitem d key = Done v -> exists items, d = YDict items /\ find key items = Some v.
Proof.
  destruct d as [k|items|items]; cbn [py_getitem]; try done.
  destruct (find key items) as [x|] eqn:Hx; [|done]. intros [= <-]. by exists items.
Qed.

(** What is not a mapping is no explanation. *)
Lemma explanation_needs_dict (exp_dict : yaml) (index : nat) (explanation : Explanation) :
  parse_explanation_body exp_dict index = Done explanation ->
  exists items, exp_dict = YDict items.
Proof.
  unfold parse_explanation_body.
  destruct (require explanation_fields exp_dict _) as [[]|]; cbn [then_]; [|done].
  destruct (py_getitem exp_dict "conditions") as [c|] eqn:Hc; cbn [then_]; [|done].
  apply getitem_needs_dict in Hc as (items & -> & _). by exists items.
Qed.

Lemma parse_each_account (items : list yaml) (index : nat) :
  let '(explanations, errors) := parse_each items index in
  (length explanations + length errors = length items)%nat
  /\ (forall explanation, explanation ∈ explanations ->
        exists i exp_dict,
          items !! i = Some exp_dict
          /\ parse_explanation_body exp_dict (index + i) = Done explanation)
  /\ (forall i e, ErrorParsingExplanation i e ∈ errors <->
        exists exp_dict, (index <= i)%nat /\ items !! (i - index)%nat = Some exp_dict
                         /\ parse_explanation_body exp_dict i = Failed e)
  /\ (forall error, error ∈ errors -> exists i e, error = ErrorParsingExplanation i e).
Proof.
  revert index. induction items as [|exp_dict items IH]; intros index.
  - cbn. split; [done|]. split; [by intros ? ?%elem_of_nil|]. split.
    + intros i e. split; [by intros ?%elem_of_nil|]. by intros (? & _ & ? & _).
    + by intros ? ?%elem_of_nil.
  - cbn [parse_each]. unfold _parse_explanation.
    specialize (IH (S index)). destruct (parse_each items (S index)) as [explanations errors].
    destruct IH as (Hlen & Hexp & Herr & Hkind).
    destruct (parse_explanation_body exp_dict index) as [explanation|e] eqn:Hbody.
    + cbn [app length]. split; [lia|]. split; [|split].
      * intros x [->|Hin]%elem_of_cons.
        -- exists 0%nat, exp_dict. by rewrite Nat.add_0_r.
        -- destruct (Hexp x Hin) as (i & d & Hi & Hd). exists (S i), d.
           split; [done|]. by rewrite Nat.add_succ_r.
      * intros i e. rewrite Herr. split.
        -- intros (d & Hle & Hi & Hd). exists d. split; [lia|]. split; [|done].
           replace (i - index)%nat with (S (i - S index)) by lia. done.
        -- intros (d & Hle & Hi & Hd).
           destruct (decide (i = index)) as [->|Hne].
           { rewrite Nat.sub_diag in Hi. cbn in Hi. congruence. }
           exists d. split; [lia|]. split; [|done].
           replace (i - index)%nat with (S (i - S index)) in Hi by lia. done.
      * exact Hkind.
    + cbn [app length]. split; [lia|]. split; [|split].
      * intros x Hin. destruct (Hexp x Hin) as (i & d & Hi & Hd). exists (S i), d.
        split; [done|]. by rewrite Nat.add_succ_r.
      * intros i e'. rewrite elem_of_cons, Herr. split.
        -- intros [[= -> ->]|(d & Hle & Hi & Hd)].
           ++ exists exp_dict. split; [lia|]. by rewrite Nat.sub_diag.
           ++ exists d. split; [lia|]. split; [|done].
              replace (i - index)%nat with (S (i - S index)) by lia. done.
        -- intros (d & Hle & Hi & Hd).
           destruct (decide (i = index)) as [->|Hne].
           { left. rewrite Nat.sub_diag in Hi. cbn in Hi. congruence. }
           right. exists d. split; [lia|]. split; [|done].
           replace (i - index)%nat with (S (i - S index)) in Hi by lia. done.
      * intros error [->|Hin]%elem_of_cons; [by eexists _, _|by apply Hkind].
Qed.

Lemma parse_each_scalars (items : list yaml) (index : nat) :
  Forall (fun item => forall items', item <> YDict items') items ->
  (parse_each items index).1 = [].
Proof.
  revert index. induction items as [|item items IH]; intros index; [done|].
  intros [Hitem Hrest]%Forall_cons. cbn [parse_each]. unfold _parse_explanation.
  specialize (IH (S index) Hrest). destruct (parse_each items (S index)) as [exps errs].
  cbn [fst] in IH. subst exps.
  destruct (parse_explanation_body item index) as [x|e] eqn:Hbody; [|done].
  apply explanation_needs_dict in Hbody as [items' ->]. by destruct (Hitem items').
Qed.

Lemma characters_scalars (s : string) :
  Forall (fun item => forall items', item <> YDict items') (characters s).
Proof. induction s as [|c s IH]; constructor; done. Qed.

End loader_facts.

Section loader_properties.
Import Loader.

Lemma require_dict_done (fields : list string) (items : list (scalar * yaml))
    (missing : string -> raised) :
  require fields (YDict items) missing = Done tt
  <-> forall field, field ∈ fields -> is_Some (find field items).
Proof. apply require_dict. Qed.

Lemma parse_metadata_fields (metadata_dict : yaml) (m : PackMetadata) :
  _parse_metadata metadata_dict = Done m ->
  exists items,
    metadata_dict = YDict items
    /\ (forall field, field ∈ metadata_fields -> is_Some (find field items))
    /\ find "name" items = Some (name m)
    /\ find "version" items = Some (version m)
    /\ find "description" items = Some (description m)
    /\ find "author" items = Some (author m)
    /\ find "license" items = Some (license m)
    /\ find "qinter_version" items = Some (qinter_version m)
    /\ find "targets" items = Some (targets m)
    /\ tags m = default (YList []) (find "tags" items)
    /\ dependencies m = default (YList []) (find "dependencies" items)
    /\ homepage m = default YNone (find "homepage" items)
    /\ repository m = default YNone (find "repository" items).
Proof.
  unfold _parse_metadata.
  destruct (require metadata_fields metadata_dict _) as [[]|] eqn:Hreq; cbn [then_]; [|done].
  destruct (py_getitem metadata_dict "name") as [v1|] eqn:H1; cbn [then_]; [|done].
  apply getitem_needs_dict in H1 as (items & -> & H1).
  pose proof (proj1 (require_dict_done _ _ _) Hreq) as Hall. clear Hreq.
  cbn [py_getitem py_get].
  destruct (find "version" items) as [v2|] eqn:H2; cbn [then_]; [|done].
  destruct (find "description" items) as [v3|] eqn:H3; cbn [then_]; [|done].
  destruct (find "author" items) as [v4|] eqn:H4; cbn [then_]; [|done].
  destruct (find "license" items) as [v5|] eqn:H5; cbn [then_]; [|done].
  destruct (find "qinter_version" items) as [v6|] eqn:H6; cbn [then_]; [|done].
  destruct (find "targets" items) as [v7|] eqn:H7; cbn [then_]; [|done].
  intros [= <-]. exists items. cbn. split; [done|]. split; [done|].
  do 7 (split; [done|]).
  repeat split.
Qed.

(** A pack that [_parse_and_validate] returns comes from a mapping whose
    "metadata" is a mapping with the seven required fields, taken over as
    they are, and whose "explanations" is a non-empty sequence; the pack
    holds at least one explanation, each parsed from an element of the
    sequence, and every element either gave an explanation or one
    validation error that carries its index. Such a pack also passes the
    package manager's [_validate_pack_data]. *)
Theorem accepted_pack_is_well_formed (raw_data : yaml) (file_path : string)
    (pack : ExplanationPack) (errors : list validation_error) :
  _parse_and_validate raw_data file_path = (Some pack, errors) ->
  exists items metadata_items listed,
    raw_data = YDict items
    /\ find "metadata" items = Some (YDict metadata_items)
    /\ (forall field, field ∈ metadata_fields -> is_Some (find field metadata_items))
    /\ find "name" metadata_items = Some (name (metadata pack))
    /\ find "targets" metadata_items = Some (targets (metadata pack))
    /\ find "explanations" items = Some (YList listed)
    /\ explanations pack <> []
    /\ (length (explanations pack) + length errors = length listed)%nat
    /\ (forall explanation, explanation ∈ explanations pack ->
          exists i exp_dict,
            listed !! i = Some exp_dict
            /\ parse_explanation_body exp_dict i = Done explanation)
    /\ (forall error, error ∈ errors ->
          exists i exp_dict e,
            error = ErrorParsingExplanation i e
            /\ listed !! i = Some exp_dict
            /\ parse_explanation_body exp_dict i = Failed e)
    /\ (forall pack_name, Manager._validate_pack_data raw_data pack_name = inr tt).
Proof.
  unfold _parse_and_validate.
  destruct raw_data as [k|l|items]; cbn [py_get then_]; try done.
  destruct (_parse_metadata _) as [m|] eqn:Hm; cbn [then_]; [|done].
  apply parse_metadata_fields in Hm
    as (metadata_items & Hmd & Hfields & Hname & _ & _ & _ & _ & _ & Htargets & _).
  destruct (find "metadata" items) as [md|] eqn:Hmeta.
  2:{ injection Hmd as <-. destruct (Hfields "name") as [? ?]; [by left|done]. }
  subst md.
  destruct (find "explanations" items) as [listed|] eqn:Hlisted.
  2:{ cbn. done. }
  destruct (py_iter listed) as [entries|] eqn:Hiter; cbn [then_]; [|done].
  pose proof (parse_each_account entries 0) as Haccount.
  destruct (parse_each entries 0) as [explanations errs] eqn:Heach.
  destruct Haccount as (Hlen & Hexp & Herr & Hkind).
  destruct explanations as [|x explanations]; [done|].
  intros [= <- <-]. cbn [metadata Loader.explanations].
  assert (listed = YList entries) as ->.
  { destruct listed as [[| | | |s]|l|d]; cbn [py_iter] in Hiter; try done.
    - injection Hiter as <-.
      pose proof (parse_each_scalars (characters s) 0 (characters_scalars s)) as Hnone.
      by rewrite Heach in Hnone.
    - by injection Hiter as <-.
    - injection Hiter as <-.
      assert (Forall (fun item : yaml => forall items', item <> YDict items')
                     (map (fun item : scalar * yaml => YScalar item.1) d)) as Hsc.
      { apply Forall_forall. intros y (z & -> & _)%list_elem_of_fmap. done. }
      pose proof (parse_each_scalars _ 0 Hsc) as Hnone. by rewrite Heach in Hnone. }
  exists items, metadata_items, entries.
  do 6 (split; [done|]). split; [done|]. split; [done|]. split; [|split].
  - intros explanation Hin. destruct (Hexp explanation Hin) as (i & d & Hi & Hd).
    by exists i, d.
  - intros error Hin. destruct (Hkind error Hin) as (i & e & ->).
    apply Herr in Hin as (d & _ & Hi & Hd). rewrite Nat.sub_0_r in Hi.
    by exists i, d, e.
  - intros pack_name. unfold Manager._validate_pack_data. cbn [py_in py_getitem].
    rewrite Hmeta, Hlisted.
    assert (Manager.require_fields Manager.required_fields (YDict metadata_items) pack_name
            = inr tt) as ->.
    { unfold Manager.required_fields. cbn [Manager.require_fields py_in].
      destruct (Hfields "name") as [? ->]; [solve_keys|].
      destruct (Hfields "version") as [? ->]; [solve_keys|].
      destruct (Hfields "description") as [? ->]; [solve_keys|].
      destruct (Hfields "author") as [? ->]; [solve_keys|].
      destruct (Hfields "targets") as [? ->]; [solve_keys|]. done. }
    destruct entries as [|entry entries]; [|done].
    cbn in Heach. done.
Qed.

(** [_parse_metadata] on a mapping: with the seven required fields it
    returns the metadata, the four optional fields being empty lists and
    None where the mapping has none; otherwise it raises the ValueError
    that names the first field missing, in the order name, version,
    description, author, license, qinter_version, targets. The package
    manager's check asks for five of the seven: a mapping without
    "license" or "qinter_version" passes it and is refused by the loader. *)
Theorem metadata_needs_seven_fields (items : list (scalar * yaml)) :
  ((forall field, field ∈ metadata_fields -> is_Some (find field items)) ->
   exists m,
     _parse_metadata (YDict items) = Done m
     /\ find "name" items = Some (name m)
     /\ find "version" items = Some (version m)
     /\ find "targets" items = Some (targets m)
     /\ tags m = default (YList []) (find "tags" items)
     /\ dependencies m = default (YList []) (find "dependencies" items)
     /\ homepage m = default YNone (find "homepage" items)
     /\ repository m = default YNone (find "repository" items))
  /\ (forall before field after,
        metadata_fields = before ++ field :: after ->
        (forall f, f ∈ before -> is_Some (find f items)) ->
        find field items = None ->
        _parse_metadata (YDict items)
        = Failed (ValueError_ ("Missing required metadata field: " +:+ field)))
  /\ ((forall field, field ∈ Manager.required_fields -> is_Some (find field items)) ->
      (forall pack_name,
         Manager.require_fields Manager.required_fields (YDict items) pack_name = inr tt)
      /\ (find "license" items = None ->
          _parse_metadata (YDict items)
          = Failed (ValueError_ "Missing required metadata field: license"))
      /\ (is_Some (find "license" items) -> find "qinter_version" items = None ->
          _parse_metadata (YDict items)
          = Failed (ValueError_ "Missing required metadata field: qinter_version"))).
Proof.
  assert (forall before field after,
            metadata_fields = before ++ field :: after ->
            (forall f, f ∈ before -> is_Some (find f items)) ->
            find field items = None ->
            _parse_metadata (YDict items)
            = Failed (ValueError_ ("Missing required metadata field: " +:+ field))) as Hmiss.
  { intros before field after Hsplit Hbefore Hnone. unfold _parse_metadata.
    rewrite Hsplit. clear Hsplit. induction before as [|f before IH]; cbn [app require].
    - cbn [py_in then_]. by rewrite Hnone.
    - cbn [py_in then_]. destruct (Hbefore f (list_elem_of_here _ _)) as [v ->].
      apply IH. intros f' Hf'. apply Hbefore. by right. }
  split; [|split; [exact Hmiss|]].
  - intros Hall. unfold _parse_metadata.
    rewrite (proj2 (require_dict_done metadata_fields items _) Hall). cbn [then_].
    cbn [py_getitem py_get].
    destruct (Hall "name") as [v1 ->]; [solve_keys|].
    destruct (Hall "version") as [v2 ->]; [solve_keys|].
    destruct (Hall "description") as [v3 ->]; [solve_keys|].
    destruct (Hall "author") as [v4 ->]; [solve_keys|].
    destruct (Hall "license") as [v5 ->]; [solve_keys|].
    destruct (Hall "qinter_version") as [v6 ->]; [solve_keys|].
    destruct (Hall "targets") as [v7 ->]; [solve_keys|].
    cbn [then_]. eexists. split; [done|]. cbn.
    do 3 (split; [done|]).
    repeat split.
  - intros Hfive.
    destruct (Hfive "name") as [v1 H1]; [solve_keys|].
    destruct (Hfive "version") as [v2 H2]; [solve_keys|].
    destruct (Hfive "description") as [v3 H3]; [solve_keys|].
    destruct (Hfive "author") as [v4 H4]; [solve_keys|].
    destruct (Hfive "targets") as [v5 H5]; [solve_keys|].
    split; [|split].
    + intros pack_name. unfold Manager.required_fields.
      cbn [Manager.require_fields py_in]. by rewrite H1, H2, H3, H4, H5.
    + intros Hnone.
      apply (Hmiss ["name"; "version"; "description"; "author"] "license"
               ["qinter_version"; "targets"]); [done| |done].
      intros f Hf. apply Hfive.
      repeat (apply elem_of_cons in Hf as [->|Hf]; [solve_keys|]). by apply elem_of_nil in Hf.
    + intros Hlicense Hnone.
      apply (Hmiss ["name"; "version"; "description"; "author"; "license"] "qinter_version"
               ["targets"]); [done| |done].
      intros f Hf.
      do 4 (apply elem_of_cons in Hf as [->|Hf]; [apply Hfive; solve_keys|]).
      apply elem_of_cons in Hf as [->|Hf]; [done|]. by apply elem_of_nil in Hf.
Qed.

End loader_properties.

Lemma accepted_pack_is_well_formed_witness :
  exists pack errors,
    Loader._parse_and_validate Sample.raw_pack "core.yaml" = (Some pack, errors)
    /\ (length (Loader.explanations pack) + length errors = 2)%nat
    /\ Manager._validate_pack_data Sample.raw_pack "core-python" = inr tt.
Proof.
  destruct (Loader._parse_and_validate Sample.raw_pack "core.yaml")
    as [[pack|] errors] eqn:He.
  - exists pack, errors. split; [reflexivity|].
    destruct (accepted_pack_is_well_formed _ _ _ _ He)
      as (items & metadata_items & listed & Hraw & _ & _ & _ & _ & Hlisted & _
          & Hcount & _ & _ & Hmanager).
    split; [|exact (Hmanager _)]. rewrite Hcount.
    injection Hraw as <-. injection Hlisted as <-. reflexivity.
  - vm_compute in He. discriminate He.
Defined.

Section explanation_properties.
Import Loader.

Lemma each_Forall2 {A} (parse : yaml -> attempt A) (items : list yaml) (xs : list A) :
  each parse items = Done xs -> Forall2 (fun item x => parse item = Done x) items xs.
Proof.
  revert xs. induction items as [|item items IH]; intros xs; cbn [each].
  - intros [= <-]. constructor.
  - destruct (parse item) as [x|] eqn:Hx; cbn [then_]; [|done].
    destruct (each parse items) as [rest|]; cbn [then_]; [|done].
    intros [= <-]. constructor; [done|by apply IH].
Qed.

Lemma parse_suggestion_of (item : yaml) (s : ExplanationSuggestion) :
  parse_suggestion item = Done s -> suggestion_of item s.
Proof.
  unfold parse_suggestion.
  destruct (py_getitem item "template") as [t|] eqn:Ht; cbn [then_]; [|done].
  apply getitem_needs_dict in Ht as (fields & -> & Ht). cbn [py_getitem py_get].
  destruct (find "priority" fields) as [p|] eqn:Hp; cbn [then_]; [|done].
  intros [= <-]. exists fields. cbn. by destruct (find "condition" fields).
Qed.

Lemma parse_example_of (item : yaml) (e : ExplanationExample) :
  parse_example item = Done e -> example_of item e.
Proof.
  unfold parse_example.
  destruct (py_getitem item "id") as [i|] eqn:Hi; cbn [then_]; [|done].
  apply getitem_needs_dict in Hi as (fields & -> & Hi). cbn [py_getitem py_get].
  destruct (find "description" fields) as [d|] eqn:Hd; cbn [then_]; [|done].
  destruct (find "code" fields) as [c|] eqn:Hc; cbn [then_]; [|done].
  intros [= <-]. exists fields. cbn. by destruct (find "condition" fields).
Qed.

Lemma parse_conditions_keys (conditions_dict : yaml) (c : ExplanationConditions) :
  _parse_conditions conditions_dict = Done c ->
  exists conds,
    conditions_dict = YDict conds
    /\ find "exception_type" conds = Some (exception_type c)
    /\ find "message_patterns" conds = Some (message_patterns c)
    /\ (find "context_conditions" conds = None -> context_conditions c = []).
Proof.
  unfold _parse_conditions.
  destruct (py_in "context_conditions" conditions_dict) as [given|]; cbn [then_]; [|done].
  destruct (if given then _ else Done []) as [ccs|] eqn:Hccs; cbn [then_]; [|done].
  destruct (py_getitem conditions_dict "exception_type") as [t|] eqn:Ht; cbn [then_]; [|done].
  apply getitem_needs_dict in Ht as (conds & -> & Ht). cbn [py_getitem].
  destruct (find "message_patterns" conds) as [p|] eqn:Hp; cbn [then_]; [|done].
  intros [= <-]. exists conds. cbn. do 3 (split; [done|]).
  intros Hnone. cbn [py_in] in *.
  destruct given.
  - cbn [py_getitem] in Hccs. by rewrite Hnone in Hccs.
  - by injection Hccs as <-.
Qed.

Lemma parse_content_keys (content_dict : yaml) (c : ExplanationContent) :
  _parse_explanation_content content_dict = Done c ->
  exists content listed_suggestions listed_examples,
    content_dict = YDict content
    /\ find "title" content = Some (title c)
    /\ find "description" content = Some (content_description c)
    /\ py_iter (default (YList []) (find "suggestions" content)) = Done listed_suggestions
    /\ Forall2 suggestion_of listed_suggestions (suggestions c)
    /\ py_iter (default (YList []) (find "examples" content)) = Done listed_examples
    /\ Forall2 example_of listed_examples (examples c).
Proof.
  unfold _parse_explanation_content.
  destruct content_dict as [k|l|content]; cbn [py_get then_]; try done.
  destruct (py_iter (match find "suggestions" content with Some x => x | None => YList [] end))
    as [ls|] eqn:Hls; cbn [then_]; [|done].
  destruct (each parse_suggestion ls) as [ss|] eqn:Hss; cbn [then_]; [|done].
  destruct (py_iter (match find "examples" content with Some x => x | None => YList [] end))
    as [le|] eqn:Hle; cbn [then_]; [|done].
  destruct (each parse_example le) as [es|] eqn:Hes; cbn [then_]; [|done].
  cbn [py_getitem].
  destruct (find "title" content) as [t|] eqn:Ht; cbn [then_]; [|done].
  destruct (find "description" content) as [d|] eqn:Hd; cbn [then_]; [|done].
  intros [= <-]. exists content, ls, le. cbn. split; [done|]. split; [done|]. split; [done|].
  split; [by destruct (find "suggestions" content)|]. split.
  - apply each_Forall2 in Hss. eapply Forall2_impl; [exact Hss|]. apply parse_suggestion_of.
  - split; [by destruct (find "examples" content)|].
    apply each_Forall2 in Hes. eapply Forall2_impl; [exact Hes|]. apply parse_example_of.
Qed.

(** An explanation that [_parse_explanation] returns comes, without any
    validation error, from a mapping with "id", "priority", "conditions"
    and "explanation", the first two taken over as they are, of whatever
    type. The conditions are a mapping with "exception_type" and
    "message_patterns", and without "context_conditions" the explanation
    has none. The content is a mapping with "title" and "description";
    its suggestions and examples are those listed, each a mapping with its
    required keys ("template" and "priority"; "id", "description" and
    "code") and with the condition "always" where it gives none, and
    there are none where the content does not list any. *)
Theorem parsed_explanation_has_its_keys (exp_dict : yaml) (index : nat)
    (parsed : Explanation) (errors : list validation_error) :
  _parse_explanation exp_dict index = (Some parsed, errors) ->
  errors = []
  /\ exists items conds content listed_suggestions listed_examples,
       exp_dict = YDict items
       /\ find "id" items = Some (id parsed)
       /\ find "priority" items = Some (priority parsed)
       /\ find "conditions" items = Some (YDict conds)
       /\ find "exception_type" conds = Some (exception_type (conditions parsed))
       /\ find "message_patterns" conds = Some (message_patterns (conditions parsed))
       /\ (find "context_conditions" conds = None ->
           context_conditions (conditions parsed) = [])
       /\ find "explanation" items = Some (YDict content)
       /\ find "title" content = Some (title (explanation parsed))
       /\ find "description" content = Some (content_description (explanation parsed))
       /\ py_iter (default (YList []) (find "suggestions" content)) = Done listed_suggestions
       /\ Forall2 suggestion_of listed_suggestions (suggestions (explanation parsed))
       /\ py_iter (default (YList []) (find "examples" content)) = Done listed_examples
       /\ Forall2 example_of listed_examples (examples (explanation parsed)).
Proof.
  unfold _parse_explanation.
  destruct (parse_explanation_body exp_dict index) as [x|e] eqn:Hbody; [|done].
  intros [= -> <-]. split; [done|]. revert Hbody. unfold parse_explanation_body.
  destruct (require explanation_fields exp_dict _) as [[]|]; cbn [then_]; [|done].
  destruct (py_getitem exp_dict "conditions") as [cd|] eqn:Hcd; cbn [then_]; [|done].
  apply getitem_needs_dict in Hcd as (items & -> & Hcd).
  destruct (_parse_conditions cd) as [c|] eqn:Hc; cbn [then_]; [|done].
  apply parse_conditions_keys in Hc as (conds & -> & Hty & Hpat & Hcc).
  cbn [py_getitem].
  destruct (find "explanation" items) as [ed|] eqn:Hed; cbn [then_]; [|done].
  destruct (_parse_explanation_content ed) as [ec|] eqn:Hec; cbn [then_]; [|done].
  apply parse_content_keys in Hec as (content & ls & le & -> & Ht & Hd & Hls & Hss & Hle & Hes).
  destruct (find "id" items) as [i|] eqn:Hi; cbn [then_]; [|done].
  destruct (find "priority" items) as [p|] eqn:Hp; cbn [then_]; [|done].
  intros [= <-]. exists items, conds, content, ls, le. cbn. repeat (split; [done|]). done.
Qed.

(** What is no mapping gives no explanation but one validation error with
    its index. A mapping that lacks one of "id", "priority",
    "conditions", "explanation" gives the ValueError that names the first
    one missing, in that order, and the index; one that has the four,
    with conditions that are a mapping without "context_conditions" and
    without "exception_type", gives the KeyError of "exception_type",
    whatever the rest of it holds. *)
Theorem explanation_without_a_key_is_dropped (exp_dict : yaml) (index : nat) :
  ((forall items, exp_dict <> YDict items) ->
   exists e, _parse_explanation exp_dict index = (None, [ErrorParsingExplanation index e]))
  /\ (forall items before field after,
        exp_dict = YDict items ->
        explanation_fields = before ++ field :: after ->
        (forall f, f ∈ before -> is_Some (find f items)) ->
        find field items = None ->
        _parse_explanation exp_dict index
        = (None,
           [ErrorParsingExplanation index
              (ValueError_ ("Missing required explanation field: " +:+ field
                              +:+ " (explanation " +:+ str_of_int (Z.of_nat index) +:+ ")"))]))
  /\ (forall items conds,
        exp_dict = YDict items ->
        (forall f, f ∈ explanation_fields -> is_Some (find f items)) ->
        find "conditions" items = Some (YDict conds) ->
        find "context_conditions" conds = None ->
        find "exception_type" conds = None ->
        _parse_explanation exp_dict index
        = (None, [ErrorParsingExplanation index (KeyError_ "exception_type")])).
Proof.
  split; [|split].
  - intros Hno. unfold _parse_explanation.
    destruct (parse_explanation_body exp_dict index) as [x|e] eqn:Hbody; [|by exists e].
    apply explanation_needs_dict in Hbody as [items ->]. by destruct (Hno items).
  - intros items before field after -> Hsplit Hbefore Hnone.
    unfold _parse_explanation, parse_explanation_body.
    assert (require explanation_fields (YDict items)
              (fun field => ValueError_ ("Missing required explanation field: " +:+ field
                                           +:+ " (explanation "
                                           +:+ str_of_int (Z.of_nat index) +:+ ")"))
            = Failed (ValueError_ ("Missing required explanation field: " +:+ field
                                     +:+ " (explanation " +:+ str_of_int (Z.of_nat index)
                                     +:+ ")"))) as ->; [|done].
    rewrite Hsplit. clear Hsplit. induction before as [|f before IH]; cbn [app require].
    + cbn [py_in then_]. by rewrite Hnone.
    + cbn [py_in then_]. destruct (Hbefore f (list_elem_of_here _ _)) as [v ->].
      apply IH. intros f' Hf'. apply Hbefore. by right.
  - intros items conds -> Hall Hconds Hcc Hty.
    unfold _parse_explanation, parse_explanation_body.
    rewrite (proj2 (require_dict_done explanation_fields items _) Hall). cbn [then_].
    cbn [py_getitem]. rewrite Hconds. cbn [then_].
    unfold _parse_conditions. cbn [py_in py_getitem]. rewrite Hcc, Hty. done.
Qed.

End explanation_properties.

Lemma parsed_explanation_has_its_keys_witness :
  exists parsed,
    Loader._parse_explanation Sample.raw_explanation 0 = (Some parsed, [])
    /\ Loader.context_conditions (Loader.conditions parsed) = [].
Proof.
  destruct (Loader._parse_explanation Sample.raw_explanation 0)
    as [[parsed|] errors] eqn:He.
  - destruct (parsed_explanation_has_its_keys _ _ _ _ He)
      as (-> & items & conds & content & ls & le & Hraw & _ & _ & Hconds & _ & _ & Hnone & _).
    exists parsed. split; [reflexivity|]. apply Hnone.
    unfold Sample.raw_explanation in Hraw. injection Hraw as <-.
    vm_compute in Hconds. injection Hconds as <-. reflexivity.
  - vm_compute in He. discriminate He.
Defined.

(** ** The scenarios of the specification, under the reference runtime *)

Section scenarios.
Local Existing Instance Reference.runtime.
Import ContextAnalyzer PatternMatcher TemplateRenderer Engine.

(** The identifier [lst] next to [list_of_items], [lst2] and [other]. *)
Example similarity_scenario :
  Sample.facts !! "available_variables" = Some (VList ["list_of_items"; "lst2"; "other"])
  /\ Sample.facts !! "closest_variable" = Some (VStr "lst2")
  /\ Sample.facts !! "similar_variables_exist" = Some (VBool true)
  /\ _evaluate_condition "similarity_score > 0" Sample.facts = Ok true.
Proof. repeat split; vm_compute; reflexivity. Qed.

(** The identifier [pirnt]. *)
Example typo_scenario :
  Sample.typo_facts !! "builtin_typo_detected" = Some (VBool true)
  /\ Sample.typo_facts !! "correct_builtin" = Some (VStr "print").
Proof. repeat split; vm_compute; reflexivity. Qed.

Example conditional_block_scenario :
  _render_template "{if looks_like_import}Try installing it{else}Check spelling{endif}"
    (<["looks_like_import" := VBool false]> ∅)
  = Ok "Check spelling".
Proof. vm_compute. reflexivity. Qed.

(** A template without tokens renders to itself, trimmed. *)
Example plain_template_scenario :
  _render_template "  Check the spelling of the name.  " ∅
  = Ok "Check the spelling of the name.".
Proof. vm_compute. reflexivity. Qed.

(** With no rule loaded, [explain] returns None. *)
Example empty_catalog_scenario :
  explain Sample.healthy Sample.empty_engine Sample.name_error Sample.context
  = Ok (Sample.empty_engine, None).
Proof. vm_compute. reflexivity. Qed.

(** The first call loads the pack and explains the error: the rule of
    priority 10 wins over the one of priority 5 that stands before it in
    the pack, and its suggestions come by their own priority. *)
Example explain_scenario :
  Sample.explained
    (explain Sample.healthy new_engine Sample.name_error Sample.context)
  = Some ("Undefined name 'lst'",
          ["Did you mean 'lst2'?"; "Define 'lst' before using it"]).
Proof. vm_compute. reflexivity. Qed.

End scenarios.
